(** * FruitScan notebooks: transfer learning over ResNet18/34 and VGG19

    A shallow embedding of the two notebooks of the repository:
    - [dev/Fruitscan_combinados.ipynb] (module [Combinados]): the generic
      training function [entrenar_modelo], the set-up and training of the three
      models, the confusion matrices and the saving of the weights;
    - the VGG19 notebook (module [Vgg19]): the same pipeline written as a
      linear script for one model.

    The notebooks are Python scripts over a deep-learning framework.  The
    framework is not part of the repository: its tensors and numeric kernels
    are an interface ([Tensors], [Torch]) and the embedding is parametric in
    it.  What the notebooks themselves do (the order of the calls, the loops,
    the accumulators, the Python locals, the divisions, which parameters are
    handed to which optimizer) is embedded statement by statement in a state
    and exception monad over a store of parameter tensors. *)

From stdpp Require Import base option list gmap strings numbers.

Set Default Proof Using "Type".
Open Scope string_scope.
Open Scope list_scope.

(** ** Python values the notebooks compute with *)

(** Python floats ([running_loss], the per-epoch means, the accuracies).  The
    rounding of the arithmetic is left to the instance. *)
Class PyFloat := {
  float : Type;
  f_zero : float;                      (* the literal 0.0 *)
  f_add : float → float → float;       (* x + y on floats *)
  f_div : float → float → float;       (* x / y on floats, y nonzero *)
  f_of_int : Z → float;                (* the conversion of an int operand *)
  f_int_div : Z → Z → float;           (* a / b on two ints, b nonzero *)
  f_lit : Z → Z → float;               (* a decimal literal m * 10^e *)
  f_mul_int : Z → float → float;       (* n * x, an int by a float *)
  f_trunc : float → Z;                 (* int(x) *)
}.

(** The types of the framework. *)
Class Tensors := {
  tensor : Type;      (* value of a parameter, or of its gradient *)
  images : Type;      (* a batch of images, on either device *)
  logits : Type;      (* what [model(images)] returns *)
  loss_t : Type;      (* the scalar tensor a criterion returns *)
  buffers : Type;     (* running statistics of a module (not parameters) *)
  backend : Type;     (* hidden state of the framework: RNG, device memory *)
  opt_state : Type;   (* the moments and step counters of Adam *)
  dataset : Type;     (* an image-folder dataset *)
  matrix : Type;      (* a confusion matrix *)
  lib_exn : Type;     (* exceptions raised inside library calls *)
}.

Inductive Arch := ResNet18 | ResNet34 | VGG19.

Global Instance Arch_eq_dec : EqDecision Arch.
Proof. solve_decision. Defined.

(** Python exceptions.  Those of the first four constructors are raised by the
    interpreter on the notebook's own statements; [LibraryError] wraps what a
    library call raised. *)
Inductive exn `{Tensors} :=
  | ZeroDivisionError
  | UnboundLocalError (name : string)
  | AttributeError (msg : string)
  | IndexError (msg : string)
  | LibraryError (e : lib_exn).

(** [UnboundLocalError] is a subclass of [NameError]. *)
Definition is_NameError `{Tensors} (e : exn) : bool :=
  match e with UnboundLocalError _ => true | _ => false end.

Inductive result `{Tensors} (A : Type) :=
  | Ok (a : A)
  | Raise (e : exn).
Arguments Ok {_ _} a.
Arguments Raise {_ _} e.

(** Parameter tensors live in a store and are referred to by location: the
    optimizer and the module share them. *)
Abbreviation loc := nat.

Section Store.
Context `{FL : PyFloat} `{TS : Tensors}.

Record Param := {
  p_data : tensor;
  p_requires_grad : bool;
  p_grad : option tensor;
}.

(** A module is the flat list of its leaf layers, by dotted path
    ("features.0", "classifier.6", "fc"). *)
Inductive Layer :=
  | Linear (in_features out_features : nat) (weight bias : loc)
  | OtherLayer (ps : list (string * loc)).

Record Module := {
  m_arch : Arch;
  m_layers : list (string * Layer);
  m_buffers : buffers;
  m_training : bool;
}.

Record Optimizer := {
  o_params : list loc;
  o_lr : Z * Z;              (* decimal literal: mantissa, exponent *)
  o_state : opt_state;
}.

Record Batch := { b_images : images; b_labels : list nat }.

(** A data loader: [len(loader)] and what one [for] over it yields. *)
Record DataLoader := {
  dl_len : nat;
  dl_iter : backend → list Batch * backend;
}.

Record StateDict := {
  sd_params : list (string * tensor);
  sd_buffers : buffers;
}.

(** What [models.<arch>(pretrained=True)] delivers before allocation. *)
Inductive LayerSpec :=
  | LinearSpec (in_features out_features : nat) (weight bias : tensor)
  | OtherSpec (ps : list (string * tensor)).

(** Tensors with their autograd leaves. *)
Record Out := { o_val : logits; o_leaves : list loc }.
Record Loss := { l_val : loss_t; l_leaves : list loc }.

Inductive out_line :=
  | TextLine (s : string)
  | ClassesLine (cs : list string)
  | EpochLine (epoch epochs : Z) (train_loss val_loss accuracy : float)
  | PrecisionLine (modelo : string) (prec : float).

(** Library calls that returned, in order. *)
Inductive event :=
  | EvImageFolder (root : string)
  | EvRandomSplit (sizes : list Z)
  | EvPretrained (a : Arch)
  | EvLinear (in_features out_features : nat)
  | EvAdam (ps : list loc)
  | EvTo
  | EvTrain
  | EvEval
  | EvIter (loader : string)
  | EvZeroGrad
  | EvForward (x : images) (y : logits)
  | EvCriterion (y : logits) (t : list nat) (l : loss_t)
  | EvBackward (l : loss_t)
  | EvStep
  | EvItem (l : loss_t) (v : float)
  | EvMax (y : logits) (preds : list nat)
  | EvAccuracyScore (y_true y_pred : list nat) (a : float)
  | EvPrecisionScore (y_true y_pred : list nat) (a : float)
  | EvConfusionMatrix (y_true y_pred : list nat) (normalize : string) (cm : matrix)
  | EvPlotConfusion (cm : matrix) (display_labels : list string) (title : string)
  | EvPlotLines (title : string) (curves : list (string * list float))
  | EvSave (path : string)
  | EvPrint (l : out_line).

(** The state the notebooks run in: the parameters, the hidden state of the
    framework, the grad mode, the files [torch.save] has written (by path),
    and the trace of the library calls. *)
Record World := {
  heap : gmap loc Param;
  backend_st : backend;
  grad_enabled : bool;
  files : gmap string StateDict;
  log : list event;
}.

End Store.

(** ** The framework's operations

    Each is a function of what the call reads; a call that can fail returns
    [inl] of the library's exception. *)
Class Torch `{FL : PyFloat} `{TS : Tensors} := {
  (* torchvision.datasets, torch.utils.data *)
  tv_ImageFolder : string → backend → lib_exn + (dataset * backend);
  ds_classes : dataset → list string;
  ds_len : dataset → Z;
  tu_random_split : dataset → list Z → backend → lib_exn + (dataset * dataset * backend);
  tu_DataLoader : dataset → Z → bool → DataLoader;
  t_manual_seed : Z → backend → backend;
  (* torchvision.models, torch.nn *)
  tv_pretrained : Arch → backend → lib_exn + (list (string * LayerSpec) * buffers * backend);
  nn_linear_init : nat → nat → backend → tensor * tensor * backend;
  t_to_device : backend → lib_exn + backend;
  t_forward : Module → gmap loc Param → images → backend → lib_exn + (logits * buffers * backend);
  t_cross_entropy : logits → list nat → lib_exn + loss_t;
  t_item : loss_t → float;
  t_max1 : logits → list nat;
  (* autograd *)
  t_grad : loss_t → list loc → lib_exn + (loc → tensor);
  t_accumulate : option tensor → tensor → tensor;
  t_zero_grad : option tensor → option tensor;
  (* torch.optim.Adam *)
  adam_init : list loc → Z * Z → lib_exn + opt_state;
  adam_update : opt_state → Z * Z → loc → tensor → tensor → tensor;
  adam_next : opt_state → lib_exn + opt_state;
  (* torch.save *)
  t_save : StateDict → string → backend → lib_exn + backend;
  (* sklearn.metrics *)
  sk_accuracy_score : list nat → list nat → lib_exn + float;
  sk_precision_score : list nat → list nat → string → lib_exn + float;
  sk_confusion_matrix : list nat → list nat → string → lib_exn + matrix;
  (* matplotlib.pyplot, ConfusionMatrixDisplay: drawing and showing a figure *)
  plt_show : event → lib_exn + unit;
}.

(** ** The interpreter: state and exceptions *)

Section Monad.
Context `{TH : Torch}.

Definition M (A : Type) : Type := World → World * result A.

Definition ret {A} (a : A) : M A := λ w, (w, Ok a).

Definition raise {A} (e : exn) : M A := λ w, (w, Raise e).

Definition bind {A B} (m : M A) (f : A → M B) : M B :=
  λ w, match m w with
       | (w', Ok a) => f a w'
       | (w', Raise e) => (w', Raise e)
       end.

#[global] Instance M_ret : MRet M := @ret.
#[global] Instance M_bind : MBind M := λ A B f m, bind m f.

(** [for x in xs: s = body(x, s)], with the loop-carried variables in [s]. *)
Fixpoint foldM {A S} (body : A → S → M S) (xs : list A) (s : S) : M S :=
  match xs with
  | [] => ret s
  | x :: xs' => bind (body x s) (foldM body xs')
  end.

(** [[f(x) for x in xs]], the calls made from left to right. *)
Fixpoint mapM {A B} (f : A → M B) (xs : list A) : M (list B) :=
  match xs with
  | [] => ret []
  | x :: xs' => bind (f x) (λ y, bind (mapM f xs') (λ ys, ret (y :: ys)))
  end.

(** [range(n)] *)
Definition range (n : Z) : list Z := Z.of_nat <$> seq 0 (Z.to_nat n).

Definition set_heap (h : gmap loc Param) (w : World) : World :=
  {| heap := h; backend_st := backend_st w; grad_enabled := grad_enabled w;
     files := files w; log := log w |}.

Definition set_backend (b : backend) (w : World) : World :=
  {| heap := heap w; backend_st := b; grad_enabled := grad_enabled w;
     files := files w; log := log w |}.

Definition set_grad_enabled (g : bool) (w : World) : World :=
  {| heap := heap w; backend_st := backend_st w; grad_enabled := g;
     files := files w; log := log w |}.

Definition set_files (f : gmap string StateDict) (w : World) : World :=
  {| heap := heap w; backend_st := backend_st w; grad_enabled := grad_enabled w;
     files := f; log := log w |}.

Definition emit (ev : event) (w : World) : World :=
  {| heap := heap w; backend_st := backend_st w; grad_enabled := grad_enabled w;
     files := files w; log := log w ++ [ev] |}.

(** A library call that neither reads nor writes the store. *)
Definition lib_pure {A} (r : lib_exn + A) (ev : A → event) : M A :=
  λ w, match r with
       | inl e => (w, Raise (LibraryError e))
       | inr a => (emit (ev a) w, Ok a)
       end.

(** A library call on the hidden state of the framework. *)
Definition lib_call {A} (f : backend → lib_exn + (A * backend)) (ev : A → event) : M A :=
  λ w, match f (backend_st w) with
       | inl e => (w, Raise (LibraryError e))
       | inr (a, b) => (emit (ev a) (set_backend b w), Ok a)
       end.

(** [print(...)] *)
Definition print (l : out_line) : M unit := λ w, (emit (EvPrint l) w, Ok tt).

(** The newline some of the printed texts start with. *)
Definition nl : string := String (Ascii.ascii_of_nat 10) "".

(** Reading a local variable that may not have been assigned yet. *)
Definition load_local {A} (name : string) (v : option A) : M A :=
  match v with
  | Some a => ret a
  | None => raise (UnboundLocalError name)
  end.

(** [x / n] for a float [x] and an int [n]. *)
Definition truediv_float_int (x : float) (n : Z) : M float :=
  if decide (n = 0%Z) then raise ZeroDivisionError else ret (f_div x (f_of_int n)).

(** [a / b] for two ints. *)
Definition truediv_int_int (a b : Z) : M float :=
  if decide (b = 0%Z) then raise ZeroDivisionError else ret (f_int_div a b).

End Monad.

(** ** The library calls of the notebooks *)

Section Library.
Context `{TH : Torch}.

(** *** Modules and their parameters *)

Definition layer_named_params (path : string) (l : Layer) : list (string * loc) :=
  match l with
  | Linear _ _ w b => [(path +:+ ".weight", w); (path +:+ ".bias", b)]
  | OtherLayer ps => (λ nl, (path +:+ "." +:+ nl.1, nl.2)) <$> ps
  end.

(** [m.named_parameters()] *)
Definition named_parameters (m : Module) : list (string * loc) :=
  m_layers m ≫= (λ pl, layer_named_params pl.1 pl.2).

(** [m.parameters()] *)
Definition parameters (m : Module) : list loc := (named_parameters m).*2.

(** The layers of the child [name] ([m.features], [m.classifier], [m.fc],
    [m.classifier[6]] as "classifier.6"). *)
Definition in_child (name path : string) : bool :=
  bool_decide (path = name) || String.prefix (name +:+ ".") path.

Definition child (name : string) (m : Module) : Module :=
  {| m_arch := m_arch m;
     m_layers := filter (λ pl, in_child name pl.1 = true) (m_layers m);
     m_buffers := m_buffers m; m_training := m_training m |}.

(** What of a module stays when its buffers and its mode change. *)
Definition skeleton (m : Module) : Arch * list (string * Layer) :=
  (m_arch m, m_layers m).

(** [m.<path>] for a leaf layer; the attribute may be missing.  An index
    into a [Sequential], as in [m.classifier[6]], is read as the last part
    of the path, "classifier.6": where Python tells a missing [classifier]
    ([AttributeError]) from a missing index ([IndexError]), this raises the
    [AttributeError] of the whole path. *)
Definition get_layer (path : string) (m : Module) : M Layer :=
  match list_find (λ pl, pl.1 = path) (m_layers m) with
  | Some (_, pl) => ret pl.2
  | None => raise (AttributeError path)
  end.

(** [layer.in_features]: only linear layers have it. *)
Definition in_features_of (l : Layer) : M nat :=
  match l with
  | Linear i _ _ _ => ret i
  | OtherLayer _ => raise (AttributeError "in_features")
  end.

(** [m.<path> = layer]: replaces the child in place, registers it if new. *)
Definition set_layer (path : string) (l : Layer) (m : Module) : Module :=
  {| m_arch := m_arch m;
     m_layers :=
       match list_find (λ pl, pl.1 = path) (m_layers m) with
       | Some (i, _) => <[i := (path, l)]> (m_layers m)
       | None => m_layers m ++ [(path, l)]
       end;
     m_buffers := m_buffers m; m_training := m_training m |}.

Definition set_buffers (b : buffers) (m : Module) : Module :=
  {| m_arch := m_arch m; m_layers := m_layers m; m_buffers := b;
     m_training := m_training m |}.

Definition set_training (t : bool) (m : Module) : Module :=
  {| m_arch := m_arch m; m_layers := m_layers m; m_buffers := m_buffers m;
     m_training := t |}.

(** A fresh [nn.Parameter]: it requires grad and has no gradient yet. *)
Definition new_param (t : tensor) : Param :=
  {| p_data := t; p_requires_grad := true; p_grad := None |}.

Definition alloc (t : tensor) : M loc :=
  λ w, let l := fresh (dom (heap w)) in
       (set_heap (<[l := new_param t]> (heap w)) w, Ok l).

Definition alloc_layer (s : LayerSpec) : M Layer :=
  match s with
  | LinearSpec i o wt bs =>
      lw ← alloc wt; lb ← alloc bs; mret (Linear i o lw lb)
  | OtherSpec ps =>
      ls ← mapM (λ nt, l ← alloc nt.2; mret (nt.1, l)) ps; mret (OtherLayer ls)
  end.

(** [models.resnet18(pretrained=True)] and the like: a module in training
    mode whose parameters are new tensors holding the pretrained weights. *)
Definition models_pretrained (a : Arch) : M Module :=
  sb ← lib_call (tv_pretrained a) (λ _, EvPretrained a);
  layers ← mapM (λ ps, l ← alloc_layer ps.2; mret (ps.1, l)) sb.1;
  mret {| m_arch := a; m_layers := layers; m_buffers := sb.2; m_training := true |}.

(** [nn.Linear(i, o)] *)
Definition nn_Linear (i o : nat) : M Layer :=
  wb ← lib_call (λ b, inr (nn_linear_init i o b)) (λ _, EvLinear i o);
  lw ← alloc wb.1; lb ← alloc wb.2; mret (Linear i o lw lb).

(** [param.requires_grad = v] *)
Definition set_requires_grad (v : bool) (l : loc) : M unit :=
  λ w, (set_heap (alter (λ p, {| p_data := p_data p; p_requires_grad := v;
                                  p_grad := p_grad p |}) l (heap w)) w, Ok tt).

(** [for param in ps: param.requires_grad = False] *)
Definition freeze (ps : list loc) : M unit :=
  foldM (λ l _, set_requires_grad false l) ps tt.

(** [x.to(device)]: the value is the same on the other device. *)
Definition to_device {A} (x : A) : M A :=
  lib_call (λ b, match t_to_device b with
                 | inl e => inl e
                 | inr b' => inr (x, b')
                 end) (λ _, EvTo).

(** [model.train()], [model.eval()] *)
Definition model_train (m : Module) : M Module :=
  λ w, (emit EvTrain w, Ok (set_training true m)).

Definition model_eval (m : Module) : M Module :=
  λ w, (emit EvEval w, Ok (set_training false m)).

Definition requires_grad_at (h : gmap loc Param) (l : loc) : bool :=
  match h !! l with Some p => p_requires_grad p | None => false end.

(** [model(images)]: autograd records, as leaves of the result, the
    parameters of the model that require grad, unless grad is disabled. *)
Definition call_model (model : Module) (x : images) : M (Out * Module) :=
  λ w, match t_forward model (heap w) x (backend_st w) with
       | inl e => (w, Raise (LibraryError e))
       | inr (y, bufs, bk) =>
           let leaves :=
             if grad_enabled w
             then filter (λ l, requires_grad_at (heap w) l = true) (parameters model)
             else [] in
           (emit (EvForward x y) (set_backend bk w),
            Ok ({| o_val := y; o_leaves := leaves |}, set_buffers bufs model))
       end.

(** A criterion is a callable on outputs and labels. *)
Definition Criterion : Type := logits → list nat → lib_exn + loss_t.

Definition nn_CrossEntropyLoss : Criterion := t_cross_entropy.

Definition call_criterion (c : Criterion) (outputs : Out) (labels : list nat) : M Loss :=
  l ← lib_pure (c (o_val outputs) labels) (EvCriterion (o_val outputs) labels);
  mret {| l_val := l; l_leaves := o_leaves outputs |}.

Definition set_grad (g : option tensor) (p : Param) : Param :=
  {| p_data := p_data p; p_requires_grad := p_requires_grad p; p_grad := g |}.

Definition set_data (d : tensor) (p : Param) : Param :=
  {| p_data := d; p_requires_grad := p_requires_grad p; p_grad := p_grad p |}.

(** [loss.backward()]: the gradient is accumulated into [.grad] of each leaf. *)
Definition loss_backward (loss : Loss) : M unit :=
  λ w, match t_grad (l_val loss) (l_leaves loss) with
       | inl e => (w, Raise (LibraryError e))
       | inr g =>
           let h := foldr (λ l h, alter (λ p, set_grad (Some (t_accumulate (p_grad p) (g l))) p) l h)
                          (heap w) (l_leaves loss) in
           (emit (EvBackward (l_val loss)) (set_heap h w), Ok tt)
       end.

(** [loss.item()] *)
Definition loss_item (loss : Loss) : M float :=
  λ w, (emit (EvItem (l_val loss) (t_item (l_val loss))) w, Ok (t_item (l_val loss))).

(** [_, preds = torch.max(outputs, 1)] *)
Definition torch_max1 (outputs : Out) : M (list nat) :=
  λ w, (emit (EvMax (o_val outputs) (t_max1 (o_val outputs))) w, Ok (t_max1 (o_val outputs))).

(** [with torch.no_grad(): body]: the previous mode is restored on exit, also
    when the body raises. *)
Definition no_grad {A} (body : M A) : M A :=
  λ w, let r := body (set_grad_enabled false w) in
       (set_grad_enabled (grad_enabled w) r.1, r.2).

(** The batches of one [for ... in loader]. *)
Definition iterate (name : string) (l : DataLoader) : M (list Batch) :=
  λ w, let r := dl_iter l (backend_st w) in
       (emit (EvIter name) (set_backend r.2 w), Ok r.1).

(** [datasets.ImageFolder(root=root, transform=transform)] *)
Definition datasets_ImageFolder (root : string) : M dataset :=
  lib_call (tv_ImageFolder root) (λ _, EvImageFolder root).

(** [torch.manual_seed(n)] *)
Definition manual_seed (n : Z) : M unit :=
  λ w, (set_backend (t_manual_seed n (backend_st w)) w, Ok tt).

(** [torch.utils.data.random_split(ds, sizes)] *)
Definition random_split (ds : dataset) (sizes : list Z) : M (dataset * dataset) :=
  lib_call (tu_random_split ds sizes) (λ _, EvRandomSplit sizes).

(** [(predicted == labels).sum().item()] on two tensors of one length. *)
Definition count_eq (predicted labels : list nat) : Z :=
  Z.of_nat (length (filter (λ p, p.1 = p.2) (zip predicted labels))).

(** *** The optimizer *)

(** [optim.Adam(ps, lr=...)] *)
Definition optim_Adam (ps : list loc) (lr : Z * Z) : M Optimizer :=
  st ← lib_pure (adam_init ps lr) (λ _, EvAdam ps);
  mret {| o_params := ps; o_lr := lr; o_state := st |}.

(** [optimizer.zero_grad()] *)
Definition optimizer_zero_grad (o : Optimizer) : M unit :=
  λ w, let h := foldr (λ l h, alter (λ p, set_grad (t_zero_grad (p_grad p)) p) l h)
                      (heap w) (o_params o) in
       (emit EvZeroGrad (set_heap h w), Ok tt).

Definition adam_apply (o : Optimizer) (l : loc) (h : gmap loc Param) : gmap loc Param :=
  match h !! l with
  | Some p =>
      match p_grad p with
      | Some g => <[l := set_data (adam_update (o_state o) (o_lr o) l (p_data p) g) p]> h
      | None => h
      end
  | None => h
  end.

(** [optimizer.step()]: only the optimizer's parameters that have a gradient
    are updated. *)
Definition optimizer_step (o : Optimizer) : M Optimizer :=
  λ w, match adam_next (o_state o) with
       | inl e => (w, Raise (LibraryError e))
       | inr st =>
           (emit EvStep (set_heap (foldr (adam_apply o) (heap w) (o_params o)) w),
            Ok {| o_params := o_params o; o_lr := o_lr o; o_state := st |})
       end.

(** *** Saving *)

(** [model.state_dict()] *)
Definition state_dict (m : Module) (h : gmap loc Param) : StateDict :=
  {| sd_params := omap (λ nl, (λ p, (nl.1, p_data p)) <$> h !! nl.2) (named_parameters m);
     sd_buffers := m_buffers m |}.

Definition get_state_dict (m : Module) : M StateDict :=
  λ w, (w, Ok (state_dict m (heap w))).

(** [torch.save(sd, path)] *)
Definition torch_save (sd : StateDict) (path : string) : M unit :=
  λ w, match t_save sd path (backend_st w) with
       | inl e => (w, Raise (LibraryError e))
       | inr b => (emit (EvSave path) (set_files (<[path := sd]> (files w)) (set_backend b w)), Ok tt)
       end.

(** *** Metrics and plots *)

Definition accuracy_score (y_true y_pred : list nat) : M float :=
  lib_pure (sk_accuracy_score y_true y_pred) (EvAccuracyScore y_true y_pred).

Definition precision_score (y_true y_pred : list nat) (average : string) : M float :=
  lib_pure (sk_precision_score y_true y_pred average) (EvPrecisionScore y_true y_pred).

Definition confusion_matrix (y_true y_pred : list nat) (normalize : string) : M matrix :=
  lib_pure (sk_confusion_matrix y_true y_pred normalize)
           (EvConfusionMatrix y_true y_pred normalize).

(** The calls that draw and show one figure; the figure is logged when they
    all returned. *)
Definition plot (ev : event) : M unit := lib_pure (plt_show ev) (λ _, ev).

End Library.

(** ** Observations on the trace of library calls *)

Section Observations.
Context `{TH : Torch}.

(** The name of the call an event records. *)
Definition call_name (ev : event) : string :=
  match ev with
  | EvImageFolder _ => "ImageFolder"
  | EvRandomSplit _ => "random_split"
  | EvPretrained _ => "pretrained"
  | EvLinear _ _ => "Linear"
  | EvAdam _ => "Adam"
  | EvTo => "to"
  | EvTrain => "train"
  | EvEval => "eval"
  | EvIter name => "iter " +:+ name
  | EvZeroGrad => "zero_grad"
  | EvForward _ _ => "forward"
  | EvCriterion _ _ _ => "criterion"
  | EvBackward _ => "backward"
  | EvStep => "step"
  | EvItem _ _ => "item"
  | EvMax _ _ => "max"
  | EvAccuracyScore _ _ _ => "accuracy_score"
  | EvPrecisionScore _ _ _ => "precision_score"
  | EvConfusionMatrix _ _ _ _ => "confusion_matrix"
  | EvPlotConfusion _ _ _ => "plot_confusion"
  | EvPlotLines _ _ => "plot"
  | EvSave _ => "save"
  | EvPrint _ => "print"
  end.

Definition calls (lg : list event) : list string := call_name <$> lg.

(** What was logged between two worlds. *)
Definition new_log (w w' : World) : list event := drop (length (log w)) (log w').

(** The values [loss.item()] returned. *)
Definition items (lg : list event) : list float :=
  omap (λ ev, match ev with EvItem _ v => Some v | _ => None end) lg.

(** [0.0 + v1 + v2 + ...], added from left to right. *)
Definition f_sum (vs : list float) : float := fold_left f_add vs f_zero.

(** The loaders iterated over. *)
Definition iters (lg : list event) : list string :=
  omap (λ ev, match ev with EvIter name => Some name | _ => None end) lg.

(** The labels the criterion was applied to, and the predictions taken. *)
Definition seen_labels (lg : list event) : list nat :=
  lg ≫= (λ ev, match ev with EvCriterion _ t _ => t | _ => [] end).

Definition seen_preds (lg : list event) : list nat :=
  lg ≫= (λ ev, match ev with EvMax _ preds => preds | _ => [] end).

Definition pretrained_archs (lg : list event) : list Arch :=
  omap (λ ev, match ev with EvPretrained a => Some a | _ => None end) lg.

Definition linear_calls (lg : list event) : list (nat * nat) :=
  omap (λ ev, match ev with EvLinear i o => Some (i, o) | _ => None end) lg.

Definition confusion_calls (lg : list event) : list (list nat * list nat * string * matrix) :=
  omap (λ ev, match ev with
              | EvConfusionMatrix yt yp n cm => Some (yt, yp, n, cm)
              | _ => None
              end) lg.

Definition confusion_plots (lg : list event) : list (matrix * list string * string) :=
  omap (λ ev, match ev with
              | EvPlotConfusion cm ls t => Some (cm, ls, t)
              | _ => None
              end) lg.

Definition saved_paths (lg : list event) : list string :=
  omap (λ ev, match ev with EvSave path => Some path | _ => None end) lg.

(** [n] times a pass over the training loader, then one over the validation
    loader. *)
Definition alternation (n : nat) : list string :=
  concat (replicate n ["train_loader"; "val_loader"]).

(** [len(loader)] is the number of batches of every pass over the loader. *)
Definition dl_wf (l : DataLoader) : Prop :=
  ∀ b, length (dl_iter l b).1 = dl_len l.

(** The model predicts one class per label of each batch of the loader. *)
Definition preds_match (l : DataLoader) : Prop :=
  ∀ bk b m h bk0 y bufs bk',
    b ∈ (dl_iter l bk).1 →
    t_forward m h (b_images b) bk0 = inr (y, bufs, bk') →
    length (t_max1 y) = length (b_labels b).

(** Every pass over the loader yields at least one label. *)
Definition labels_nonempty (l : DataLoader) : Prop :=
  ∀ bk, concat (b_labels <$> (dl_iter l bk).1) ≠ [].

(** The mean of the values [loss.item()] returned in [lg], over [n] batches. *)
Definition mean_loss (lg : list event) (n : nat) : float :=
  f_div (f_sum (items lg)) (f_of_int (Z.of_nat n)).

(** The leaf paths of a module tree: no two are equal, none lies below another. *)
Definition paths_wf (ps : list string) : Prop :=
  NoDup ps ∧ ∀ p q, p ∈ ps → q ∈ ps → in_child p q = true → p = q.

Definition zoo_wf (a : Arch) : Prop :=
  ∀ b specs bufs b', tv_pretrained a b = inr (specs, bufs, b') → paths_wf specs.*1.

(** The lines printed, the calls of [accuracy_score] and of
    [precision_score] that returned, and the line plots shown. *)
Definition prints (lg : list event) : list out_line :=
  omap (λ ev, match ev with EvPrint l => Some l | _ => None end) lg.

Definition accuracy_calls (lg : list event) : list (list nat * list nat * float) :=
  omap (λ ev, match ev with
              | EvAccuracyScore yt yp a => Some (yt, yp, a)
              | _ => None
              end) lg.

Definition precision_calls (lg : list event) : list (list nat * list nat * float) :=
  omap (λ ev, match ev with
              | EvPrecisionScore yt yp a => Some (yt, yp, a)
              | _ => None
              end) lg.

Definition line_plots (lg : list event) : list (string * list (string * list float)) :=
  omap (λ ev, match ev with
              | EvPlotLines title series => Some (title, series)
              | _ => None
              end) lg.

End Observations.

(** ** Relations between the world before and after a computation *)

Section Relations.
Context `{TH : Torch}.

(** Every run of [m], whether it returns or raises, relates its worlds by [R]. *)
Definition preserves {A} (R : relation World) (m : M A) : Prop :=
  ∀ w w' r, m w = (w', r) → R w w'.

Definition files_same : relation World := λ w w', files w' = files w.

(** The log only grows, by events that satisfy [P]. *)
Definition logs (P : event → Prop) : relation World :=
  λ w w', ∃ new, log w' = log w ++ new ∧ Forall P new.

(** The store keeps its other parameters: one that changes stays a parameter
    with the same [requires_grad], and it is one of [ps], or one of [mp] that
    requires grad. *)
Definition touches_h (ps mp : list loc) (h h' : gmap loc Param) : Prop :=
  ∀ l, h' !! l = h !! l ∨
       ∃ p p', h !! l = Some p ∧ h' !! l = Some p' ∧
               p_requires_grad p' = p_requires_grad p ∧
               (l ∈ ps ∨ (l ∈ mp ∧ p_requires_grad p = true)).

Definition touches (ps mp : list loc) : relation World :=
  λ w w', touches_h ps mp (heap w) (heap w').

Definition runs (P : event → Prop) (ps mp : list loc) : relation World :=
  λ w w', files_same w w' ∧ logs P w w' ∧ touches ps mp w w'.

(** A call that leaves the files and the store alone and logs at most one
    event. *)
Definition quiet {A} (P : event → Prop) (m : M A) : Prop :=
  ∀ w w' r, m w = (w', r) →
    files w' = files w ∧ heap w' = heap w ∧
    (log w' = log w ∨ ∃ ev, log w' = log w ++ [ev] ∧ P ev).

(** The parameters at [new] were created between [w] and [w']: they are new
    locations, all different, that hold fresh parameters; nothing else
    changed. *)
Definition allocates (new : list loc) (w w' : World) : Prop :=
  files w' = files w ∧ log w' = log w ∧
  backend_st w' = backend_st w ∧ grad_enabled w' = grad_enabled w ∧
  NoDup new ∧ (∀ l, l ∈ new → heap w !! l = None) ∧
  (∀ l, l ∉ new → heap w' !! l = heap w !! l) ∧
  (∀ l, l ∈ new → ∃ t, heap w' !! l = Some (new_param t)).

(** The locations of the parameters of a list of layers. *)
Definition layers_params (ls : list (string * Layer)) : list loc :=
  (ls ≫= (λ pl, layer_named_params pl.1 pl.2)).*2.

(** The locations of the parameters of one layer. *)
Definition layer_locs (ly : Layer) : list loc :=
  match ly with
  | Linear _ _ lw lb => [lw; lb]
  | OtherLayer ps => ps.*2
  end.

(** What the set-up of a model leaves: the store of before is untouched, the
    parameters of the model are new, and the optimizer holds parameters of
    the model that require grad. *)
Definition setup_ok (w w' : World) (m : Module) (o : Optimizer) : Prop :=
  files w' = files w ∧
  (∀ l, is_Some (heap w !! l) → heap w' !! l = heap w !! l) ∧
  (∀ l, l ∈ parameters m → heap w !! l = None ∧ is_Some (heap w' !! l)) ∧
  (∀ l, l ∈ o_params o → l ∈ parameters m ∧ requires_grad_at (heap w') l = true).

(** The only exceptions of [m] are those of library calls. *)
Definition library_raises {A} (m : M A) : Prop :=
  ∀ w w' e, m w = (w', Raise e) → ∃ le, e = LibraryError le.

(** The parameters that were in the store at [w] are the same at [w']. *)
Definition keeps_old (w w' : World) : Prop :=
  ∀ l, is_Some (heap w !! l) → heap w' !! l = heap w !! l.

(** The part of [setup_ok] that does not depend on what requires grad. *)
Definition setup_sep (w w' : World) (m : Module) (o : Optimizer) : Prop :=
  files w' = files w ∧
  (∀ l, is_Some (heap w !! l) → heap w' !! l = heap w !! l) ∧
  (∀ l, l ∈ parameters m → heap w !! l = None ∧ is_Some (heap w' !! l)) ∧
  (∀ l, l ∈ o_params o → l ∈ parameters m).

(** What a set-up found in the zoo and made of it: the module [m] of the
    zoo has a linear layer at [path], and [m'] is [m] with a new linear layer
    of [n] outputs in its place. *)
Definition new_head (a : Arch) (path : string) (n : nat) (m m' : Module) : Prop :=
  ∃ i0 i o_old lw0 lb0 lw lb,
    m_layers m !! i0 = Some (path, Linear i o_old lw0 lb0) ∧
    m_layers m' = <[i0 := (path, Linear i n lw lb)]> (m_layers m) ∧
    m_arch m' = a ∧ m_buffers m' = m_buffers m ∧
    (lw ∉ parameters m) ∧ (lb ∉ parameters m) ∧ lw ≠ lb.

(** Why a set-up stopped at the layer it was to replace. *)
Definition no_head (path : string) (m : Module) (e : exn) : Prop :=
  (e = AttributeError path ∧ path ∉ (m_layers m).*1) ∨
  (e = AttributeError "in_features" ∧
   ∃ i0 ps, m_layers m !! i0 = Some (path, OtherLayer ps)).




(** The module has no linear layer at [path]: no layer of this name, or
    one that is not linear. *)
Definition no_linear_head (path : string) (m : Module) : Prop :=
  path ∉ (m_layers m).*1 ∨ ∃ i0 ps, m_layers m !! i0 = Some (path, OtherLayer ps).

(** No state dict was saved between [w] and [w']: [torch.save] did not
    return, and the files it writes are as they were. *)
Definition not_saving (ev : event) : Prop :=
  match ev with EvSave _ => False | _ => True end.

Definition unsaved : relation World :=
  λ w w', files_same w w' ∧ logs not_saving w w'.

(** The same shape: linear layers for linear layers, with the same sizes. *)
Definition layer_of_spec (ly : Layer) (s : LayerSpec) : Prop :=
  match ly, s with
  | Linear i o _ _, LinearSpec i' o' _ _ => i = i' ∧ o = o'
  | OtherLayer ps, OtherSpec ps' => ps.*1 = ps'.*1
  | _, _ => False
  end.

(** The events of the processing of one batch. *)
Definition batch_event (ev : event) : Prop :=
  match ev with
  | EvTo | EvZeroGrad | EvForward _ _ | EvCriterion _ _ _ | EvBackward _
  | EvStep | EvItem _ _ | EvMax _ _ => True
  | _ => False
  end.

(** The events of training: those of the batches, the switches of mode, the
    passes over the loaders, the accuracy and the progress line. *)
Definition training_event (ev : event) : Prop :=
  match ev with
  | EvTrain | EvEval | EvIter _ | EvAccuracyScore _ _ _ | EvPrint _ => True
  | _ => batch_event ev
  end.

End Relations.

Ltac prims :=
  unfold to_device, print, load_local, truediv_float_int,
    truediv_int_int, call_model, call_criterion, loss_item, torch_max1, model_train,
    model_eval, iterate, accuracy_score, precision_score, confusion_matrix, plot,
    get_state_dict, manual_seed, random_split, datasets_ImageFolder,
    optimizer_zero_grad, optimizer_step, loss_backward,
    lib_call, lib_pure in *.

Ltac monad := unfold mbind, M_bind, mret, M_ret, bind, ret, raise in *.

(** ** dev/Fruitscan_combinados.ipynb *)

Module Combinados.
Section Notebook.
Context `{TH : Torch}.

(** *** Paso 3: parameters and data *)

Definition batch_size : Z := 8.
Definition img_size : Z := 224.
Definition epochs : Z := 10.
Definition train_dir : string := "data/dataset/dataset/train".
Definition test_dir : string := "data/dataset/dataset/test".

Record Datos := {
  train_loader : DataLoader;
  val_loader : DataLoader;
  class_names : list string;
}.

Definition paso3 : M Datos :=
  train_dataset ← datasets_ImageFolder train_dir;
  test_dataset ← datasets_ImageFolder test_dir;
  let train_loader := tu_DataLoader train_dataset batch_size true in
  let val_loader := tu_DataLoader test_dataset batch_size false in
  let class_names := ds_classes train_dataset in
  print (ClassesLine class_names);;
  mret {| train_loader := train_loader; val_loader := val_loader;
          class_names := class_names |}.

(** *** Paso 4: [entrenar_modelo] *)

(** The body of [for images, labels in train_loader]; the loop carries
    [model], [optimizer] and [running_loss]. *)
Definition train_batch (criterion : Criterion) (b : Batch)
    (s : Module * Optimizer * float) : M (Module * Optimizer * float) :=
  let '(model, optimizer, running_loss) := s in
  images ← to_device (b_images b);
  labels ← to_device (b_labels b);
  optimizer_zero_grad optimizer;;
  om ← call_model model images;
  let '(outputs, model) := om in
  loss ← call_criterion criterion outputs labels;
  loss_backward loss;;
  optimizer ← optimizer_step optimizer;
  v ← loss_item loss;
  mret (model, optimizer, f_add running_loss v).

(** The body of [for images, labels in val_loader]; the loop carries
    [model], [val_loss], [y_true] and [y_pred]. *)
Definition val_batch (criterion : Criterion) (b : Batch)
    (s : Module * float * list nat * list nat) : M (Module * float * list nat * list nat) :=
  let '(model, val_loss, y_true, y_pred) := s in
  images ← to_device (b_images b);
  labels ← to_device (b_labels b);
  om ← call_model model images;
  let '(outputs, model) := om in
  loss ← call_criterion criterion outputs labels;
  v ← loss_item loss;
  preds ← torch_max1 outputs;
  mret (model, f_add val_loss v, y_true ++ labels, y_pred ++ preds).

(** The locals of [entrenar_modelo] that live across epochs.  [y_true] and
    [y_pred] are bound by the first validation only. *)
Record Locals := {
  v_model : Module;
  v_optimizer : Optimizer;
  v_train_losses : list float;
  v_val_losses : list float;
  v_val_accuracies : list float;
  v_y_true : option (list nat);
  v_y_pred : option (list nat);
}.

(** [running_loss = 0.0] and the loop over [train_loader]. *)
Definition train_pass (train_loader : DataLoader) (criterion : Criterion)
    (model : Module) (optimizer : Optimizer) : M (Module * Optimizer * float) :=
  bs ← iterate "train_loader" train_loader;
  foldM (train_batch criterion) bs (model, optimizer, f_zero).

(** [val_loss = 0.0], [y_true, y_pred = [], []] and the loop over
    [val_loader] under [torch.no_grad()]. *)
Definition val_pass (val_loader : DataLoader) (criterion : Criterion)
    (model : Module) : M (Module * float * list nat * list nat) :=
  no_grad (bs ← iterate "val_loader" val_loader;
           foldM (val_batch criterion) bs (model, f_zero, [], [])).

(** The body of [for epoch in range(epochs)]. *)
Definition epoch_body (train_loader val_loader : DataLoader) (criterion : Criterion)
    (epochs : Z) (epoch : Z) (s : Locals) : M Locals :=
  model ← model_train (v_model s);
  tr ← train_pass train_loader criterion model (v_optimizer s);
  let '(model, optimizer, running_loss) := tr in
  train_loss ← truediv_float_int running_loss (Z.of_nat (dl_len train_loader));
  let train_losses := v_train_losses s ++ [train_loss] in
  model ← model_eval model;
  va ← val_pass val_loader criterion model;
  let '(model, val_loss, y_true, y_pred) := va in
  val_loss ← truediv_float_int val_loss (Z.of_nat (dl_len val_loader));
  accuracy ← accuracy_score y_true y_pred;
  let val_losses := v_val_losses s ++ [val_loss] in
  let val_accuracies := v_val_accuracies s ++ [accuracy] in
  print (EpochLine (epoch + 1) epochs train_loss val_loss accuracy);;
  mret {| v_model := model; v_optimizer := optimizer; v_train_losses := train_losses;
          v_val_losses := val_losses; v_val_accuracies := val_accuracies;
          v_y_true := Some y_true; v_y_pred := Some y_pred |}.

(** The tuple [entrenar_modelo] returns. *)
Record Entrenado := {
  e_model : Module;
  e_train_losses : list float;
  e_val_losses : list float;
  e_val_accuracies : list float;
  e_y_true : list nat;
  e_y_pred : list nat;
}.

Definition entrenar_modelo (model : Module) (train_loader val_loader : DataLoader)
    (optimizer : Optimizer) (criterion : Criterion) (epochs : Z) (nombre : string)
    : M Entrenado :=
  model ← to_device model;
  s ← foldM (epoch_body train_loader val_loader criterion epochs) (range epochs)
        {| v_model := model; v_optimizer := optimizer; v_train_losses := [];
           v_val_losses := []; v_val_accuracies := []; v_y_true := None;
           v_y_pred := None |};
  y_true ← load_local "y_true" (v_y_true s);
  y_pred ← load_local "y_pred" (v_y_pred s);
  mret {| e_model := v_model s; e_train_losses := v_train_losses s;
          e_val_losses := v_val_losses s; e_val_accuracies := v_val_accuracies s;
          e_y_true := y_true; e_y_pred := y_pred |}.

(** The locals when the loop over the epochs starts. *)
Definition locals0 (model : Module) (optimizer : Optimizer) : Locals :=
  {| v_model := model; v_optimizer := optimizer; v_train_losses := [];
     v_val_losses := []; v_val_accuracies := []; v_y_true := None; v_y_pred := None |}.

(** The [return] statement on the locals the loop leaves. *)
Definition retorno (s : Locals) : result Entrenado :=
  match v_y_true s, v_y_pred s with
  | Some y_true, Some y_pred =>
      Ok {| e_model := v_model s; e_train_losses := v_train_losses s;
            e_val_losses := v_val_losses s; e_val_accuracies := v_val_accuracies s;
            e_y_true := y_true; e_y_pred := y_pred |}
  | None, _ => Raise (UnboundLocalError "y_true")
  | Some _, None => Raise (UnboundLocalError "y_pred")
  end.

(** *** Paso 5: the three models *)

Definition lr : Z * Z := (1, -3)%Z.    (* lr=0.001 *)

Definition resnet18_setup (class_names : list string) : M (Module * Optimizer * Criterion) :=
  print (TextLine (nl +:+ "--- Entrenando ResNet18 ---"));;
  resnet18 ← models_pretrained ResNet18;
  freeze (parameters resnet18);;
  fc ← get_layer "fc" resnet18;
  i ← in_features_of fc;
  fc ← nn_Linear i (length class_names);
  let resnet18 := set_layer "fc" fc resnet18 in
  optimizer_r18 ← optim_Adam (parameters (child "fc" resnet18)) lr;
  let criterion := nn_CrossEntropyLoss in
  mret (resnet18, optimizer_r18, criterion).

Definition resnet34_setup (class_names : list string) : M (Module * Optimizer) :=
  print (TextLine (nl +:+ "--- Entrenando ResNet34 ---"));;
  resnet34 ← models_pretrained ResNet34;
  freeze (parameters resnet34);;
  fc ← get_layer "fc" resnet34;
  i ← in_features_of fc;
  fc ← nn_Linear i (length class_names);
  let resnet34 := set_layer "fc" fc resnet34 in
  optimizer_r34 ← optim_Adam (parameters (child "fc" resnet34)) lr;
  mret (resnet34, optimizer_r34).

Definition vgg19_setup (class_names : list string) : M (Module * Optimizer) :=
  print (TextLine (nl +:+ "--- Entrenando VGG19 ---"));;
  vgg19 ← models_pretrained VGG19;
  freeze (parameters (child "features" vgg19));;
  c6 ← get_layer "classifier.6" vgg19;
  i ← in_features_of c6;
  c6 ← nn_Linear i (length class_names);
  let vgg19 := set_layer "classifier.6" c6 vgg19 in
  optimizer_vgg ← optim_Adam (parameters (child "classifier" vgg19)) lr;
  mret (vgg19, optimizer_vgg).

Record Paso5 := {
  r18 : Entrenado;
  r34 : Entrenado;
  vgg : Entrenado;
}.

Definition paso5 (d : Datos) : M Paso5 :=
  rs ← resnet18_setup (class_names d);
  let '(resnet18, optimizer_r18, criterion) := rs in
  r18 ← entrenar_modelo resnet18 (train_loader d) (val_loader d) optimizer_r18
          criterion epochs "ResNet18";
  rs ← resnet34_setup (class_names d);
  let '(resnet34, optimizer_r34) := rs in
  r34 ← entrenar_modelo resnet34 (train_loader d) (val_loader d) optimizer_r34
          criterion epochs "ResNet34";
  rs ← vgg19_setup (class_names d);
  let '(vgg19, optimizer_vgg) := rs in
  vgg ← entrenar_modelo vgg19 (train_loader d) (val_loader d) optimizer_vgg
          criterion epochs "VGG19";
  mret {| r18 := r18; r34 := r34; vgg := vgg |}.

(** *** Paso 6: comparison of the metrics *)

Definition plot_metric_comparison (metric_dict : list (string * list float))
    (title ylabel : string) : M unit :=
  plot (EvPlotLines title metric_dict).

Definition calcular_precision_final (y_true y_pred : list nat) : M float :=
  precision_score y_true y_pred "macro".

Definition paso6 (p : Paso5) : M unit :=
  let loss_val_dict :=
    [("ResNet18", e_val_losses (r18 p)); ("ResNet34", e_val_losses (r34 p));
     ("VGG19", e_val_losses (vgg p))] in
  let acc_val_dict :=
    [("ResNet18", e_val_accuracies (r18 p)); ("ResNet34", e_val_accuracies (r34 p));
     ("VGG19", e_val_accuracies (vgg p))] in
  p18 ← calcular_precision_final (e_y_true (r18 p)) (e_y_pred (r18 p));
  p34 ← calcular_precision_final (e_y_true (r34 p)) (e_y_pred (r34 p));
  pvgg ← calcular_precision_final (e_y_true (vgg p)) (e_y_pred (vgg p));
  plot_metric_comparison loss_val_dict "Validation Loss" "Loss";;
  plot_metric_comparison acc_val_dict "Validation Accuracy" "Accuracy";;
  print (TextLine "📌 Precision por modelo (macro avg):");;
  print (PrecisionLine "ResNet18" p18);;
  print (PrecisionLine "ResNet34" p34);;
  print (PrecisionLine "VGG19" pvgg).

(** *** Paso 7: confusion matrices *)

(** [class_names] is the global of Paso 3. *)
Definition mostrar_confusion (class_names : list string) (y_true y_pred : list nat)
    (modelo : string) : M unit :=
  cm ← confusion_matrix y_true y_pred "true";
  plot (EvPlotConfusion cm class_names ("Normalized Confusion Matrix - " +:+ modelo)).

Definition paso7 (d : Datos) (p : Paso5) : M unit :=
  mostrar_confusion (class_names d) (e_y_true (r18 p)) (e_y_pred (r18 p)) "ResNet18";;
  mostrar_confusion (class_names d) (e_y_true (r34 p)) (e_y_pred (r34 p)) "ResNet34";;
  mostrar_confusion (class_names d) (e_y_true (vgg p)) (e_y_pred (vgg p)) "VGG19".

(** *** Paso 8: saving the models *)

Definition paso8 (p : Paso5) : M unit :=
  sd ← get_state_dict (e_model (r18 p)); torch_save sd "model_resnet18.pth";;
  sd ← get_state_dict (e_model (r34 p)); torch_save sd "model_resnet34.pth";;
  sd ← get_state_dict (e_model (vgg p)); torch_save sd "model_vgg19.pth";;
  print (TextLine "✅ Modelos guardados correctamente.").

(** The code cells from Paso 3 to Paso 8, run in order. *)
Definition notebook : M (Datos * Paso5) :=
  d ← paso3;
  p ← paso5 d;
  paso6 p;;
  paso7 d p;;
  paso8 p;;
  mret (d, p).

(** *** The outcomes of one epoch

    An epoch ends in one of six ways: the training pass raises; the training
    loss is divided by zero; the validation pass raises; the validation loss
    is divided by zero; [accuracy_score] raises; or the epoch goes through. *)
Inductive epoch_outcome (train_loader val_loader : DataLoader) (criterion : Criterion)
    (epochs epoch : Z) (s : Locals) (w : World) : World → result Locals → Prop :=
  | epoch_train_raises w' e :
      train_pass train_loader criterion (set_training true (v_model s)) (v_optimizer s)
        (emit EvTrain w) = (w', Raise e) →
      epoch_outcome train_loader val_loader criterion epochs epoch s w w' (Raise e)
  | epoch_train_div w2 tr :
      train_pass train_loader criterion (set_training true (v_model s)) (v_optimizer s)
        (emit EvTrain w) = (w2, Ok tr) →
      dl_len train_loader = 0 →
      epoch_outcome train_loader val_loader criterion epochs epoch s w w2
        (Raise ZeroDivisionError)
  | epoch_val_raises w2 tr w' e :
      train_pass train_loader criterion (set_training true (v_model s)) (v_optimizer s)
        (emit EvTrain w) = (w2, Ok tr) →
      dl_len train_loader ≠ 0 →
      val_pass val_loader criterion (set_training false tr.1.1) (emit EvEval w2)
        = (w', Raise e) →
      epoch_outcome train_loader val_loader criterion epochs epoch s w w' (Raise e)
  | epoch_val_div w2 tr w4 va :
      train_pass train_loader criterion (set_training true (v_model s)) (v_optimizer s)
        (emit EvTrain w) = (w2, Ok tr) →
      dl_len train_loader ≠ 0 →
      val_pass val_loader criterion (set_training false tr.1.1) (emit EvEval w2)
        = (w4, Ok va) →
      dl_len val_loader = 0 →
      epoch_outcome train_loader val_loader criterion epochs epoch s w w4
        (Raise ZeroDivisionError)
  | epoch_accuracy_raises w2 tr w4 va e :
      train_pass train_loader criterion (set_training true (v_model s)) (v_optimizer s)
        (emit EvTrain w) = (w2, Ok tr) →
      dl_len train_loader ≠ 0 →
      val_pass val_loader criterion (set_training false tr.1.1) (emit EvEval w2)
        = (w4, Ok va) →
      dl_len val_loader ≠ 0 →
      sk_accuracy_score va.1.2 va.2 = inl e →
      epoch_outcome train_loader val_loader criterion epochs epoch s w w4
        (Raise (LibraryError e))
  | epoch_returns w2 tr w4 va accuracy :
      train_pass train_loader criterion (set_training true (v_model s)) (v_optimizer s)
        (emit EvTrain w) = (w2, Ok tr) →
      dl_len train_loader ≠ 0 →
      val_pass val_loader criterion (set_training false tr.1.1) (emit EvEval w2)
        = (w4, Ok va) →
      dl_len val_loader ≠ 0 →
      sk_accuracy_score va.1.2 va.2 = inr accuracy →
      let train_loss := f_div tr.2 (f_of_int (Z.of_nat (dl_len train_loader))) in
      let val_loss := f_div va.1.1.2 (f_of_int (Z.of_nat (dl_len val_loader))) in
      epoch_outcome train_loader val_loader criterion epochs epoch s w
        (emit (EvPrint (EpochLine (epoch + 1) epochs train_loss val_loss accuracy))
           (emit (EvAccuracyScore va.1.2 va.2 accuracy) w4))
        (Ok {| v_model := va.1.1.1; v_optimizer := tr.1.2;
               v_train_losses := v_train_losses s ++ [train_loss];
               v_val_losses := v_val_losses s ++ [val_loss];
               v_val_accuracies := v_val_accuracies s ++ [accuracy];
               v_y_true := Some va.1.2; v_y_pred := Some va.2 |}).

(** *** The calls of a run that returns *)

Definition train_batch_calls : list string :=
  ["to"; "to"; "zero_grad"; "forward"; "criterion"; "backward"; "step"; "item"].

Definition val_batch_calls : list string :=
  ["to"; "to"; "forward"; "criterion"; "item"; "max"].

Definition train_part_calls (nt : nat) : list string :=
  ["train"; "iter train_loader"] ++ concat (replicate nt train_batch_calls).

Definition val_part_calls (nv : nat) : list string :=
  ["eval"; "iter val_loader"] ++ concat (replicate nv val_batch_calls) ++
  ["accuracy_score"; "print"].

Definition epoch_calls (nt nv : nat) : list string :=
  train_part_calls nt ++ val_part_calls nv.

Definition entrenar_modelo_calls (epochs nt nv : nat) : list string :=
  "to" :: concat (replicate epochs (epoch_calls nt nv)).

(** [entrenar_modelo], called for [nombre] in the world [w1], returned [x]
    in the world [w2]. *)
Definition trained (d : Datos) (nombre : string) (x : Entrenado) (w1 w2 : World) : Prop :=
  ∃ m o c, entrenar_modelo m (train_loader d) (val_loader d) o c epochs nombre w1
           = (w2, Ok x).

(** What one epoch of [entrenar_modelo] appends and rebinds: the entries of
    the three lists, and the [y_true] and [y_pred] of its validation pass;
    and the progress line of the epoch. *)
Record EpochRow := {
  row_train_loss : float;
  row_val_loss : float;
  row_accuracy : float;
  row_y_true : list nat;
  row_y_pred : list nat;
}.

Definition row_line (epochs epoch : Z) (r : EpochRow) : out_line :=
  EpochLine (epoch + 1) epochs (row_train_loss r) (row_val_loss r) (row_accuracy r).

(** The log of one epoch, split in its training part and its validation part. *)
Definition epoch_ok (train_loader val_loader : DataLoader)
    (tv : list event * list event) : Prop :=
  calls tv.1 = train_part_calls (dl_len train_loader) ∧
  calls tv.2 = val_part_calls (dl_len val_loader) ∧
  length (items tv.1) = dl_len train_loader ∧
  length (items tv.2) = dl_len val_loader ∧
  (∃ bk, seen_labels tv.2 = concat (b_labels <$> (dl_iter val_loader bk).1)) ∧
  (preds_match val_loader → length (seen_preds tv.2) = length (seen_labels tv.2)).

End Notebook.
End Combinados.

(** ** The VGG19 notebook *)

Module Vgg19.
Section Notebook.
Context `{TH : Torch}.

(** *** Paso 2: configuration and data *)

Definition batch_size : Z := 8.
Definition img_size : Z := 224.
Definition data_dir : string := "/content/drive/MyDrive/FruitScan/data/fruits".

Record Datos := {
  train_loader : DataLoader;
  val_loader : DataLoader;
  class_names : list string;
}.

Definition paso2 : M Datos :=
  full_dataset ← datasets_ImageFolder data_dir;
  let class_names := ds_classes full_dataset in
  let val_split := f_lit 2 (-1) in
  let val_size := f_trunc (f_mul_int (ds_len full_dataset) val_split) in
  let train_size := (ds_len full_dataset - val_size)%Z in
  manual_seed 42;;
  tv ← random_split full_dataset [train_size; val_size];
  let '(train_dataset, val_dataset) := tv in
  let train_loader := tu_DataLoader train_dataset batch_size true in
  let val_loader := tu_DataLoader val_dataset batch_size false in
  mret {| train_loader := train_loader; val_loader := val_loader;
          class_names := class_names |}.

(** *** Paso 3: the model *)

Definition paso3 (class_names : list string) : M Module :=
  model ← models_pretrained VGG19;
  freeze (parameters (child "features" model));;
  c6 ← get_layer "classifier.6" model;
  num_features ← in_features_of c6;
  c6 ← nn_Linear num_features (length class_names);
  let model := set_layer "classifier.6" c6 model in
  to_device model.

(** *** Paso 4: criterion, optimizer, epochs *)

Definition lr : Z * Z := (1, -3)%Z.    (* lr=0.001 *)
Definition epochs : Z := 10.

Definition paso4 (model : Module) : M (Criterion * Optimizer) :=
  let criterion := nn_CrossEntropyLoss in
  optimizer ← optim_Adam (parameters (child "classifier" model)) lr;
  mret (criterion, optimizer).

(** *** Paso 5: training *)

(** The body of [for images, labels in train_loader]. *)
Definition train_batch (criterion : Criterion) (b : Batch)
    (s : Module * Optimizer * float) : M (Module * Optimizer * float) :=
  let '(model, optimizer, running_loss) := s in
  images ← to_device (b_images b);
  labels ← to_device (b_labels b);
  optimizer_zero_grad optimizer;;
  om ← call_model model images;
  let '(outputs, model) := om in
  loss ← call_criterion criterion outputs labels;
  loss_backward loss;;
  optimizer ← optimizer_step optimizer;
  v ← loss_item loss;
  mret (model, optimizer, f_add running_loss v).

(** The body of [for images, labels in val_loader]; the loop carries
    [model], [val_loss], [correct] and [total]. *)
Definition val_batch (criterion : Criterion) (b : Batch)
    (s : Module * float * Z * Z) : M (Module * float * Z * Z) :=
  let '(model, val_loss, correct, total) := s in
  images ← to_device (b_images b);
  labels ← to_device (b_labels b);
  om ← call_model model images;
  let '(outputs, model) := om in
  loss ← call_criterion criterion outputs labels;
  v ← loss_item loss;
  predicted ← torch_max1 outputs;
  mret (model, f_add val_loss v, (correct + count_eq predicted labels)%Z,
        (total + Z.of_nat (length labels))%Z).

(** The globals the loop of Paso 5 updates. *)
Record Globals := {
  g_model : Module;
  g_optimizer : Optimizer;
  g_train_losses : list float;
  g_val_losses : list float;
}.

(** [running_loss = 0.0] and the loop over [train_loader]. *)
Definition train_pass (train_loader : DataLoader) (criterion : Criterion)
    (model : Module) (optimizer : Optimizer) : M (Module * Optimizer * float) :=
  bs ← iterate "train_loader" train_loader;
  foldM (train_batch criterion) bs (model, optimizer, f_zero).

(** [val_loss = 0.0], [correct = 0], [total = 0] and the loop over
    [val_loader] under [torch.no_grad()]. *)
Definition val_pass (val_loader : DataLoader) (criterion : Criterion)
    (model : Module) : M (Module * float * Z * Z) :=
  no_grad (bs ← iterate "val_loader" val_loader;
           foldM (val_batch criterion) bs (model, f_zero, 0%Z, 0%Z)).

(** The body of [for epoch in range(epochs)]. *)
Definition epoch_body (train_loader val_loader : DataLoader) (criterion : Criterion)
    (epochs : Z) (epoch : Z) (s : Globals) : M Globals :=
  model ← model_train (g_model s);
  tr ← train_pass train_loader criterion model (g_optimizer s);
  let '(model, optimizer, running_loss) := tr in
  epoch_loss ← truediv_float_int running_loss (Z.of_nat (dl_len train_loader));
  let train_losses := g_train_losses s ++ [epoch_loss] in
  model ← model_eval model;
  va ← val_pass val_loader criterion model;
  let '(model, val_loss, correct, total) := va in
  val_loss ← truediv_float_int val_loss (Z.of_nat (dl_len val_loader));
  let val_losses := g_val_losses s ++ [val_loss] in
  accuracy ← truediv_int_int (100 * correct) total;
  print (EpochLine (epoch + 1) epochs epoch_loss val_loss accuracy);;
  mret {| g_model := model; g_optimizer := optimizer; g_train_losses := train_losses;
          g_val_losses := val_losses |}.

Definition paso5 (d : Datos) (model : Module) (criterion : Criterion)
    (optimizer : Optimizer) (epochs : Z) : M Globals :=
  foldM (epoch_body (train_loader d) (val_loader d) criterion epochs) (range epochs)
    {| g_model := model; g_optimizer := optimizer; g_train_losses := [];
       g_val_losses := [] |}.

(** The globals when the loop over the epochs starts. *)
Definition globals0 (model : Module) (optimizer : Optimizer) : Globals :=
  {| g_model := model; g_optimizer := optimizer; g_train_losses := [];
     g_val_losses := [] |}.

(** *** Paso 6: the loss curves *)

Definition paso6 (g : Globals) : M unit :=
  plot (EvPlotLines "Curva de Pérdida"
          [("Entrenamiento", g_train_losses g); ("Validación", g_val_losses g)]).

(** *** Paso 7: saving the model *)

Definition model_path : string := "fruitscan_model.pth".

Definition paso7 (g : Globals) : M unit :=
  sd ← get_state_dict (g_model g);
  torch_save sd model_path;;
  print (TextLine (nl +:+ "✅ Modelo guardado como: " +:+ model_path)).

(** The code cells from Paso 2 to Paso 7, run in order. *)
Definition notebook : M (Datos * Globals) :=
  d ← paso2;
  model ← paso3 (class_names d);
  co ← paso4 model;
  let '(criterion, optimizer) := co in
  g ← paso5 d model criterion optimizer epochs;
  paso6 g;;
  paso7 g;;
  mret (d, g).

(** *** The outcomes of one epoch

    An epoch ends in one of six ways: the training pass raises; the training
    loss is divided by zero; the validation pass raises; the validation loss
    is divided by zero; the accuracy is divided by zero; or the epoch goes
    through. *)
Inductive epoch_outcome (train_loader val_loader : DataLoader) (criterion : Criterion)
    (epochs epoch : Z) (s : Globals) (w : World) : World → result Globals → Prop :=
  | epoch_train_raises w' e :
      train_pass train_loader criterion (set_training true (g_model s)) (g_optimizer s)
        (emit EvTrain w) = (w', Raise e) →
      epoch_outcome train_loader val_loader criterion epochs epoch s w w' (Raise e)
  | epoch_train_div w2 tr :
      train_pass train_loader criterion (set_training true (g_model s)) (g_optimizer s)
        (emit EvTrain w) = (w2, Ok tr) →
      dl_len train_loader = 0 →
      epoch_outcome train_loader val_loader criterion epochs epoch s w w2
        (Raise ZeroDivisionError)
  | epoch_val_raises w2 tr w' e :
      train_pass train_loader criterion (set_training true (g_model s)) (g_optimizer s)
        (emit EvTrain w) = (w2, Ok tr) →
      dl_len train_loader ≠ 0 →
      val_pass val_loader criterion (set_training false tr.1.1) (emit EvEval w2)
        = (w', Raise e) →
      epoch_outcome train_loader val_loader criterion epochs epoch s w w' (Raise e)
  | epoch_val_div w2 tr w4 va :
      train_pass train_loader criterion (set_training true (g_model s)) (g_optimizer s)
        (emit EvTrain w) = (w2, Ok tr) →
      dl_len train_loader ≠ 0 →
      val_pass val_loader criterion (set_training false tr.1.1) (emit EvEval w2)
        = (w4, Ok va) →
      dl_len val_loader = 0 →
      epoch_outcome train_loader val_loader criterion epochs epoch s w w4
        (Raise ZeroDivisionError)
  | epoch_total_div w2 tr w4 va :
      train_pass train_loader criterion (set_training true (g_model s)) (g_optimizer s)
        (emit EvTrain w) = (w2, Ok tr) →
      dl_len train_loader ≠ 0 →
      val_pass val_loader criterion (set_training false tr.1.1) (emit EvEval w2)
        = (w4, Ok va) →
      dl_len val_loader ≠ 0 →
      va.2 = 0%Z →
      epoch_outcome train_loader val_loader criterion epochs epoch s w w4
        (Raise ZeroDivisionError)
  | epoch_returns w2 tr w4 va :
      train_pass train_loader criterion (set_training true (g_model s)) (g_optimizer s)
        (emit EvTrain w) = (w2, Ok tr) →
      dl_len train_loader ≠ 0 →
      val_pass val_loader criterion (set_training false tr.1.1) (emit EvEval w2)
        = (w4, Ok va) →
      dl_len val_loader ≠ 0 →
      va.2 ≠ 0%Z →
      let epoch_loss := f_div tr.2 (f_of_int (Z.of_nat (dl_len train_loader))) in
      let val_loss := f_div va.1.1.2 (f_of_int (Z.of_nat (dl_len val_loader))) in
      let accuracy := f_int_div (100 * va.1.2) va.2 in
      epoch_outcome train_loader val_loader criterion epochs epoch s w
        (emit (EvPrint (EpochLine (epoch + 1) epochs epoch_loss val_loss accuracy)) w4)
        (Ok {| g_model := va.1.1.1; g_optimizer := tr.1.2;
               g_train_losses := g_train_losses s ++ [epoch_loss];
               g_val_losses := g_val_losses s ++ [val_loss] |}).

(** *** The calls of a run of Paso 5 that completes *)

Definition train_batch_calls : list string :=
  ["to"; "to"; "zero_grad"; "forward"; "criterion"; "backward"; "step"; "item"].

Definition val_batch_calls : list string :=
  ["to"; "to"; "forward"; "criterion"; "item"; "max"].

Definition train_part_calls (nt : nat) : list string :=
  ["train"; "iter train_loader"] ++ concat (replicate nt train_batch_calls).

Definition val_part_calls (nv : nat) : list string :=
  ["eval"; "iter val_loader"] ++ concat (replicate nv val_batch_calls) ++ ["print"].

Definition epoch_calls (nt nv : nat) : list string :=
  train_part_calls nt ++ val_part_calls nv.

Definition paso5_calls (epochs nt nv : nat) : list string :=
  concat (replicate epochs (epoch_calls nt nv)).

(** What one epoch of the loop of Paso 5 appends and counts: the entries of
    the two lists, and [correct] and [total] when the validation pass is
    over; and the progress line of the epoch. *)
Record EpochRow := {
  row_train_loss : float;
  row_val_loss : float;
  row_correct : Z;
  row_total : Z;
}.

Definition row_line (epochs epoch : Z) (r : EpochRow) : out_line :=
  EpochLine (epoch + 1) epochs (row_train_loss r) (row_val_loss r)
    (f_int_div (100 * row_correct r) (row_total r)).

(** The log of one epoch, split in its training part and its validation part. *)
Definition epoch_ok (train_loader val_loader : DataLoader)
    (tv : list event * list event) : Prop :=
  calls tv.1 = train_part_calls (dl_len train_loader) ∧
  calls tv.2 = val_part_calls (dl_len val_loader) ∧
  length (items tv.1) = dl_len train_loader ∧
  length (items tv.2) = dl_len val_loader.

End Notebook.
End Vgg19.

(** ** A small instance of the framework, to run the notebooks on *)

Module Toy.

#[export] Instance toy_float : PyFloat := {|
  float := Z;
  f_zero := 0%Z;
  f_add := Z.add;
  f_div := Z.div;
  f_of_int := id;
  f_int_div := Z.div;
  f_lit := λ m e, m;
  f_mul_int := λ n x, ((n * x) `div` 10)%Z;
  f_trunc := id;
|}.

(** Images are one number per sample; the logits are the predicted classes
    themselves; a data set is the list of its batches. *)
#[export] Instance toy_tensors : Tensors := {|
  tensor := Z;
  images := list nat;
  logits := list nat;
  loss_t := Z;
  buffers := nat;
  backend := nat;
  opt_state := nat;
  dataset := list (list nat * list nat);
  matrix := list (nat * nat);
  lib_exn := string;
|}.

Definition toy_zoo (a : Arch) : list (string * LayerSpec) :=
  match a with
  | ResNet18 => [("conv1", OtherSpec [("weight", 1%Z)]); ("fc", LinearSpec 5 10 2%Z 3%Z)]
  | ResNet34 => [("conv1", OtherSpec [("weight", 4%Z)]); ("fc", LinearSpec 5 10 5%Z 6%Z)]
  | VGG19 => [("features.0", OtherSpec [("weight", 7%Z); ("bias", 8%Z)]);
              ("classifier.0", LinearSpec 8 4 9%Z 10%Z);
              ("classifier.6", LinearSpec 4 10 11%Z 12%Z)]
  end.

(** The folder of images, one batch per entry, and its split in two parts
    of the sizes asked for. *)
Definition folder : list (list nat * list nat) :=
  [([0; 1], [0; 1]); ([1], [0]); ([0], [0]); ([1; 1], [1; 0]); ([0], [1])].

Definition toy_random_split (ds : list (list nat * list nat)) (sizes : list Z) (b : nat) :
    string + (list (list nat * list nat) * list (list nat * list nat) * nat) :=
  match sizes with
  | [n1; n2] =>
      if decide ((n1 + n2)%Z = Z.of_nat (length ds) ∧ (0 ≤ n1)%Z ∧ (0 ≤ n2)%Z)
      then inr (take (Z.to_nat n1) ds, drop (Z.to_nat n1) ds, S b)
      else inl "Sum of input lengths does not equal the length of the input dataset!"
  | _ => inl "Sum of input lengths does not equal the length of the input dataset!"
  end.

(** Image number 99 cannot be processed. *)
#[export] Instance toy_torch : Torch := {|
  tv_ImageFolder := λ root b, inr (folder, b);
  ds_classes := λ _, ["freshapples"; "rottenapples"];
  ds_len := λ ds, Z.of_nat (length ds);
  tu_random_split := toy_random_split;
  tu_DataLoader := λ ds bsz shuffle,
    {| dl_len := length ds;
       dl_iter := λ b, ((λ xy, {| b_images := xy.1; b_labels := xy.2 |}) <$> ds, S b) |};
  t_manual_seed := λ n b, Z.to_nat n;
  tv_pretrained := λ a b, inr (toy_zoo a, 0, b);
  nn_linear_init := λ i o b, (20%Z, 21%Z, S b);
  t_to_device := λ b, inr b;
  t_forward := λ m h x b,
    if bool_decide (99 ∈ x) then inl "bad image" else inr (x, S (m_buffers m), b);
  t_cross_entropy := λ y t, inr (count_eq y t);
  t_item := λ l, l;
  t_max1 := λ y, y;
  t_grad := λ l leaves, inr (λ _, 1%Z);
  t_accumulate := λ og g, (default 0%Z og + g)%Z;
  t_zero_grad := λ _, None;
  adam_init := λ ps lr, inr 0;
  adam_update := λ st lr l d g, (d - g)%Z;
  adam_next := λ st, inr (S st);
  t_save := λ sd path b, inr b;
  sk_accuracy_score := λ yt yp, inr (count_eq yt yp);
  sk_precision_score := λ yt yp avg, inr (count_eq yt yp);
  sk_confusion_matrix := λ yt yp norm, inr (zip yt yp);
  plt_show := λ ev, inr tt;
|}.

Definition w0 : World :=
  {| heap := ∅; backend_st := 0; grad_enabled := true; files := ∅; log := [] |}.

(** The class names, a data set of two batches, and loaders over it; a loader
    with no batch, and one whose second batch cannot be processed. *)
Definition cn : list string := ["freshapples"; "rottenapples"].
Definition ds : dataset := [([0; 1], [0; 1]); ([1], [0])].
Definition loader : DataLoader := tu_DataLoader ds 8%Z true.
Definition empty_loader : DataLoader := tu_DataLoader [] 8%Z true.
Definition bad_loader : DataLoader := tu_DataLoader [([0], [0]); ([99], [1])] 8%Z false.

(** The models and optimizers the set-ups make in the empty world. *)
Definition m18 : Module :=
  {| m_arch := ResNet18;
     m_layers := [("conv1", OtherLayer [("weight", 0)]); ("fc", Linear 5 2 3 4)];
     m_buffers := 0; m_training := true |}.
Definition o18 : Optimizer := {| o_params := [3; 4]; o_lr := (1, -3)%Z; o_state := 0 |}.
Definition s18 : World := (Combinados.resnet18_setup cn w0).1.

Definition m34 : Module :=
  {| m_arch := ResNet34;
     m_layers := [("conv1", OtherLayer [("weight", 0)]); ("fc", Linear 5 2 3 4)];
     m_buffers := 0; m_training := true |}.
Definition s34 : World := (Combinados.resnet34_setup cn w0).1.

Definition mvgg : Module :=
  {| m_arch := VGG19;
     m_layers := [("features.0", OtherLayer [("weight", 0); ("bias", 1)]);
                  ("classifier.0", Linear 8 4 2 3);
                  ("classifier.6", Linear 4 2 6 7)];
     m_buffers := 0; m_training := true |}.
Definition ovgg : Optimizer :=
  {| o_params := [2; 3; 6; 7]; o_lr := (1, -3)%Z; o_state := 0 |}.
Definition svgg : World := (Combinados.vgg19_setup cn w0).1.

(** The same for the VGG19 notebook. *)
Definition datos : Vgg19.Datos :=
  {| Vgg19.train_loader := loader; Vgg19.val_loader := loader; Vgg19.class_names := cn |}.
Definition datos_empty : Vgg19.Datos :=
  {| Vgg19.train_loader := empty_loader; Vgg19.val_loader := loader;
     Vgg19.class_names := cn |}.
Definition w3 : World := (Vgg19.paso3 cn w0).1.
Definition w4 : World := (Vgg19.paso4 mvgg w3).1.

(** A run of [entrenar_modelo] over [bad_loader]: its two batches, the world
    when the first epoch starts and when the first pass does, and the
    loop-carried variables then. *)
Definition value {A} (d : A) (r : result A) : A :=
  match r with Ok a => a | Raise _ => d end.
Definition b0 : Batch := {| b_images := [0]; b_labels := [0] |}.
Definition b99 : Batch := {| b_images := [99]; b_labels := [1] |}.
Definition w_start : World := emit EvTo (set_backend (backend_st s18) s18).
Definition w_iter : World :=
  emit (EvIter "train_loader")
    (set_backend (dl_iter bad_loader (backend_st w_start)).2 (emit EvTrain w_start)).
Definition st0 : Module * Optimizer * float := (set_training true m18, o18, f_zero).

(** The runs the claims are tried on. *)
Definition is_Ok {A} (r : result A) : bool :=
  match r with Ok _ => true | Raise _ => false end.

Definition raises_library {A} (r : result A) (msg : string) : bool :=
  match r with
  | Raise (LibraryError e) => bool_decide (e = msg)
  | _ => false
  end.

Definition x0 : Combinados.Entrenado :=
  {| Combinados.e_model := m18; Combinados.e_train_losses := [];
     Combinados.e_val_losses := []; Combinados.e_val_accuracies := [];
     Combinados.e_y_true := []; Combinados.e_y_pred := [] |}.

Definition d0 : Combinados.Datos :=
  {| Combinados.train_loader := loader; Combinados.val_loader := loader;
     Combinados.class_names := cn |}.
Definition p0 : Combinados.Paso5 :=
  {| Combinados.r18 := x0; Combinados.r34 := x0; Combinados.vgg := x0 |}.

(** The same framework, but for a zoo whose modules have one layer only,
    and no [fc]. *)
Definition bare_torch : Torch := {|
  tv_ImageFolder := λ root b, inr (folder, b);
  ds_classes := λ _, ["freshapples"; "rottenapples"];
  ds_len := λ ds, Z.of_nat (length ds);
  tu_random_split := toy_random_split;
  tu_DataLoader := λ ds bsz shuffle,
    {| dl_len := length ds;
       dl_iter := λ b, ((λ xy, {| b_images := xy.1; b_labels := xy.2 |}) <$> ds, S b) |};
  t_manual_seed := λ n b, Z.to_nat n;
  tv_pretrained := λ a b, inr ([("conv1", OtherSpec [("weight", 1%Z)])], 0, b);
  nn_linear_init := λ i o b, (20%Z, 21%Z, S b);
  t_to_device := λ b, inr b;
  t_forward := λ m h x b,
    if bool_decide (99 ∈ x) then inl "bad image" else inr (x, S (m_buffers m), b);
  t_cross_entropy := λ y t, inr (count_eq y t);
  t_item := λ l, l;
  t_max1 := λ y, y;
  t_grad := λ l leaves, inr (λ _, 1%Z);
  t_accumulate := λ og g, (default 0%Z og + g)%Z;
  t_zero_grad := λ _, None;
  adam_init := λ ps lr, inr 0;
  adam_update := λ st lr l d g, (d - g)%Z;
  adam_next := λ st, inr (S st);
  t_save := λ sd path b, inr b;
  sk_accuracy_score := λ yt yp, inr (count_eq yt yp);
  sk_precision_score := λ yt yp avg, inr (count_eq yt yp);
  sk_confusion_matrix := λ yt yp norm, inr (zip yt yp);
  plt_show := λ ev, inr tt;
|}.

End Toy.

(** * Properties *)

(** ** The monad *)

Section MonadFacts.
Context `{TH : Torch}.

Lemma bind_run {A B} (m : M A) (f : A → M B) w w1 a :
  m w = (w1, Ok a) → (m ≫= f) w = f a w1.
Proof. intros H. unfold mbind, M_bind, bind. by rewrite H. Qed.

Lemma bind_run_raise {A B} (m : M A) (f : A → M B) w w1 e :
  m w = (w1, Raise e) → (m ≫= f) w = (w1, Raise e).
Proof. intros H. unfold mbind, M_bind, bind. by rewrite H. Qed.

Lemma bind_inv {A B} (m : M A) (f : A → M B) w w' r :
  (m ≫= f) w = (w', r) →
  (∃ e, m w = (w', Raise e) ∧ r = Raise e) ∨
  (∃ w1 a, m w = (w1, Ok a) ∧ f a w1 = (w', r)).
Proof.
  unfold mbind, M_bind, bind. destruct (m w) as [w1 [a|e]]; intros H.
  - right. eauto.
  - left. exists e. by simplify_eq.
Qed.

Lemma bind_Ok_inv {A B} (m : M A) (f : A → M B) w w' b :
  (m ≫= f) w = (w', Ok b) → ∃ w1 a, m w = (w1, Ok a) ∧ f a w1 = (w', Ok b).
Proof. intros [(e & _ & ?)|?]%bind_inv; [done|done]. Qed.

Lemma foldM_nil {A S} (body : A → S → M S) s w : foldM body [] s w = (w, Ok s).
Proof. reflexivity. Qed.

Lemma foldM_cons {A S} (body : A → S → M S) x xs s w :
  foldM body (x :: xs) s w = (body x s ≫= foldM body xs) w.
Proof. reflexivity. Qed.

Lemma foldM_app {A S} (body : A → S → M S) xs ys s w :
  foldM body (xs ++ ys) s w = (foldM body xs s ≫= foldM body ys) w.
Proof.
  revert s w. induction xs as [|x xs IH]; intros s w; [reflexivity|].
  unfold mbind, M_bind in *. simpl. unfold bind at 1 2 3.
  destruct (body x s w) as [w1 [s1|e]]; [|reflexivity]. apply IH.
Qed.

(** An exception in the body ends the loop: the elements after it are not
    visited and the exception is the loop's. *)
Lemma foldM_raise {A S} (body : A → S → M S) xs x ys s w w1 s1 w2 e :
  foldM body xs s w = (w1, Ok s1) →
  body x s1 w1 = (w2, Raise e) →
  foldM body (xs ++ x :: ys) s w = (w2, Raise e).
Proof.
  intros H1 H2. rewrite foldM_app. rewrite (bind_run _ _ _ _ _ H1).
  rewrite foldM_cons. by apply bind_run_raise.
Qed.

(** A loop that raises does so in the body, at some element, after the
    elements before it went through. *)
Lemma foldM_raise_inv {A S} (body : A → S → M S) xs s w w' e :
  foldM body xs s w = (w', Raise e) →
  ∃ xs1 x xs2 w1 s1, xs = xs1 ++ x :: xs2 ∧
    foldM body xs1 s w = (w1, Ok s1) ∧ body x s1 w1 = (w', Raise e).
Proof.
  revert s w. induction xs as [|x xs IH]; intros s w H; [done|].
  rewrite foldM_cons in H. apply bind_inv in H as [(e' & H & ?)|(w1 & s1 & H1 & H)].
  - simplify_eq. exists [], x, xs, w, s. done.
  - apply IH in H as (xs1 & y & xs2 & w2 & s2 & -> & Hp & Hb).
    exists (x :: xs1), y, xs2, w2, s2. split_and!; [done| |done].
    rewrite foldM_cons. by rewrite (bind_run _ _ _ _ _ H1).
Qed.

Lemma preserves_ret {A} R `{!Reflexive R} (a : A) : preserves R (ret a).
Proof. intros w w' r [= <- _]. done. Qed.

Lemma preserves_mret {A} R `{!Reflexive R} (a : A) : preserves R (mret a).
Proof. by apply preserves_ret. Qed.

Lemma preserves_raise {A} R `{!Reflexive R} e : preserves R (raise e : M A).
Proof. intros w w' r [= <- _]. done. Qed.

Lemma preserves_bind {A B} R `{!Transitive R} (m : M A) (f : A → M B) :
  preserves R m → (∀ a, preserves R (f a)) → preserves R (m ≫= f).
Proof.
  intros Hm Hf w w' r [(e & H & _)|(w1 & a & H1 & H2)]%bind_inv.
  - by eapply Hm.
  - etrans; [by eapply Hm|by eapply Hf].
Qed.

Lemma preserves_foldM {A S} R `{!PreOrder R} (body : A → S → M S) xs s :
  (∀ x s, preserves R (body x s)) → preserves R (foldM body xs s).
Proof.
  intros Hb. revert s. induction xs as [|x xs IH]; intros s.
  - by apply preserves_ret, _.
  - apply (preserves_bind R); [apply Hb|apply IH].
Qed.

Lemma preserves_mapM {A B} R `{!PreOrder R} (f : A → M B) xs :
  (∀ x, preserves R (f x)) → preserves R (mapM f xs).
Proof.
  intros Hf. induction xs as [|x xs IH]; simpl.
  - by apply preserves_ret, _.
  - apply (preserves_bind R (f x)); [apply Hf|]. intros y.
    apply (preserves_bind R (mapM f xs)); [apply IH|]. intros ys.
    by apply preserves_ret, _.
Qed.

(** A loop keeps an invariant of the loop-carried variables and a relation on
    the worlds that every run of the body keeps. *)
Lemma foldM_invariant {A S} (I : S → Prop) R `{!PreOrder R} (body : A → S → M S) :
  (∀ x s w w' r, I s → body x s w = (w', r) →
     R w w' ∧ ∀ s', r = Ok s' → I s') →
  ∀ xs s w w' r, I s → foldM body xs s w = (w', r) →
     R w w' ∧ ∀ s', r = Ok s' → I s'.
Proof.
  intros Hb xs. induction xs as [|x xs IH]; intros s w w' r Hs H.
  - injection H as <- <-. split; [done|]. by intros ? [= <-].
  - rewrite foldM_cons in H.
    apply bind_inv in H as [(e & H & ->)|(w1 & s1 & H1 & H)].
    + destruct (Hb _ _ _ _ _ Hs H) as [? _]. done.
    + destruct (Hb _ _ _ _ _ Hs H1) as [? Hs1].
      destruct (IH _ _ _ _ (Hs1 _ eq_refl) H) as [? ?].
      split; [by etrans|done].
Qed.

End MonadFacts.

(** ** What a computation may change *)

Ltac quiet_tac :=
  intros ? w w' r H; prims; monad;
  repeat case_match; simplify_eq/=;
  (split_and!; [done|done|first [by left | right; eexists; split; [done|]]]).

Section Frames.
Context `{TH : Torch}.

#[global] Instance files_same_po : PreOrder files_same.
Proof.
  split; [by intros w|]. intros w1 w2 w3 H1 H2. unfold files_same in *. congruence.
Qed.

#[global] Instance logs_po P : PreOrder (logs P).
Proof.
  split.
  - intros w. exists []. by rewrite app_nil_r.
  - intros w1 w2 w3 (n1 & H1 & F1) (n2 & H2 & F2). exists (n1 ++ n2). split.
    + by rewrite H2, H1, app_assoc.
    + by apply Forall_app.
Qed.

#[global] Instance touches_h_po ps mp : PreOrder (touches_h ps mp).
Proof.
  split; [by left|]. intros h1 h2 h3 H1 H2 l.
  destruct (H1 l) as [E1|(p & p' & E1 & E1' & Hr1 & Hs1)],
           (H2 l) as [E2|(q & q' & E2 & E2' & Hr2 & Hs2)].
  - left. congruence.
  - right. exists q, q'. rewrite <-E1. done.
  - right. exists p, p'. rewrite E2. done.
  - right. exists p, q'. simplify_eq. split_and!; [done|done|congruence|done].
Qed.

#[global] Instance touches_po ps mp : PreOrder (touches ps mp).
Proof.
  split.
  - intros w. unfold touches. reflexivity.
  - intros w1 w2 w3 H1 H2. unfold touches in *. by etrans.
Qed.

#[global] Instance runs_po P ps mp : PreOrder (runs P ps mp).
Proof.
  split.
  - intros w. split_and!; reflexivity.
  - intros w1 w2 w3 (?&?&?) (?&?&?). split_and!; etrans; done.
Qed.

Lemma logs_weaken (P Q : event → Prop) w w' :
  (∀ ev, P ev → Q ev) → logs P w w' → logs Q w w'.
Proof. intros HPQ (new & ? & HF). exists new. split; [done|]. eapply Forall_impl; done. Qed.

Lemma runs_weaken (P Q : event → Prop) ps mp w w' :
  (∀ ev, P ev → Q ev) → runs P ps mp w w' → runs Q ps mp w w'.
Proof. intros HPQ (?&?&?). split_and!; [done| |done]. by eapply logs_weaken. Qed.

Lemma logs_new_log w w' new :
  log w' = log w ++ new → new_log w w' = new.
Proof. intros H. unfold new_log. by rewrite H, drop_app_length. Qed.

Lemma logs_inv P w w' :
  logs P w w' → log w' = log w ++ new_log w w' ∧ Forall P (new_log w w').
Proof. intros (new & H & HF). by rewrite (logs_new_log _ _ _ H). Qed.

Lemma quiet_runs {A} P ps mp (m : M A) : quiet P m → preserves (runs P ps mp) m.
Proof.
  intros Hq w w' r H. destruct (Hq _ _ _ H) as (Hf & Hh & Hl).
  split_and!; [done| |].
  - destruct Hl as [Hl|(ev & Hl & ?)].
    + exists []. by rewrite app_nil_r.
    + exists [ev]. split; [done|]. by constructor.
  - unfold touches. by rewrite Hh.
Qed.

Lemma quiet_to_device {A} (P : event → Prop) (x : A) : P EvTo → quiet P (to_device x).
Proof. quiet_tac; auto. Qed.

Lemma quiet_model_train (P : event → Prop) m : P EvTrain → quiet P (model_train m).
Proof. quiet_tac; auto. Qed.

Lemma quiet_model_eval (P : event → Prop) m : P EvEval → quiet P (model_eval m).
Proof. quiet_tac; auto. Qed.

Lemma quiet_iterate (P : event → Prop) name l : P (EvIter name) → quiet P (iterate name l).
Proof. quiet_tac; auto. Qed.

Lemma quiet_call_model (P : event → Prop) m x :
  (∀ y, P (EvForward x y)) → quiet P (call_model m x).
Proof. quiet_tac; auto. Qed.

Lemma quiet_call_criterion (P : event → Prop) c o t :
  (∀ l, P (EvCriterion (o_val o) t l)) → quiet P (call_criterion c o t).
Proof. quiet_tac; auto. Qed.

Lemma quiet_loss_item (P : event → Prop) l :
  (∀ v, P (EvItem (l_val l) v)) → quiet P (loss_item l).
Proof. quiet_tac; auto. Qed.

Lemma quiet_torch_max1 (P : event → Prop) o :
  (∀ ps, P (EvMax (o_val o) ps)) → quiet P (torch_max1 o).
Proof. quiet_tac; auto. Qed.

Lemma quiet_accuracy_score (P : event → Prop) yt yp :
  (∀ a, P (EvAccuracyScore yt yp a)) → quiet P (accuracy_score yt yp).
Proof. quiet_tac; auto. Qed.

Lemma quiet_print (P : event → Prop) l : P (EvPrint l) → quiet P (print l).
Proof. quiet_tac; auto. Qed.

Lemma quiet_truediv_float_int (P : event → Prop) x n : quiet P (truediv_float_int x n).
Proof. intros w w' r H; prims; monad; repeat case_match; simplify_eq/=; eauto. Qed.

Lemma quiet_truediv_int_int (P : event → Prop) a b : quiet P (truediv_int_int a b).
Proof. intros w w' r H; prims; monad; repeat case_match; simplify_eq/=; eauto. Qed.

Lemma quiet_load_local {A} (P : event → Prop) name (v : option A) : quiet P (load_local name v).
Proof. intros w w' r H; prims; monad; repeat case_match; simplify_eq/=; eauto. Qed.

Lemma quiet_mret {A} (P : event → Prop) (a : A) : quiet P (mret a).
Proof. intros w w' r H; prims; monad; repeat case_match; simplify_eq/=; eauto. Qed.

End Frames.

(** ** The store under zero_grad, backward and step *)

Section Heap.
Context `{TH : Torch}.

(** A fold of updates, each of which changes at most the parameter it is
    given and keeps its [requires_grad]. *)
Lemma foldr_touches (G : loc → gmap loc Param → gmap loc Param) ps mp ls h :
  (∀ a h, a ∈ ls → requires_grad_at h a = requires_grad_at (G a h) a) →
  (∀ a h l, l ≠ a → G a h !! l = h !! l) →
  (∀ a h, is_Some (G a h !! a) ↔ is_Some (h !! a)) →
  (∀ a, a ∈ ls → a ∈ ps ∨ (a ∈ mp ∧ requires_grad_at h a = true)) →
  touches_h ps mp h (foldr G h ls).
Proof.
  intros Hrg Hne Hdom. induction ls as [|a ls IH]; intros Hin; [by left|].
  simpl. etrans; [apply IH|].
  - intros b hb Hb. apply Hrg. by right.
  - intros b Hb. apply Hin. by right.
  - set (h1 := foldr G h ls). intros l. destruct (decide (l = a)) as [->|Hla].
    + destruct (h1 !! a) as [p|] eqn:Hp.
      * destruct (proj2 (Hdom a h1)) as [p' Hp']; [by rewrite Hp|].
        right. exists p, p'. split_and!; [done|done| |].
        -- specialize (Hrg a h1 (list_elem_of_here _ _)).
           unfold requires_grad_at in Hrg. by rewrite Hp, Hp' in Hrg.
        -- destruct (Hin a (list_elem_of_here _ _)) as [?|[? Ha]]; [by left|].
           right. split; [done|].
           assert (touches_h ps mp h h1) as Ht.
           { apply IH.
             - intros b hb Hb. apply Hrg. by right.
             - intros b Hb. apply Hin. by right. }
           unfold requires_grad_at in Ha.
           destruct (Ht a) as [E|(q & q' & E & E' & Hq & _)].
           ++ rewrite <-E, Hp in Ha. done.
           ++ rewrite E in Ha. rewrite E' in Hp. congruence.
      * left. destruct (G a h1 !! a) eqn:HG; [|done].
        destruct (proj1 (Hdom a h1)) as [? ?]; [by rewrite HG|congruence].
    + left. by apply Hne.
Qed.

Lemma zero_grad_touches (o : Optimizer) mp h :
  touches_h (o_params o) mp h
    (foldr (λ l h, alter (λ p, set_grad (t_zero_grad (p_grad p)) p) l h) h (o_params o)).
Proof.
  apply (foldr_touches (λ l h, alter (λ p, set_grad (t_zero_grad (p_grad p)) p) l h)).
  - intros a h' _. unfold requires_grad_at. rewrite lookup_alter_eq.
    by destruct (h' !! a).
  - intros a h' l Hl. by rewrite lookup_alter_ne.
  - intros a h'. rewrite lookup_alter_eq. by rewrite fmap_is_Some.
  - intros a Ha. by left.
Qed.

Lemma backward_touches ps (m : Module) (g : loc → tensor) h :
  touches_h ps (parameters m) h
    (foldr (λ l h, alter (λ p, set_grad (Some (t_accumulate (p_grad p) (g l))) p) l h) h
       (filter (λ l, requires_grad_at h l = true) (parameters m))).
Proof.
  apply (foldr_touches
    (λ l h, alter (λ p, set_grad (Some (t_accumulate (p_grad p) (g l))) p) l h)).
  - intros a h' _. unfold requires_grad_at. rewrite lookup_alter_eq.
    by destruct (h' !! a).
  - intros a h' l Hl. by rewrite lookup_alter_ne.
  - intros a h'. rewrite lookup_alter_eq. by rewrite fmap_is_Some.
  - intros a [Ha ?]%list_elem_of_filter. by right.
Qed.

Lemma adam_touches (o : Optimizer) mp h :
  touches_h (o_params o) mp h (foldr (adam_apply o) h (o_params o)).
Proof.
  apply (foldr_touches (adam_apply o)).
  - intros a h' _. unfold requires_grad_at, adam_apply.
    destruct (h' !! a) as [p|] eqn:Hp; [|by rewrite Hp].
    destruct (p_grad p); [|by rewrite Hp]. by rewrite lookup_insert_eq.
  - intros a h' l Hl. unfold adam_apply. repeat case_match; try done.
    by rewrite lookup_insert_ne.
  - intros a h'. unfold adam_apply. destruct (h' !! a) as [p|] eqn:Hp; [|by rewrite Hp].
    destruct (p_grad p); [|by rewrite Hp]. rewrite lookup_insert_eq. split; eauto.
  - intros a Ha. by left.
Qed.

End Heap.

(** ** The calls of a batch, one at a time *)

Section Steps.
Context `{TH : Torch}.

Lemma to_device_inv {A} (x : A) w w' r :
  to_device x w = (w', r) →
  (∃ le, w' = w ∧ r = Raise (LibraryError le)) ∨
  (∃ bk, w' = emit EvTo (set_backend bk w) ∧ r = Ok x).
Proof.
  unfold to_device, lib_call.
  destruct (t_to_device (backend_st w)) as [le|bk]; intros [= <- <-]; eauto.
Qed.

Lemma call_model_inv m x w w' r :
  call_model m x w = (w', r) →
  (∃ le, w' = w ∧ r = Raise (LibraryError le)) ∨
  (∃ y bufs bk, t_forward m (heap w) x (backend_st w) = inr (y, bufs, bk) ∧
     w' = emit (EvForward x y) (set_backend bk w) ∧
     r = Ok ({| o_val := y;
                o_leaves :=
                  if grad_enabled w
                  then filter (λ l, requires_grad_at (heap w) l = true) (parameters m)
                  else [] |}, set_buffers bufs m)).
Proof.
  unfold call_model.
  destruct (t_forward m (heap w) x (backend_st w)) as [le|[[y bufs] bk]];
    intros [= <- <-]; eauto 10.
Qed.

Lemma call_criterion_inv (c : Criterion) o t w w' r :
  call_criterion c o t w = (w', r) →
  (∃ le, w' = w ∧ r = Raise (LibraryError le)) ∨
  (∃ l, c (o_val o) t = inr l ∧ w' = emit (EvCriterion (o_val o) t l) w ∧
     r = Ok {| l_val := l; l_leaves := o_leaves o |}).
Proof.
  unfold call_criterion, lib_pure. monad.
  destruct (c (o_val o) t) as [le|l]; intros [= <- <-]; eauto.
Qed.

Lemma loss_backward_inv loss w w' r :
  loss_backward loss w = (w', r) →
  (∃ le, w' = w ∧ r = Raise (LibraryError le)) ∨
  (∃ g, w' = emit (EvBackward (l_val loss))
               (set_heap (foldr (λ l h, alter (λ p, set_grad
                            (Some (t_accumulate (p_grad p) (g l))) p) l h)
                          (heap w) (l_leaves loss)) w) ∧
     r = Ok tt).
Proof.
  unfold loss_backward.
  destruct (t_grad (l_val loss) (l_leaves loss)) as [le|g]; intros [= <- <-]; eauto.
Qed.

Lemma optimizer_step_inv o w w' r :
  optimizer_step o w = (w', r) →
  (∃ le, w' = w ∧ r = Raise (LibraryError le)) ∨
  (∃ st, w' = emit EvStep (set_heap (foldr (adam_apply o) (heap w) (o_params o)) w) ∧
     r = Ok {| o_params := o_params o; o_lr := o_lr o; o_state := st |}).
Proof.
  unfold optimizer_step.
  destruct (adam_next (o_state o)) as [le|st]; intros [= <- <-]; eauto.
Qed.

(** One more step of a run. *)
Lemma runs_step P ps mp w0 w w' new :
  runs P ps mp w0 w → files w' = files w → log w' = log w ++ new → Forall P new →
  touches_h ps mp (heap w) (heap w') → runs P ps mp w0 w'.
Proof.
  intros Hr Hf Hl HF Ht. etrans; [exact Hr|]. split_and!; [done| |done]. by exists new.
Qed.

Lemma runs_emit P ps mp w w' ev :
  P ev → runs P ps mp w w' → runs P ps mp w (emit ev w').
Proof.
  intros Hev Hr. apply (runs_step P ps mp w w' _ [ev]); [done|done|done| |reflexivity].
  by constructor.
Qed.

End Steps.

(** ** One batch *)

Ltac solve_logs :=
  first
    [ exists []; split; [by rewrite app_nil_r|constructor]
    | eexists; split; [simpl; rewrite <-?app_assoc; reflexivity|repeat constructor] ].

(** A call that raised left the world as it was. *)
Ltac raised H inv Hr :=
  apply inv in H as [(? & -> & _)|?];
  [ split; [exact Hr|done]
  | repeat match goal with
           | H' : ∃ _, _ |- _ => destruct H'
           | H' : _ ∧ _ |- _ => destruct H'
           end; done ].

Section Batch.
Context `{TH : Torch}.

Lemma parameters_set_buffers b m : parameters (set_buffers b m) = parameters m.
Proof. done. Qed.

Lemma parameters_set_training t m : parameters (set_training t m) = parameters m.
Proof. done. Qed.

Lemma skeleton_set_training t m : skeleton (set_training t m) = skeleton m.
Proof. done. Qed.

Lemma parameters_skeleton m1 m2 : skeleton m1 = skeleton m2 → parameters m1 = parameters m2.
Proof. unfold parameters, named_parameters. by intros [= _ ->]. Qed.

(** A training batch that goes through: the calls made, with what flows from
    one to the next, and the new value of [running_loss]. *)
Lemma train_batch_Ok_inv c b m o rl w w' s' :
  Combinados.train_batch c b (m, o, rl) w = (w', Ok s') →
  ∃ bk1 bk2 y bufs bk3 l g st,
    let w2 := emit EvTo (set_backend bk2 (emit EvTo (set_backend bk1 w))) in
    let h3 := foldr (λ l h, alter (λ p, set_grad (t_zero_grad (p_grad p)) p) l h)
                (heap w) (o_params o) in
    let w3 := emit EvZeroGrad (set_heap h3 w2) in
    let leaves := if grad_enabled w
                  then filter (λ l, requires_grad_at h3 l = true) (parameters m)
                  else [] in
    let w5 := emit (EvCriterion y (b_labels b) l)
                (emit (EvForward (b_images b) y) (set_backend bk3 w3)) in
    let h6 := foldr (λ l h, alter (λ p, set_grad
                       (Some (t_accumulate (p_grad p) (g l))) p) l h) h3 leaves in
    let w6 := emit (EvBackward l) (set_heap h6 w5) in
    let w7 := emit EvStep (set_heap (foldr (adam_apply o) h6 (o_params o)) w6) in
    c y (b_labels b) = inr l ∧
    t_forward m h3 (b_images b) bk2 = inr (y, bufs, bk3) ∧
    w' = emit (EvItem l (t_item l)) w7 ∧
    s' = (set_buffers bufs m,
          {| o_params := o_params o; o_lr := o_lr o; o_state := st |},
          f_add rl (t_item l)).
Proof.
  intros H. unfold Combinados.train_batch in H.
  apply bind_Ok_inv in H as (w1 & images & H1 & H).
  apply to_device_inv in H1 as [(? & _ & ?)|(bk1 & -> & [= ->])]; [done|].
  apply bind_Ok_inv in H as (w2 & labels & H2 & H).
  apply to_device_inv in H2 as [(? & _ & ?)|(bk2 & -> & [= ->])]; [done|].
  apply bind_Ok_inv in H as (w3 & [] & H3 & H).
  unfold optimizer_zero_grad in H3. injection H3 as <-.
  apply bind_Ok_inv in H as (w4 & [outputs m4] & H4 & H).
  apply call_model_inv in H4 as [(? & _ & ?)|(y & bufs & bk3 & Hf & -> & [= -> ->])]; [done|].
  apply bind_Ok_inv in H as (w5 & loss & H5 & H).
  apply call_criterion_inv in H5 as [(? & _ & ?)|(l & Hc & -> & [= ->])]; [done|].
  apply bind_Ok_inv in H as (w6 & [] & H6 & H).
  apply loss_backward_inv in H6 as [(? & _ & ?)|(g & -> & _)]; [done|].
  apply bind_Ok_inv in H as (w7 & o7 & H7 & H).
  apply optimizer_step_inv in H7 as [(? & _ & ?)|(st & -> & [= ->])]; [done|].
  apply bind_Ok_inv in H as (w8 & v & H8 & H).
  unfold loss_item in H8. injection H8 as <- <-. injection H as <- <-.
  exists bk1, bk2, y, bufs, bk3, l, g, st. simpl in *. split_and!; done.
Qed.

Lemma train_batch_Ok c b m o rl w w' s' :
  Combinados.train_batch c b (m, o, rl) w = (w', Ok s') →
  ∃ y l,
    c y (b_labels b) = inr l ∧
    log w' = log w ++ [EvTo; EvTo; EvZeroGrad; EvForward (b_images b) y;
                       EvCriterion y (b_labels b) l; EvBackward l; EvStep;
                       EvItem l (t_item l)] ∧
    s'.2 = f_add rl (t_item l).
Proof.
  intros (bk1 & bk2 & y & bufs & bk3 & l & g & st & Hc & _ & -> & ->)%train_batch_Ok_inv.
  exists y, l. split_and!; [done| |done]. simpl. by rewrite <-!app_assoc.
Qed.

(** Whatever happens to a training batch, the files are not written, the log
    gets batch events only, and the store changes at the optimizer's
    parameters and at the model's parameters that require grad only. *)
Lemma train_batch_runs c b m o rl w w' r :
  Combinados.train_batch c b (m, o, rl) w = (w', r) →
  runs batch_event (o_params o) (parameters m) w w' ∧
  ∀ s', r = Ok s' → skeleton s'.1.1 = skeleton m ∧ o_params s'.1.2 = o_params o.
Proof.
  intros H. unfold Combinados.train_batch in H.
  assert (runs batch_event (o_params o) (parameters m) w w) as Hr0 by reflexivity.
  apply bind_inv in H as [(e & H & ->)|(w1 & images & H1 & H)];
    [raised H @to_device_inv Hr0|].
  apply to_device_inv in H1 as [(? & _ & ?)|(bk1 & -> & [= ->])]; [done|].
  assert (runs batch_event (o_params o) (parameters m) w
            (emit EvTo (set_backend bk1 w))) as Hr1.
  { apply (runs_step _ _ _ w w _ [EvTo]); [done|done|done|by repeat constructor|reflexivity]. }
  clear Hr0.
  apply bind_inv in H as [(e & H & ->)|(w2 & labels & H2 & H)];
    [raised H @to_device_inv Hr1|].
  apply to_device_inv in H2 as [(? & _ & ?)|(bk2 & -> & [= ->])]; [done|].
  apply (runs_emit _ _ _ _ _ EvTo I) in Hr1.
  change (emit EvTo (emit EvTo (set_backend bk1 w))) with
    (emit EvTo (emit EvTo (set_backend bk1 w))) in Hr1.
  match type of H with
  | context [emit EvTo (set_backend bk2 ?x)] =>
      assert (runs batch_event (o_params o) (parameters m) w
                (emit EvTo (set_backend bk2 x))) as Hr2 by exact Hr1
  end.
  clear Hr1.
  apply bind_inv in H as [(e & H & ->)|(w3 & [] & H3 & H)].
  { unfold optimizer_zero_grad in H. done. }
  unfold optimizer_zero_grad in H3. injection H3 as <-.
  match type of H with
  | _ (emit EvZeroGrad (set_heap ?h ?x)) = _ =>
      assert (runs batch_event (o_params o) (parameters m) w
                (emit EvZeroGrad (set_heap h x))) as Hr3
  end.
  { eapply (runs_step _ _ _ w _ _ [EvZeroGrad]);
      [exact Hr2|done|done|by repeat constructor|apply zero_grad_touches]. }
  clear Hr2.
  apply bind_inv in H as [(e & H & ->)|(w4 & [outputs m4] & H4 & H)];
    [raised H call_model_inv Hr3|].
  apply call_model_inv in H4 as [(? & _ & ?)|(y & bufs & bk3 & Hf & -> & [= -> ->])]; [done|].
  apply bind_inv in H as [(e & H & ->)|(w5 & loss & H5 & H)].
  { apply call_criterion_inv in H as [(? & -> & _)|(? & _ & _ & ?)]; [|done].
    split; [|done]. by apply runs_emit. }
  apply call_criterion_inv in H5 as [(? & _ & ?)|(l & Hc & -> & [= ->])]; [done|].
  match type of H with
  | _ ?x = _ => assert (runs batch_event (o_params o) (parameters m) w x) as Hr5
  end.
  { do 2 (apply runs_emit; [exact I|]). exact Hr3. }
  clear Hr3.
  apply bind_inv in H as [(e & H & ->)|(w6 & [] & H6 & H)];
    [raised H loss_backward_inv Hr5|].
  apply loss_backward_inv in H6 as [(? & _ & ?)|(g & -> & _)]; [done|].
  match type of H with
  | _ ?x = _ => assert (runs batch_event (o_params o) (parameters m) w x) as Hr6
  end.
  { eapply (runs_step _ _ _ w _ _ [EvBackward l]);
      [exact Hr5|done|done|by repeat constructor|].
    simpl. destruct (grad_enabled w); [apply backward_touches|reflexivity]. }
  clear Hr5.
  apply bind_inv in H as [(e & H & ->)|(w7 & o7 & H7 & H)];
    [raised H optimizer_step_inv Hr6|].
  apply optimizer_step_inv in H7 as [(? & _ & ?)|(st & -> & [= ->])]; [done|].
  match type of H with
  | _ ?x = _ => assert (runs batch_event (o_params o) (parameters m) w x) as Hr7
  end.
  { eapply (runs_step _ _ _ w _ _ [EvStep]);
      [exact Hr6|done|done|by repeat constructor|apply adam_touches]. }
  clear Hr6.
  apply bind_inv in H as [(e & H & ->)|(w8 & v & H8 & H)].
  { unfold loss_item in H. done. }
  unfold loss_item in H8. injection H8 as <- <-. injection H as <- <-.
  split; [by apply runs_emit|]. by intros ? [= <-].
Qed.

(** A validation batch: what it returns and the world it leaves, when it
    goes through; the world is as before but for the log and the hidden state
    of the framework, whatever happens. *)
Lemma val_batch_Ok c b m vl yt yp w w' s' :
  Combinados.val_batch c b (m, vl, yt, yp) w = (w', Ok s') →
  ∃ y l bufs,
    c y (b_labels b) = inr l ∧
    (∃ bk bk', t_forward m (heap w) (b_images b) bk = inr (y, bufs, bk')) ∧
    log w' = log w ++ [EvTo; EvTo; EvForward (b_images b) y;
                       EvCriterion y (b_labels b) l; EvItem l (t_item l);
                       EvMax y (t_max1 y)] ∧
    s' = (set_buffers bufs m, f_add vl (t_item l), yt ++ b_labels b, yp ++ t_max1 y).
Proof.
  intros H. unfold Combinados.val_batch in H.
  apply bind_Ok_inv in H as (w1 & images & H1 & H).
  apply to_device_inv in H1 as [(? & _ & ?)|(bk1 & -> & [= ->])]; [done|].
  apply bind_Ok_inv in H as (w2 & labels & H2 & H).
  apply to_device_inv in H2 as [(? & _ & ?)|(bk2 & -> & [= ->])]; [done|].
  apply bind_Ok_inv in H as (w4 & [outputs m4] & H4 & H).
  apply call_model_inv in H4 as [(? & _ & ?)|(y & bufs & bk3 & Hf & -> & [= -> ->])]; [done|].
  apply bind_Ok_inv in H as (w5 & loss & H5 & H).
  apply call_criterion_inv in H5 as [(? & _ & ?)|(l & Hc & -> & [= ->])]; [done|].
  apply bind_Ok_inv in H as (w8 & v & H8 & H).
  unfold loss_item in H8. injection H8 as <- <-.
  apply bind_Ok_inv in H as (w9 & preds & H9 & H).
  unfold torch_max1 in H9. injection H9 as <- <-. injection H as <- <-.
  exists y, l, bufs. simpl in *. split_and!; [done|eauto|by rewrite <-!app_assoc|done].
Qed.

Lemma vgg_val_batch_Ok c b m vl correct total w w' s' :
  Vgg19.val_batch c b (m, vl, correct, total) w = (w', Ok s') →
  ∃ y l bufs,
    c y (b_labels b) = inr l ∧
    (∃ bk bk', t_forward m (heap w) (b_images b) bk = inr (y, bufs, bk')) ∧
    log w' = log w ++ [EvTo; EvTo; EvForward (b_images b) y;
                       EvCriterion y (b_labels b) l; EvItem l (t_item l);
                       EvMax y (t_max1 y)] ∧
    s' = (set_buffers bufs m, f_add vl (t_item l),
          (correct + count_eq (t_max1 y) (b_labels b))%Z,
          (total + Z.of_nat (length (b_labels b)))%Z).
Proof.
  intros H. unfold Vgg19.val_batch in H.
  apply bind_Ok_inv in H as (w1 & images & H1 & H).
  apply to_device_inv in H1 as [(? & _ & ?)|(bk1 & -> & [= ->])]; [done|].
  apply bind_Ok_inv in H as (w2 & labels & H2 & H).
  apply to_device_inv in H2 as [(? & _ & ?)|(bk2 & -> & [= ->])]; [done|].
  apply bind_Ok_inv in H as (w4 & [outputs m4] & H4 & H).
  apply call_model_inv in H4 as [(? & _ & ?)|(y & bufs & bk3 & Hf & -> & [= -> ->])]; [done|].
  apply bind_Ok_inv in H as (w5 & loss & H5 & H).
  apply call_criterion_inv in H5 as [(? & _ & ?)|(l & Hc & -> & [= ->])]; [done|].
  apply bind_Ok_inv in H as (w8 & v & H8 & H).
  unfold loss_item in H8. injection H8 as <- <-.
  apply bind_Ok_inv in H as (w9 & preds & H9 & H).
  unfold torch_max1 in H9. injection H9 as <- <-. injection H as <- <-.
  exists y, l, bufs. simpl in *. split_and!; [done|eauto|by rewrite <-!app_assoc|done].
Qed.

(** The calls of a validation batch leave the files and the store alone. *)
Lemma val_batch_quiet P ps mp :
  (∀ ev, batch_event ev → P ev) →
  (∀ A (x : A), preserves (runs P ps mp) (to_device x)) ∧
  (∀ m x, preserves (runs P ps mp) (call_model m x)) ∧
  (∀ c o t, preserves (runs P ps mp) (call_criterion c o t)) ∧
  (∀ l, preserves (runs P ps mp) (loss_item l)) ∧
  (∀ o, preserves (runs P ps mp) (torch_max1 o)).
Proof.
  intros HP. split_and!; intros; apply quiet_runs.
  - apply quiet_to_device. by apply HP.
  - apply quiet_call_model. intros. by apply HP.
  - apply quiet_call_criterion. intros. by apply HP.
  - apply quiet_loss_item. intros. by apply HP.
  - apply quiet_torch_max1. intros. by apply HP.
Qed.

(** Whatever happens to a validation batch, the files and the store are as
    before and the log gets batch events only. *)
Lemma val_batch_runs ps mp c b s w w' r :
  Combinados.val_batch c b s w = (w', r) →
  runs batch_event ps mp w w' ∧
  ∀ s', r = Ok s' → skeleton s'.1.1.1 = skeleton s.1.1.1.
Proof.
  destruct s as [[[m vl] yt] yp]. intros H. split.
  - revert w w' r H. change (preserves (runs batch_event ps mp)
      (Combinados.val_batch c b (m, vl, yt, yp))).
    destruct (val_batch_quiet batch_event ps mp (λ _ H, H)) as (Hto & Hm & Hc & Hi & Hx).
    unfold Combinados.val_batch.
    apply preserves_bind; [apply _|apply Hto|intros images].
    apply preserves_bind; [apply _|apply Hto|intros labels].
    apply preserves_bind; [apply _|apply Hm|intros [outputs m4]].
    apply preserves_bind; [apply _|apply Hc|intros loss].
    apply preserves_bind; [apply _|apply Hi|intros v].
    apply preserves_bind; [apply _|apply Hx|intros preds].
    apply preserves_mret, _.
  - intros s' ->. by apply val_batch_Ok in H as (y & l & bufs & _ & _ & _ & ->).
Qed.

Lemma vgg_train_batch_eq : @Vgg19.train_batch = @Combinados.train_batch.
Proof. reflexivity. Qed.

Lemma vgg_val_batch_runs ps mp c b s w w' r :
  Vgg19.val_batch c b s w = (w', r) →
  runs batch_event ps mp w w' ∧
  ∀ s', r = Ok s' → skeleton s'.1.1.1 = skeleton s.1.1.1.
Proof.
  destruct s as [[[m vl] yt] yp]. intros H. split.
  - revert w w' r H. change (preserves (runs batch_event ps mp)
      (Vgg19.val_batch c b (m, vl, yt, yp))).
    destruct (val_batch_quiet batch_event ps mp (λ _ H, H)) as (Hto & Hm & Hc & Hi & Hx).
    unfold Vgg19.val_batch.
    apply preserves_bind; [apply _|apply Hto|intros images].
    apply preserves_bind; [apply _|apply Hto|intros labels].
    apply preserves_bind; [apply _|apply Hm|intros [outputs m4]].
    apply preserves_bind; [apply _|apply Hc|intros loss].
    apply preserves_bind; [apply _|apply Hi|intros v].
    apply preserves_bind; [apply _|apply Hx|intros preds].
    apply preserves_mret, _.
  - intros s' ->. by apply vgg_val_batch_Ok in H as (y & l & bufs & _ & _ & _ & ->).
Qed.

End Batch.

(** ** One pass over a loader *)

Section Pass.
Context `{TH : Torch}.

Lemma calls_app l1 l2 : calls (l1 ++ l2) = calls l1 ++ calls l2.
Proof. apply fmap_app. Qed.

Lemma items_app l1 l2 : items (l1 ++ l2) = items l1 ++ items l2.
Proof. apply omap_app. Qed.

Lemma iters_app l1 l2 : iters (l1 ++ l2) = iters l1 ++ iters l2.
Proof. apply omap_app. Qed.

Lemma seen_labels_app l1 l2 : seen_labels (l1 ++ l2) = seen_labels l1 ++ seen_labels l2.
Proof. apply bind_app. Qed.

Lemma seen_preds_app l1 l2 : seen_preds (l1 ++ l2) = seen_preds l1 ++ seen_preds l2.
Proof. apply bind_app. Qed.

Lemma batch_event_iters new : Forall batch_event new → iters new = [].
Proof.
  induction 1 as [|ev new Hev _ IH]; [done|]. destruct ev; try done.
Qed.

(** The loop over the batches of a training pass that goes through. *)
Lemma train_loop_Ok c bs m o rl w w' s' :
  foldM (Combinados.train_batch c) bs (m, o, rl) w = (w', Ok s') →
  ∃ new, log w' = log w ++ new ∧
    calls new = concat (replicate (length bs) Combinados.train_batch_calls) ∧
    s'.2 = fold_left f_add (items new) rl ∧
    length (items new) = length bs.
Proof.
  revert m o rl w. induction bs as [|b bs IH]; intros m o rl w H.
  - injection H as <- <-. exists []. by rewrite app_nil_r.
  - rewrite foldM_cons in H. apply bind_Ok_inv in H as (w1 & [[m1 o1] rl1] & H1 & H).
    apply train_batch_Ok in H1 as (y & l & _ & Hl1 & Hrl). simpl in Hrl. subst rl1.
    apply IH in H as (new & Hl & Hc & Hs & Hn).
    eexists. split; [rewrite Hl, Hl1, <-app_assoc; reflexivity|].
    rewrite calls_app, items_app, Hc. simpl. rewrite Hn. done.
Qed.

(** The loop over the batches of a validation pass that goes through. *)
Lemma val_loop_Ok c bs m vl yt yp w w' s' :
  foldM (Combinados.val_batch c) bs (m, vl, yt, yp) w = (w', Ok s') →
  ∃ new, log w' = log w ++ new ∧
    calls new = concat (replicate (length bs) Combinados.val_batch_calls) ∧
    s'.1.1.2 = fold_left f_add (items new) vl ∧
    length (items new) = length bs ∧
    s'.1.2 = yt ++ seen_labels new ∧
    s'.2 = yp ++ seen_preds new ∧
    seen_labels new = concat (b_labels <$> bs) ∧
    ((∀ b m h bk0 y bufs bk', b ∈ bs →
        t_forward m h (b_images b) bk0 = inr (y, bufs, bk') →
        length (t_max1 y) = length (b_labels b)) →
     length (seen_preds new) = length (seen_labels new)).
Proof.
  revert m vl yt yp w. induction bs as [|b bs IH]; intros m vl yt yp w H.
  - injection H as <- <-. exists []. simpl. by rewrite !app_nil_r.
  - rewrite foldM_cons in H.
    apply bind_Ok_inv in H as (w1 & [[[m1 vl1] yt1] yp1] & H1 & H).
    apply val_batch_Ok in H1 as (y & l & bufs & _ & (bk & bk' & Hf) & Hl1 & [= -> -> -> ->]).
    apply IH in H as (new & Hl & Hc & Hs & Hn & Hyt & Hyp & Hsl & Hlen).
    eexists. split; [rewrite Hl, Hl1, <-app_assoc; reflexivity|].
    rewrite calls_app, items_app, seen_labels_app, seen_preds_app, Hc, Hsl.
    simpl. rewrite !app_nil_r, Hn, Hs, Hyt, Hyp, Hsl, <-!app_assoc.
    split_and!; try done.
    intros Hm. rewrite !length_app. f_equal.
    + eapply Hm; [apply list_elem_of_here|done].
    + rewrite Hlen, Hsl; [done|]. intros. eapply Hm; [by apply list_elem_of_further|done].
Qed.

Lemma vgg_val_loop_Ok c bs m vl correct total w w' s' :
  foldM (Vgg19.val_batch c) bs (m, vl, correct, total) w = (w', Ok s') →
  ∃ new, log w' = log w ++ new ∧
    calls new = concat (replicate (length bs) Vgg19.val_batch_calls) ∧
    s'.1.1.2 = fold_left f_add (items new) vl ∧
    length (items new) = length bs ∧
    s'.2 = (total + Z.of_nat (length (concat (b_labels <$> bs))))%Z.
Proof.
  revert m vl correct total w. induction bs as [|b bs IH]; intros m vl correct total w H.
  - injection H as <- <-. exists []. simpl. rewrite !app_nil_r. split_and!; try done. by rewrite Z.add_0_r.
  - rewrite foldM_cons in H.
    apply bind_Ok_inv in H as (w1 & [[[m1 vl1] c1] t1] & H1 & H).
    apply vgg_val_batch_Ok in H1 as (y & l & bufs & _ & _ & Hl1 & [= -> -> -> ->]).
    apply IH in H as (new & Hl & Hc & Hs & Hn & Htot).
    eexists. split; [rewrite Hl, Hl1, <-app_assoc; reflexivity|].
    rewrite calls_app, items_app, Hc. simpl. rewrite Hn, Hs, Htot, length_app.
    split_and!; try done. unfold fmap. lia.
Qed.

End Pass.

(** ** One epoch *)

Section Epoch.
Context `{TH : Torch}.

(** The function and the outcomes agree. *)
Lemma epoch_body_outcome tl vl c E ep s w w' r :
  Combinados.epoch_body tl vl c E ep s w = (w', r) ↔
  Combinados.epoch_outcome tl vl c E ep s w w' r.
Proof.
  unfold Combinados.epoch_body. split.
  - intros H. rewrite (bind_run _ _ _ (emit EvTrain w) (set_training true (Combinados.v_model s)))
      in H by done.
    apply bind_inv in H as [(e & H & ->)|(w2 & tr & Htr & H)];
      [by apply Combinados.epoch_train_raises|].
    destruct tr as [[m2 o2] rl] eqn:Etr.
    apply bind_inv in H as [(e & H & ->)|(w2' & train_loss & Hd & H)].
    { unfold truediv_float_int in H. case_decide; [|done]. injection H as <- <-.
      eapply Combinados.epoch_train_div; [done|lia]. }
    unfold truediv_float_int in Hd. case_decide as Hz; [done|]. injection Hd as <- <-.
    rewrite (bind_run _ _ _ (emit EvEval w2) (set_training false m2)) in H by done.
    apply bind_inv in H as [(e & H & ->)|(w4 & va & Hva & H)].
    { eapply Combinados.epoch_val_raises; [done|lia|done]. }
    destruct va as [[[m4 vloss] yt] yp] eqn:Eva.
    apply bind_inv in H as [(e & H & ->)|(w4' & val_loss & Hd & H)].
    { unfold truediv_float_int in H. case_decide; [|done]. injection H as <- <-.
      eapply Combinados.epoch_val_div; [done|lia|done|lia]. }
    unfold truediv_float_int in Hd. case_decide as Hz'; [done|]. injection Hd as <- <-.
    apply bind_inv in H as [(e & H & ->)|(w5 & a & Ha & H)].
    { unfold accuracy_score, lib_pure in H.
      destruct (sk_accuracy_score yt yp) as [e'|a] eqn:Ha; [|done].
      injection H as <- <-.
      eapply (Combinados.epoch_accuracy_raises _ _ _ _ _ _ _ _ _ _ (m4, vloss, yt, yp));
        [done|lia|done|lia|done]. }
    unfold accuracy_score, lib_pure in Ha.
    destruct (sk_accuracy_score yt yp) as [e'|a'] eqn:Ha'; [done|].
    injection Ha as <- <-.
    unfold print in H. monad. injection H as <- <-.
    eapply (Combinados.epoch_returns _ _ _ _ _ _ _ _ (m2, o2, rl) _ (m4, vloss, yt, yp));
      [done|lia|done|lia|done].
  - intros H.
    rewrite (bind_run _ _ _ (emit EvTrain w) (set_training true (Combinados.v_model s))) by done.
    destruct H as [w' e H|w2 tr H Hz|w2 tr w' e H Hz Hv|w2 tr w4 va H Hz Hv Hz'
                  |w2 tr w4 va e H Hz Hv Hz' Ha|w2 tr w4 va a H Hz Hv Hz' Ha].
    + by rewrite (bind_run_raise _ _ _ _ _ H).
    + rewrite (bind_run _ _ _ _ _ H). destruct tr as [[m2 o2] rl].
      unfold truediv_float_int. rewrite Hz. done.
    + rewrite (bind_run _ _ _ _ _ H). destruct tr as [[m2 o2] rl].
      rewrite (bind_run _ _ _ w2 (f_div rl (f_of_int (Z.of_nat (dl_len tl))))).
      2:{ unfold truediv_float_int. case_decide; [lia|done]. }
      rewrite (bind_run _ _ _ (emit EvEval w2) (set_training false m2)) by done.
      by rewrite (bind_run_raise _ _ _ _ _ Hv).
    + rewrite (bind_run _ _ _ _ _ H). destruct tr as [[m2 o2] rl].
      rewrite (bind_run _ _ _ w2 (f_div rl (f_of_int (Z.of_nat (dl_len tl))))).
      2:{ unfold truediv_float_int. case_decide; [lia|done]. }
      rewrite (bind_run _ _ _ (emit EvEval w2) (set_training false m2)) by done.
      rewrite (bind_run _ _ _ _ _ Hv). destruct va as [[[m4 vloss] yt] yp].
      unfold truediv_float_int. rewrite Hz'. done.
    + rewrite (bind_run _ _ _ _ _ H). destruct tr as [[m2 o2] rl].
      rewrite (bind_run _ _ _ w2 (f_div rl (f_of_int (Z.of_nat (dl_len tl))))).
      2:{ unfold truediv_float_int. case_decide; [lia|done]. }
      rewrite (bind_run _ _ _ (emit EvEval w2) (set_training false m2)) by done.
      rewrite (bind_run _ _ _ _ _ Hv). destruct va as [[[m4 vloss] yt] yp].
      rewrite (bind_run _ _ _ w4 (f_div vloss (f_of_int (Z.of_nat (dl_len vl))))).
      2:{ unfold truediv_float_int. case_decide; [lia|done]. }
      simpl in Ha. apply bind_run_raise. unfold accuracy_score, lib_pure. by rewrite Ha.
    + rewrite (bind_run _ _ _ _ _ H). destruct tr as [[m2 o2] rl].
      rewrite (bind_run _ _ _ w2 (f_div rl (f_of_int (Z.of_nat (dl_len tl))))).
      2:{ unfold truediv_float_int. case_decide; [lia|done]. }
      rewrite (bind_run _ _ _ (emit EvEval w2) (set_training false m2)) by done.
      rewrite (bind_run _ _ _ _ _ Hv). destruct va as [[[m4 vloss] yt] yp].
      rewrite (bind_run _ _ _ w4 (f_div vloss (f_of_int (Z.of_nat (dl_len vl))))).
      2:{ unfold truediv_float_int. case_decide; [lia|done]. }
      simpl in Ha.
      rewrite (bind_run _ _ _ (emit (EvAccuracyScore yt yp a) w4) a).
      2:{ unfold accuracy_score, lib_pure. by rewrite Ha. }
      done.
Qed.

Lemma vgg_epoch_body_outcome tl vl c E ep s w w' r :
  Vgg19.epoch_body tl vl c E ep s w = (w', r) ↔
  Vgg19.epoch_outcome tl vl c E ep s w w' r.
Proof.
  unfold Vgg19.epoch_body. split.
  - intros H. rewrite (bind_run _ _ _ (emit EvTrain w) (set_training true (Vgg19.g_model s)))
      in H by done.
    apply bind_inv in H as [(e & H & ->)|(w2 & tr & Htr & H)];
      [by apply Vgg19.epoch_train_raises|].
    destruct tr as [[m2 o2] rl] eqn:Etr.
    apply bind_inv in H as [(e & H & ->)|(w2' & train_loss & Hd & H)].
    { unfold truediv_float_int in H. case_decide; [|done]. injection H as <- <-.
      eapply Vgg19.epoch_train_div; [done|lia]. }
    unfold truediv_float_int in Hd. case_decide as Hz; [done|]. injection Hd as <- <-.
    rewrite (bind_run _ _ _ (emit EvEval w2) (set_training false m2)) in H by done.
    apply bind_inv in H as [(e & H & ->)|(w4 & va & Hva & H)].
    { eapply Vgg19.epoch_val_raises; [done|lia|done]. }
    destruct va as [[[m4 vloss] correct] total] eqn:Eva.
    apply bind_inv in H as [(e & H & ->)|(w4' & val_loss & Hd & H)].
    { unfold truediv_float_int in H. case_decide; [|done]. injection H as <- <-.
      eapply Vgg19.epoch_val_div; [done|lia|done|lia]. }
    unfold truediv_float_int in Hd. case_decide as Hz'; [done|]. injection Hd as <- <-.
    apply bind_inv in H as [(e & H & ->)|(w5 & a & Ha & H)].
    { unfold truediv_int_int in H. case_decide as Ht; [|done]. injection H as <- <-.
      eapply (Vgg19.epoch_total_div _ _ _ _ _ _ _ _ _ _ (m4, vloss, correct, total));
        [done|lia|done|lia|done]. }
    unfold truediv_int_int in Ha. case_decide as Ht; [done|]. injection Ha as <- <-.
    unfold print in H. monad. injection H as <- <-.
    eapply (Vgg19.epoch_returns _ _ _ _ _ _ _ _ (m2, o2, rl) _ (m4, vloss, correct, total));
      [done|lia|done|lia|done].
  - intros H.
    rewrite (bind_run _ _ _ (emit EvTrain w) (set_training true (Vgg19.g_model s))) by done.
    destruct H as [w' e H|w2 tr H Hz|w2 tr w' e H Hz Hv|w2 tr w4 va H Hz Hv Hz'
                  |w2 tr w4 va H Hz Hv Hz' Ha|w2 tr w4 va H Hz Hv Hz' Ha].
    + by rewrite (bind_run_raise _ _ _ _ _ H).
    + rewrite (bind_run _ _ _ _ _ H). destruct tr as [[m2 o2] rl].
      unfold truediv_float_int. rewrite Hz. done.
    + rewrite (bind_run _ _ _ _ _ H). destruct tr as [[m2 o2] rl].
      rewrite (bind_run _ _ _ w2 (f_div rl (f_of_int (Z.of_nat (dl_len tl))))).
      2:{ unfold truediv_float_int. case_decide; [lia|done]. }
      rewrite (bind_run _ _ _ (emit EvEval w2) (set_training false m2)) by done.
      by rewrite (bind_run_raise _ _ _ _ _ Hv).
    + rewrite (bind_run _ _ _ _ _ H). destruct tr as [[m2 o2] rl].
      rewrite (bind_run _ _ _ w2 (f_div rl (f_of_int (Z.of_nat (dl_len tl))))).
      2:{ unfold truediv_float_int. case_decide; [lia|done]. }
      rewrite (bind_run _ _ _ (emit EvEval w2) (set_training false m2)) by done.
      rewrite (bind_run _ _ _ _ _ Hv). destruct va as [[[m4 vloss] correct] total].
      unfold truediv_float_int. rewrite Hz'. done.
    + rewrite (bind_run _ _ _ _ _ H). destruct tr as [[m2 o2] rl].
      rewrite (bind_run _ _ _ w2 (f_div rl (f_of_int (Z.of_nat (dl_len tl))))).
      2:{ unfold truediv_float_int. case_decide; [lia|done]. }
      rewrite (bind_run _ _ _ (emit EvEval w2) (set_training false m2)) by done.
      rewrite (bind_run _ _ _ _ _ Hv). destruct va as [[[m4 vloss] correct] total].
      rewrite (bind_run _ _ _ w4 (f_div vloss (f_of_int (Z.of_nat (dl_len vl))))).
      2:{ unfold truediv_float_int. case_decide; [lia|done]. }
      simpl in Ha. apply bind_run_raise. unfold truediv_int_int. by rewrite decide_True.
    + rewrite (bind_run _ _ _ _ _ H). destruct tr as [[m2 o2] rl].
      rewrite (bind_run _ _ _ w2 (f_div rl (f_of_int (Z.of_nat (dl_len tl))))).
      2:{ unfold truediv_float_int. case_decide; [lia|done]. }
      rewrite (bind_run _ _ _ (emit EvEval w2) (set_training false m2)) by done.
      rewrite (bind_run _ _ _ _ _ Hv). destruct va as [[[m4 vloss] correct] total].
      rewrite (bind_run _ _ _ w4 (f_div vloss (f_of_int (Z.of_nat (dl_len vl))))).
      2:{ unfold truediv_float_int. case_decide; [lia|done]. }
      simpl in Ha.
      rewrite (bind_run _ _ _ w4 (f_int_div (100 * correct) total)).
      2:{ unfold truediv_int_int. by rewrite decide_False. }
      done.
Qed.

End Epoch.

(** ** The two passes of an epoch *)

Section Passes.
Context `{TH : Torch}.

Lemma vgg_train_pass_eq : @Vgg19.train_pass = @Combinados.train_pass.
Proof. reflexivity. Qed.

(** A training pass that goes through: after the loader is asked for its
    batches, each batch makes its eight calls, and [running_loss] is the sum
    of the values of [loss.item()]. *)
Lemma train_pass_Ok tl c m o w w' s' :
  Combinados.train_pass tl c m o w = (w', Ok s') →
  ∃ new, log w' = log w ++ EvIter "train_loader" :: new ∧
    calls new = concat (replicate (length (dl_iter tl (backend_st w)).1)
                                  Combinados.train_batch_calls) ∧
    s'.2 = f_sum (items new) ∧
    length (items new) = length (dl_iter tl (backend_st w)).1.
Proof.
  unfold Combinados.train_pass. intros (w1 & bs & H1 & H)%bind_Ok_inv.
  unfold iterate in H1. injection H1 as <- <-.
  apply train_loop_Ok in H as (new & Hl & Hc & Hs & Hn). simpl in Hl.
  exists new. by rewrite Hl, <-app_assoc.
Qed.

(** Any training pass: no file is written, the store changes at the
    optimizer's parameters and at the model's that require grad, and the log
    gets the pass over the loader and batch events. *)
Lemma train_pass_all tl c m o w w' r :
  Combinados.train_pass tl c m o w = (w', r) →
  files w' = files w ∧ touches (o_params o) (parameters m) w w' ∧
  (∃ new, log w' = log w ++ EvIter "train_loader" :: new ∧ Forall batch_event new) ∧
  ∀ s', r = Ok s' → skeleton s'.1.1 = skeleton m ∧ o_params s'.1.2 = o_params o.
Proof.
  unfold Combinados.train_pass.
  intros H. rewrite (bind_run _ _ _
    (emit (EvIter "train_loader") (set_backend (dl_iter tl (backend_st w)).2 w))
    (dl_iter tl (backend_st w)).1) in H by done.
  apply (foldM_invariant
    (λ s, skeleton s.1.1 = skeleton m ∧ o_params s.1.2 = o_params o)
    (runs batch_event (o_params o) (parameters m))) in H as [(Hf & Hl & Ht) HI].
  - split_and!; [done|done| |done].
    destruct Hl as (new & Hl & HF). simpl in Hl. exists new. by rewrite Hl, <-app_assoc.
  - intros b [[m1 o1] rl1] w1 w1' r1 [Hm Ho] Hb. simpl in Hm, Ho.
    apply train_batch_runs in Hb as [Hr HI].
    rewrite (parameters_skeleton _ _ Hm), Ho in Hr. split; [done|].
    intros s1 Hs1. destruct (HI _ Hs1). split; congruence.
  - done.
Qed.

Lemma touches_nil_eq w w' : touches [] [] w w' → heap w' = heap w.
Proof.
  intros H. apply map_eq. intros l.
  destruct (H l) as [?|(p & p' & _ & _ & _ & [Hin|[Hin _]])]; [done| |];
    by apply elem_of_nil in Hin.
Qed.

(** The batches of a validation pass, whatever its outcome. *)
Lemma val_loop_all c bs s w w' r :
  foldM (Combinados.val_batch c) bs s w = (w', r) →
  files w' = files w ∧ heap w' = heap w ∧
  (∃ new, log w' = log w ++ new ∧ Forall batch_event new) ∧
  ∀ s', r = Ok s' → skeleton s'.1.1.1 = skeleton s.1.1.1.
Proof.
  intros H.
  apply (foldM_invariant (λ s1, skeleton s1.1.1.1 = skeleton s.1.1.1)
    (runs batch_event [] [])) in H as [(Hf & Hl & Ht) HI]; [|clear H|done].
  - split_and!; [done|by apply touches_nil_eq|done|done].
  - intros b s1 w1 w1' r1 Hs1 Hb.
    apply (val_batch_runs [] []) in Hb as [Hr HI]. split; [done|].
    intros s2 Hs2. rewrite (HI _ Hs2). done.
Qed.

Lemma vgg_val_loop_all c bs s w w' r :
  foldM (Vgg19.val_batch c) bs s w = (w', r) →
  files w' = files w ∧ heap w' = heap w ∧
  (∃ new, log w' = log w ++ new ∧ Forall batch_event new) ∧
  ∀ s', r = Ok s' → skeleton s'.1.1.1 = skeleton s.1.1.1.
Proof.
  intros H.
  apply (foldM_invariant (λ s1, skeleton s1.1.1.1 = skeleton s.1.1.1)
    (runs batch_event [] [])) in H as [(Hf & Hl & Ht) HI]; [|clear H|done].
  - split_and!; [done|by apply touches_nil_eq|done|done].
  - intros b s1 w1 w1' r1 Hs1 Hb.
    apply (vgg_val_batch_runs [] []) in Hb as [Hr HI]. split; [done|].
    intros s2 Hs2. rewrite (HI _ Hs2). done.
Qed.

(** Any validation pass: the files and the store are as before (it is run
    without gradients and without the optimizer), grad mode is restored. *)
Lemma val_pass_all vl c m w w' r :
  Combinados.val_pass vl c m w = (w', r) →
  files w' = files w ∧ heap w' = heap w ∧ grad_enabled w' = grad_enabled w ∧
  (∃ new, log w' = log w ++ EvIter "val_loader" :: new ∧ Forall batch_event new) ∧
  ∀ s', r = Ok s' → skeleton s'.1.1.1 = skeleton m.
Proof.
  unfold Combinados.val_pass, no_grad. intros H.
  rewrite (bind_run _ _ _
    (emit (EvIter "val_loader")
       (set_backend (dl_iter vl (backend_st w)).2 (set_grad_enabled false w)))
    (dl_iter vl (backend_st w)).1) in H by done.
  match type of H with (_ (?x).1, _) = _ => destruct x as [w1 r1] eqn:Hx end.
  simpl in H. injection H as <- <-.
  apply val_loop_all in Hx as (Hf & Hh & (new & Hl & HF) & HI). simpl in *.
  split_and!; [done|done|done| |done].
  exists new. by rewrite Hl, <-app_assoc.
Qed.

Lemma vgg_val_pass_all vl c m w w' r :
  Vgg19.val_pass vl c m w = (w', r) →
  files w' = files w ∧ heap w' = heap w ∧ grad_enabled w' = grad_enabled w ∧
  (∃ new, log w' = log w ++ EvIter "val_loader" :: new ∧ Forall batch_event new) ∧
  ∀ s', r = Ok s' → skeleton s'.1.1.1 = skeleton m.
Proof.
  unfold Vgg19.val_pass, no_grad. intros H.
  rewrite (bind_run _ _ _
    (emit (EvIter "val_loader")
       (set_backend (dl_iter vl (backend_st w)).2 (set_grad_enabled false w)))
    (dl_iter vl (backend_st w)).1) in H by done.
  match type of H with (_ (?x).1, _) = _ => destruct x as [w1 r1] eqn:Hx end.
  simpl in H. injection H as <- <-.
  apply vgg_val_loop_all in Hx as (Hf & Hh & (new & Hl & HF) & HI). simpl in *.
  split_and!; [done|done|done| |done].
  exists new. by rewrite Hl, <-app_assoc.
Qed.

(** A validation pass that goes through: [val_loss] is the sum of the values
    of [loss.item()], [y_true] the labels of the batches in the order of the
    pass, [y_pred] the predictions taken. *)
Lemma val_pass_Ok vl c m w w' s' :
  Combinados.val_pass vl c m w = (w', Ok s') →
  ∃ new, log w' = log w ++ EvIter "val_loader" :: new ∧
    calls new = concat (replicate (length (dl_iter vl (backend_st w)).1)
                                  Combinados.val_batch_calls) ∧
    s'.1.1.2 = f_sum (items new) ∧
    length (items new) = length (dl_iter vl (backend_st w)).1 ∧
    s'.1.2 = seen_labels new ∧ s'.2 = seen_preds new ∧
    seen_labels new = concat (b_labels <$> (dl_iter vl (backend_st w)).1) ∧
    (preds_match vl → length (seen_preds new) = length (seen_labels new)).
Proof.
  unfold Combinados.val_pass, no_grad. intros H.
  rewrite (bind_run _ _ _
    (emit (EvIter "val_loader")
       (set_backend (dl_iter vl (backend_st w)).2 (set_grad_enabled false w)))
    (dl_iter vl (backend_st w)).1) in H by done.
  match type of H with (_ (?x).1, _) = _ => destruct x as [w1 r1] eqn:Hx end.
  simpl in H. injection H as <- ->.
  apply val_loop_Ok in Hx as (new & Hl & Hc & Hs & Hn & Hyt & Hyp & Hsl & Hlen).
  simpl in *. exists new. rewrite Hl, <-app_assoc.
  split_and!; try done. intros Hm. apply Hlen. intros. by eapply Hm.
Qed.

Lemma vgg_val_pass_Ok vl c m w w' s' :
  Vgg19.val_pass vl c m w = (w', Ok s') →
  ∃ new, log w' = log w ++ EvIter "val_loader" :: new ∧
    calls new = concat (replicate (length (dl_iter vl (backend_st w)).1)
                                  Vgg19.val_batch_calls) ∧
    s'.1.1.2 = f_sum (items new) ∧
    length (items new) = length (dl_iter vl (backend_st w)).1 ∧
    s'.2 = Z.of_nat (length (concat (b_labels <$> (dl_iter vl (backend_st w)).1))).
Proof.
  unfold Vgg19.val_pass, no_grad. intros H.
  rewrite (bind_run _ _ _
    (emit (EvIter "val_loader")
       (set_backend (dl_iter vl (backend_st w)).2 (set_grad_enabled false w)))
    (dl_iter vl (backend_st w)).1) in H by done.
  match type of H with (_ (?x).1, _) = _ => destruct x as [w1 r1] eqn:Hx end.
  simpl in H. injection H as <- ->.
  apply vgg_val_loop_Ok in Hx as (new & Hl & Hc & Hs & Hn & Htot).
  simpl in *. exists new. rewrite Hl, <-app_assoc. split_and!; done.
Qed.

End Passes.

(** ** Consequences for one epoch *)

Section EpochFacts.
Context `{TH : Torch}.

Lemma batch_training_event ev : batch_event ev → training_event ev.
Proof. by destruct ev. Qed.

Lemma runs_pass ps mp w w1 w2 ev new :
  training_event ev → runs training_event ps mp w w1 →
  files w2 = files w1 → touches ps mp w1 w2 →
  log w2 = log w1 ++ ev :: new → Forall batch_event new →
  runs training_event ps mp w w2.
Proof.
  intros Hev Hr Hf Ht Hl HF. etrans; [done|]. split_and!; [done| |done].
  exists (ev :: new). split; [done|]. constructor; [done|].
  eapply Forall_impl; [|exact HF]. apply batch_training_event.
Qed.

Lemma touches_heap_eq ps mp w w' : heap w' = heap w → touches ps mp w w'.
Proof. intros H. unfold touches. by rewrite H. Qed.

(** Any epoch: no file is written, the log gets training events, the store
    changes at the optimizer's parameters and the model's that require grad. *)
Lemma epoch_all tl vl c E ep s w w' r :
  Combinados.epoch_body tl vl c E ep s w = (w', r) →
  runs training_event (o_params (Combinados.v_optimizer s))
       (parameters (Combinados.v_model s)) w w' ∧
  ∀ s', r = Ok s' →
    skeleton (Combinados.v_model s') = skeleton (Combinados.v_model s) ∧
    o_params (Combinados.v_optimizer s') = o_params (Combinados.v_optimizer s).
Proof.
  intros H%epoch_body_outcome.
  remember (o_params (Combinados.v_optimizer s)) as ps eqn:Eps.
  remember (parameters (Combinados.v_model s)) as mp eqn:Emp.
  assert (runs training_event ps mp w (emit EvTrain w)) as H0.
  { apply runs_emit; [exact I|reflexivity]. }
  assert (∀ w2 r2, Combinados.train_pass tl c (set_training true (Combinados.v_model s))
            (Combinados.v_optimizer s) (emit EvTrain w) = (w2, r2) →
          runs training_event ps mp w w2 ∧
          ∀ tr, r2 = Ok tr → skeleton tr.1.1 = skeleton (Combinados.v_model s) ∧ o_params tr.1.2 = ps)
    as Htrain.
  { intros w2 r2 (Hf & Ht & (new & Hl & HF) & HI)%train_pass_all.
    rewrite parameters_set_training, skeleton_set_training, <-?Eps, <-?Emp in *.
    split; [|done].
    by apply (runs_pass ps mp w (emit EvTrain w) w2 (EvIter "train_loader") new I). }
  assert (∀ w2 m2 w4 r4, runs training_event ps mp w w2 →
            Combinados.val_pass vl c m2 (emit EvEval w2) = (w4, r4) →
            runs training_event ps mp w w4 ∧
            ∀ va, r4 = Ok va → skeleton va.1.1.1 = skeleton m2) as Hval.
  { intros w2 m2 w4 r4 Hr (Hf & Hh & _ & (new & Hl & HF) & HI)%val_pass_all.
    split; [|done].
    apply (runs_pass ps mp w (emit EvEval w2) w4 (EvIter "val_loader") new I);
      [|done| |done|done].
    - by apply runs_emit.
    - by apply touches_heap_eq. }
  destruct H as [w' e H|w2 tr H Hz|w2 tr w' e H Hz Hv|w2 tr w4 va H Hz Hv Hz'
                |w2 tr w4 va e H Hz Hv Hz' Ha|w2 tr w4 va a H Hz Hv Hz' Ha].
  - by destruct (Htrain _ _ H) as [? _].
  - by destruct (Htrain _ _ H) as [? _].
  - destruct (Htrain _ _ H) as [H1 _]. by destruct (Hval _ _ _ _ H1 Hv) as [? _].
  - destruct (Htrain _ _ H) as [H1 _]. by destruct (Hval _ _ _ _ H1 Hv) as [? _].
  - destruct (Htrain _ _ H) as [H1 _]. by destruct (Hval _ _ _ _ H1 Hv) as [? _].
  - destruct (Htrain _ _ H) as [H1 HI]. destruct (Hval _ _ _ _ H1 Hv) as [Hr HI'].
    split.
    + apply runs_emit; [exact I|]. apply runs_emit; [exact I|done].
    + intros s' [= <-]. simpl. destruct (HI _ eq_refl) as [Hm Ho].
      rewrite (HI' _ eq_refl), skeleton_set_training. subst. done.
Qed.

(** The exceptions of the passes come from library calls. *)
Lemma library_raises_bind {A B} (m : M A) (f : A → M B) :
  library_raises m → (∀ a, library_raises (f a)) → library_raises (m ≫= f).
Proof.
  intros Hm Hf w w' e [(e' & H & [= <-])|(w1 & a & _ & H)]%bind_inv.
  - by eapply Hm.
  - by eapply Hf.
Qed.

Lemma library_raises_to_device {A} (x : A) : library_raises (to_device x).
Proof. intros w w' e [(le & _ & [= ->])|(? & _ & ?)]%to_device_inv; eauto; done. Qed.

Lemma library_raises_call_model m x : library_raises (call_model m x).
Proof.
  intros w w' e [(le & _ & [= ->])|(? & ? & ? & _ & _ & ?)]%call_model_inv; eauto; done.
Qed.

Lemma library_raises_call_criterion c o t : library_raises (call_criterion c o t).
Proof.
  intros w w' e [(le & _ & [= ->])|(? & _ & _ & ?)]%call_criterion_inv; eauto; done.
Qed.

Lemma library_raises_loss_backward l : library_raises (loss_backward l).
Proof.
  intros w w' e [(le & _ & [= ->])|(? & _ & ?)]%loss_backward_inv; eauto; done.
Qed.

Lemma library_raises_optimizer_step o : library_raises (optimizer_step o).
Proof.
  intros w w' e [(le & _ & [= ->])|(? & _ & ?)]%optimizer_step_inv; eauto; done.
Qed.

Lemma train_batch_raises c b s w w' e :
  Combinados.train_batch c b s w = (w', Raise e) → ∃ le, e = LibraryError le.
Proof.
  destruct s as [[m o] rl]. revert w w' e.
  change (library_raises (Combinados.train_batch c b (m, o, rl))).
  unfold Combinados.train_batch.
  apply library_raises_bind; [apply library_raises_to_device|intros images].
  apply library_raises_bind; [apply library_raises_to_device|intros labels].
  apply library_raises_bind; [by intros ???|intros []].
  apply library_raises_bind; [apply library_raises_call_model|intros [outputs m4]].
  apply library_raises_bind; [apply library_raises_call_criterion|intros loss].
  apply library_raises_bind; [apply library_raises_loss_backward|intros []].
  apply library_raises_bind; [apply library_raises_optimizer_step|intros o7].
  apply library_raises_bind; [by intros ???|intros v]. by intros ???.
Qed.

Lemma val_batch_raises c b s w w' e :
  Combinados.val_batch c b s w = (w', Raise e) → ∃ le, e = LibraryError le.
Proof.
  destruct s as [[[m vl] yt] yp]. revert w w' e.
  change (library_raises (Combinados.val_batch c b (m, vl, yt, yp))).
  unfold Combinados.val_batch.
  apply library_raises_bind; [apply library_raises_to_device|intros images].
  apply library_raises_bind; [apply library_raises_to_device|intros labels].
  apply library_raises_bind; [apply library_raises_call_model|intros [outputs m4]].
  apply library_raises_bind; [apply library_raises_call_criterion|intros loss].
  apply library_raises_bind; [by intros ???|intros v].
  apply library_raises_bind; [by intros ???|intros preds]. by intros ???.
Qed.

Lemma vgg_val_batch_raises c b s w w' e :
  Vgg19.val_batch c b s w = (w', Raise e) → ∃ le, e = LibraryError le.
Proof.
  destruct s as [[[m vl] yt] yp]. revert w w' e.
  change (library_raises (Vgg19.val_batch c b (m, vl, yt, yp))).
  unfold Vgg19.val_batch.
  apply library_raises_bind; [apply library_raises_to_device|intros images].
  apply library_raises_bind; [apply library_raises_to_device|intros labels].
  apply library_raises_bind; [apply library_raises_call_model|intros [outputs m4]].
  apply library_raises_bind; [apply library_raises_call_criterion|intros loss].
  apply library_raises_bind; [by intros ???|intros v].
  apply library_raises_bind; [by intros ???|intros preds]. by intros ???.
Qed.

Lemma train_pass_raises tl c m o w w' e :
  Combinados.train_pass tl c m o w = (w', Raise e) → ∃ le, e = LibraryError le.
Proof.
  unfold Combinados.train_pass. intros [(e' & H & _)|(w1 & bs & _ & H)]%bind_inv; [done|].
  apply foldM_raise_inv in H as (? & b & ? & w2 & s2 & _ & _ & H).
  by eapply train_batch_raises.
Qed.

Lemma val_pass_raises vl c m w w' e :
  Combinados.val_pass vl c m w = (w', Raise e) → ∃ le, e = LibraryError le.
Proof.
  unfold Combinados.val_pass, no_grad. intros H.
  match type of H with (_ (?x).1, _) = _ => destruct x as [w1 r1] eqn:Hx end.
  simpl in H. injection H as <- ->.
  apply bind_inv in Hx as [(e' & H & _)|(w2 & bs & _ & H)]; [done|].
  apply foldM_raise_inv in H as (? & b & ? & w3 & s3 & _ & _ & H).
  by eapply val_batch_raises.
Qed.

Lemma vgg_val_pass_raises vl c m w w' e :
  Vgg19.val_pass vl c m w = (w', Raise e) → ∃ le, e = LibraryError le.
Proof.
  unfold Vgg19.val_pass, no_grad. intros H.
  match type of H with (_ (?x).1, _) = _ => destruct x as [w1 r1] eqn:Hx end.
  simpl in H. injection H as <- ->.
  apply bind_inv in Hx as [(e' & H & _)|(w2 & bs & _ & H)]; [done|].
  apply foldM_raise_inv in H as (? & b & ? & w3 & s3 & _ & _ & H).
  by eapply vgg_val_batch_raises.
Qed.

(** An epoch that goes through, with loaders whose length is right. *)
Lemma epoch_Ok tl vl c E ep s w w' s' :
  dl_wf tl → dl_wf vl →
  Combinados.epoch_body tl vl c E ep s w = (w', Ok s') →
  ∃ t v, log w' = log w ++ t ++ v ∧ Combinados.epoch_ok tl vl (t, v) ∧
    Combinados.v_train_losses s' =
      Combinados.v_train_losses s ++ [mean_loss t (dl_len tl)] ∧
    Combinados.v_val_losses s' =
      Combinados.v_val_losses s ++ [mean_loss v (dl_len vl)] ∧
    length (Combinados.v_val_accuracies s') = S (length (Combinados.v_val_accuracies s)) ∧
    Combinados.v_y_true s' = Some (seen_labels v) ∧
    Combinados.v_y_pred s' = Some (seen_preds v).
Proof.
  intros Wt Wv H%epoch_body_outcome. inversion H as [| | | | |w2 tr w4 va a Ht Hz Hv Hz' Ha];
    subst; clear H.
  repeat match goal with x := _ |- _ => subst x end.
  apply train_pass_Ok in Ht as (nt & Hlt & Hct & Hst & Hnt). simpl in *.
  apply val_pass_Ok in Hv as (nv & Hlv & Hcv & Hsv & Hnv & Hyt & Hyp & Hsl & Hlen).
  simpl in *. rewrite Wt in Hct, Hnt. rewrite Wv in Hcv, Hnv.
  exists (EvTrain :: EvIter "train_loader" :: nt),
         (EvEval :: EvIter "val_loader" :: nv ++
          [EvAccuracyScore va.1.2 va.2 a;
           EvPrint (EpochLine (ep + 1) E
             (f_div tr.2 (f_of_int (Z.of_nat (dl_len tl))))
             (f_div va.1.1.2 (f_of_int (Z.of_nat (dl_len vl)))) a)]).
  split_and!.
  - rewrite Hlv, Hlt. simpl. rewrite <-?app_assoc. simpl. rewrite <-?app_assoc. done.
  - unfold Combinados.epoch_ok, Combinados.train_part_calls, Combinados.val_part_calls.
    simpl. rewrite calls_app, items_app, seen_labels_app, seen_preds_app, Hct, Hcv.
    simpl. rewrite !app_nil_r. split_and!; try done. eauto.
  - unfold mean_loss. simpl. by rewrite Hst.
  - unfold mean_loss. simpl. rewrite items_app. simpl. rewrite app_nil_r. by rewrite Hsv.
  - rewrite length_app. simpl. lia.
  - simpl. rewrite seen_labels_app. simpl. rewrite app_nil_r. by rewrite Hyt.
  - simpl. rewrite seen_preds_app. simpl. rewrite app_nil_r. by rewrite Hyp.
Qed.

End EpochFacts.

(** ** The loop over the epochs *)

Section Epochs.
Context `{TH : Torch}.

Lemma epochs_all tl vl c E es s w w' r :
  foldM (Combinados.epoch_body tl vl c E) es s w = (w', r) →
  runs training_event (o_params (Combinados.v_optimizer s))
       (parameters (Combinados.v_model s)) w w' ∧
  ∀ s', r = Ok s' →
    skeleton (Combinados.v_model s') = skeleton (Combinados.v_model s) ∧
    o_params (Combinados.v_optimizer s') = o_params (Combinados.v_optimizer s).
Proof.
  intros H.
  apply (foldM_invariant
    (λ s1, skeleton (Combinados.v_model s1) = skeleton (Combinados.v_model s) ∧
           o_params (Combinados.v_optimizer s1) = o_params (Combinados.v_optimizer s))
    (runs training_event (o_params (Combinados.v_optimizer s))
       (parameters (Combinados.v_model s)))) in H; [done| |done].
  intros ep s1 w1 w1' r1 [Hm Ho] [Hr HI]%epoch_all.
  rewrite (parameters_skeleton _ _ Hm), Ho in Hr.
  split; [done|]. intros s2 Hs2. destruct (HI _ Hs2). split; congruence.
Qed.

(** The epochs of a loop that goes through, one entry per epoch: the log of
    its training part and the log of its validation part. *)
Lemma epochs_Ok tl vl c E es s w w' s' :
  dl_wf tl → dl_wf vl →
  foldM (Combinados.epoch_body tl vl c E) es s w = (w', Ok s') →
  ∃ els : list (list event * list event),
    length els = length es ∧
    log w' = log w ++ concat ((λ tv, tv.1 ++ tv.2) <$> els) ∧
    Forall (Combinados.epoch_ok tl vl) els ∧
    Combinados.v_train_losses s' =
      Combinados.v_train_losses s ++ ((λ tv, mean_loss tv.1 (dl_len tl)) <$> els) ∧
    Combinados.v_val_losses s' =
      Combinados.v_val_losses s ++ ((λ tv, mean_loss tv.2 (dl_len vl)) <$> els) ∧
    length (Combinados.v_val_accuracies s') =
      length (Combinados.v_val_accuracies s) + length es ∧
    match list.last els with
    | Some tv => Combinados.v_y_true s' = Some (seen_labels tv.2) ∧
                 Combinados.v_y_pred s' = Some (seen_preds tv.2)
    | None => Combinados.v_y_true s' = Combinados.v_y_true s ∧
              Combinados.v_y_pred s' = Combinados.v_y_pred s
    end.
Proof.
  intros Wt Wv. revert s w. induction es as [|ep es IH]; intros s w H.
  - injection H as <- <-. exists []. simpl. rewrite !app_nil_r.
    split_and!; try done.
  - rewrite foldM_cons in H. apply bind_Ok_inv in H as (w1 & s1 & H1 & H).
    apply epoch_Ok in H1 as (t & v & Hl1 & Hok & Htl & Hvl & Hacc & Hyt & Hyp); [|done..].
    apply IH in H as (els & Hn & Hl & HF & Htl' & Hvl' & Hacc' & Hlast).
    exists ((t, v) :: els). simpl. split_and!.
    + by rewrite Hn.
    + rewrite Hl, Hl1, <-!app_assoc. done.
    + by constructor.
    + rewrite Htl', Htl, <-app_assoc. done.
    + rewrite Hvl', Hvl, <-app_assoc. done.
    + rewrite Hacc', Hacc. lia.
    + destruct els as [|tv els].
      * simpl in *. destruct Hlast as [-> ->]. done.
      * rewrite last_cons_cons. destruct (list.last (tv :: els)) eqn:El; [done|].
        by apply last_None in El.
Qed.

Lemma training_event_iters_batch new : Forall batch_event new → iters new = [].
Proof. apply batch_event_iters. Qed.

(** The passes of one epoch over the loaders, whatever its outcome: first the
    training loader, then, unless the epoch ended before, the validation
    loader; both when the epoch goes through. *)
Lemma epoch_iters tl vl c E ep s w w' r :
  Combinados.epoch_body tl vl c E ep s w = (w', r) →
  ∃ new, log w' = log w ++ new ∧
    (iters new = ["train_loader"] ∨ iters new = ["train_loader"; "val_loader"]) ∧
    (∀ s', r = Ok s' → iters new = ["train_loader"; "val_loader"]).
Proof.
  intros H%epoch_body_outcome.
  assert (∀ w2 r2 m o, Combinados.train_pass tl c m o (emit EvTrain w) = (w2, r2) →
      ∃ new, log w2 = log w ++ new ∧ iters new = ["train_loader"]) as Htrain.
  { intros w2 r2 m o (_ & _ & (new & Hl & HF) & _)%train_pass_all.
    exists (EvTrain :: EvIter "train_loader" :: new). simpl in Hl.
    rewrite Hl, <-app_assoc. split; [done|].
    change (iters (EvTrain :: EvIter "train_loader" :: new))
      with ("train_loader" :: iters new). by rewrite batch_event_iters. }
  assert (∀ w2 w4 r4 m n2, log w2 = log w ++ n2 → iters n2 = ["train_loader"] →
      Combinados.val_pass vl c m (emit EvEval w2) = (w4, r4) →
      ∃ new, log w4 = log w ++ new ∧ iters new = ["train_loader"; "val_loader"]) as Hval.
  { intros w2 w4 r4 m n2 Hl2 Hi2 (_ & _ & _ & (new & Hl & HF) & _)%val_pass_all.
    exists (n2 ++ EvEval :: EvIter "val_loader" :: new). simpl in Hl.
    rewrite Hl, Hl2, <-!app_assoc. split; [done|].
    rewrite iters_app, Hi2.
    change (iters (EvEval :: EvIter "val_loader" :: new))
      with ("val_loader" :: iters new). by rewrite batch_event_iters. }
  destruct H as [w' e H|w2 tr H Hz|w2 tr w' e H Hz Hv|w2 tr w4 va H Hz Hv Hz'
                |w2 tr w4 va e H Hz Hv Hz' Ha|w2 tr w4 va a H Hz Hv Hz' Ha].
  - destruct (Htrain _ _ _ _ H) as (new & ? & ?). exists new.
    split_and!; [done|by left|done].
  - destruct (Htrain _ _ _ _ H) as (new & ? & ?). exists new.
    split_and!; [done|by left|done].
  - destruct (Htrain _ _ _ _ H) as (n2 & Hl2 & Hi2).
    destruct (Hval _ _ _ _ _ Hl2 Hi2 Hv) as (new & ? & ?). exists new.
    split_and!; [done|by right|done].
  - destruct (Htrain _ _ _ _ H) as (n2 & Hl2 & Hi2).
    destruct (Hval _ _ _ _ _ Hl2 Hi2 Hv) as (new & ? & ?). exists new.
    split_and!; [done|by right|done].
  - destruct (Htrain _ _ _ _ H) as (n2 & Hl2 & Hi2).
    destruct (Hval _ _ _ _ _ Hl2 Hi2 Hv) as (new & ? & ?). exists new.
    split_and!; [done|by right|done].
  - destruct (Htrain _ _ _ _ H) as (n2 & Hl2 & Hi2).
    destruct (Hval _ _ _ _ _ Hl2 Hi2 Hv) as (new & Hl & Hi).
    eexists (new ++ [_; _]). simpl. rewrite Hl, <-!app_assoc.
    split; [done|]. rewrite iters_app, Hi. split; [by right|done].
Qed.

Lemma epochs_iters tl vl c E es s w w' r :
  foldM (Combinados.epoch_body tl vl c E) es s w = (w', r) →
  ∃ new, log w' = log w ++ new ∧
    iters new `prefix_of` alternation (length es) ∧
    (∀ s', r = Ok s' → iters new = alternation (length es)).
Proof.
  revert s w. induction es as [|ep es IH]; intros s w H.
  - injection H as <- <-. exists []. rewrite app_nil_r. done.
  - rewrite foldM_cons in H.
    apply bind_inv in H as [(e & H & ->)|(w1 & s1 & H1 & H)].
    + apply epoch_iters in H as (new & Hl & Hi & _). exists new. split; [done|].
      split; [|done]. unfold alternation. simpl.
      destruct Hi as [-> | ->].
      * by exists ("val_loader" :: concat (replicate (length es) ["train_loader"; "val_loader"])).
      * by exists (concat (replicate (length es) ["train_loader"; "val_loader"])).
    + apply epoch_iters in H1 as (n1 & Hl1 & _ & Hi1). specialize (Hi1 _ eq_refl).
      apply IH in H as (n2 & Hl2 & Hp & Hi2).
      exists (n1 ++ n2). rewrite Hl2, Hl1, <-app_assoc, iters_app, Hi1.
      split; [done|]. unfold alternation. simpl. split.
      * by apply (prefix_app ["train_loader"; "val_loader"]).
      * intros s' Hs'. by rewrite (Hi2 _ Hs').
Qed.

End Epochs.

(** ** [entrenar_modelo] *)

Section Entrenar.
Context `{TH : Torch}.

Lemma range_length n : length (range n) = Z.to_nat n.
Proof. unfold range. by rewrite length_fmap, length_seq. Qed.

Lemma range_nonpos n : (n ≤ 0)%Z → range n = [].
Proof. intros H. unfold range. by replace (Z.to_nat n) with 0 by lia. Qed.

Lemma range_pos n : (0 < n)%Z → ∃ es, range n = 0%Z :: es.
Proof.
  intros H. unfold range. destruct (Z.to_nat n) as [|k] eqn:E; [lia|]. simpl. eauto.
Qed.

(** The function is: move the model, run the loop, return. *)
Lemma entrenar_modelo_inv m tl vl o c E nombre w w' r :
  Combinados.entrenar_modelo m tl vl o c E nombre w = (w', r) →
  (∃ le, t_to_device (backend_st w) = inl le ∧ w' = w ∧ r = Raise (LibraryError le)) ∨
  (∃ bk r1, t_to_device (backend_st w) = inr bk ∧
     foldM (Combinados.epoch_body tl vl c E) (range E) (Combinados.locals0 m o)
       (emit EvTo (set_backend bk w)) = (w', r1) ∧
     r = match r1 with
         | Ok s => Combinados.retorno s
         | Raise e => Raise e
         end).
Proof.
  unfold Combinados.entrenar_modelo. intros H.
  apply bind_inv in H as [(e & H & ->)|(w1 & m1 & H1 & H)].
  { left. unfold to_device, lib_call in H.
    destruct (t_to_device (backend_st w)) as [le|bk]; [|done].
    injection H as <- <-. eauto. }
  right. unfold to_device, lib_call in H1.
  destruct (t_to_device (backend_st w)) as [le|bk]; [done|]. injection H1 as <- <-.
  exists bk. apply bind_inv in H as [(e & H & ->)|(w2 & s & H2 & H)].
  { exists (Raise e). done. }
  exists (Ok s). split; [done|]. split.
  - unfold Combinados.locals0. 
    apply bind_inv in H as [(e & H & ->)|(w3 & yt & H3 & H)].
    { unfold load_local in H. destruct (Combinados.v_y_true s); [done|].
      injection H as <- <-. done. }
    unfold load_local in H3. destruct (Combinados.v_y_true s) as [yt'|] eqn:Eyt; [|done].
    injection H3 as <- <-.
    apply bind_inv in H as [(e & H & ->)|(w4 & yp & H4 & H)].
    { unfold load_local in H. destruct (Combinados.v_y_pred s); [done|].
      injection H as <- <-. done. }
    unfold load_local in H4. destruct (Combinados.v_y_pred s) as [yp'|] eqn:Eyp; [|done].
    injection H4 as <- <-. injection H as <- <-. done.
  - unfold Combinados.retorno.
    apply bind_inv in H as [(e & H & ->)|(w3 & yt & H3 & H)].
    { unfold load_local in H. destruct (Combinados.v_y_true s); [done|].
      by injection H as <- <-. }
    unfold load_local in H3. destruct (Combinados.v_y_true s) as [yt'|] eqn:Eyt; [|done].
    injection H3 as <- <-.
    apply bind_inv in H as [(e & H & ->)|(w4 & yp & H4 & H)].
    { unfold load_local in H. destruct (Combinados.v_y_pred s); [done|].
      by injection H as <- <-. }
    unfold load_local in H4. destruct (Combinados.v_y_pred s) as [yp'|] eqn:Eyp; [|done].
    injection H4 as <- <-. by injection H as <- <-.
Qed.

Lemma entrenar_modelo_run m tl vl o c E nombre w bk w' r1 :
  t_to_device (backend_st w) = inr bk →
  foldM (Combinados.epoch_body tl vl c E) (range E) (Combinados.locals0 m o)
    (emit EvTo (set_backend bk w)) = (w', r1) →
  Combinados.entrenar_modelo m tl vl o c E nombre w =
    (w', match r1 with
         | Ok s => Combinados.retorno s
         | Raise e => Raise e
         end).
Proof.
  intros Hto H. unfold Combinados.entrenar_modelo.
  rewrite (bind_run _ _ _ (emit EvTo (set_backend bk w)) m).
  2:{ unfold to_device, lib_call. by rewrite Hto. }
  destruct r1 as [s|e].
  - rewrite (bind_run _ _ _ _ _ H). unfold Combinados.retorno, load_local.
    destruct (Combinados.v_y_true s), (Combinados.v_y_pred s); done.
  - by rewrite (bind_run_raise _ _ _ _ _ H).
Qed.

(** Any run of [entrenar_modelo]: no file is written, the log gets training
    events, and the store changes at the optimizer's parameters and at the
    model's parameters that require grad only. *)
Lemma entrenar_modelo_all m tl vl o c E nombre w w' r :
  Combinados.entrenar_modelo m tl vl o c E nombre w = (w', r) →
  runs training_event (o_params o) (parameters m) w w' ∧
  ∀ x, r = Ok x → skeleton (Combinados.e_model x) = skeleton m.
Proof.
  intros [(le & _ & -> & ->)|(bk & r1 & _ & H & ->)]%entrenar_modelo_inv.
  { split; [reflexivity|done]. }
  apply epochs_all in H as [Hr HI]. simpl in *. split.
  - etrans; [|exact Hr]. split_and!; [done| |by apply touches_heap_eq].
    exists [EvTo]. split; [done|]. by repeat constructor.
  - intros x Hx. destruct r1 as [s|e]; [|done]. destruct (HI _ eq_refl) as [Hm _].
    unfold Combinados.retorno in Hx.
    destruct (Combinados.v_y_true s), (Combinados.v_y_pred s); simplify_eq/=.
    unfold skeleton. congruence.
Qed.

(** A run of [entrenar_modelo] that returns, with loaders whose length is
    right: one entry per epoch, with the log of its training part and of its
    validation part. *)
Lemma entrenar_modelo_Ok m tl vl o c E nombre w w' x :
  dl_wf tl → dl_wf vl →
  Combinados.entrenar_modelo m tl vl o c E nombre w = (w', Ok x) →
  ∃ els : list (list event * list event),
    length els = Z.to_nat E ∧
    new_log w w' = EvTo :: concat ((λ tv, tv.1 ++ tv.2) <$> els) ∧
    Forall (Combinados.epoch_ok tl vl) els ∧
    Combinados.e_train_losses x = (λ tv, mean_loss tv.1 (dl_len tl)) <$> els ∧
    Combinados.e_val_losses x = (λ tv, mean_loss tv.2 (dl_len vl)) <$> els ∧
    length (Combinados.e_val_accuracies x) = Z.to_nat E ∧
    ∃ tv, list.last els = Some tv ∧
      Combinados.e_y_true x = seen_labels tv.2 ∧
      Combinados.e_y_pred x = seen_preds tv.2.
Proof.
  intros Wt Wv [(le & _ & _ & ?)|(bk & r1 & _ & H & Hr)]%entrenar_modelo_inv; [done|].
  destruct r1 as [s|e]; [|done].
  apply epochs_Ok in H as (els & Hn & Hl & HF & Htl & Hvl & Hacc & Hlast); [|done..].
  rewrite range_length in Hn, Hacc. simpl in *. exists els.
  unfold Combinados.retorno in Hr.
  destruct (Combinados.v_y_true s) as [yt|] eqn:Eyt; [|done].
  destruct (Combinados.v_y_pred s) as [yp|] eqn:Eyp; [|done].
  injection Hr as ->. simpl. split_and!; try done.
  - apply logs_new_log. rewrite Hl, <-app_assoc. done.
  - destruct (list.last els) as [tv|]; [|by destruct Hlast].
    exists tv. destruct Hlast as [[= ->] [= ->]]. done.
Qed.

(** The calls of such a run. *)
Lemma epoch_ok_calls tl vl els :
  Forall (Combinados.epoch_ok tl vl) els →
  calls (concat ((λ tv, tv.1 ++ tv.2) <$> els)) =
  concat (replicate (length els) (Combinados.epoch_calls (dl_len tl) (dl_len vl))).
Proof.
  induction 1 as [|[t v] els (Ht & Hv & _) _ IH]; [done|].
  rewrite fmap_cons. cbn [concat length replicate fst snd] in *.
  rewrite !calls_app, IH, Ht, Hv.
  unfold Combinados.epoch_calls. by rewrite <-!app_assoc.
Qed.

Lemma entrenar_modelo_Ok_calls m tl vl o c E nombre w w' x :
  dl_wf tl → dl_wf vl →
  Combinados.entrenar_modelo m tl vl o c E nombre w = (w', Ok x) →
  calls (new_log w w') =
    Combinados.entrenar_modelo_calls (Z.to_nat E) (dl_len tl) (dl_len vl).
Proof.
  intros Wt Wv (els & Hn & Hl & HF & _)%entrenar_modelo_Ok; [|done..].
  rewrite Hl. unfold Combinados.entrenar_modelo_calls.
  change (calls (EvTo :: ?l)) with ("to" :: calls l).
  by rewrite (epoch_ok_calls tl vl), Hn.
Qed.

(** The passes over the loaders, whatever the outcome. *)
Lemma entrenar_modelo_iters m tl vl o c E nombre w w' r :
  Combinados.entrenar_modelo m tl vl o c E nombre w = (w', r) →
  iters (new_log w w') `prefix_of` alternation (Z.to_nat E) ∧
  ((∃ x, r = Ok x) ∨ (∃ n, r = Raise (UnboundLocalError n)) →
   iters (new_log w w') = alternation (Z.to_nat E)).
Proof.
  intros [(le & _ & -> & ->)|(bk & r1 & _ & H & ->)]%entrenar_modelo_inv.
  { unfold new_log. rewrite drop_all. split; [apply prefix_nil|].
    intros [[x ?]|[n ?]]; done. }
  pose proof H as Hloop.
  apply epochs_iters in H as (new & Hl & Hp & Hi). rewrite range_length in Hp, Hi.
  simpl in Hl.
  rewrite (logs_new_log w w' (EvTo :: new)) by (by rewrite Hl, <-app_assoc).
  change (iters (EvTo :: new)) with (iters new). split; [done|].
  destruct r1 as [s|e]; [by intros _; apply (Hi s)|].
  intros [[x ?]|[n Hn]]; [done|]. injection Hn as ->.
  apply foldM_raise_inv in Hloop as (? & ep & ? & w1 & s1 & _ & _ & Hb).
  apply epoch_body_outcome in Hb.
  inversion Hb as [? ? Ht| | ? ? ? ? Ht ? Hv| | |]; subst.
  - by apply train_pass_raises in Ht as [? ?].
  - by apply val_pass_raises in Hv as [? ?].
Qed.

End Entrenar.

(** ** Where [entrenar_modelo] raises *)

Section Raises.
Context `{TH : Torch}.

(** With no epoch to run, the [return] statement finds [y_true] unbound. *)
Lemma entrenar_modelo_no_epochs m tl vl o c E nombre w bk :
  (E ≤ 0)%Z → t_to_device (backend_st w) = inr bk →
  Combinados.entrenar_modelo m tl vl o c E nombre w =
    (emit EvTo (set_backend bk w), Raise (UnboundLocalError "y_true")).
Proof.
  intros HE Hto.
  rewrite (entrenar_modelo_run m tl vl o c E nombre w bk
             (emit EvTo (set_backend bk w)) (Ok (Combinados.locals0 m o)) Hto); [done|].
  by rewrite range_nonpos.
Qed.

(** An epoch over loaders that are not empty divides by no zero. *)
Lemma epoch_no_zero_division tl vl c E ep s w w' :
  dl_len tl ≠ 0 → dl_len vl ≠ 0 →
  Combinados.epoch_body tl vl c E ep s w ≠ (w', Raise ZeroDivisionError).
Proof.
  intros Ht Hv H%epoch_body_outcome.
  inversion H as [? ? H1| | ? ? ? ? ? ? H1| | |]; subst; try done.
  - by apply train_pass_raises in H1 as [? ?].
  - by apply val_pass_raises in H1 as [? ?].
Qed.

Lemma entrenar_modelo_no_zero_division m tl vl o c E nombre w w' :
  dl_len tl ≠ 0 → dl_len vl ≠ 0 →
  Combinados.entrenar_modelo m tl vl o c E nombre w ≠ (w', Raise ZeroDivisionError).
Proof.
  intros Ht Hv [(le & _ & _ & ?)|(bk & r1 & _ & H & Hr)]%entrenar_modelo_inv; [done|].
  destruct r1 as [s|e].
  - unfold Combinados.retorno in Hr.
    destruct (Combinados.v_y_true s), (Combinados.v_y_pred s); done.
  - injection Hr as <-.
    apply foldM_raise_inv in H as (? & ep & ? & w1 & s1 & _ & _ & Hb).
    by apply (epoch_no_zero_division tl vl c E ep s1 w1 w' Ht Hv).
Qed.

(** The first epoch over an empty training loader divides by zero. *)
Lemma epoch_empty_train tl vl c E ep s w :
  dl_wf tl → dl_len tl = 0 →
  ∃ w', Combinados.epoch_body tl vl c E ep s w = (w', Raise ZeroDivisionError).
Proof.
  intros Wt Hz. eexists. apply epoch_body_outcome.
  eapply Combinados.epoch_train_div; [|done].
  unfold Combinados.train_pass.
  rewrite (bind_run _ _ _
    (emit (EvIter "train_loader")
       (set_backend (dl_iter tl (backend_st (emit EvTrain w))).2 (emit EvTrain w)))
    (dl_iter tl (backend_st (emit EvTrain w))).1) by done.
  specialize (Wt (backend_st (emit EvTrain w))). rewrite Hz in Wt.
  apply nil_length_inv in Wt. rewrite Wt. reflexivity.
Qed.

Lemma entrenar_modelo_empty_train m tl vl o c E nombre w bk :
  (0 < E)%Z → dl_wf tl → dl_len tl = 0 → t_to_device (backend_st w) = inr bk →
  ∃ w', Combinados.entrenar_modelo m tl vl o c E nombre w = (w', Raise ZeroDivisionError).
Proof.
  intros HE Wt Hz Hto. destruct (range_pos E HE) as [es Hes].
  destruct (epoch_empty_train tl vl c E 0 (Combinados.locals0 m o)
              (emit EvTo (set_backend bk w)) Wt Hz) as [w' Hw'].
  exists w'.
  rewrite (entrenar_modelo_run m tl vl o c E nombre w bk w' (Raise ZeroDivisionError) Hto);
    [done|].
  rewrite Hes, foldM_cons. by apply bind_run_raise.
Qed.

(** With an empty validation loader no epoch goes through. *)
Lemma epoch_empty_val tl vl c E ep s w w' r :
  dl_len vl = 0 →
  Combinados.epoch_body tl vl c E ep s w = (w', r) →
  r = Raise ZeroDivisionError ∨ ∃ le, r = Raise (LibraryError le).
Proof.
  intros Hz H%epoch_body_outcome.
  inversion H as [? ? H1| | ? ? ? ? ? ? H1| | |]; subst; try done; try (by left).
  - right. by apply train_pass_raises in H1 as [? ->]; eauto.
  - right. by apply val_pass_raises in H1 as [? ->]; eauto.
Qed.

Lemma entrenar_modelo_empty_val m tl vl o c E nombre w w' r :
  (0 < E)%Z → dl_len vl = 0 →
  Combinados.entrenar_modelo m tl vl o c E nombre w = (w', r) →
  r = Raise ZeroDivisionError ∨ ∃ le, r = Raise (LibraryError le).
Proof.
  intros HE Hz [(le & _ & _ & ->)|(bk & r1 & _ & H & ->)]%entrenar_modelo_inv; [eauto|].
  destruct (range_pos E HE) as [es Hes]. rewrite Hes, foldM_cons in H.
  apply bind_inv in H as [(e & H & ->)|(w1 & s1 & H1 & _)].
  - apply (epoch_empty_val _ _ _ _ _ _ _ _ _ Hz) in H as [?|[le ?]]; simplify_eq; eauto.
  - apply (epoch_empty_val _ _ _ _ _ _ _ _ _ Hz) in H1 as [?|[le ?]]; done.
Qed.

(** After at least one epoch the locals [y_true] and [y_pred] are bound. *)
Lemma entrenar_modelo_not_unbound m tl vl o c E nombre w w' n :
  (0 < E)%Z →
  Combinados.entrenar_modelo m tl vl o c E nombre w ≠ (w', Raise (UnboundLocalError n)).
Proof.
  intros HE [(le & _ & _ & ?)|(bk & r1 & _ & H & Hr)]%entrenar_modelo_inv; [done|].
  destruct r1 as [s|e].
  - destruct (range_pos E HE) as [es Hes]. rewrite Hes in H.
    assert (∀ es s0 w0 w1 s1,
      foldM (Combinados.epoch_body tl vl c E) es s0 w0 = (w1, Ok s1) →
      (es ≠ [] ∨ (is_Some (Combinados.v_y_true s0) ∧ is_Some (Combinados.v_y_pred s0))) →
      is_Some (Combinados.v_y_true s1) ∧ is_Some (Combinados.v_y_pred s1)) as Hb.
    { clear. intros es. induction es as [|ep es IH]; intros s0 w0 w1 s1 H Hs.
      - injection H as <- <-. by destruct Hs.
      - rewrite foldM_cons in H. apply bind_Ok_inv in H as (w2 & s2 & H2 & H).
        eapply IH; [done|]. right. apply epoch_body_outcome in H2.
        inversion H2; subst. simpl. eauto. }
    destruct (Hb _ _ _ _ _ H) as [[yt Hyt] [yp Hyp]]; [by left|].
    unfold Combinados.retorno in Hr. by rewrite Hyt, Hyp in Hr.
  - injection Hr as <-.
    apply foldM_raise_inv in H as (? & ep & ? & w1 & s1 & _ & _ & Hb).
    apply epoch_body_outcome in Hb.
    inversion Hb as [? ? Ht| | ? ? ? ? Ht ? Hv| | |]; subst.
    + by apply train_pass_raises in Ht as [? ?].
    + by apply val_pass_raises in Hv as [? ?].
Qed.

(** An exception in a training batch is the exception of the function: the
    batches and the epochs after it are not run. *)
Lemma entrenar_modelo_train_batch_raises m tl vl o c E nombre w bk
    es1 ep es2 w1 s1 bs1 b bs2 w2 st w3 e :
  t_to_device (backend_st w) = inr bk →
  range E = es1 ++ ep :: es2 →
  foldM (Combinados.epoch_body tl vl c E) es1 (Combinados.locals0 m o)
    (emit EvTo (set_backend bk w)) = (w1, Ok s1) →
  (dl_iter tl (backend_st w1)).1 = bs1 ++ b :: bs2 →
  foldM (Combinados.train_batch c) bs1
    (set_training true (Combinados.v_model s1), Combinados.v_optimizer s1, f_zero)
    (emit (EvIter "train_loader")
       (set_backend (dl_iter tl (backend_st w1)).2 (emit EvTrain w1))) = (w2, Ok st) →
  Combinados.train_batch c b st w2 = (w3, Raise e) →
  Combinados.entrenar_modelo m tl vl o c E nombre w = (w3, Raise e).
Proof.
  intros Hto Hes H1 Hbs H2 H3.
  rewrite (entrenar_modelo_run m tl vl o c E nombre w bk w3 (Raise e) Hto); [done|].
  rewrite Hes. eapply foldM_raise; [done|]. apply epoch_body_outcome.
  apply Combinados.epoch_train_raises. unfold Combinados.train_pass.
  rewrite (bind_run _ _ _
    (emit (EvIter "train_loader")
       (set_backend (dl_iter tl (backend_st w1)).2 (emit EvTrain w1)))
    (dl_iter tl (backend_st w1)).1) by done.
  rewrite Hbs. by eapply foldM_raise.
Qed.

(** The same for a validation batch; on the way out [torch.no_grad()]
    restores the grad mode, which is all that differs from the world the
    batch left. *)
Lemma entrenar_modelo_val_batch_raises m tl vl o c E nombre w bk
    es1 ep es2 w1 s1 w2 tr bs1 b bs2 w3 st w4 e :
  t_to_device (backend_st w) = inr bk →
  range E = es1 ++ ep :: es2 →
  foldM (Combinados.epoch_body tl vl c E) es1 (Combinados.locals0 m o)
    (emit EvTo (set_backend bk w)) = (w1, Ok s1) →
  Combinados.train_pass tl c (set_training true (Combinados.v_model s1))
    (Combinados.v_optimizer s1) (emit EvTrain w1) = (w2, Ok tr) →
  dl_len tl ≠ 0 →
  (dl_iter vl (backend_st w2)).1 = bs1 ++ b :: bs2 →
  foldM (Combinados.val_batch c) bs1 (set_training false tr.1.1, f_zero, [], [])
    (emit (EvIter "val_loader")
       (set_backend (dl_iter vl (backend_st w2)).2
          (set_grad_enabled false (emit EvEval w2)))) = (w3, Ok st) →
  Combinados.val_batch c b st w3 = (w4, Raise e) →
  Combinados.entrenar_modelo m tl vl o c E nombre w =
    (set_grad_enabled (grad_enabled w2) w4, Raise e).
Proof.
  intros Hto Hes H1 Htr Hz Hbs H2 H3.
  rewrite (entrenar_modelo_run m tl vl o c E nombre w bk
             (set_grad_enabled (grad_enabled w2) w4) (Raise e) Hto); [done|].
  rewrite Hes. eapply foldM_raise; [done|]. apply epoch_body_outcome.
  eapply Combinados.epoch_val_raises; [done|done|].
  unfold Combinados.val_pass, no_grad.
  rewrite (bind_run _ _ _
    (emit (EvIter "val_loader")
       (set_backend (dl_iter vl (backend_st w2)).2
          (set_grad_enabled false (emit EvEval w2))))
    (dl_iter vl (backend_st w2)).1) by done.
  rewrite Hbs. by rewrite (foldM_raise _ _ _ _ _ _ _ _ _ _ H2 H3).
Qed.

End Raises.

(** ** The loop of Paso 5 of the VGG19 notebook *)

Section VggLoop.
Context `{TH : Torch}.

Lemma vgg_epoch_all tl vl c E ep s w w' r :
  Vgg19.epoch_body tl vl c E ep s w = (w', r) →
  runs training_event (o_params (Vgg19.g_optimizer s))
       (parameters (Vgg19.g_model s)) w w' ∧
  ∀ s', r = Ok s' →
    skeleton (Vgg19.g_model s') = skeleton (Vgg19.g_model s) ∧
    o_params (Vgg19.g_optimizer s') = o_params (Vgg19.g_optimizer s).
Proof.
  intros H%vgg_epoch_body_outcome.
  remember (o_params (Vgg19.g_optimizer s)) as ps eqn:Eps.
  remember (parameters (Vgg19.g_model s)) as mp eqn:Emp.
  assert (runs training_event ps mp w (emit EvTrain w)) as H0.
  { apply runs_emit; [exact I|reflexivity]. }
  assert (∀ w2 r2, Vgg19.train_pass tl c (set_training true (Vgg19.g_model s))
            (Vgg19.g_optimizer s) (emit EvTrain w) = (w2, r2) →
          runs training_event ps mp w w2 ∧
          ∀ tr, r2 = Ok tr → skeleton tr.1.1 = skeleton (Vgg19.g_model s) ∧ o_params tr.1.2 = ps)
    as Htrain.
  { intros w2 r2. rewrite vgg_train_pass_eq.
    intros (Hf & Ht & (new & Hl & HF) & HI)%train_pass_all.
    rewrite parameters_set_training, skeleton_set_training, <-?Eps, <-?Emp in *.
    split; [|done].
    by apply (runs_pass ps mp w (emit EvTrain w) w2 (EvIter "train_loader") new I). }
  assert (∀ w2 m2 w4 r4, runs training_event ps mp w w2 →
            Vgg19.val_pass vl c m2 (emit EvEval w2) = (w4, r4) →
            runs training_event ps mp w w4 ∧
            ∀ va, r4 = Ok va → skeleton va.1.1.1 = skeleton m2) as Hval.
  { intros w2 m2 w4 r4 Hr (Hf & Hh & _ & (new & Hl & HF) & HI)%vgg_val_pass_all.
    split; [|done].
    apply (runs_pass ps mp w (emit EvEval w2) w4 (EvIter "val_loader") new I);
      [|done| |done|done].
    - by apply runs_emit.
    - by apply touches_heap_eq. }
  destruct H as [w' e H|w2 tr H Hz|w2 tr w' e H Hz Hv|w2 tr w4 va H Hz Hv Hz'
                |w2 tr w4 va H Hz Hv Hz' Ha|w2 tr w4 va H Hz Hv Hz' Ha].
  - by destruct (Htrain _ _ H) as [? _].
  - by destruct (Htrain _ _ H) as [? _].
  - destruct (Htrain _ _ H) as [H1 _]. by destruct (Hval _ _ _ _ H1 Hv) as [? _].
  - destruct (Htrain _ _ H) as [H1 _]. by destruct (Hval _ _ _ _ H1 Hv) as [? _].
  - destruct (Htrain _ _ H) as [H1 _]. by destruct (Hval _ _ _ _ H1 Hv) as [? _].
  - destruct (Htrain _ _ H) as [H1 HI]. destruct (Hval _ _ _ _ H1 Hv) as [Hr HI'].
    split.
    + apply runs_emit; [exact I|done].
    + intros s' [= <-]. simpl. destruct (HI _ eq_refl) as [Hm Ho].
      rewrite (HI' _ eq_refl), skeleton_set_training. subst. done.
Qed.

(** Any run of the loop of Paso 5. *)
Lemma paso5_all d m c o E w w' r :
  Vgg19.paso5 d m c o E w = (w', r) →
  runs training_event (o_params o) (parameters m) w w' ∧
  ∀ g, r = Ok g → skeleton (Vgg19.g_model g) = skeleton m.
Proof.
  unfold Vgg19.paso5. intros H.
  apply (foldM_invariant
    (λ s1, skeleton (Vgg19.g_model s1) = skeleton m ∧
           o_params (Vgg19.g_optimizer s1) = o_params o)
    (runs training_event (o_params o) (parameters m))) in H as [Hr HI].
  - split; [done|]. intros g Hg. by destruct (HI _ Hg).
  - intros ep s1 w1 w1' r1 [Hm Ho] [Hr HI]%vgg_epoch_all.
    rewrite (parameters_skeleton _ _ Hm), Ho in Hr.
    split; [done|]. intros s2 Hs2. destruct (HI _ Hs2). split; congruence.
  - done.
Qed.

Lemma vgg_epoch_Ok tl vl c E ep s w w' s' :
  dl_wf tl → dl_wf vl →
  Vgg19.epoch_body tl vl c E ep s w = (w', Ok s') →
  ∃ t v, log w' = log w ++ t ++ v ∧ Vgg19.epoch_ok tl vl (t, v) ∧
    Vgg19.g_train_losses s' = Vgg19.g_train_losses s ++ [mean_loss t (dl_len tl)] ∧
    Vgg19.g_val_losses s' = Vgg19.g_val_losses s ++ [mean_loss v (dl_len vl)].
Proof.
  intros Wt Wv H%vgg_epoch_body_outcome.
  inversion H as [| | | | |w2 tr w4 va Ht Hz Hv Hz' Ha]; subst; clear H.
  repeat match goal with x := _ |- _ => subst x end.
  rewrite vgg_train_pass_eq in Ht.
  apply train_pass_Ok in Ht as (nt & Hlt & Hct & Hst & Hnt). simpl in *.
  apply vgg_val_pass_Ok in Hv as (nv & Hlv & Hcv & Hsv & Hnv & Htot).
  simpl in *. rewrite Wt in Hct, Hnt. rewrite Wv in Hcv, Hnv.
  exists (EvTrain :: EvIter "train_loader" :: nt),
         (EvEval :: EvIter "val_loader" :: nv ++
          [EvPrint (EpochLine (ep + 1) E
             (f_div tr.2 (f_of_int (Z.of_nat (dl_len tl))))
             (f_div va.1.1.2 (f_of_int (Z.of_nat (dl_len vl))))
             (f_int_div (100 * va.1.2) va.2))]).
  split_and!.
  - rewrite Hlv, Hlt. simpl. rewrite <-?app_assoc. simpl. rewrite <-?app_assoc. done.
  - unfold Vgg19.epoch_ok, Vgg19.train_part_calls, Vgg19.val_part_calls.
    simpl. rewrite calls_app, items_app, Hct, Hcv.
    simpl. rewrite !app_nil_r. split_and!; done.
  - unfold mean_loss. simpl. by rewrite Hst.
  - unfold mean_loss. simpl. rewrite items_app. simpl. rewrite app_nil_r. by rewrite Hsv.
Qed.

Lemma vgg_epochs_Ok tl vl c E es s w w' s' :
  dl_wf tl → dl_wf vl →
  foldM (Vgg19.epoch_body tl vl c E) es s w = (w', Ok s') →
  ∃ els : list (list event * list event),
    length els = length es ∧
    log w' = log w ++ concat ((λ tv, tv.1 ++ tv.2) <$> els) ∧
    Forall (Vgg19.epoch_ok tl vl) els ∧
    Vgg19.g_train_losses s' =
      Vgg19.g_train_losses s ++ ((λ tv, mean_loss tv.1 (dl_len tl)) <$> els) ∧
    Vgg19.g_val_losses s' =
      Vgg19.g_val_losses s ++ ((λ tv, mean_loss tv.2 (dl_len vl)) <$> els).
Proof.
  intros Wt Wv. revert s w. induction es as [|ep es IH]; intros s w H.
  - injection H as <- <-. exists []. simpl. rewrite !app_nil_r. done.
  - rewrite foldM_cons in H. apply bind_Ok_inv in H as (w1 & s1 & H1 & H).
    apply vgg_epoch_Ok in H1 as (t & v & Hl1 & Hok & Htl & Hvl); [|done..].
    apply IH in H as (els & Hn & Hl & HF & Htl' & Hvl').
    exists ((t, v) :: els). simpl. split_and!.
    + by rewrite Hn.
    + rewrite Hl, Hl1, <-!app_assoc. done.
    + by constructor.
    + rewrite Htl', Htl, <-app_assoc. done.
    + rewrite Hvl', Hvl, <-app_assoc. done.
Qed.

(** A run of the loop of Paso 5 that completes. *)
Lemma paso5_Ok d m c o E w w' g :
  dl_wf (Vgg19.train_loader d) → dl_wf (Vgg19.val_loader d) →
  Vgg19.paso5 d m c o E w = (w', Ok g) →
  ∃ els : list (list event * list event),
    length els = Z.to_nat E ∧
    new_log w w' = concat ((λ tv, tv.1 ++ tv.2) <$> els) ∧
    Forall (Vgg19.epoch_ok (Vgg19.train_loader d) (Vgg19.val_loader d)) els ∧
    Vgg19.g_train_losses g =
      (λ tv, mean_loss tv.1 (dl_len (Vgg19.train_loader d))) <$> els ∧
    Vgg19.g_val_losses g =
      (λ tv, mean_loss tv.2 (dl_len (Vgg19.val_loader d))) <$> els.
Proof.
  unfold Vgg19.paso5. intros Wt Wv H.
  apply vgg_epochs_Ok in H as (els & Hn & Hl & HF & Htl & Hvl); [|done..].
  rewrite range_length in Hn. exists els. split_and!; try done.
  by apply logs_new_log.
Qed.

Lemma vgg_epoch_ok_calls tl vl els :
  Forall (Vgg19.epoch_ok tl vl) els →
  calls (concat ((λ tv, tv.1 ++ tv.2) <$> els)) =
  concat (replicate (length els) (Vgg19.epoch_calls (dl_len tl) (dl_len vl))).
Proof.
  induction 1 as [|[t v] els (Ht & Hv & _) _ IH]; [done|].
  rewrite fmap_cons. cbn [concat length replicate fst snd] in *.
  rewrite !calls_app, IH, Ht, Hv.
  unfold Vgg19.epoch_calls. by rewrite <-!app_assoc.
Qed.

Lemma paso5_Ok_calls d m c o E w w' g :
  dl_wf (Vgg19.train_loader d) → dl_wf (Vgg19.val_loader d) →
  Vgg19.paso5 d m c o E w = (w', Ok g) →
  calls (new_log w w') =
    Vgg19.paso5_calls (Z.to_nat E) (dl_len (Vgg19.train_loader d))
      (dl_len (Vgg19.val_loader d)).
Proof.
  intros Wt Wv (els & Hn & Hl & HF & _)%paso5_Ok; [|done..].
  rewrite Hl. unfold Vgg19.paso5_calls.
  by rewrite (vgg_epoch_ok_calls (Vgg19.train_loader d) (Vgg19.val_loader d)), Hn.
Qed.

(** Over loaders that are not empty, with labels in the validation set, no
    division of the loop is by zero. *)
Lemma vgg_epoch_no_zero_division tl vl c E ep s w w' :
  dl_len tl ≠ 0 → dl_len vl ≠ 0 → labels_nonempty vl →
  Vgg19.epoch_body tl vl c E ep s w ≠ (w', Raise ZeroDivisionError).
Proof.
  intros Ht Hv Hl H%vgg_epoch_body_outcome.
  inversion H as [? ? H1| | ? ? ? ? ? ? H1| |? ? ? ? ? ? H1 ? Htot|]; subst; try done.
  - rewrite vgg_train_pass_eq in H1. by apply train_pass_raises in H1 as [? ?].
  - by apply vgg_val_pass_raises in H1 as [? ?].
  - apply vgg_val_pass_Ok in H1 as (nv & _ & _ & _ & _ & Hva).
    rewrite Hva in Htot. specialize (Hl (backend_st (emit EvEval w2))).
    destruct (concat _); [done|]. simpl in Htot. lia.
Qed.

Lemma paso5_no_zero_division d m c o E w w' :
  dl_len (Vgg19.train_loader d) ≠ 0 → dl_len (Vgg19.val_loader d) ≠ 0 →
  labels_nonempty (Vgg19.val_loader d) →
  Vgg19.paso5 d m c o E w ≠ (w', Raise ZeroDivisionError).
Proof.
  unfold Vgg19.paso5. intros Ht Hv Hl H.
  apply foldM_raise_inv in H as (? & ep & ? & w1 & s1 & _ & _ & Hb).
  by apply (vgg_epoch_no_zero_division _ _ c E ep s1 w1 w' Ht Hv Hl).
Qed.

Lemma vgg_epoch_empty_train tl vl c E ep s w :
  dl_wf tl → dl_len tl = 0 →
  ∃ w', Vgg19.epoch_body tl vl c E ep s w = (w', Raise ZeroDivisionError).
Proof.
  intros Wt Hz. eexists. apply vgg_epoch_body_outcome.
  eapply Vgg19.epoch_train_div; [|done].
  unfold Vgg19.train_pass.
  rewrite (bind_run _ _ _
    (emit (EvIter "train_loader")
       (set_backend (dl_iter tl (backend_st (emit EvTrain w))).2 (emit EvTrain w)))
    (dl_iter tl (backend_st (emit EvTrain w))).1) by done.
  specialize (Wt (backend_st (emit EvTrain w))). rewrite Hz in Wt.
  apply nil_length_inv in Wt. rewrite Wt. reflexivity.
Qed.

Lemma paso5_empty_train d m c o E w :
  (0 < E)%Z → dl_wf (Vgg19.train_loader d) → dl_len (Vgg19.train_loader d) = 0 →
  ∃ w', Vgg19.paso5 d m c o E w = (w', Raise ZeroDivisionError).
Proof.
  intros HE Wt Hz. destruct (range_pos E HE) as [es Hes].
  destruct (vgg_epoch_empty_train (Vgg19.train_loader d) (Vgg19.val_loader d) c E 0
              (Vgg19.globals0 m o) w Wt Hz) as [w' Hw'].
  exists w'. unfold Vgg19.paso5. rewrite Hes, foldM_cons. by apply bind_run_raise.
Qed.

Lemma vgg_epoch_empty_val tl vl c E ep s w w' r :
  dl_len vl = 0 →
  Vgg19.epoch_body tl vl c E ep s w = (w', r) →
  r = Raise ZeroDivisionError ∨ ∃ le, r = Raise (LibraryError le).
Proof.
  intros Hz H%vgg_epoch_body_outcome.
  inversion H as [? ? H1| | ? ? ? ? ? ? H1| | |]; subst; try done; try (by left).
  - right. rewrite vgg_train_pass_eq in H1.
    by apply train_pass_raises in H1 as [? ->]; eauto.
  - right. by apply vgg_val_pass_raises in H1 as [? ->]; eauto.
Qed.

Lemma paso5_empty_val d m c o E w w' r :
  (0 < E)%Z → dl_len (Vgg19.val_loader d) = 0 →
  Vgg19.paso5 d m c o E w = (w', r) →
  r = Raise ZeroDivisionError ∨ ∃ le, r = Raise (LibraryError le).
Proof.
  unfold Vgg19.paso5. intros HE Hz H.
  destruct (range_pos E HE) as [es Hes]. rewrite Hes, foldM_cons in H.
  apply bind_inv in H as [(e & H & ->)|(w1 & s1 & H1 & _)].
  - apply (vgg_epoch_empty_val _ _ _ _ _ _ _ _ _ Hz) in H as [?|[le ?]]; simplify_eq; eauto.
  - apply (vgg_epoch_empty_val _ _ _ _ _ _ _ _ _ Hz) in H1 as [?|[le ?]]; done.
Qed.

(** The passes over the loaders, as for [entrenar_modelo]. *)
Lemma vgg_epoch_iters tl vl c E ep s w w' r :
  Vgg19.epoch_body tl vl c E ep s w = (w', r) →
  ∃ new, log w' = log w ++ new ∧
    (iters new = ["train_loader"] ∨ iters new = ["train_loader"; "val_loader"]) ∧
    (∀ s', r = Ok s' → iters new = ["train_loader"; "val_loader"]).
Proof.
  intros H%vgg_epoch_body_outcome.
  assert (∀ w2 r2 m o, Vgg19.train_pass tl c m o (emit EvTrain w) = (w2, r2) →
      ∃ new, log w2 = log w ++ new ∧ iters new = ["train_loader"]) as Htrain.
  { intros w2 r2 m o. rewrite vgg_train_pass_eq.
    intros (_ & _ & (new & Hl & HF) & _)%train_pass_all.
    exists (EvTrain :: EvIter "train_loader" :: new). simpl in Hl.
    rewrite Hl, <-app_assoc. split; [done|].
    change (iters (EvTrain :: EvIter "train_loader" :: new))
      with ("train_loader" :: iters new). by rewrite batch_event_iters. }
  assert (∀ w2 w4 r4 m n2, log w2 = log w ++ n2 → iters n2 = ["train_loader"] →
      Vgg19.val_pass vl c m (emit EvEval w2) = (w4, r4) →
      ∃ new, log w4 = log w ++ new ∧ iters new = ["train_loader"; "val_loader"]) as Hval.
  { intros w2 w4 r4 m n2 Hl2 Hi2 (_ & _ & _ & (new & Hl & HF) & _)%vgg_val_pass_all.
    exists (n2 ++ EvEval :: EvIter "val_loader" :: new). simpl in Hl.
    rewrite Hl, Hl2, <-!app_assoc. split; [done|].
    rewrite iters_app, Hi2.
    change (iters (EvEval :: EvIter "val_loader" :: new))
      with ("val_loader" :: iters new). by rewrite batch_event_iters. }
  destruct H as [w' e H|w2 tr H Hz|w2 tr w' e H Hz Hv|w2 tr w4 va H Hz Hv Hz'
                |w2 tr w4 va H Hz Hv Hz' Ha|w2 tr w4 va H Hz Hv Hz' Ha].
  - destruct (Htrain _ _ _ _ H) as (new & ? & ?). exists new.
    split_and!; [done|by left|done].
  - destruct (Htrain _ _ _ _ H) as (new & ? & ?). exists new.
    split_and!; [done|by left|done].
  - destruct (Htrain _ _ _ _ H) as (n2 & Hl2 & Hi2).
    destruct (Hval _ _ _ _ _ Hl2 Hi2 Hv) as (new & ? & ?). exists new.
    split_and!; [done|by right|done].
  - destruct (Htrain _ _ _ _ H) as (n2 & Hl2 & Hi2).
    destruct (Hval _ _ _ _ _ Hl2 Hi2 Hv) as (new & ? & ?). exists new.
    split_and!; [done|by right|done].
  - destruct (Htrain _ _ _ _ H) as (n2 & Hl2 & Hi2).
    destruct (Hval _ _ _ _ _ Hl2 Hi2 Hv) as (new & ? & ?). exists new.
    split_and!; [done|by right|done].
  - destruct (Htrain _ _ _ _ H) as (n2 & Hl2 & Hi2).
    destruct (Hval _ _ _ _ _ Hl2 Hi2 Hv) as (new & Hl & Hi).
    eexists (new ++ [_]). simpl. rewrite Hl, <-!app_assoc.
    split; [done|]. rewrite iters_app, Hi. split; [by right|done].
Qed.

Lemma vgg_epochs_iters tl vl c E es s w w' r :
  foldM (Vgg19.epoch_body tl vl c E) es s w = (w', r) →
  ∃ new, log w' = log w ++ new ∧
    iters new `prefix_of` alternation (length es) ∧
    (∀ s', r = Ok s' → iters new = alternation (length es)).
Proof.
  revert s w. induction es as [|ep es IH]; intros s w H.
  - injection H as <- <-. exists []. rewrite app_nil_r. done.
  - rewrite foldM_cons in H.
    apply bind_inv in H as [(e & H & ->)|(w1 & s1 & H1 & H)].
    + apply vgg_epoch_iters in H as (new & Hl & Hi & _). exists new. split; [done|].
      split; [|done]. unfold alternation. simpl.
      destruct Hi as [-> | ->].
      * by exists ("val_loader" :: concat (replicate (length es) ["train_loader"; "val_loader"])).
      * by exists (concat (replicate (length es) ["train_loader"; "val_loader"])).
    + apply vgg_epoch_iters in H1 as (n1 & Hl1 & _ & Hi1). specialize (Hi1 _ eq_refl).
      apply IH in H as (n2 & Hl2 & Hp & Hi2).
      exists (n1 ++ n2). rewrite Hl2, Hl1, <-app_assoc, iters_app, Hi1.
      split; [done|]. unfold alternation. simpl. split.
      * by apply (prefix_app ["train_loader"; "val_loader"]).
      * intros s' Hs'. by rewrite (Hi2 _ Hs').
Qed.

Lemma paso5_iters d m c o E w w' r :
  Vgg19.paso5 d m c o E w = (w', r) →
  iters (new_log w w') `prefix_of` alternation (Z.to_nat E) ∧
  (∀ g, r = Ok g → iters (new_log w w') = alternation (Z.to_nat E)).
Proof.
  unfold Vgg19.paso5. intros (new & Hl & Hp & Hi)%vgg_epochs_iters.
  rewrite range_length in Hp, Hi. by rewrite (logs_new_log w w' new).
Qed.

End VggLoop.

(** ** Where the exceptions of [entrenar_modelo] come from *)

Section Progress.
Context `{TH : Torch}.













(** The first epoch over an empty training loader divides by zero, after
    one pass over the loader. *)
Lemma epoch_empty_train_log tl vl c E ep s w :
  dl_wf tl → dl_len tl = 0 →
  ∃ w', Combinados.epoch_body tl vl c E ep s w = (w', Raise ZeroDivisionError) ∧
        log w' = log w ++ [EvTrain; EvIter "train_loader"].
Proof.
  intros Wt Hz. eexists. split.
  - apply epoch_body_outcome. eapply Combinados.epoch_train_div; [|done].
    unfold Combinados.train_pass.
    rewrite (bind_run _ _ _
      (emit (EvIter "train_loader")
         (set_backend (dl_iter tl (backend_st (emit EvTrain w))).2 (emit EvTrain w)))
      (dl_iter tl (backend_st (emit EvTrain w))).1) by done.
    specialize (Wt (backend_st (emit EvTrain w))). rewrite Hz in Wt.
    apply nil_length_inv in Wt. rewrite Wt. reflexivity.
  - simpl. by rewrite <-app_assoc.
Qed.

Lemma entrenar_modelo_empty_train_iters m tl vl o c E nombre w bk :
  (1 ≤ E)%Z → dl_wf tl → dl_len tl = 0 → t_to_device (backend_st w) = inr bk →
  ∃ w', Combinados.entrenar_modelo m tl vl o c E nombre w = (w', Raise ZeroDivisionError) ∧
        iters (new_log w w') = ["train_loader"].
Proof.
  intros HE Wt Hz Hto. destruct (range_pos E) as [es Hes]; [lia|].
  destruct (epoch_empty_train_log tl vl c E 0 (Combinados.locals0 m o)
              (emit EvTo (set_backend bk w)) Wt Hz) as (w' & Hw' & Hl).
  exists w'. split.
  - rewrite (entrenar_modelo_run m tl vl o c E nombre w bk w' (Raise ZeroDivisionError) Hto);
      [done|].
    rewrite Hes, foldM_cons. by apply bind_run_raise.
  - rewrite (logs_new_log w w' [EvTo; EvTrain; EvIter "train_loader"]); [done|].
    rewrite Hl. simpl. by rewrite <-app_assoc.
Qed.

Lemma vgg_epoch_empty_train_log tl vl c E ep s w :
  dl_wf tl → dl_len tl = 0 →
  ∃ w', Vgg19.epoch_body tl vl c E ep s w = (w', Raise ZeroDivisionError) ∧
        log w' = log w ++ [EvTrain; EvIter "train_loader"].
Proof.
  intros Wt Hz. eexists. split.
  - apply vgg_epoch_body_outcome. eapply Vgg19.epoch_train_div; [|done].
    unfold Vgg19.train_pass.
    rewrite (bind_run _ _ _
      (emit (EvIter "train_loader")
         (set_backend (dl_iter tl (backend_st (emit EvTrain w))).2 (emit EvTrain w)))
      (dl_iter tl (backend_st (emit EvTrain w))).1) by done.
    specialize (Wt (backend_st (emit EvTrain w))). rewrite Hz in Wt.
    apply nil_length_inv in Wt. rewrite Wt. reflexivity.
  - simpl. by rewrite <-app_assoc.
Qed.

Lemma paso5_empty_train_iters d m c o E w :
  (1 ≤ E)%Z → dl_wf (Vgg19.train_loader d) → dl_len (Vgg19.train_loader d) = 0 →
  ∃ w', Vgg19.paso5 d m c o E w = (w', Raise ZeroDivisionError) ∧
        iters (new_log w w') = ["train_loader"].
Proof.
  intros HE Wt Hz. destruct (range_pos E) as [es Hes]; [lia|].
  destruct (vgg_epoch_empty_train_log (Vgg19.train_loader d) (Vgg19.val_loader d) c E 0
              (Vgg19.globals0 m o) w Wt Hz) as (w' & Hw' & Hl).
  exists w'. split.
  - unfold Vgg19.paso5. rewrite Hes, foldM_cons. by apply bind_run_raise.
  - by rewrite (logs_new_log w w' [EvTrain; EvIter "train_loader"]).
Qed.

(** With no epoch to run, the loop of Paso 5 does nothing. *)
Lemma paso5_no_epochs d m c o E w :
  (E ≤ 0)%Z → Vgg19.paso5 d m c o E w = (w, Ok (Vgg19.globals0 m o)).
Proof. intros HE. unfold Vgg19.paso5. by rewrite range_nonpos. Qed.

End Progress.

(** ** Creating modules *)

Section Alloc.
Context `{TH : Torch}.

Lemma allocates_nil w : allocates [] w w.
Proof.
  unfold allocates. split_and!; try done; [constructor|by intros ? ?%elem_of_nil..].
Qed.

Lemma allocates_app n1 n2 w w1 w2 :
  allocates n1 w w1 → allocates n2 w1 w2 → allocates (n1 ++ n2) w w2.
Proof.
  intros (Hf1 & Hl1 & Hb1 & Hg1 & Hd1 & Hn1 & Ho1 & Hp1)
         (Hf2 & Hl2 & Hb2 & Hg2 & Hd2 & Hn2 & Ho2 & Hp2).
  unfold allocates. split_and!; try congruence.
  - apply list.NoDup_app. split_and!; [done| |done].
    intros l Hl Hl'. destruct (Hp1 l Hl) as [t Ht]. rewrite (Hn2 l Hl') in Ht. done.
  - intros l [Hl|Hl]%elem_of_app; [by apply Hn1|].
    destruct (decide (l ∈ n1)) as [Hin|Hin].
    + destruct (Hp1 l Hin) as [t Ht]. rewrite (Hn2 l Hl) in Ht. done.
    + rewrite <-(Ho1 l Hin). by apply Hn2.
  - intros l Hl. rewrite not_elem_of_app in Hl. destruct Hl.
    rewrite Ho2, Ho1; done.
  - intros l [Hl|Hl]%elem_of_app; [|by apply Hp2].
    destruct (decide (l ∈ n2)) as [Hin|Hin]; [by apply Hp2|].
    rewrite (Ho2 l Hin). by apply Hp1.
Qed.

Lemma alloc_allocates t w w' r :
  alloc t w = (w', r) → ∃ l, r = Ok l ∧ allocates [l] w w'.
Proof.
  unfold alloc. intros [= <- <-]. eexists. split; [done|].
  assert (heap w !! fresh (dom (heap w)) = None) as Hfresh.
  { apply not_elem_of_dom. apply is_fresh. }
  unfold allocates. simpl. split_and!; try done.
  - apply NoDup_singleton.
  - intros l Hl%list_elem_of_singleton. by rewrite Hl.
  - intros l Hl. rewrite lookup_insert_ne; [done|]. intros Heq. apply Hl.
    by apply list_elem_of_singleton.
  - intros l Hl%list_elem_of_singleton. rewrite Hl, lookup_insert_eq. eauto.
Qed.

Lemma layers_params_cons p ly ls :
  layers_params ((p, ly) :: ls) = (layer_named_params p ly).*2 ++ layers_params ls.
Proof. unfold layers_params. simpl. by rewrite fmap_app. Qed.

Lemma layers_params_app l1 l2 :
  layers_params (l1 ++ l2) = layers_params l1 ++ layers_params l2.
Proof. unfold layers_params. by rewrite bind_app, fmap_app. Qed.

Lemma parameters_layers m : parameters m = layers_params (m_layers m).
Proof. done. Qed.

Lemma other_layer_params p (ps : list (string * loc)) :
  (layer_named_params p (OtherLayer ps)).*2 = ps.*2.
Proof.
  simpl. rewrite <-list_fmap_compose. by apply list_fmap_ext.
Qed.

(** The parameters of a pretrained layer are created one by one. *)
Lemma alloc_others_allocates (ps : list (string * tensor)) w w' r :
  mapM (λ nt, l ← alloc nt.2; mret (nt.1, l)) ps w = (w', r) →
  ∃ ls, r = Ok ls ∧ allocates ls.*2 w w' ∧ ls.*1 = ps.*1.
Proof.
  revert w w' r. induction ps as [|[n t] ps IH]; intros w w' r H.
  - injection H as <- <-. exists []. split_and!; [done|apply allocates_nil|done].
  - simpl in H. monad.
    destruct (alloc t w) as [w1 r1] eqn:H1.
    apply alloc_allocates in H1 as (l & -> & Ha1).
    destruct (mapM _ ps w1) as [w2 r2] eqn:H2.
    apply IH in H2 as (ls & -> & Ha2 & Hn). injection H as <- <-.
    exists ((n, l) :: ls). split_and!; [done| |by rewrite !fmap_cons, Hn].
    by apply (allocates_app [l] _ _ _ _ Ha1).
Qed.

Lemma alloc_layer_allocates s w w' r :
  alloc_layer s w = (w', r) →
  ∃ ly, r = Ok ly ∧ layer_of_spec ly s ∧
        ∀ p, allocates (layer_named_params p ly).*2 w w'.
Proof.
  destruct s as [i o wt bs|ps]; simpl; intros H; monad.
  - destruct (alloc wt w) as [w1 r1] eqn:H1.
    apply alloc_allocates in H1 as (lw & -> & Ha1).
    destruct (alloc bs w1) as [w2 r2] eqn:H2.
    apply alloc_allocates in H2 as (lb & -> & Ha2). injection H as <- <-.
    eexists. split_and!; [done|done|]. intros p. simpl.
    by apply (allocates_app [lw] [lb] _ _ _ Ha1).
  - destruct (mapM _ ps w) as [w1 r1] eqn:H1.
    apply alloc_others_allocates in H1 as (ls & -> & Ha & Hn). injection H as <- <-.
    eexists. split_and!; [done|done|]. intros p. by rewrite other_layer_params.
Qed.

Lemma alloc_layers_allocates (specs : list (string * LayerSpec)) w w' r :
  mapM (λ ps, l ← alloc_layer ps.2; mret (ps.1, l)) specs w = (w', r) →
  ∃ layers, r = Ok layers ∧ allocates (layers_params layers) w w' ∧
            layers.*1 = specs.*1 ∧
            Forall2 (λ pl ps, layer_of_spec pl.2 ps.2) layers specs.
Proof.
  revert w w' r. induction specs as [|[p s] specs IH]; intros w w' r H.
  - injection H as <- <-. exists []. split_and!; [done|apply allocates_nil|done|constructor].
  - simpl in H. monad.
    destruct (alloc_layer s w) as [w1 r1] eqn:H1.
    apply alloc_layer_allocates in H1 as (ly & -> & Hs & Ha1).
    destruct (mapM _ specs w1) as [w2 r2] eqn:H2.
    apply IH in H2 as (ls & -> & Ha2 & Hn & HF). injection H as <- <-.
    exists ((p, ly) :: ls). split_and!; [done| |by rewrite !fmap_cons, Hn|by constructor].
    rewrite layers_params_cons. by apply (allocates_app _ _ _ _ _ (Ha1 p)).
Qed.

(** [models.<arch>(pretrained=True)]: the zoo is asked once, and the
    parameters of the module are new. *)
Lemma models_pretrained_Ok a w w' m :
  models_pretrained a w = (w', Ok m) →
  ∃ specs bufs bk,
    tv_pretrained a (backend_st w) = inr (specs, bufs, bk) ∧
    allocates (parameters m) (emit (EvPretrained a) (set_backend bk w)) w' ∧
    m_arch m = a ∧ (m_layers m).*1 = specs.*1 ∧
    Forall2 (λ pl ps, layer_of_spec pl.2 ps.2) (m_layers m) specs.
Proof.
  unfold models_pretrained. intros (w1 & sb & H1 & H)%bind_Ok_inv.
  unfold lib_call in H1.
  destruct (tv_pretrained a (backend_st w)) as [le|[[specs bufs] bk]] eqn:Hz; [done|].
  injection H1 as <- <-. simpl in H.
  apply bind_Ok_inv in H as (w2 & layers & H2 & H). injection H as <- <-.
  apply alloc_layers_allocates in H2 as (ls & [= <-] & Ha & Hn & HF).
  exists specs, bufs, bk. done.
Qed.

(** [nn.Linear(i, o)]: two new parameters. *)
Lemma nn_Linear_Ok i o w w' r :
  nn_Linear i o w = (w', r) →
  ∃ lw lb, r = Ok (Linear i o lw lb) ∧
    allocates [lw; lb]
      (emit (EvLinear i o) (set_backend (nn_linear_init i o (backend_st w)).2 w)) w'.
Proof.
  unfold nn_Linear. intros H.
  apply bind_inv in H as [(e & H & ->)|(w1 & wb & H1 & H)].
  { unfold lib_call in H. by destruct (nn_linear_init _ _ _) as [[? ?] ?]. }
  unfold lib_call in H1.
  destruct (nn_linear_init i o (backend_st w)) as [[wt bs] bk] eqn:Hi.
  injection H1 as <- <-. simpl in H.
  apply bind_inv in H as [(e & H & ->)|(w2 & lw & H2 & H)].
  { by apply alloc_allocates in H as (? & ? & _). }
  apply alloc_allocates in H2 as (? & [= <-] & Ha1).
  apply bind_inv in H as [(e & H & ->)|(w3 & lb & H3 & H)].
  { by apply alloc_allocates in H as (? & ? & _). }
  apply alloc_allocates in H3 as (? & [= <-] & Ha2). injection H as <- <-.
  exists lw, lb. split; [done|]. by apply (allocates_app [lw] [lb] _ _ _ Ha1).
Qed.

(** [for param in ps: param.requires_grad = False] *)
Lemma freeze_spec ps w w' r :
  freeze ps w = (w', r) →
  r = Ok tt ∧ files w' = files w ∧ log w' = log w ∧
  backend_st w' = backend_st w ∧ grad_enabled w' = grad_enabled w ∧
  (∀ l, l ∉ ps → heap w' !! l = heap w !! l) ∧
  (∀ l, l ∈ ps → heap w' !! l =
     (λ p, {| p_data := p_data p; p_requires_grad := false; p_grad := p_grad p |})
       <$> heap w !! l).
Proof.
  unfold freeze. revert w w' r. induction ps as [|a ps IH]; intros w w' r H.
  - injection H as <- <-. split_and!; try done. by intros ? ?%elem_of_nil.
  - simpl in H. unfold bind, set_requires_grad in H. simpl in H.
    apply IH in H as (-> & Hf & Hl & Hb & Hg & Ho & Hi). simpl in *.
    split_and!; try done.
    + intros l Hl'. rewrite not_elem_of_cons in Hl'. destruct Hl' as [Hne ?].
      rewrite Ho by done. by rewrite lookup_alter_ne.
    + intros l Hl'. destruct (decide (l ∈ ps)) as [Hin|Hin].
      * rewrite (Hi l Hin). destruct (decide (a = l)) as [->|Hne].
        -- rewrite lookup_alter_eq. by destruct (heap w !! l).
        -- by rewrite lookup_alter_ne.
      * rewrite (Ho l Hin). apply elem_of_cons in Hl' as [->|?]; [|done].
        by rewrite lookup_alter_eq.
Qed.

Lemma get_layer_spec path m w w' r :
  get_layer path m w = (w', r) →
  w' = w ∧
  match r with
  | Ok ly => ∃ i, list_find (λ pl, pl.1 = path) (m_layers m) = Some (i, (path, ly))
  | Raise e => e = AttributeError path
  end.
Proof.
  unfold get_layer. destruct (list_find _ _) as [[i [p ly]]|] eqn:Hf.
  - intros [= <- <-]. split; [done|]. exists i.
    apply list_find_Some in Hf as (_ & Hp & _). simpl in Hp. by subst.
  - by intros [= <- <-].
Qed.

Lemma in_features_of_spec ly w w' r :
  in_features_of ly w = (w', r) →
  w' = w ∧
  match r with
  | Ok i => ∃ o lw lb, ly = Linear i o lw lb
  | Raise e => e = AttributeError "in_features"
  end.
Proof. destruct ly; intros [= <- <-]; eauto. Qed.

Lemma optim_Adam_spec ps lr w w' r :
  optim_Adam ps lr w = (w', r) →
  match r with
  | Ok o => o_params o = ps ∧ w' = emit (EvAdam ps) w
  | Raise e => w' = w ∧ ∃ le, e = LibraryError le
  end.
Proof.
  unfold optim_Adam, lib_pure. monad. destruct (adam_init ps lr); intros [= <- <-]; eauto.
Qed.

End Alloc.

(** ** The layers of a module *)

Section Layers.
Context `{TH : Torch}.

Lemma layer_named_params_locs p ly : (layer_named_params p ly).*2 = layer_locs ly.
Proof. destruct ly; [done|]. apply other_layer_params. Qed.

Lemma elem_of_layers_params l (ls : list (string * Layer)) :
  l ∈ layers_params ls ↔ ∃ j pl, ls !! j = Some pl ∧ l ∈ layer_locs pl.2.
Proof.
  induction ls as [|[p ly] ls IH].
  - split; [by intros ?%elem_of_nil|]. by intros (j & pl & ? & _).
  - rewrite layers_params_cons, elem_of_app, IH, layer_named_params_locs. split.
    + intros [H|(j & pl & Hj & H)]; [by exists 0, (p, ly)|by exists (S j), pl].
    + intros ([|j] & pl & Hj & H); simplify_eq/=; [by left|right; eauto].
Qed.

(** Different layers of a module whose parameters are all different share
    no parameter. *)
Lemma layers_params_disjoint (ls : list (string * Layer)) j1 j2 pl1 pl2 l :
  NoDup (layers_params ls) →
  ls !! j1 = Some pl1 → ls !! j2 = Some pl2 → j1 ≠ j2 →
  l ∈ layer_locs pl1.2 → l ∈ layer_locs pl2.2 → False.
Proof.
  revert j1 j2. induction ls as [|[p ly] ls IH]; intros j1 j2 Hnd H1 H2 Hne Hl1 Hl2;
    [done|].
  rewrite layers_params_cons, layer_named_params_locs in Hnd.
  apply list.NoDup_app in Hnd as (_ & Hdis & Hnd).
  destruct j1 as [|j1], j2 as [|j2]; simplify_eq/=.
  - apply (Hdis l Hl1). apply elem_of_layers_params. eauto.
  - apply (Hdis l Hl2). apply elem_of_layers_params. eauto.
  - eapply (IH j1 j2); eauto.
Qed.

Lemma elem_of_insert_inv {A} (ls : list A) i x y :
  y ∈ <[i := x]> ls → y = x ∨ ∃ j, j ≠ i ∧ ls !! j = Some y.
Proof.
  intros (j & Hj)%list_elem_of_lookup. destruct (decide (j = i)) as [->|Hne].
  - left. destruct (decide (i < length ls)) as [Hlt|Hge].
    + rewrite list_lookup_insert_eq in Hj by done. by simplify_eq.
    + rewrite list_insert_ge in Hj by lia. apply lookup_lt_Some in Hj. lia.
  - right. exists j. split; [done|]. by rewrite list_lookup_insert_ne in Hj.
Qed.

Lemma list_find_path (ls : list (string * Layer)) path i pl :
  list_find (λ pl, pl.1 = path) ls = Some (i, pl) → ls !! i = Some pl ∧ pl.1 = path.
Proof. by intros (? & ? & _)%list_find_Some. Qed.

(** The layers of a child after another layer was set. *)
Lemma child_set_layer_elem name path ly m i old y :
  list_find (λ pl, pl.1 = path) (m_layers m) = Some (i, old) →
  y ∈ m_layers (child name (set_layer path ly m)) →
  (y = (path, ly) ∧ in_child name path = true) ∨
  (∃ j, j ≠ i ∧ m_layers m !! j = Some y ∧ in_child name y.1 = true).
Proof.
  intros Hf. unfold child, set_layer. simpl. rewrite Hf.
  intros [Hy Hin]%list_elem_of_filter.
  apply elem_of_insert_inv in Hin as [->|(j & Hne & Hj)]; [by left|right; eauto].
Qed.

Lemma set_layer_elem path ly m i old y :
  list_find (λ pl, pl.1 = path) (m_layers m) = Some (i, old) →
  y ∈ m_layers (set_layer path ly m) →
  y = (path, ly) ∨ ∃ j, j ≠ i ∧ m_layers m !! j = Some y.
Proof.
  intros Hf. unfold set_layer. simpl. rewrite Hf. apply elem_of_insert_inv.
Qed.

Lemma set_layer_lookup path ly m i old :
  list_find (λ pl, pl.1 = path) (m_layers m) = Some (i, old) →
  get_layer path (set_layer path ly m) = ret ly.
Proof.
  intros Hf. unfold get_layer, set_layer. simpl. rewrite Hf.
  apply list_find_Some in Hf as (Hi & Hp & Hbefore).
  assert (list_find (λ pl : string * Layer, pl.1 = path)
            (<[i:=(path, ly)]> (m_layers m)) = Some (i, (path, ly))) as ->; [|done].
  apply list_find_Some. split_and!.
  - apply list_lookup_insert_eq. by apply lookup_lt_Some in Hi.
  - done.
  - intros j y Hj Hlt. rewrite list_lookup_insert_ne in Hj by lia. by eapply Hbefore.
Qed.

Lemma elem_of_parameters l m :
  l ∈ parameters m ↔ ∃ j pl, m_layers m !! j = Some pl ∧ l ∈ layer_locs pl.2.
Proof. rewrite parameters_layers. apply elem_of_layers_params. Qed.

Lemma elem_of_parameters_child l name m :
  l ∈ parameters (child name m) ↔
  ∃ j pl, m_layers m !! j = Some pl ∧ in_child name pl.1 = true ∧ l ∈ layer_locs pl.2.
Proof.
  rewrite elem_of_parameters. unfold child. simpl. split.
  - intros (j & pl & Hj & Hl). apply list_elem_of_lookup_2 in Hj.
    apply list_elem_of_filter in Hj as [Hc (j' & Hj')%list_elem_of_lookup]. eauto.
  - intros (j & pl & Hj & Hc & Hl).
    assert (pl ∈ filter (λ pl, in_child name pl.1 = true) (m_layers m)) as Hin.
    { apply list_elem_of_filter. split; [done|]. by eapply list_elem_of_lookup_2. }
    apply list_elem_of_lookup in Hin as (j' & Hj'). eauto.
Qed.

Lemma parameters_child_subseteq l name m :
  l ∈ parameters (child name m) → l ∈ parameters m.
Proof. rewrite elem_of_parameters_child, elem_of_parameters. naive_solver. Qed.

End Layers.

(** ** Setting up a model *)

Section Setup.
Context `{TH : Torch}.

(** The steps the three set-ups share: the pretrained module, the freezing of
    some of its parameters, the new linear layer in place of the one at
    [path], and Adam over the parameters of a child. *)
Lemma setup_steps {R} (k : Module → Optimizer → R) a (fz : Module → list loc)
    path name (n : nat) lr w1 w' r :
  (m ← models_pretrained a;
   freeze (fz m);;
   ly ← get_layer path m;
   i ← in_features_of ly;
   ly ← nn_Linear i n;
   let m := set_layer path ly m in
   o ← optim_Adam (parameters (child name m)) lr;
   mret (k m o)) w1 = (w', Ok r) →
  ∃ m' o m w2 w3 w4 i0 old i lw lb,
    r = k m' o ∧
    models_pretrained a w1 = (w2, Ok m) ∧
    freeze (fz m) w2 = (w3, Ok tt) ∧
    list_find (λ pl, pl.1 = path) (m_layers m) = Some (i0, (path, old)) ∧
    nn_Linear i n w3 = (w4, Ok (Linear i n lw lb)) ∧
    m' = set_layer path (Linear i n lw lb) m ∧
    o_params o = parameters (child name m') ∧
    w' = emit (EvAdam (parameters (child name m'))) w4.
Proof.
  intros H.
  apply bind_Ok_inv in H as (w2 & m & H2 & H).
  apply bind_Ok_inv in H as (w3 & [] & H3 & H).
  apply bind_Ok_inv in H as (w3' & old & Hg & H).
  apply get_layer_spec in Hg as [-> (i0 & Hfind)].
  apply bind_Ok_inv in H as (w3' & i & Hi & H).
  apply in_features_of_spec in Hi as [-> _].
  apply bind_Ok_inv in H as (w4 & ly & H4 & H).
  pose proof H4 as H4'. apply nn_Linear_Ok in H4' as (lw & lb & [= ->] & _).
  apply bind_Ok_inv in H as (w5 & o' & H5 & H).
  apply optim_Adam_spec in H5 as [Ho ->]. injection H as <- <-.
  eexists _, o', m, w2, w3, w4, i0, old, i, lw, lb. split_and!; done.
Qed.

(** What the steps leave, when the optimizer is given parameters that
    require grad. *)
Lemma setup_steps_ok a (fz : Module → list loc) path name n w1 w' m' o
    m w2 w3 w4 i0 old i lw lb :
  models_pretrained a w1 = (w2, Ok m) →
  freeze (fz m) w2 = (w3, Ok tt) →
  (∀ l, l ∈ fz m → l ∈ parameters m) →
  list_find (λ pl, pl.1 = path) (m_layers m) = Some (i0, (path, old)) →
  nn_Linear i n w3 = (w4, Ok (Linear i n lw lb)) →
  m' = set_layer path (Linear i n lw lb) m →
  o_params o = parameters (child name m') →
  heap w' = heap w4 → files w' = files w4 →
  setup_sep w1 w' m' o ∧
  ((NoDup (parameters m) → (zoo_wf a → paths_wf (m_layers m).*1) → ∀ j pl l,
      j ≠ i0 → m_layers m !! j = Some pl → in_child name pl.1 = true →
      l ∈ layer_locs pl.2 → l ∉ fz m) →
   setup_ok w1 w' m' o) ∧
  (∀ l, l ∈ fz m → requires_grad_at (heap w') l = false) ∧
  (∀ l, is_Some (heap w' !! l) →
     is_Some (heap w1 !! l) ∨ l ∈ parameters m ∨ l = lw ∨ l = lb) ∧
  (∀ l, l ∈ parameters m' → l ∈ parameters m ∨ l = lw ∨ l = lb) ∧
  log w4 = log w1 ++ [EvPretrained a; EvLinear i n] ∧
  m_arch m' = a.
Proof.
  intros H2 H3 Hfz Hfind H4 -> Ho Hh' Hf'.
  apply models_pretrained_Ok in H2
    as (specs & bufs & bk & Hz & (Hf2 & Hl2 & Hb2 & Hg2 & Hd2 & Hn2 & Ho2 & Hp2) &
        Harch & Hpaths & _).
  assert (zoo_wf a → paths_wf (m_layers m).*1) as Hwf.
  { intros Hzoo. rewrite Hpaths. by eapply Hzoo. }
  apply freeze_spec in H3 as (_ & Hf3 & Hl3 & Hb3 & Hg3 & Ho3 & Hi3).
  apply nn_Linear_Ok in H4
    as (lw' & lb' & [= <- <-] & (Hf4 & Hl4 & Hb4 & Hg4 & Hd4 & Hn4 & Ho4 & Hp4)).
  simpl in *. unfold setup_ok, setup_sep, requires_grad_at. rewrite Hh', Hf'. clear Hh' Hf'.
  assert (∀ l, l ∈ parameters m → is_Some (heap w3 !! l)) as Halloc3.
  { intros l Hl. destruct (Hp2 l Hl) as [t Ht].
    destruct (decide (l ∈ fz m)) as [Hin|Hin].
    - rewrite (Hi3 l Hin), Ht. eauto.
    - rewrite (Ho3 l Hin), Ht. eauto. }
  assert (∀ l, l ∈ parameters m → l ∉ [lw; lb]) as Hnew.
  { intros l Hl Hin. destruct (Halloc3 l Hl) as [p Hp]. rewrite (Hn4 l Hin) in Hp. done. }
  assert (∀ l, is_Some (heap w1 !! l) → (l ∉ parameters m) ∧ (l ∉ [lw; lb]) ∧
                heap w4 !! l = heap w1 !! l) as Hold.
  { intros l [p Hp].
    assert (l ∉ parameters m) as Hnm.
    { intros Hin. rewrite (Hn2 l Hin) in Hp. done. }
    assert (heap w3 !! l = Some p) as Hp3.
    { rewrite Ho3 by (intros ?; apply Hnm; by apply Hfz). by rewrite Ho2. }
    assert (l ∉ [lw; lb]) as Hnl.
    { intros Hin. rewrite (Hn4 l Hin) in Hp3. done. }
    split_and!; [done|done|]. by rewrite Ho4, Hp3. }
  assert (∀ l, l ∈ parameters (set_layer path (Linear i n lw lb) m) →
               l ∈ parameters m ∨ l = lw ∨ l = lb) as Hpm'.
  { intros l (j & pl & Hj & Hl)%elem_of_parameters.
    apply list_elem_of_lookup_2, (set_layer_elem _ _ _ _ _ _ Hfind) in Hj
      as [->|(j' & _ & Hj')].
    - simpl in Hl. apply elem_of_cons in Hl as [->|Hl]; [right; by left|].
      apply list_elem_of_singleton in Hl as ->. right. by right.
    - left. apply elem_of_parameters. eauto. }
  assert (files w4 = files w1) as Hfiles by congruence.
  assert (∀ l, is_Some (heap w1 !! l) → heap w4 !! l = heap w1 !! l) as Hkeep.
  { intros l Hl. by destruct (Hold l Hl) as (_ & _ & ->). }
  assert (∀ l, l ∈ parameters (set_layer path (Linear i n lw lb) m) →
               heap w1 !! l = None ∧ is_Some (heap w4 !! l)) as Hfresh.
  { intros l [Hl|Hl]%Hpm'.
    + split; [by apply Hn2|]. rewrite Ho4 by by apply Hnew. by apply Halloc3.
    + assert (l ∈ [lw; lb]) as Hin.
      { destruct Hl as [-> | ->]; [apply list_elem_of_here|].
        apply list_elem_of_further, list_elem_of_here. }
      split; [|destruct (Hp4 l Hin) as [t ->]; eauto].
      destruct (heap w1 !! l) as [p|] eqn:Hp; [|done].
      by destruct (Hold l (mk_is_Some _ _ Hp)) as (_ & ? & _). }
  split_and!; try done.
  - intros l Hl. rewrite Ho in Hl. by eapply parameters_child_subseteq.
  - intros Hchild.
    assert (∀ l, l ∈ parameters (child name (set_layer path (Linear i n lw lb) m)) →
                 l ∉ fz m) as Hnfz.
    { intros l (j & pl & Hj & Hl)%elem_of_parameters.
      apply list_elem_of_lookup_2, (child_set_layer_elem _ _ _ _ _ _ _ Hfind) in Hj
        as [[-> _]|(j' & Hne & Hj' & Hc)].
      - intros Hin%Hfz. by apply (Hnew l Hin).
      - by eapply Hchild. }
    split_and!; try done.
    intros l Hl. rewrite Ho in Hl. split; [by eapply parameters_child_subseteq|].
    destruct (Hpm' l (parameters_child_subseteq _ _ _ Hl)) as [Hm|Hlw].
    + rewrite Ho4 by by apply Hnew. rewrite Ho3 by by apply Hnfz.
      by destruct (Hp2 l Hm) as [t ->].
    + assert (l ∈ [lw; lb]) as Hin.
      { destruct Hlw as [-> | ->]; [apply list_elem_of_here|].
        apply list_elem_of_further, list_elem_of_here. }
      by destruct (Hp4 l Hin) as [t ->].
  - intros l Hl.
    rewrite Ho4 by by apply Hnew, Hfz. rewrite (Hi3 l Hl).
    by destruct (Hp2 l (Hfz l Hl)) as [t ->].
  - intros l Hl. destruct (decide (l ∈ [lw; lb])) as [Hin|Hin].
    { apply elem_of_cons in Hin as [->|Hin]; [right; right; by left|].
      apply list_elem_of_singleton in Hin as ->. right. right. by right. }
    rewrite Ho4 in Hl by done.
    destruct (decide (l ∈ parameters m)) as [?|Hnm]; [right; by left|].
    left. rewrite Ho3 in Hl by (intros ?; apply Hnm; by apply Hfz).
    by rewrite Ho2 in Hl.
  - rewrite Hl4, Hl3, Hl2, <-!app_assoc. done.
Qed.

End Setup.

(** ** The three set-ups *)

Section Setups.
Context `{TH : Torch}.

Lemma in_child_head a name p :
  in_child (String a name) p = true → ∃ q, p = String a q.
Proof.
  unfold in_child. intros [H|H]%orb_true_iff.
  - apply bool_decide_eq_true in H as ->. eauto.
  - destruct p as [|b q]; [done|]. simpl in H.
    destruct (Ascii.ascii_dec a b) as [->|]; [eauto|done].
Qed.

Lemma features_not_classifier p :
  in_child "features" p = true → in_child "classifier" p = true → False.
Proof. intros [q ->]%in_child_head [q' [=]]%in_child_head. Qed.

Lemma filter_none {A} (P : A → Prop) `{HD : !∀ x, Decision (P x)} (l : list A) :
  (∀ y, y ∈ l → ¬ P y) → filter P l = [].
Proof.
  induction l as [|x l IH]; intros H; [done|].
  rewrite filter_cons_False by (apply H; left). apply IH. intros y Hy. apply H. by right.
Qed.

Lemma filter_insert_unique {A} (P : A → Prop) `{HD : !∀ x, Decision (P x)}
    (l : list A) i x :
  i < length l → P x → (∀ j y, j ≠ i → l !! j = Some y → ¬ P y) →
  filter P (<[i := x]> l) = [x].
Proof.
  revert i. induction l as [|y l IH]; intros i Hi Hx Hothers; [simpl in Hi; lia|].
  destruct i as [|i]; simpl.
  - rewrite filter_cons_True by done. f_equal. apply filter_none.
    intros z (j & Hj)%list_elem_of_lookup. by apply (Hothers (S j) z).
  - rewrite filter_cons_False by by apply (Hothers 0 y).
    apply IH; [simpl in Hi; lia|done|].
    intros j z Hne Hj. apply (Hothers (S j) z); [lia|done].
Qed.

(** In a module tree the child [path] of a leaf at [path] is that leaf. *)
Lemma child_of_leaf path ly m i0 old :
  paths_wf (m_layers m).*1 →
  list_find (λ pl, pl.1 = path) (m_layers m) = Some (i0, (path, old)) →
  in_child path path = true →
  m_layers (child path (set_layer path ly m)) = [(path, ly)] ∧
  ∀ j y, j ≠ i0 → m_layers m !! j = Some y → in_child path y.1 ≠ true.
Proof.
  intros [Hnd Hwf] Hfind Hself.
  pose proof Hfind as (Hi0 & _ & _)%list_find_Some.
  assert (∀ j y, j ≠ i0 → m_layers m !! j = Some y → in_child path y.1 ≠ true) as Hoth.
  { intros j y Hne Hj Hc.
    assert (path = y.1) as Hp.
    { apply Hwf; [| |done].
      - apply list_elem_of_fmap. exists (path, old). split; [done|].
        by eapply list_elem_of_lookup_2.
      - apply list_elem_of_fmap. exists y. split; [done|]. by eapply list_elem_of_lookup_2. }
    apply Hne. eapply (NoDup_lookup _ j i0 path Hnd).
    - by rewrite list_lookup_fmap, Hj, Hp.
    - by rewrite list_lookup_fmap, Hi0. }
  split; [|done]. unfold child, set_layer. simpl. rewrite Hfind.
  apply (filter_insert_unique (λ pl : string * Layer, in_child path pl.1 = true)).
  - by apply lookup_lt_Some in Hi0.
  - done.
  - done.
Qed.

Lemma setup_ok_sep w w' m o : setup_ok w w' m o → setup_sep w w' m o.
Proof.
  intros (Hf & Hold & Hnew & Hopt). split_and!; try done.
  intros l Hl. by destruct (Hopt l Hl).
Qed.

(** The set-up of a ResNet, whatever the names of its layers: what it
    allocates is new, and what it logs. *)
Lemma resnet_setup_sep {R} (k : Module → Optimizer → R) a (line : string)
    (cn : list string) w0 w' r :
  (print (TextLine line);;
   m ← models_pretrained a;
   freeze (parameters m);;
   ly ← get_layer "fc" m;
   i ← in_features_of ly;
   ly ← nn_Linear i (length cn);
   let m := set_layer "fc" ly m in
   o ← optim_Adam (parameters (child "fc" m)) Combinados.lr;
   mret (k m o)) w0 = (w', Ok r) →
  ∃ m' o i lw lb,
    r = k m' o ∧ setup_sep w0 w' m' o ∧
    get_layer "fc" m' = ret (Linear i (length cn) lw lb) ∧ m_arch m' = a ∧
    log w' = log w0 ++ [EvPrint (TextLine line); EvPretrained a;
                        EvLinear i (length cn); EvAdam (o_params o)].
Proof.
  intros H. apply bind_Ok_inv in H as (w1 & [] & H1 & H).
  unfold print in H1. injection H1 as <-.
  apply (setup_steps k a parameters "fc" "fc") in H
    as (m' & o & m & w2 & w3 & w4 & i0 & old & i & lw & lb & -> &
        H2 & H3 & Hfind & H4 & Hm' & Ho & Hw').
  destruct (setup_steps_ok a parameters "fc" "fc" (length cn) (emit (EvPrint (TextLine line)) w0)
              w' m' o m w2 w3 w4 i0 old i lw lb H2 H3)
    as (Hsep & _ & _ & _ & _ & Hlog & Harch); try done.
  { by rewrite Hw'. }
  { by rewrite Hw'. }
  exists m', o, i, lw, lb. split_and!; try done.
  - rewrite Hm'. by eapply set_layer_lookup.
  - rewrite Hw'. simpl. rewrite Hlog. simpl. rewrite <-!app_assoc, <-Ho. done.
Qed.

Lemma resnet18_setup_sep cn w0 w' m' o c :
  Combinados.resnet18_setup cn w0 = (w', Ok (m', o, c)) →
  ∃ i lw lb,
    c = nn_CrossEntropyLoss ∧ setup_sep w0 w' m' o ∧
    get_layer "fc" m' = ret (Linear i (length cn) lw lb) ∧ m_arch m' = ResNet18 ∧
    log w' = log w0 ++ [EvPrint (TextLine (nl +:+ "--- Entrenando ResNet18 ---"));
                        EvPretrained ResNet18; EvLinear i (length cn);
                        EvAdam (o_params o)].
Proof.
  intros H.
  apply (resnet_setup_sep (λ m o, (m, o, nn_CrossEntropyLoss)) ResNet18) in H
    as (m1 & o1 & i & lw & lb & [= -> -> ->] & H).
  exists i, lw, lb. done.
Qed.

Lemma resnet34_setup_sep cn w0 w' m' o :
  Combinados.resnet34_setup cn w0 = (w', Ok (m', o)) →
  ∃ i lw lb,
    setup_sep w0 w' m' o ∧
    get_layer "fc" m' = ret (Linear i (length cn) lw lb) ∧ m_arch m' = ResNet34 ∧
    log w' = log w0 ++ [EvPrint (TextLine (nl +:+ "--- Entrenando ResNet34 ---"));
                        EvPretrained ResNet34; EvLinear i (length cn);
                        EvAdam (o_params o)].
Proof.
  intros H.
  apply (resnet_setup_sep (λ m o, (m, o)) ResNet34) in H
    as (m1 & o1 & i & lw & lb & [= -> ->] & H).
  exists i, lw, lb. done.
Qed.

(** The set-up of a ResNet: the whole pretrained module is frozen, the new
    [fc] is what the optimizer is given. *)
Lemma resnet_setup_ok {R} (k : Module → Optimizer → R) a (line : string)
    (cn : list string) w0 w' r :
  zoo_wf a →
  (print (TextLine line);;
   m ← models_pretrained a;
   freeze (parameters m);;
   ly ← get_layer "fc" m;
   i ← in_features_of ly;
   ly ← nn_Linear i (length cn);
   let m := set_layer "fc" ly m in
   o ← optim_Adam (parameters (child "fc" m)) Combinados.lr;
   mret (k m o)) w0 = (w', Ok r) →
  ∃ m' o i lw lb,
    r = k m' o ∧ setup_ok w0 w' m' o ∧
    (∀ l, is_Some (heap w' !! l) → heap w0 !! l = None → l ∉ o_params o →
          requires_grad_at (heap w') l = false) ∧
    get_layer "fc" m' = ret (Linear i (length cn) lw lb) ∧
    o_params o = [lw; lb] ∧ m_arch m' = a ∧
    log w' = log w0 ++ [EvPrint (TextLine line); EvPretrained a;
                        EvLinear i (length cn); EvAdam [lw; lb]].
Proof.
  intros Hzoo H. apply bind_Ok_inv in H as (w1 & [] & H1 & H).
  unfold print in H1. injection H1 as <-.
  apply (setup_steps k a parameters "fc" "fc") in H
    as (m' & o & m & w2 & w3 & w4 & i0 & old & i & lw & lb & -> &
        H2 & H3 & Hfind & H4 & Hm' & Ho & Hw').
  pose proof H2 as (specs & bufs & bk & Hz & _ & _ & Hpaths & _)%models_pretrained_Ok.
  assert (paths_wf (m_layers m).*1) as Hwf by (rewrite Hpaths; by eapply Hzoo).
  destruct (child_of_leaf "fc" (Linear i (length cn) lw lb) m i0 old Hwf Hfind eq_refl)
    as [Hchild Hoth].
  assert (o_params o = [lw; lb]) as Hops.
  { rewrite Ho, Hm', parameters_layers, Hchild. done. }
  destruct (setup_steps_ok a parameters "fc" "fc" (length cn) (emit (EvPrint (TextLine line)) w0)
              w' m' o m w2 w3 w4 i0 old i lw lb H2 H3)
    as (_ & Hok & Hfrozen & Hdom & Hpm' & Hlog & Harch); try done.
  { by rewrite Hw'. }
  { by rewrite Hw'. }
  assert (setup_ok (emit (EvPrint (TextLine line)) w0) w' m' o) as Hok'.
  { apply Hok. intros _ _ j pl l Hne Hj Hc. by destruct (Hoth j pl Hne Hj). }
  exists m', o, i, lw, lb. split_and!; try done.
  - intros l Hl Hnew Hno. destruct (Hdom l Hl) as [Hold|[Hm|Hl']].
    + simpl in Hold. rewrite Hnew in Hold. by destruct Hold.
    + by apply Hfrozen.
    + exfalso. apply Hno. rewrite Hops.
      destruct Hl' as [-> | ->]; [apply list_elem_of_here|].
      apply list_elem_of_further, list_elem_of_here.
  - rewrite Hm'. by eapply set_layer_lookup.
  - rewrite Hw'. simpl. rewrite Hlog. simpl. rewrite <-!app_assoc, Hm', <-Hm', <-Ho, Hops.
    done.
Qed.

Lemma resnet18_setup_ok cn w0 w' m' o c :
  zoo_wf ResNet18 →
  Combinados.resnet18_setup cn w0 = (w', Ok (m', o, c)) →
  ∃ i lw lb,
    c = nn_CrossEntropyLoss ∧ setup_ok w0 w' m' o ∧
    (∀ l, is_Some (heap w' !! l) → heap w0 !! l = None → l ∉ o_params o →
          requires_grad_at (heap w') l = false) ∧
    get_layer "fc" m' = ret (Linear i (length cn) lw lb) ∧
    o_params o = [lw; lb] ∧ m_arch m' = ResNet18 ∧
    log w' = log w0 ++ [EvPrint (TextLine (nl +:+ "--- Entrenando ResNet18 ---"));
                        EvPretrained ResNet18; EvLinear i (length cn); EvAdam [lw; lb]].
Proof.
  intros Hzoo H.
  apply (resnet_setup_ok (λ m o, (m, o, nn_CrossEntropyLoss)) ResNet18) in H
    as (m1 & o1 & i & lw & lb & [= -> -> ->] & H); [|done].
  exists i, lw, lb. done.
Qed.

Lemma resnet34_setup_ok cn w0 w' m' o :
  zoo_wf ResNet34 →
  Combinados.resnet34_setup cn w0 = (w', Ok (m', o)) →
  ∃ i lw lb,
    setup_ok w0 w' m' o ∧
    (∀ l, is_Some (heap w' !! l) → heap w0 !! l = None → l ∉ o_params o →
          requires_grad_at (heap w') l = false) ∧
    get_layer "fc" m' = ret (Linear i (length cn) lw lb) ∧
    o_params o = [lw; lb] ∧ m_arch m' = ResNet34 ∧
    log w' = log w0 ++ [EvPrint (TextLine (nl +:+ "--- Entrenando ResNet34 ---"));
                        EvPretrained ResNet34; EvLinear i (length cn); EvAdam [lw; lb]].
Proof.
  intros Hzoo H.
  apply (resnet_setup_ok (λ m o, (m, o)) ResNet34) in H
    as (m1 & o1 & i & lw & lb & [= -> ->] & H); [|done].
  exists i, lw, lb. done.
Qed.

(** In a VGG19 whose parameters are all different, no parameter of the
    classifier is one of the features. *)
Lemma vgg_child_disjoint m j pl l :
  NoDup (parameters m) →
  m_layers m !! j = Some pl → in_child "classifier" pl.1 = true →
  l ∈ layer_locs pl.2 → l ∉ parameters (child "features" m).
Proof.
  intros Hnd Hj Hc Hl (j' & pl' & Hj' & Hc' & Hl')%elem_of_parameters_child.
  destruct (decide (j = j')) as [->|Hne].
  - simplify_eq. by eapply features_not_classifier.
  - by eapply (layers_params_disjoint (m_layers m) j j').
Qed.

Lemma vgg_features_frozen ly m i0 old l :
  list_find (λ pl, pl.1 = "classifier.6") (m_layers m) = Some (i0, ("classifier.6", old)) →
  l ∈ parameters (child "features" (set_layer "classifier.6" ly m)) →
  l ∈ parameters (child "features" m).
Proof.
  intros Hfind (j & pl & Hj & Hc & Hl)%elem_of_parameters_child.
  apply list_elem_of_lookup_2, (set_layer_elem _ _ _ _ _ _ Hfind) in Hj
    as [->|(j' & _ & Hj')]; [done|].
  apply elem_of_parameters_child. eauto.
Qed.

(** The set-up of VGG19 in the comparison notebook: the features are frozen,
    the optimizer is given the classifier, with its new last layer. *)
Lemma vgg19_setup_ok (cn : list string) w0 w' m' o :
  Combinados.vgg19_setup cn w0 = (w', Ok (m', o)) →
  ∃ i lw lb,
    setup_ok w0 w' m' o ∧
    (∀ l, l ∈ parameters (child "features" m') → requires_grad_at (heap w') l = false) ∧
    get_layer "classifier.6" m' = ret (Linear i (length cn) lw lb) ∧
    o_params o = parameters (child "classifier" m') ∧ m_arch m' = VGG19 ∧
    log w' = log w0 ++ [EvPrint (TextLine (nl +:+ "--- Entrenando VGG19 ---"));
                        EvPretrained VGG19; EvLinear i (length cn);
                        EvAdam (o_params o)].
Proof.
  unfold Combinados.vgg19_setup. intros H.
  apply bind_Ok_inv in H as (w1 & [] & H1 & H).
  unfold print in H1. injection H1 as <-.
  apply (setup_steps (λ m o, (m, o)) VGG19 (λ m, parameters (child "features" m))
           "classifier.6" "classifier") in H
    as (m1 & o1 & m & w2 & w3 & w4 & i0 & old & i & lw & lb & [= <- <-] &
        H2 & H3 & Hfind & H4 & Hm' & Ho & Hw').
  destruct (setup_steps_ok VGG19 (λ m, parameters (child "features" m))
              "classifier.6" "classifier" (length cn)
              (emit (EvPrint (TextLine (nl +:+ "--- Entrenando VGG19 ---"))) w0)
              w' m' o m w2 w3 w4 i0 old i lw lb H2 H3)
    as (_ & Hok & Hfrozen & Hdom & Hpm' & Hlog & Harch); try done.
  { intros l. apply parameters_child_subseteq. }
  { by rewrite Hw'. }
  { by rewrite Hw'. }
  assert (setup_ok (emit (EvPrint (TextLine (nl +:+ "--- Entrenando VGG19 ---"))) w0) w' m' o)
    as Hok'.
  { apply Hok. intros Hnd _ j pl l _ Hj Hc Hl. by eapply vgg_child_disjoint. }
  exists i, lw, lb. split_and!; try done.
  - intros l Hl. apply Hfrozen. rewrite Hm' in Hl. by eapply vgg_features_frozen.
  - rewrite Hm'. by eapply set_layer_lookup.
  - rewrite Hw'. simpl. rewrite Hlog. simpl. rewrite <-!app_assoc, <-Ho. done.
Qed.

(** The set-up of the VGG19 notebook, Paso 3 and Paso 4. *)
Lemma vgg_paso3_paso4_ok (cn : list string) w0 w1 m' w' c o :
  Vgg19.paso3 cn w0 = (w1, Ok m') →
  Vgg19.paso4 m' w1 = (w', Ok (c, o)) →
  ∃ i lw lb,
    c = nn_CrossEntropyLoss ∧ setup_ok w0 w' m' o ∧
    (∀ l, l ∈ parameters (child "features" m') → requires_grad_at (heap w') l = false) ∧
    get_layer "classifier.6" m' = ret (Linear i (length cn) lw lb) ∧
    o_params o = parameters (child "classifier" m') ∧ m_arch m' = VGG19 ∧
    log w' = log w0 ++ [EvPretrained VGG19; EvLinear i (length cn); EvTo;
                        EvAdam (o_params o)].
Proof.
  unfold Vgg19.paso3, Vgg19.paso4. intros H H'.
  apply bind_Ok_inv in H as (w2 & m & H2 & H).
  apply bind_Ok_inv in H as (w3 & [] & H3 & H).
  apply bind_Ok_inv in H as (w3' & old & Hg & H).
  apply get_layer_spec in Hg as [-> (i0 & Hfind)].
  apply bind_Ok_inv in H as (w3' & i & Hi & H).
  apply in_features_of_spec in Hi as [-> _].
  apply bind_Ok_inv in H as (w4 & ly & H4 & H).
  pose proof H4 as H4'. apply nn_Linear_Ok in H4' as (lw & lb & [= ->] & _).
  unfold to_device, lib_call in H.
  destruct (t_to_device (backend_st w4)) as [le|bk]; [done|]. injection H as <- <-.
  apply bind_Ok_inv in H' as (w5 & o' & H5 & H').
  apply optim_Adam_spec in H5 as [Ho ->]. injection H' as <- Heq. subst o'.
  set (m' := set_layer "classifier.6" (Linear i (length cn) lw lb) m) in *.
  destruct (setup_steps_ok VGG19 (λ m, parameters (child "features" m))
              "classifier.6" "classifier" (length cn) w0
              (emit (EvAdam (parameters (child "classifier" m')))
                 (emit EvTo (set_backend bk w4)))
              m' o m w2 w3 w4 i0 old i lw lb H2 H3)
    as (_ & Hok & Hfrozen & Hdom & Hpm' & Hlog & Harch); try done.
  { intros l. apply parameters_child_subseteq. }
  assert (setup_ok w0 (emit (EvAdam (parameters (child "classifier" m')))
                         (emit EvTo (set_backend bk w4))) m' o) as Hok'.
  { apply Hok. intros Hnd _ j pl l _ Hj Hc Hl. by eapply vgg_child_disjoint. }
  exists i, lw, lb. split_and!; try done.
  - intros l Hl. apply Hfrozen. by eapply vgg_features_frozen.
  - by eapply set_layer_lookup.
  - simpl. rewrite Hlog, <-!app_assoc, Ho. done.
Qed.

End Setups.

(** ** The other cells of the comparison notebook *)

Section Cells.
Context `{TH : Torch}.

Lemma paso3_Ok w w' d :
  Combinados.paso3 w = (w', Ok d) →
  ∃ train_dataset test_dataset,
    d = {| Combinados.train_loader :=
             tu_DataLoader train_dataset Combinados.batch_size true;
           Combinados.val_loader :=
             tu_DataLoader test_dataset Combinados.batch_size false;
           Combinados.class_names := ds_classes train_dataset |} ∧
    heap w' = heap w ∧ files w' = files w ∧
    log w' = log w ++ [EvImageFolder Combinados.train_dir;
                       EvImageFolder Combinados.test_dir;
                       EvPrint (ClassesLine (ds_classes train_dataset))].
Proof.
  intros H. unfold Combinados.paso3 in H. prims. monad.
  repeat case_match; simplify_eq/=.
  eexists _, _. split_and!; try done. by rewrite <-!app_assoc.
Qed.

Lemma paso6_Ok p w w' :
  Combinados.paso6 p w = (w', Ok tt) →
  heap w' = heap w ∧ files w' = files w ∧
  ∃ p18 p34 pvgg,
    log w' = log w ++
      [EvPrecisionScore (Combinados.e_y_true (Combinados.r18 p))
         (Combinados.e_y_pred (Combinados.r18 p)) p18;
       EvPrecisionScore (Combinados.e_y_true (Combinados.r34 p))
         (Combinados.e_y_pred (Combinados.r34 p)) p34;
       EvPrecisionScore (Combinados.e_y_true (Combinados.vgg p))
         (Combinados.e_y_pred (Combinados.vgg p)) pvgg;
       EvPlotLines "Validation Loss"
         [("ResNet18", Combinados.e_val_losses (Combinados.r18 p));
          ("ResNet34", Combinados.e_val_losses (Combinados.r34 p));
          ("VGG19", Combinados.e_val_losses (Combinados.vgg p))];
       EvPlotLines "Validation Accuracy"
         [("ResNet18", Combinados.e_val_accuracies (Combinados.r18 p));
          ("ResNet34", Combinados.e_val_accuracies (Combinados.r34 p));
          ("VGG19", Combinados.e_val_accuracies (Combinados.vgg p))];
       EvPrint (TextLine "📌 Precision por modelo (macro avg):");
       EvPrint (PrecisionLine "ResNet18" p18);
       EvPrint (PrecisionLine "ResNet34" p34);
       EvPrint (PrecisionLine "VGG19" pvgg)].
Proof.
  intros H. unfold Combinados.paso6, Combinados.calcular_precision_final,
    Combinados.plot_metric_comparison in H. prims. monad.
  repeat case_match; simplify_eq/=.
  split_and!; try done. eexists _, _, _. by rewrite <-!app_assoc.
Qed.

(** [mostrar_confusion]: the matrix is that of [confusion_matrix] with
    [normalize='true'] on the two lists, shown with the class names. *)
Lemma mostrar_confusion_Ok cn yt yp modelo w w' :
  Combinados.mostrar_confusion cn yt yp modelo w = (w', Ok tt) →
  heap w' = heap w ∧ files w' = files w ∧
  ∃ cm, sk_confusion_matrix yt yp "true" = inr cm ∧
    log w' = log w ++ [EvConfusionMatrix yt yp "true" cm;
                       EvPlotConfusion cm cn ("Normalized Confusion Matrix - " +:+ modelo)].
Proof.
  intros H. unfold Combinados.mostrar_confusion in H. prims. monad.
  repeat case_match; simplify_eq/=.
  split_and!; try done. eexists. split; [done|]. by rewrite <-!app_assoc.
Qed.

Lemma paso7_Ok d p w w' :
  Combinados.paso7 d p w = (w', Ok tt) →
  heap w' = heap w ∧ files w' = files w ∧
  ∃ cm18 cm34 cmvgg,
    sk_confusion_matrix (Combinados.e_y_true (Combinados.r18 p))
      (Combinados.e_y_pred (Combinados.r18 p)) "true" = inr cm18 ∧
    sk_confusion_matrix (Combinados.e_y_true (Combinados.r34 p))
      (Combinados.e_y_pred (Combinados.r34 p)) "true" = inr cm34 ∧
    sk_confusion_matrix (Combinados.e_y_true (Combinados.vgg p))
      (Combinados.e_y_pred (Combinados.vgg p)) "true" = inr cmvgg ∧
    log w' = log w ++
      [EvConfusionMatrix (Combinados.e_y_true (Combinados.r18 p))
         (Combinados.e_y_pred (Combinados.r18 p)) "true" cm18;
       EvPlotConfusion cm18 (Combinados.class_names d)
         "Normalized Confusion Matrix - ResNet18";
       EvConfusionMatrix (Combinados.e_y_true (Combinados.r34 p))
         (Combinados.e_y_pred (Combinados.r34 p)) "true" cm34;
       EvPlotConfusion cm34 (Combinados.class_names d)
         "Normalized Confusion Matrix - ResNet34";
       EvConfusionMatrix (Combinados.e_y_true (Combinados.vgg p))
         (Combinados.e_y_pred (Combinados.vgg p)) "true" cmvgg;
       EvPlotConfusion cmvgg (Combinados.class_names d)
         "Normalized Confusion Matrix - VGG19"].
Proof.
  unfold Combinados.paso7. intros H.
  apply bind_Ok_inv in H as (w1 & [] & H1 & H).
  apply bind_Ok_inv in H as (w2 & [] & H2 & H).
  apply mostrar_confusion_Ok in H1 as (Hh1 & Hf1 & cm18 & Hc1 & Hl1).
  apply mostrar_confusion_Ok in H2 as (Hh2 & Hf2 & cm34 & Hc2 & Hl2).
  apply mostrar_confusion_Ok in H as (Hh3 & Hf3 & cmvgg & Hc3 & Hl3).
  split_and!; [congruence|congruence|].
  exists cm18, cm34, cmvgg. split_and!; try done.
  rewrite Hl3, Hl2, Hl1, <-!app_assoc. done.
Qed.

(** Paso 8 writes the three state dicts, read from the store at that time. *)
Lemma paso8_Ok p w w' :
  Combinados.paso8 p w = (w', Ok tt) →
  heap w' = heap w ∧
  files w' =
    <["model_vgg19.pth" := state_dict (Combinados.e_model (Combinados.vgg p)) (heap w)]>
      (<["model_resnet34.pth" :=
           state_dict (Combinados.e_model (Combinados.r34 p)) (heap w)]>
         (<["model_resnet18.pth" :=
              state_dict (Combinados.e_model (Combinados.r18 p)) (heap w)]> (files w))) ∧
  log w' = log w ++ [EvSave "model_resnet18.pth"; EvSave "model_resnet34.pth";
                     EvSave "model_vgg19.pth";
                     EvPrint (TextLine "✅ Modelos guardados correctamente.")].
Proof.
  intros H. unfold Combinados.paso8, torch_save in H. prims. monad.
  repeat case_match; simplify_eq/=.
  split_and!; try done. by rewrite <-!app_assoc.
Qed.

(** The three trainings of Paso 5, one after the other. *)
Lemma paso5_Ok_inv d w w' p :
  Combinados.paso5 d w = (w', Ok p) →
  ∃ w1 m18 o18 c w2 w3 m34 o34 w4 w5 mvgg ovgg,
    Combinados.resnet18_setup (Combinados.class_names d) w = (w1, Ok (m18, o18, c)) ∧
    Combinados.entrenar_modelo m18 (Combinados.train_loader d) (Combinados.val_loader d)
      o18 c Combinados.epochs "ResNet18" w1 = (w2, Ok (Combinados.r18 p)) ∧
    Combinados.resnet34_setup (Combinados.class_names d) w2 = (w3, Ok (m34, o34)) ∧
    Combinados.entrenar_modelo m34 (Combinados.train_loader d) (Combinados.val_loader d)
      o34 c Combinados.epochs "ResNet34" w3 = (w4, Ok (Combinados.r34 p)) ∧
    Combinados.vgg19_setup (Combinados.class_names d) w4 = (w5, Ok (mvgg, ovgg)) ∧
    Combinados.entrenar_modelo mvgg (Combinados.train_loader d) (Combinados.val_loader d)
      ovgg c Combinados.epochs "VGG19" w5 = (w', Ok (Combinados.vgg p)).
Proof.
  unfold Combinados.paso5. intros H.
  apply bind_Ok_inv in H as (w1 & [[m18 o18] c] & H1 & H).
  apply bind_Ok_inv in H as (w2 & x18 & H2 & H).
  apply bind_Ok_inv in H as (w3 & [m34 o34] & H3 & H).
  apply bind_Ok_inv in H as (w4 & x34 & H4 & H).
  apply bind_Ok_inv in H as (w5 & [mvgg ovgg] & H5 & H).
  apply bind_Ok_inv in H as (w6 & xvgg & H6 & H). injection H as <- <-.
  eexists _, _, _, _, _, _, _, _, _, _, _, _. split_and!; done.
Qed.

Lemma notebook_Ok_inv w w' d p :
  Combinados.notebook w = (w', Ok (d, p)) →
  ∃ w3 w5 w6 w7,
    Combinados.paso3 w = (w3, Ok d) ∧ Combinados.paso5 d w3 = (w5, Ok p) ∧
    Combinados.paso6 p w5 = (w6, Ok tt) ∧ Combinados.paso7 d p w6 = (w7, Ok tt) ∧
    Combinados.paso8 p w7 = (w', Ok tt).
Proof.
  unfold Combinados.notebook. intros H.
  apply bind_Ok_inv in H as (w3 & d' & H3 & H).
  apply bind_Ok_inv in H as (w5 & p' & H5 & H).
  apply bind_Ok_inv in H as (w6 & [] & H6 & H).
  apply bind_Ok_inv in H as (w7 & [] & H7 & H).
  apply bind_Ok_inv in H as (w8 & [] & H8 & H). injection H as <- <- <-.
  eexists _, _, _, _. split_and!; done.
Qed.

End Cells.

(** ** The other cells of the VGG19 notebook *)

Section VggCells.
Context `{TH : Torch}.

Lemma vgg_paso2_Ok w w' d :
  Vgg19.paso2 w = (w', Ok d) →
  ∃ full_dataset train_dataset val_dataset sizes,
    d = {| Vgg19.train_loader := tu_DataLoader train_dataset Vgg19.batch_size true;
           Vgg19.val_loader := tu_DataLoader val_dataset Vgg19.batch_size false;
           Vgg19.class_names := ds_classes full_dataset |} ∧
    heap w' = heap w ∧ files w' = files w ∧
    log w' = log w ++ [EvImageFolder Vgg19.data_dir; EvRandomSplit sizes].
Proof.
  intros H. unfold Vgg19.paso2 in H. prims. unfold manual_seed in H. monad.
  repeat case_match; simplify_eq/=.
  eexists _, _, _, _. split_and!; try done. by rewrite <-!app_assoc.
Qed.

Lemma vgg_paso6_Ok g w w' :
  Vgg19.paso6 g w = (w', Ok tt) →
  heap w' = heap w ∧ files w' = files w ∧
  log w' = log w ++ [EvPlotLines "Curva de Pérdida"
                       [("Entrenamiento", Vgg19.g_train_losses g);
                        ("Validación", Vgg19.g_val_losses g)]].
Proof.
  intros H. unfold Vgg19.paso6, plot, lib_pure in H.
  destruct (plt_show _); by simplify_eq/=.
Qed.

(** Paso 7 writes the state dict, read from the store at that time. *)
Lemma vgg_paso7_Ok g w w' :
  Vgg19.paso7 g w = (w', Ok tt) →
  heap w' = heap w ∧
  files w' = <["fruitscan_model.pth" := state_dict (Vgg19.g_model g) (heap w)]> (files w) ∧
  log w' = log w ++ [EvSave "fruitscan_model.pth";
                     EvPrint (TextLine (nl +:+ "✅ Modelo guardado como: fruitscan_model.pth"))].
Proof.
  intros H. unfold Vgg19.paso7, torch_save in H. prims. monad.
  repeat case_match; simplify_eq/=.
  split_and!; try done. by rewrite <-!app_assoc.
Qed.

Lemma vgg_notebook_Ok_inv w w' d g :
  Vgg19.notebook w = (w', Ok (d, g)) →
  ∃ w2 w3 m w4 c o w5 w6,
    Vgg19.paso2 w = (w2, Ok d) ∧ Vgg19.paso3 (Vgg19.class_names d) w2 = (w3, Ok m) ∧
    Vgg19.paso4 m w3 = (w4, Ok (c, o)) ∧
    Vgg19.paso5 d m c o Vgg19.epochs w4 = (w5, Ok g) ∧
    Vgg19.paso6 g w5 = (w6, Ok tt) ∧ Vgg19.paso7 g w6 = (w', Ok tt).
Proof.
  unfold Vgg19.notebook. intros H.
  apply bind_Ok_inv in H as (w2 & d' & H2 & H).
  apply bind_Ok_inv in H as (w3 & m & H3 & H).
  apply bind_Ok_inv in H as (w4 & [c o] & H4 & H).
  apply bind_Ok_inv in H as (w5 & g' & H5 & H).
  apply bind_Ok_inv in H as (w6 & [] & H6 & H).
  apply bind_Ok_inv in H as (w7 & [] & H7 & H). injection H as <- <- <-.
  eexists _, _, _, _, _, _, _, _. split_and!; done.
Qed.

End VggCells.

(** ** What training leaves alone *)

Section Separation.
Context `{TH : Torch}.

#[global] Instance keeps_old_po : PreOrder keeps_old.
Proof.
  split.
  - by intros w l _.
  - intros w1 w2 w3 H12 H23 l Hl. rewrite H23, H12; [done|done|]. by rewrite H12.
Qed.

Lemma keeps_old_heap_eq w w' : heap w' = heap w → keeps_old w w'.
Proof. intros H l _. by rewrite H. Qed.

(** Training a model that was set up after [w] keeps the store of [w]. *)
Lemma setup_train_keeps_old w w1 w2 m o :
  setup_sep w w1 m o → touches (o_params o) (parameters m) w1 w2 → keeps_old w w2.
Proof.
  intros (_ & Hold & Hnew & Hopt) Ht l Hl.
  destruct (Ht l) as [->|(p & p' & Hp & _ & _ & Hin)]; [by apply Hold|].
  assert (l ∈ parameters m) as Hm.
  { destruct Hin as [Hin|[Hin _]]; [by apply Hopt|done]. }
  destruct (Hnew l Hm) as [Hnone _]. rewrite Hnone in Hl. by destruct Hl.
Qed.

(** A parameter that does not require grad is not changed by training, when
    the optimizer holds parameters that require grad only. *)
Lemma frozen_untouched ps mp w w' l p :
  touches ps mp w w' →
  (∀ l, l ∈ ps → requires_grad_at (heap w) l = true) →
  heap w !! l = Some p → p_requires_grad p = false →
  heap w' !! l = Some p.
Proof.
  intros Ht Hps Hp Hrg.
  destruct (Ht l) as [->|(q & q' & Hq & _ & _ & Hin)]; [done|].
  rewrite Hp in Hq. injection Hq as <-.
  destruct Hin as [Hin|[_ Hin]]; [|congruence].
  specialize (Hps l Hin). unfold requires_grad_at in Hps. rewrite Hp in Hps. congruence.
Qed.

(** Training keeps the parameters that are in the store in the store. *)
Lemma touches_is_Some ps mp w w' l :
  touches ps mp w w' → is_Some (heap w !! l) → is_Some (heap w' !! l).
Proof.
  intros Ht Hl. destruct (Ht l) as [->|(p & p' & _ & -> & _)]; [done|eauto].
Qed.

(** The state dict of a model is read at the parameters of the model. *)
Lemma state_dict_ext m m' h h' :
  skeleton m' = skeleton m → m_buffers m' = m_buffers m →
  (∀ l, l ∈ parameters m → h' !! l = h !! l) →
  state_dict m' h' = state_dict m h.
Proof.
  intros Hsk Hb Hh. unfold state_dict. rewrite Hb. f_equal.
  assert (named_parameters m' = named_parameters m) as ->.
  { unfold skeleton in Hsk. unfold named_parameters. congruence. }
  assert (∀ nl, nl ∈ named_parameters m → h' !! nl.2 = h !! nl.2) as Hnl.
  { intros nl Hin. apply Hh. unfold parameters. apply list_elem_of_fmap. eauto. }
  clear Hsk Hb Hh. induction (named_parameters m) as [|nl nls IH]; [done|].
  cbn [omap list_omap]. rewrite (Hnl nl) by apply list_elem_of_here.
  rewrite IH; [done|]. intros ? ?. apply Hnl. by apply list_elem_of_further.
Qed.

Lemma state_dict_keeps_old m w w' :
  (∀ l, l ∈ parameters m → is_Some (heap w !! l)) → keeps_old w w' →
  state_dict m (heap w') = state_dict m (heap w).
Proof.
  intros Hin Hk. apply state_dict_ext; [done|done|]. intros l Hl. by apply Hk, Hin.
Qed.




(** The events of training are no call that makes a model, saves a file or
    shows a confusion matrix. *)
Lemma training_event_others new :
  Forall training_event new →
  pretrained_archs new = [] ∧ linear_calls new = [] ∧ saved_paths new = [] ∧
  confusion_calls new = [] ∧ confusion_plots new = [].
Proof.
  induction 1 as [|ev new Hev _ IH]; [done|]. by destruct ev.
Qed.

Lemma pretrained_archs_app l1 l2 :
  pretrained_archs (l1 ++ l2) = pretrained_archs l1 ++ pretrained_archs l2.
Proof. apply omap_app. Qed.

Lemma linear_calls_app l1 l2 : linear_calls (l1 ++ l2) = linear_calls l1 ++ linear_calls l2.
Proof. apply omap_app. Qed.


Lemma confusion_calls_app l1 l2 :
  confusion_calls (l1 ++ l2) = confusion_calls l1 ++ confusion_calls l2.
Proof. apply omap_app. Qed.

Lemma confusion_plots_app l1 l2 :
  confusion_plots (l1 ++ l2) = confusion_plots l1 ++ confusion_plots l2.
Proof. apply omap_app. Qed.

End Separation.

(** ** The notebooks as a whole *)

Section Notebooks.
Context `{TH : Torch}.

Lemma get_layer_skeleton path m m' :
  skeleton m' = skeleton m → get_layer path m' = get_layer path m.
Proof. unfold skeleton, get_layer. by intros [= _ ->]. Qed.

Lemma m_arch_skeleton m m' : skeleton m' = skeleton m → m_arch m' = m_arch m.
Proof. unfold skeleton. by intros [= -> _]. Qed.

(** After a set-up, training changes no parameter that does not require
    grad. *)
Lemma setup_train_frozen w0 w1 w2 m o l p :
  setup_ok w0 w1 m o → touches (o_params o) (parameters m) w1 w2 →
  heap w1 !! l = Some p → p_requires_grad p = false → heap w2 !! l = Some p.
Proof.
  intros (_ & _ & _ & Hopt) Ht. apply (frozen_untouched _ _ _ _ _ _ Ht).
  intros l' Hl'. by destruct (Hopt l' Hl').
Qed.

(** A set-up and the training that follows it. *)
Lemma setup_train w0 w1 w2 m o tl vl c E nombre x :
  setup_sep w0 w1 m o →
  Combinados.entrenar_modelo m tl vl o c E nombre w1 = (w2, Ok x) →
  files w2 = files w0 ∧ keeps_old w0 w2 ∧
  skeleton (Combinados.e_model x) = skeleton m ∧
  (∀ l, l ∈ parameters (Combinados.e_model x) → is_Some (heap w2 !! l)) ∧
  log w2 = log w1 ++ new_log w1 w2 ∧ Forall training_event (new_log w1 w2) ∧
  iters (new_log w1 w2) = alternation (Z.to_nat E).
Proof.
  intros Hs H. pose proof H as [_ Hi]%entrenar_modelo_iters.
  pose proof H as [(Hf & Hl & Ht) Hsk]%entrenar_modelo_all.
  specialize (Hsk x eq_refl). apply logs_inv in Hl as [Hl HF].
  split_and!; try done.
  - destruct Hs as (Hf0 & _). unfold files_same in Hf. congruence.
  - by eapply setup_train_keeps_old.
  - intros l Hl'. rewrite (parameters_skeleton _ _ Hsk) in Hl'.
    destruct Hs as (_ & _ & Hnew & _). destruct (Hnew l Hl') as [_ Hsome].
    by eapply touches_is_Some.
  - apply Hi. left. eauto.
Qed.

(** The steps of the comparison notebook when it runs to its end. *)
Lemma notebook_steps w w' d p :
  Combinados.notebook w = (w', Ok (d, p)) →
  ∃ w3 s18 t18 s34 t34 svgg tvgg m18 o18 c m34 o34 mvgg ovgg w6 w7,
    Combinados.paso3 w = (w3, Ok d) ∧
    Combinados.resnet18_setup (Combinados.class_names d) w3 = (s18, Ok (m18, o18, c)) ∧
    Combinados.entrenar_modelo m18 (Combinados.train_loader d) (Combinados.val_loader d)
      o18 c Combinados.epochs "ResNet18" s18 = (t18, Ok (Combinados.r18 p)) ∧
    Combinados.resnet34_setup (Combinados.class_names d) t18 = (s34, Ok (m34, o34)) ∧
    Combinados.entrenar_modelo m34 (Combinados.train_loader d) (Combinados.val_loader d)
      o34 c Combinados.epochs "ResNet34" s34 = (t34, Ok (Combinados.r34 p)) ∧
    Combinados.vgg19_setup (Combinados.class_names d) t34 = (svgg, Ok (mvgg, ovgg)) ∧
    Combinados.entrenar_modelo mvgg (Combinados.train_loader d) (Combinados.val_loader d)
      ovgg c Combinados.epochs "VGG19" svgg = (tvgg, Ok (Combinados.vgg p)) ∧
    Combinados.paso6 p tvgg = (w6, Ok tt) ∧ Combinados.paso7 d p w6 = (w7, Ok tt) ∧
    Combinados.paso8 p w7 = (w', Ok tt).
Proof.
  intros (w3 & w5 & w6 & w7 & H3 & H5 & H6 & H7 & H8)%notebook_Ok_inv.
  apply paso5_Ok_inv in H5
    as (s18 & m18 & o18 & c & t18 & s34 & m34 & o34 & t34 & svgg & mvgg & ovgg &
        Hs18 & Ht18 & Hs34 & Ht34 & Hsv & Htv).
  eexists w3, s18, t18, s34, t34, svgg, w5, m18, o18, c, m34, o34, mvgg, ovgg, w6, w7.
  split_and!; done.
Qed.

(** The files the comparison notebook leaves: the three state dicts, each as
    it was when the training of its model returned. *)
Lemma notebook_files w w' d p :
  Combinados.notebook w = (w', Ok (d, p)) →
  ∃ s18 t18 s34 t34 svgg tvgg,
    Combinados.trained d "ResNet18" (Combinados.r18 p) s18 t18 ∧
    Combinados.trained d "ResNet34" (Combinados.r34 p) s34 t34 ∧
    Combinados.trained d "VGG19" (Combinados.vgg p) svgg tvgg ∧
    files w' =
      <["model_vgg19.pth" :=
          state_dict (Combinados.e_model (Combinados.vgg p)) (heap tvgg)]>
        (<["model_resnet34.pth" :=
             state_dict (Combinados.e_model (Combinados.r34 p)) (heap t34)]>
           (<["model_resnet18.pth" :=
                state_dict (Combinados.e_model (Combinados.r18 p)) (heap t18)]>
              (files w))).
Proof.
  intros
    (w3 & s18 & t18 & s34 & t34 & svgg & tvgg & m18 & o18 & c & m34 & o34 & mvgg & ovgg &
     w6 & w7 & H3 & Hs18 & Ht18 & Hs34 & Ht34 & Hsv & Htv & H6 & H7 & H8)%notebook_steps.
  exists s18, t18, s34, t34, svgg, tvgg.
  split; [by exists m18, o18, c|]. split; [by exists m34, o34, c|].
  split; [by exists mvgg, ovgg, c|].
  apply paso3_Ok in H3 as (_ & _ & _ & _ & Hf3 & _).
  apply resnet18_setup_sep in Hs18 as (_ & _ & _ & _ & S18 & _).
  apply resnet34_setup_sep in Hs34 as (_ & _ & _ & S34 & _).
  apply vgg19_setup_ok in Hsv as (_ & _ & _ & Sv%setup_ok_sep & _).
  destruct (setup_train _ _ _ _ _ _ _ _ _ _ _ S18 Ht18) as (F18 & _ & _ & P18 & _).
  destruct (setup_train _ _ _ _ _ _ _ _ _ _ _ S34 Ht34) as (F34 & K34 & _ & P34 & _).
  destruct (setup_train _ _ _ _ _ _ _ _ _ _ _ Sv Htv) as (Fv & Kv & _ & Pv & _).
  apply paso6_Ok in H6 as (Hh6 & Hf6 & _).
  apply paso7_Ok in H7 as (Hh7 & Hf7 & _).
  apply paso8_Ok in H8 as (_ & Hf8 & _).
  assert (state_dict (Combinados.e_model (Combinados.r18 p)) (heap tvgg) =
          state_dict (Combinados.e_model (Combinados.r18 p)) (heap t18)) as E18.
  { apply state_dict_keeps_old; [done|]. by etrans. }
  assert (state_dict (Combinados.e_model (Combinados.r34 p)) (heap tvgg) =
          state_dict (Combinados.e_model (Combinados.r34 p)) (heap t34)) as E34.
  { by apply state_dict_keeps_old. }
  by rewrite Hf8, Hf7, Hf6, Fv, F34, F18, Hf3, Hh7, Hh6, E18, E34.
Qed.

(** What the comparison notebook logs, from its first cell to its last. *)
Lemma notebook_log w w' d p :
  Combinados.notebook w = (w', Ok (d, p)) →
  ∃ s18 t18 s34 t34 svgg tvgg i18 lw18 lb18 i34 lw34 lb34 ivgg lwv lbv ps18 ps34 psvgg
    p18 p34 pvgg cm18 cm34 cmvgg,
    let n := length (Combinados.class_names d) in
    Combinados.trained d "ResNet18" (Combinados.r18 p) s18 t18 ∧
    Combinados.trained d "ResNet34" (Combinados.r34 p) s34 t34 ∧
    Combinados.trained d "VGG19" (Combinados.vgg p) svgg tvgg ∧
    get_layer "fc" (Combinados.e_model (Combinados.r18 p)) = ret (Linear i18 n lw18 lb18) ∧
    get_layer "fc" (Combinados.e_model (Combinados.r34 p)) = ret (Linear i34 n lw34 lb34) ∧
    get_layer "classifier.6" (Combinados.e_model (Combinados.vgg p))
      = ret (Linear ivgg n lwv lbv) ∧
    m_arch (Combinados.e_model (Combinados.r18 p)) = ResNet18 ∧
    m_arch (Combinados.e_model (Combinados.r34 p)) = ResNet34 ∧
    m_arch (Combinados.e_model (Combinados.vgg p)) = VGG19 ∧
    Forall training_event (new_log s18 t18) ∧
    Forall training_event (new_log s34 t34) ∧
    Forall training_event (new_log svgg tvgg) ∧
    iters (new_log s18 t18) = alternation (Z.to_nat Combinados.epochs) ∧
    iters (new_log s34 t34) = alternation (Z.to_nat Combinados.epochs) ∧
    iters (new_log svgg tvgg) = alternation (Z.to_nat Combinados.epochs) ∧
    sk_confusion_matrix (Combinados.e_y_true (Combinados.r18 p))
      (Combinados.e_y_pred (Combinados.r18 p)) "true" = inr cm18 ∧
    sk_confusion_matrix (Combinados.e_y_true (Combinados.r34 p))
      (Combinados.e_y_pred (Combinados.r34 p)) "true" = inr cm34 ∧
    sk_confusion_matrix (Combinados.e_y_true (Combinados.vgg p))
      (Combinados.e_y_pred (Combinados.vgg p)) "true" = inr cmvgg ∧
    new_log w w' =
      [EvImageFolder Combinados.train_dir; EvImageFolder Combinados.test_dir;
       EvPrint (ClassesLine (Combinados.class_names d));
       EvPrint (TextLine (nl +:+ "--- Entrenando ResNet18 ---"));
       EvPretrained ResNet18; EvLinear i18 n; EvAdam ps18] ++
      new_log s18 t18 ++
      [EvPrint (TextLine (nl +:+ "--- Entrenando ResNet34 ---"));
       EvPretrained ResNet34; EvLinear i34 n; EvAdam ps34] ++
      new_log s34 t34 ++
      [EvPrint (TextLine (nl +:+ "--- Entrenando VGG19 ---"));
       EvPretrained VGG19; EvLinear ivgg n; EvAdam psvgg] ++
      new_log svgg tvgg ++
      [EvPrecisionScore (Combinados.e_y_true (Combinados.r18 p))
         (Combinados.e_y_pred (Combinados.r18 p)) p18;
       EvPrecisionScore (Combinados.e_y_true (Combinados.r34 p))
         (Combinados.e_y_pred (Combinados.r34 p)) p34;
       EvPrecisionScore (Combinados.e_y_true (Combinados.vgg p))
         (Combinados.e_y_pred (Combinados.vgg p)) pvgg;
       EvPlotLines "Validation Loss"
         [("ResNet18", Combinados.e_val_losses (Combinados.r18 p));
          ("ResNet34", Combinados.e_val_losses (Combinados.r34 p));
          ("VGG19", Combinados.e_val_losses (Combinados.vgg p))];
       EvPlotLines "Validation Accuracy"
         [("ResNet18", Combinados.e_val_accuracies (Combinados.r18 p));
          ("ResNet34", Combinados.e_val_accuracies (Combinados.r34 p));
          ("VGG19", Combinados.e_val_accuracies (Combinados.vgg p))];
       EvPrint (TextLine "📌 Precision por modelo (macro avg):");
       EvPrint (PrecisionLine "ResNet18" p18);
       EvPrint (PrecisionLine "ResNet34" p34);
       EvPrint (PrecisionLine "VGG19" pvgg);
       EvConfusionMatrix (Combinados.e_y_true (Combinados.r18 p))
         (Combinados.e_y_pred (Combinados.r18 p)) "true" cm18;
       EvPlotConfusion cm18 (Combinados.class_names d)
         "Normalized Confusion Matrix - ResNet18";
       EvConfusionMatrix (Combinados.e_y_true (Combinados.r34 p))
         (Combinados.e_y_pred (Combinados.r34 p)) "true" cm34;
       EvPlotConfusion cm34 (Combinados.class_names d)
         "Normalized Confusion Matrix - ResNet34";
       EvConfusionMatrix (Combinados.e_y_true (Combinados.vgg p))
         (Combinados.e_y_pred (Combinados.vgg p)) "true" cmvgg;
       EvPlotConfusion cmvgg (Combinados.class_names d)
         "Normalized Confusion Matrix - VGG19";
       EvSave "model_resnet18.pth"; EvSave "model_resnet34.pth";
       EvSave "model_vgg19.pth";
       EvPrint (TextLine "✅ Modelos guardados correctamente.")].
Proof.
  intros
    (w3 & s18 & t18 & s34 & t34 & svgg & tvgg & m18 & o18 & c & m34 & o34 & mvgg & ovgg &
     w6 & w7 & H3 & Hs18 & Ht18 & Hs34 & Ht34 & Hsv & Htv & H6 & H7 & H8)%notebook_steps.
  apply paso3_Ok in H3 as (ds1 & ds2 & -> & _ & _ & Hl3). simpl in *.
  pose proof Hs18 as (i18 & lw18 & lb18 & _ & S18 & G18 & A18 & L18)%resnet18_setup_sep.
  pose proof Hs34 as (i34 & lw34 & lb34 & S34 & G34 & A34 & L34)%resnet34_setup_sep.
  pose proof Hsv as (ivgg & lwv & lbv & Sv%setup_ok_sep & _ & Gv & _ & Av & Lv)%vgg19_setup_ok.
  destruct (setup_train _ _ _ _ _ _ _ _ _ _ _ S18 Ht18) as (_ & _ & K18 & _ & N18 & F18 & I18).
  destruct (setup_train _ _ _ _ _ _ _ _ _ _ _ S34 Ht34) as (_ & _ & K34 & _ & N34 & F34 & I34).
  destruct (setup_train _ _ _ _ _ _ _ _ _ _ _ Sv Htv) as (_ & _ & Kv & _ & Nv & Fv & Iv).
  apply paso6_Ok in H6 as (_ & _ & p18 & p34 & pvgg & Hl6).
  apply paso7_Ok in H7 as (_ & _ & cm18 & cm34 & cmvgg & C18 & C34 & Cv & Hl7).
  apply paso8_Ok in H8 as (_ & _ & Hl8).
  exists s18, t18, s34, t34, svgg, tvgg, i18, lw18, lb18, i34, lw34, lb34, ivgg, lwv, lbv,
    (o_params o18), (o_params o34), (o_params ovgg), p18, p34, pvgg, cm18, cm34, cmvgg.
  simpl. split; [by exists m18, o18, c|]. split; [by exists m34, o34, c|].
  split; [by exists mvgg, ovgg, c|].
  split_and!; try assumption.
  - by rewrite (get_layer_skeleton _ _ _ K18).
  - by rewrite (get_layer_skeleton _ _ _ K34).
  - by rewrite (get_layer_skeleton _ _ _ Kv).
  - by rewrite (m_arch_skeleton _ _ K18).
  - by rewrite (m_arch_skeleton _ _ K34).
  - by rewrite (m_arch_skeleton _ _ Kv).
  - apply logs_new_log.
    rewrite Hl8, Hl7, Hl6, Nv, Lv, N34, L34, N18, L18, Hl3. simpl.
    rewrite <-!app_assoc. simpl. done.
Qed.

(** The steps of the VGG19 notebook when it runs to its end. *)
Lemma vgg_notebook_log w w' d g :
  Vgg19.notebook w = (w', Ok (d, g)) →
  ∃ w2 w3 s t m c o i lw lb sizes,
    let n := length (Vgg19.class_names d) in
    Vgg19.paso2 w = (w2, Ok d) ∧
    Vgg19.paso3 (Vgg19.class_names d) w2 = (w3, Ok m) ∧
    Vgg19.paso4 m w3 = (s, Ok (c, o)) ∧
    Vgg19.paso5 d m c o Vgg19.epochs s = (t, Ok g) ∧
    c = nn_CrossEntropyLoss ∧
    get_layer "classifier.6" (Vgg19.g_model g) = ret (Linear i n lw lb) ∧
    m_arch (Vgg19.g_model g) = VGG19 ∧
    Forall training_event (new_log s t) ∧
    files w' = <["fruitscan_model.pth" := state_dict (Vgg19.g_model g) (heap t)]> (files w) ∧
    new_log w w' =
      [EvImageFolder Vgg19.data_dir; EvRandomSplit sizes;
       EvPretrained VGG19; EvLinear i n; EvTo; EvAdam (o_params o)] ++
      new_log s t ++
      [EvPlotLines "Curva de Pérdida"
         [("Entrenamiento", Vgg19.g_train_losses g); ("Validación", Vgg19.g_val_losses g)];
       EvSave "fruitscan_model.pth";
       EvPrint (TextLine (nl +:+ "✅ Modelo guardado como: fruitscan_model.pth"))].
Proof.
  intros (w2 & w3 & m & w4 & c & o & w5 & w6 & H2 & H3 & H4 & H5 & H6 & H7)%vgg_notebook_Ok_inv.
  pose proof (vgg_paso3_paso4_ok _ _ _ _ _ _ _ H3 H4)
    as (i & lw & lb & -> & (Hf & _) & _ & G & _ & A & L).
  pose proof H2 as (full & trn & val & sizes & Hd & _ & Hf2 & Hl2)%vgg_paso2_Ok.
  pose proof H5 as [(F5 & Hl5 & _) K5]%paso5_all. specialize (K5 g eq_refl).
  apply logs_inv in Hl5 as [N5 HF5].
  apply vgg_paso6_Ok in H6 as (Hh6 & Hf6 & Hl6).
  apply vgg_paso7_Ok in H7 as (_ & Hf7 & Hl7).
  exists w2, w3, w4, w5, m, nn_CrossEntropyLoss, o, i, lw, lb, sizes.
  simpl. split_and!; try assumption.
  - reflexivity.
  - by rewrite (get_layer_skeleton _ _ _ K5).
  - by rewrite (m_arch_skeleton _ _ K5).
  - rewrite Hf7, Hf6, Hh6. unfold files_same in F5. rewrite F5. simpl in *. congruence.
  - apply logs_new_log. rewrite Hl7, Hl6, N5, L, Hl2. simpl.
    rewrite <-!app_assoc. simpl. done.
Qed.



End Notebooks.

(** ** The last epoch *)

Section LastEpoch.
Context `{TH : Torch}.



Lemma Forall_last {A} (P : A → Prop) (l : list A) x :
  Forall P l → list.last l = Some x → P x.
Proof.
  intros HF (l' & ->)%last_Some. apply Forall_app in HF as [_ HF]. by inversion HF.
Qed.

(** A run of [entrenar_modelo] that returns had an epoch, and returns the
    labels and the predictions of the validation part of the last one. *)
Lemma entrenar_modelo_last_epoch m tl vl o c E nombre w w' x :
  dl_wf tl → dl_wf vl →
  Combinados.entrenar_modelo m tl vl o c E nombre w = (w', Ok x) →
  (0 < E)%Z ∧
  ∃ pre tv, new_log w w' = pre ++ tv.1 ++ tv.2 ∧ Combinados.epoch_ok tl vl tv ∧
    Combinados.e_y_true x = seen_labels tv.2 ∧
    Combinados.e_y_pred x = seen_preds tv.2.
Proof.
  intros Wt Wv (els & Hn & Hl & HF & _ & _ & _ & tv & Hlast & Hyt & Hyp)%entrenar_modelo_Ok;
    [|done..].
  pose proof Hlast as (els' & ->)%last_Some. split.
  - rewrite length_app in Hn. simpl in Hn. lia.
  - exists (EvTo :: concat ((λ tv, tv.1 ++ tv.2) <$> els')), tv.
    split_and!; [|by eapply Forall_last|done|done].
    rewrite Hl, fmap_app, concat_app. simpl. by rewrite app_nil_r.
Qed.

Lemma resnet18_setup_criterion cn w w' m o c :
  Combinados.resnet18_setup cn w = (w', Ok (m, o, c)) → c = nn_CrossEntropyLoss.
Proof. by intros (_ & _ & _ & -> & _)%resnet18_setup_sep. Qed.

Lemma vgg_paso4_criterion m w w' c o :
  Vgg19.paso4 m w = (w', Ok (c, o)) → c = nn_CrossEntropyLoss.
Proof.
  unfold Vgg19.paso4. intros (w1 & o' & _ & H)%bind_Ok_inv. by injection H as _ <- _.
Qed.

End LastEpoch.

(** * The claims *)

Section Claims.
Context `{TH : Torch}.

(** C1: for every batch of [train_loader], in [entrenar_modelo] and in the
    loop of Paso 5 of the VGG19 notebook, the calls are, in this order: the
    gradients are zeroed, the forward pass [model(images)], the criterion on
    the outputs and the labels, [backward] on that loss, one optimizer step;
    after the step the value of the loss is added to the running loss.  A
    run that returns made exactly these calls for every batch of every epoch,
    and the criterion of both notebooks is the cross-entropy loss. *)
Theorem training_loop_order :
  (∀ c b m o rl w w' s',
     Combinados.train_batch c b (m, o, rl) w = (w', Ok s') →
     ∃ y l, c y (b_labels b) = inr l ∧
       log w' = log w ++ [EvTo; EvTo; EvZeroGrad; EvForward (b_images b) y;
                          EvCriterion y (b_labels b) l; EvBackward l; EvStep;
                          EvItem l (t_item l)] ∧
       s'.2 = f_add rl (t_item l)) ∧
  (∀ c b m o rl w w' s',
     Vgg19.train_batch c b (m, o, rl) w = (w', Ok s') →
     ∃ y l, c y (b_labels b) = inr l ∧
       log w' = log w ++ [EvTo; EvTo; EvZeroGrad; EvForward (b_images b) y;
                          EvCriterion y (b_labels b) l; EvBackward l; EvStep;
                          EvItem l (t_item l)] ∧
       s'.2 = f_add rl (t_item l)) ∧
  (∀ m tl vl o c E nombre w w' x,
     dl_wf tl → dl_wf vl →
     Combinados.entrenar_modelo m tl vl o c E nombre w = (w', Ok x) →
     calls (new_log w w') =
       Combinados.entrenar_modelo_calls (Z.to_nat E) (dl_len tl) (dl_len vl)) ∧
  (∀ d m c o E w w' g,
     dl_wf (Vgg19.train_loader d) → dl_wf (Vgg19.val_loader d) →
     Vgg19.paso5 d m c o E w = (w', Ok g) →
     calls (new_log w w') =
       Vgg19.paso5_calls (Z.to_nat E) (dl_len (Vgg19.train_loader d))
         (dl_len (Vgg19.val_loader d))) ∧
  (∀ cn w w' m o c,
     Combinados.resnet18_setup cn w = (w', Ok (m, o, c)) → c = nn_CrossEntropyLoss) ∧
  (∀ m w w' c o, Vgg19.paso4 m w = (w', Ok (c, o)) → c = nn_CrossEntropyLoss).
Proof.
  split_and!.
  - intros *. apply train_batch_Ok.
  - intros *. rewrite vgg_train_batch_eq. apply train_batch_Ok.
  - intros *. apply entrenar_modelo_Ok_calls.
  - intros *. apply paso5_Ok_calls.
  - intros *. apply resnet18_setup_criterion.
  - intros *. apply vgg_paso4_criterion.
Qed.

(** C2: the parameters whose [requires_grad] was set to [False] before
    training (all of ResNet18 and of ResNet34 but those of the new [fc]; the
    features of VGG19) have, when [entrenar_modelo] or the loop of Paso 5 is
    over, the value they had before: the optimizer was made over the
    parameters of the new [fc], or of the classifier, only. *)
Theorem frozen_parameters_unchanged :
  (∀ cn w0 w1 m o c tl vl E nombre w2 r,
     zoo_wf ResNet18 →
     Combinados.resnet18_setup cn w0 = (w1, Ok (m, o, c)) →
     Combinados.entrenar_modelo m tl vl o c E nombre w1 = (w2, r) →
     ∃ i lw lb,
       get_layer "fc" m = ret (Linear i (length cn) lw lb) ∧ o_params o = [lw; lb] ∧
       (∀ l, l ∈ parameters m → l ≠ lw → l ≠ lb → requires_grad_at (heap w1) l = false) ∧
       (∀ l p, heap w1 !! l = Some p → p_requires_grad p = false →
               heap w2 !! l = Some p)) ∧
  (∀ cn w0 w1 m o c tl vl E nombre w2 r,
     zoo_wf ResNet34 →
     Combinados.resnet34_setup cn w0 = (w1, Ok (m, o)) →
     Combinados.entrenar_modelo m tl vl o c E nombre w1 = (w2, r) →
     ∃ i lw lb,
       get_layer "fc" m = ret (Linear i (length cn) lw lb) ∧ o_params o = [lw; lb] ∧
       (∀ l, l ∈ parameters m → l ≠ lw → l ≠ lb → requires_grad_at (heap w1) l = false) ∧
       (∀ l p, heap w1 !! l = Some p → p_requires_grad p = false →
               heap w2 !! l = Some p)) ∧
  (∀ cn w0 w1 m o c tl vl E nombre w2 r,
     Combinados.vgg19_setup cn w0 = (w1, Ok (m, o)) →
     Combinados.entrenar_modelo m tl vl o c E nombre w1 = (w2, r) →
     o_params o = parameters (child "classifier" m) ∧
     (∀ l, l ∈ parameters (child "features" m) → requires_grad_at (heap w1) l = false) ∧
     (∀ l p, heap w1 !! l = Some p → p_requires_grad p = false →
             heap w2 !! l = Some p)) ∧
  (∀ cn d w0 w3 m w4 c o E w5 r,
     Vgg19.paso3 cn w0 = (w3, Ok m) →
     Vgg19.paso4 m w3 = (w4, Ok (c, o)) →
     Vgg19.paso5 d m c o E w4 = (w5, r) →
     o_params o = parameters (child "classifier" m) ∧
     (∀ l, l ∈ parameters (child "features" m) → requires_grad_at (heap w4) l = false) ∧
     (∀ l p, heap w4 !! l = Some p → p_requires_grad p = false →
             heap w5 !! l = Some p)).
Proof.
  assert (∀ w0 w1 m o lw lb,
    setup_ok w0 w1 m o → o_params o = [lw; lb] →
    (∀ l, is_Some (heap w1 !! l) → heap w0 !! l = None → l ∉ o_params o →
          requires_grad_at (heap w1) l = false) →
    ∀ l, l ∈ parameters m → l ≠ lw → l ≠ lb → requires_grad_at (heap w1) l = false)
    as Hres.
  { intros w0 w1 m o lw lb (_ & _ & Hnew & _) Ho Hfr l Hl Hlw Hlb.
    destruct (Hnew l Hl) as [Hnone Hsome]. apply Hfr; [done|done|].
    rewrite Ho. intros [->|[->|[]%elem_of_nil]%elem_of_cons]%elem_of_cons; done. }
  split_and!.
  - intros cn w0 w1 m o c tl vl E nombre w2 r Hz Hs Ht.
    apply resnet18_setup_ok in Hs as (i & lw & lb & _ & Hok & Hfr & Hg & Ho & _); [|done].
    apply entrenar_modelo_all in Ht as [(_ & _ & Ht) _].
    exists i, lw, lb. split_and!; [done|done|by eapply Hres|].
    intros l p. by eapply setup_train_frozen.
  - intros cn w0 w1 m o c tl vl E nombre w2 r Hz Hs Ht.
    apply resnet34_setup_ok in Hs as (i & lw & lb & Hok & Hfr & Hg & Ho & _); [|done].
    apply entrenar_modelo_all in Ht as [(_ & _ & Ht) _].
    exists i, lw, lb. split_and!; [done|done|by eapply Hres|].
    intros l p. by eapply setup_train_frozen.
  - intros cn w0 w1 m o c tl vl E nombre w2 r Hs Ht.
    apply vgg19_setup_ok in Hs as (i & lw & lb & Hok & Hfr & _ & Ho & _).
    apply entrenar_modelo_all in Ht as [(_ & _ & Ht) _].
    split_and!; [done|done|]. intros l p. by eapply setup_train_frozen.
  - intros cn d w0 w3 m w4 c o E w5 r H3 H4 H5.
    destruct (vgg_paso3_paso4_ok _ _ _ _ _ _ _ H3 H4)
      as (i & lw & lb & _ & Hok & Hfr & _ & Ho & _).
    apply paso5_all in H5 as [(_ & _ & Ht) _].
    split_and!; [done|done|]. intros l p. by eapply setup_train_frozen.
Qed.

(** C3 (as the code has it): the comparison notebook instantiates the
    pretrained ResNet18, ResNet34 and VGG19, in this order, and the VGG19
    notebook the pretrained VGG19 only; in both, the last layer of each model
    ([fc], or [classifier.6]) is replaced by a new linear layer with as many
    outputs as the data set has classes, and each model is then trained for
    ten epochs on the loaders of the data set. *)
Theorem notebooks_fine_tune :
  (∀ w w' d p,
     Combinados.notebook w = (w', Ok (d, p)) →
     let n := length (Combinados.class_names d) in
     pretrained_archs (new_log w w') = [ResNet18; ResNet34; VGG19] ∧
     (∃ i18 lw18 lb18 i34 lw34 lb34 ivgg lwv lbv,
        linear_calls (new_log w w') = [(i18, n); (i34, n); (ivgg, n)] ∧
        get_layer "fc" (Combinados.e_model (Combinados.r18 p))
          = ret (Linear i18 n lw18 lb18) ∧
        get_layer "fc" (Combinados.e_model (Combinados.r34 p))
          = ret (Linear i34 n lw34 lb34) ∧
        get_layer "classifier.6" (Combinados.e_model (Combinados.vgg p))
          = ret (Linear ivgg n lwv lbv)) ∧
     m_arch (Combinados.e_model (Combinados.r18 p)) = ResNet18 ∧
     m_arch (Combinados.e_model (Combinados.r34 p)) = ResNet34 ∧
     m_arch (Combinados.e_model (Combinados.vgg p)) = VGG19 ∧
     (∃ s18 t18 s34 t34 svgg tvgg,
        Combinados.trained d "ResNet18" (Combinados.r18 p) s18 t18 ∧
        Combinados.trained d "ResNet34" (Combinados.r34 p) s34 t34 ∧
        Combinados.trained d "VGG19" (Combinados.vgg p) svgg tvgg) ∧
     iters (new_log w w') = alternation 10 ++ alternation 10 ++ alternation 10 ∧
     ∃ train_dataset test_dataset,
       d = {| Combinados.train_loader :=
                tu_DataLoader train_dataset Combinados.batch_size true;
              Combinados.val_loader :=
                tu_DataLoader test_dataset Combinados.batch_size false;
              Combinados.class_names := ds_classes train_dataset |}) ∧
  (∀ w w' d g,
     Vgg19.notebook w = (w', Ok (d, g)) →
     let n := length (Vgg19.class_names d) in
     pretrained_archs (new_log w w') = [VGG19] ∧
     (∃ i lw lb,
        linear_calls (new_log w w') = [(i, n)] ∧
        get_layer "classifier.6" (Vgg19.g_model g) = ret (Linear i n lw lb)) ∧
     m_arch (Vgg19.g_model g) = VGG19 ∧
     (∃ s t m c o, Vgg19.paso5 d m c o Vgg19.epochs s = (t, Ok g)) ∧
     iters (new_log w w') = alternation 10 ∧
     ∃ full_dataset train_dataset val_dataset,
       d = {| Vgg19.train_loader := tu_DataLoader train_dataset Vgg19.batch_size true;
              Vgg19.val_loader := tu_DataLoader val_dataset Vgg19.batch_size false;
              Vgg19.class_names := ds_classes full_dataset |}).
Proof.
  split.
  - intros w w' d p H n.
    pose proof H as (w3 & _ & _ & _ & _ & _ & _ & _ & _ & _ & _ & _ & _ & _ & _ & _ &
                     H3 & _)%notebook_steps.
    apply paso3_Ok in H3 as (ds1 & ds2 & Hd & _).
    apply notebook_log in H
      as (s18 & t18 & s34 & t34 & svgg & tvgg & i18 & lw18 & lb18 & i34 & lw34 & lb34 &
          ivgg & lwv & lbv & ps18 & ps34 & psvgg & p18 & p34 & pvgg & cm18 & cm34 & cmvgg &
          T18 & T34 & Tv & G18 & G34 & Gv & A18 & A34 & Av & F18 & F34 & Fv &
          I18 & I34 & Iv & _ & _ & _ & Hl).
    apply training_event_others in F18 as (P18 & L18 & _).
    apply training_event_others in F34 as (P34 & L34 & _).
    apply training_event_others in Fv as (Pv & Lv & _).
    split_and!; try done.
    + rewrite Hl, !pretrained_archs_app, P18, P34, Pv. done.
    + exists i18, lw18, lb18, i34, lw34, lb34, ivgg, lwv, lbv. split_and!; try done.
      rewrite Hl, !linear_calls_app, L18, L34, Lv. done.
    + by exists s18, t18, s34, t34, svgg, tvgg.
    + rewrite Hl, !iters_app, I18, I34, Iv. done.
    + by exists ds1, ds2.
  - intros w w' d g H n.
    apply vgg_notebook_log in H
      as (w2 & w3 & s & t & m & c & o & i & lw & lb & sizes & H2 & H3 & H4 & H5 & _ &
          G & A & F & _ & Hl).
    pose proof H5 as [_ Hnl]%paso5_iters. specialize (Hnl g eq_refl).
    apply vgg_paso2_Ok in H2 as (full & trn & val & _ & Hd & _).
    apply training_event_others in F as (P & L & _).
    split_and!; try done.
    + rewrite Hl, !pretrained_archs_app, P. done.
    + exists i, lw, lb. split; [|done]. rewrite Hl, !linear_calls_app, L. done.
    + by exists s, t, m, c, o.
    + rewrite Hl, !iters_app, Hnl. done.
    + by exists full, trn, val.
Qed.

End Claims.

Section MoreClaims.
Context `{TH : Torch}.

(** C4: when the loop over the epochs is over, [train_losses] and
    [val_losses] have one entry per epoch; entry [i] of [train_losses] is the
    sum of the values [loss.item()] of the training batches of epoch [i],
    one per batch of [train_loader], divided by [len(train_loader)], and
    entry [i] of [val_losses] is the same for the validation batches and
    [len(val_loader)]. *)
Theorem epoch_losses_are_means :
  (∀ m tl vl o c E nombre w w' x,
     dl_wf tl → dl_wf vl →
     Combinados.entrenar_modelo m tl vl o c E nombre w = (w', Ok x) →
     Z.of_nat (length (Combinados.e_train_losses x)) = E ∧
     Z.of_nat (length (Combinados.e_val_losses x)) = E ∧
     ∃ els : list (list event * list event),
       length els = Z.to_nat E ∧
       new_log w w' = EvTo :: concat ((λ tv, tv.1 ++ tv.2) <$> els) ∧
       ∀ i tv, els !! i = Some tv →
         length (items tv.1) = dl_len tl ∧ length (items tv.2) = dl_len vl ∧
         Combinados.e_train_losses x !! i =
           Some (f_div (f_sum (items tv.1)) (f_of_int (Z.of_nat (dl_len tl)))) ∧
         Combinados.e_val_losses x !! i =
           Some (f_div (f_sum (items tv.2)) (f_of_int (Z.of_nat (dl_len vl))))) ∧
  (∀ d m c o E w w' g,
     (0 ≤ E)%Z →
     dl_wf (Vgg19.train_loader d) → dl_wf (Vgg19.val_loader d) →
     Vgg19.paso5 d m c o E w = (w', Ok g) →
     Z.of_nat (length (Vgg19.g_train_losses g)) = E ∧
     Z.of_nat (length (Vgg19.g_val_losses g)) = E ∧
     ∃ els : list (list event * list event),
       length els = Z.to_nat E ∧
       new_log w w' = concat ((λ tv, tv.1 ++ tv.2) <$> els) ∧
       ∀ i tv, els !! i = Some tv →
         length (items tv.1) = dl_len (Vgg19.train_loader d) ∧
         length (items tv.2) = dl_len (Vgg19.val_loader d) ∧
         Vgg19.g_train_losses g !! i =
           Some (f_div (f_sum (items tv.1))
                   (f_of_int (Z.of_nat (dl_len (Vgg19.train_loader d))))) ∧
         Vgg19.g_val_losses g !! i =
           Some (f_div (f_sum (items tv.2))
                   (f_of_int (Z.of_nat (dl_len (Vgg19.val_loader d)))))).
Proof.
  split.
  - intros m tl vl o c E nombre w w' x Wt Wv H.
    pose proof (entrenar_modelo_last_epoch _ _ _ _ _ _ _ _ _ _ Wt Wv H) as [HE _].
    apply entrenar_modelo_Ok in H as (els & Hn & Hl & HF & Htl & Hvl & _); [|done..].
    rewrite Htl, Hvl, !length_fmap, Hn. split_and!; [lia|lia|].
    exists els. split_and!; [done|done|].
    intros i tv Hi. rewrite !list_lookup_fmap, Hi. simpl.
    rewrite Forall_lookup in HF. destruct (HF i tv Hi) as (_ & _ & Ht & Hv & _).
    done.
  - intros d m c o E w w' g HE Wt Wv H.
    apply paso5_Ok in H as (els & Hn & Hl & HF & Htl & Hvl); [|done..].
    rewrite Htl, Hvl, !length_fmap, Hn. split_and!; [lia|lia|].
    exists els. split_and!; [done|done|].
    intros i tv Hi. rewrite !list_lookup_fmap, Hi. simpl.
    rewrite Forall_lookup in HF. destruct (HF i tv Hi) as (_ & _ & Ht & Hv).
    done.
Qed.


(** C6: an exception raised while a training batch or a validation batch is
    processed is the outcome of [entrenar_modelo], in the world the batch
    left (but for the grad mode, which [torch.no_grad()] restores): no later
    batch or epoch runs.  Whatever the outcome, [entrenar_modelo] writes no
    file and does not call [torch.save]. *)
Theorem entrenar_modelo_propagates :
  (∀ m tl vl o c E nombre w bk es1 ep es2 w1 s1 bs1 b bs2 w2 st w3 e,
     t_to_device (backend_st w) = inr bk →
     range E = es1 ++ ep :: es2 →
     foldM (Combinados.epoch_body tl vl c E) es1 (Combinados.locals0 m o)
       (emit EvTo (set_backend bk w)) = (w1, Ok s1) →
     (dl_iter tl (backend_st w1)).1 = bs1 ++ b :: bs2 →
     foldM (Combinados.train_batch c) bs1
       (set_training true (Combinados.v_model s1), Combinados.v_optimizer s1, f_zero)
       (emit (EvIter "train_loader")
          (set_backend (dl_iter tl (backend_st w1)).2 (emit EvTrain w1))) = (w2, Ok st) →
     Combinados.train_batch c b st w2 = (w3, Raise e) →
     Combinados.entrenar_modelo m tl vl o c E nombre w = (w3, Raise e)) ∧
  (∀ m tl vl o c E nombre w bk es1 ep es2 w1 s1 w2 tr bs1 b bs2 w3 st w4 e,
     t_to_device (backend_st w) = inr bk →
     range E = es1 ++ ep :: es2 →
     foldM (Combinados.epoch_body tl vl c E) es1 (Combinados.locals0 m o)
       (emit EvTo (set_backend bk w)) = (w1, Ok s1) →
     Combinados.train_pass tl c (set_training true (Combinados.v_model s1))
       (Combinados.v_optimizer s1) (emit EvTrain w1) = (w2, Ok tr) →
     dl_len tl ≠ 0 →
     (dl_iter vl (backend_st w2)).1 = bs1 ++ b :: bs2 →
     foldM (Combinados.val_batch c) bs1 (set_training false tr.1.1, f_zero, [], [])
       (emit (EvIter "val_loader")
          (set_backend (dl_iter vl (backend_st w2)).2
             (set_grad_enabled false (emit EvEval w2)))) = (w3, Ok st) →
     Combinados.val_batch c b st w3 = (w4, Raise e) →
     Combinados.entrenar_modelo m tl vl o c E nombre w =
       (set_grad_enabled (grad_enabled w2) w4, Raise e)) ∧
  (∀ m tl vl o c E nombre w w' r,
     Combinados.entrenar_modelo m tl vl o c E nombre w = (w', r) →
     files w' = files w ∧ saved_paths (new_log w w') = []).
Proof.
  split_and!.
  - intros *. apply entrenar_modelo_train_batch_raises.
  - intros *. apply entrenar_modelo_val_batch_raises.
  - intros m tl vl o c E nombre w w' r [(Hf & Hl & _) _]%entrenar_modelo_all.
    split; [done|]. apply logs_inv in Hl as [_ HF].
    by apply training_event_others in HF as (_ & _ & ? & _).
Qed.

(** C7: for each of the three models, the comparison notebook plots, with
    the class names of the data set, the matrix that [confusion_matrix]
    gives with [normalize='true'] for the [y_true] and the [y_pred] that
    [entrenar_modelo] returned for that model; these are the labels and the
    predictions of the validation pass of the last epoch only. *)
Theorem confusion_matrices_plotted w w' d p :
  dl_wf (Combinados.train_loader d) → dl_wf (Combinados.val_loader d) →
  Combinados.notebook w = (w', Ok (d, p)) →
  (∃ cm18 cm34 cmvgg,
     sk_confusion_matrix (Combinados.e_y_true (Combinados.r18 p))
       (Combinados.e_y_pred (Combinados.r18 p)) "true" = inr cm18 ∧
     sk_confusion_matrix (Combinados.e_y_true (Combinados.r34 p))
       (Combinados.e_y_pred (Combinados.r34 p)) "true" = inr cm34 ∧
     sk_confusion_matrix (Combinados.e_y_true (Combinados.vgg p))
       (Combinados.e_y_pred (Combinados.vgg p)) "true" = inr cmvgg ∧
     confusion_calls (new_log w w') =
       [(Combinados.e_y_true (Combinados.r18 p), Combinados.e_y_pred (Combinados.r18 p),
         "true", cm18);
        (Combinados.e_y_true (Combinados.r34 p), Combinados.e_y_pred (Combinados.r34 p),
         "true", cm34);
        (Combinados.e_y_true (Combinados.vgg p), Combinados.e_y_pred (Combinados.vgg p),
         "true", cmvgg)] ∧
     confusion_plots (new_log w w') =
       [(cm18, Combinados.class_names d, "Normalized Confusion Matrix - ResNet18");
        (cm34, Combinados.class_names d, "Normalized Confusion Matrix - ResNet34");
        (cmvgg, Combinados.class_names d, "Normalized Confusion Matrix - VGG19")]) ∧
  ∀ x, x ∈ [Combinados.r18 p; Combinados.r34 p; Combinados.vgg p] →
    ∃ nombre s t pre tv,
      Combinados.trained d nombre x s t ∧
      new_log s t = pre ++ tv.1 ++ tv.2 ∧
      Combinados.epoch_ok (Combinados.train_loader d) (Combinados.val_loader d) tv ∧
      Combinados.e_y_true x = seen_labels tv.2 ∧
      Combinados.e_y_pred x = seen_preds tv.2.
Proof.
  intros Wt Wv H.
  apply notebook_log in H
    as (s18 & t18 & s34 & t34 & svgg & tvgg & i18 & lw18 & lb18 & i34 & lw34 & lb34 &
        ivgg & lwv & lbv & ps18 & ps34 & psvgg & p18 & p34 & pvgg & cm18 & cm34 & cmvgg &
        T18 & T34 & Tv & _ & _ & _ & _ & _ & _ & F18 & F34 & Fv & _ & _ & _ &
        C18 & C34 & Cv & Hl).
  split.
  - apply training_event_others in F18 as (_ & _ & _ & X18 & Y18).
    apply training_event_others in F34 as (_ & _ & _ & X34 & Y34).
    apply training_event_others in Fv as (_ & _ & _ & Xv & Yv).
    exists cm18, cm34, cmvgg. split_and!; try done.
    + rewrite Hl, !confusion_calls_app, X18, X34, Xv. done.
    + rewrite Hl, !confusion_plots_app, Y18, Y34, Yv. done.
  - assert (∀ nombre x s t, Combinados.trained d nombre x s t →
      ∃ pre tv, new_log s t = pre ++ tv.1 ++ tv.2 ∧
        Combinados.epoch_ok (Combinados.train_loader d) (Combinados.val_loader d) tv ∧
        Combinados.e_y_true x = seen_labels tv.2 ∧
        Combinados.e_y_pred x = seen_preds tv.2) as Hlast.
    { intros nombre x s t (m & o & c & Ht).
      by destruct (entrenar_modelo_last_epoch _ _ _ _ _ _ _ _ _ _ Wt Wv Ht) as [_ ?]. }
    intros x [->|[->|[->|[]%elem_of_nil]%elem_of_cons]%elem_of_cons]%elem_of_cons.
    + destruct (Hlast _ _ _ _ T18) as (pre & tv & ?). by exists "ResNet18", s18, t18, pre, tv.
    + destruct (Hlast _ _ _ _ T34) as (pre & tv & ?). by exists "ResNet34", s34, t34, pre, tv.
    + destruct (Hlast _ _ _ _ Tv) as (pre & tv & ?). by exists "VGG19", svgg, tvgg, pre, tv.
Qed.


(** C9 (as the code has it): nothing guards the divisions by
    [len(train_loader)], [len(val_loader)] and, in the VGG19 notebook,
    [total].  When the two loaders are not empty (and, in the VGG19
    notebook, the validation set has a sample), no division raises.  For
    [epochs >= 1] and an empty [train_loader] the loop raises
    [ZeroDivisionError] in its first epoch, after one pass over
    [train_loader] (in [entrenar_modelo], once the model is on the device),
    and for [epochs >= 1] and an empty [val_loader] it returns no result: it
    raises [ZeroDivisionError], unless a library call raised before.  For
    [epochs <= 0] no division is executed: the loop of the VGG19 notebook
    completes and changes nothing, and [entrenar_modelo], once the model is
    on the device, fails at its [return] with [UnboundLocalError]. *)
Theorem divisions_unguarded :
  (∀ m tl vl o c E nombre w w',
     dl_len tl ≠ 0 → dl_len vl ≠ 0 →
     Combinados.entrenar_modelo m tl vl o c E nombre w ≠ (w', Raise ZeroDivisionError)) ∧
  (∀ d m c o E w w',
     dl_len (Vgg19.train_loader d) ≠ 0 → dl_len (Vgg19.val_loader d) ≠ 0 →
     labels_nonempty (Vgg19.val_loader d) →
     Vgg19.paso5 d m c o E w ≠ (w', Raise ZeroDivisionError)) ∧
  (∀ m tl vl o c E nombre w bk,
     (1 ≤ E)%Z → dl_wf tl → dl_len tl = 0 → t_to_device (backend_st w) = inr bk →
     ∃ w', Combinados.entrenar_modelo m tl vl o c E nombre w
             = (w', Raise ZeroDivisionError) ∧
           iters (new_log w w') = ["train_loader"]) ∧
  (∀ d m c o E w,
     (1 ≤ E)%Z → dl_wf (Vgg19.train_loader d) → dl_len (Vgg19.train_loader d) = 0 →
     ∃ w', Vgg19.paso5 d m c o E w = (w', Raise ZeroDivisionError) ∧
           iters (new_log w w') = ["train_loader"]) ∧
  (∀ m tl vl o c E nombre w w' r,
     (1 ≤ E)%Z → dl_len vl = 0 →
     Combinados.entrenar_modelo m tl vl o c E nombre w = (w', r) →
     r = Raise ZeroDivisionError ∨ ∃ le, r = Raise (LibraryError le)) ∧
  (∀ d m c o E w w' r,
     (1 ≤ E)%Z → dl_len (Vgg19.val_loader d) = 0 →
     Vgg19.paso5 d m c o E w = (w', r) →
     r = Raise ZeroDivisionError ∨ ∃ le, r = Raise (LibraryError le)) ∧
  (∀ d m c o E w,
     (E ≤ 0)%Z → Vgg19.paso5 d m c o E w = (w, Ok (Vgg19.globals0 m o))) ∧
  (∀ m tl vl o c E nombre w bk,
     (E ≤ 0)%Z → t_to_device (backend_st w) = inr bk →
     Combinados.entrenar_modelo m tl vl o c E nombre w =
       (emit EvTo (set_backend bk w), Raise (UnboundLocalError "y_true"))).
Proof.
  split_and!.
  - intros *. apply entrenar_modelo_no_zero_division.
  - intros *. apply paso5_no_zero_division.
  - intros *. apply entrenar_modelo_empty_train_iters.
  - intros *. apply paso5_empty_train_iters.
  - intros m tl vl o c E nombre w w' r HE. apply entrenar_modelo_empty_val. lia.
  - intros d m c o E w w' r HE. apply paso5_empty_val. lia.
  - intros *. apply paso5_no_epochs.
  - intros *. apply entrenar_modelo_no_epochs.
Qed.

(** C10: when [entrenar_modelo] returns, [epochs >= 1] and the [y_true] and
    [y_pred] returned are those of the validation pass of the last epoch:
    [y_true] is the labels of the batches of [val_loader] in the order of the
    pass, [y_pred] the predictions taken from the outputs of the model for
    these batches, one per label when the model gives one prediction per
    sample.  For [epochs <= 0] the [return] raises an [UnboundLocalError], a
    [NameError], for [y_true]. *)
Theorem returned_labels_of_last_epoch :
  (∀ m tl vl o c E nombre w w' x,
     dl_wf tl → dl_wf vl →
     Combinados.entrenar_modelo m tl vl o c E nombre w = (w', Ok x) →
     (1 ≤ E)%Z ∧
     ∃ pre t v,
       new_log w w' = pre ++ t ++ v ∧
       calls v = Combinados.val_part_calls (dl_len vl) ∧
       Combinados.e_y_true x = seen_labels v ∧
       Combinados.e_y_pred x = seen_preds v ∧
       (∃ bk, Combinados.e_y_true x = concat (b_labels <$> (dl_iter vl bk).1)) ∧
       (preds_match vl →
        length (Combinados.e_y_pred x) = length (Combinados.e_y_true x))) ∧
  (∀ m tl vl o c E nombre w bk,
     (E ≤ 0)%Z → t_to_device (backend_st w) = inr bk →
     Combinados.entrenar_modelo m tl vl o c E nombre w =
       (emit EvTo (set_backend bk w), Raise (UnboundLocalError "y_true")) ∧
     is_NameError (UnboundLocalError "y_true") = true).
Proof.
  split.
  - intros m tl vl o c E nombre w w' x Wt Wv H.
    destruct (entrenar_modelo_last_epoch _ _ _ _ _ _ _ _ _ _ Wt Wv H)
      as (HE & pre & [t v] & Hl & (_ & Hc & _ & _ & [bk Hbk] & Hlen) & Hyt & Hyp).
    simpl in *. split; [lia|]. exists pre, t, v. rewrite Hyt, Hyp.
    split_and!; try done. by exists bk.
  - intros m tl vl o c E nombre w bk HE Hto. split; [|done].
    by apply entrenar_modelo_no_epochs.
Qed.

End MoreClaims.

(** * The claims on the small instance *)

Section ToyFacts.
Import Toy.

Lemma toy_zoo_wf a : zoo_wf a.
Proof.
  intros b specs bufs b' [= <- _ _]. split.
  - destruct a; simpl; repeat constructor; set_solver.
  - intros p q Hp Hq Hc. destruct a; simpl in *; set_unfold;
      destruct_or!; subst; first [done|by vm_compute in Hc].
Qed.

Lemma toy_dl_wf ds n b : dl_wf (tu_DataLoader ds n b).
Proof. intros bk. simpl. by rewrite length_fmap. Qed.

(** A run that returned, by its parts. *)
Lemma run_Ok {A} (r : World * result A) (d : A) :
  is_Ok r.2 = true → r = (r.1, Ok (value d r.2)).
Proof. by destruct r as [w [a|e]]. Qed.

Lemma run_Ok_pair {A B} (r : World * result (A * B)) (d : A * B) :
  is_Ok r.2 = true → r = (r.1, Ok ((value d r.2).1, (value d r.2).2)).
Proof. by destruct r as [w [[a b]|e]]. Qed.

Lemma run_eq {A} (r : World * result A) w (a : result A) :
  r.1 = w → r.2 = a → r = (w, a).
Proof. destruct r. simpl. by intros -> ->. Qed.

Lemma run_parts {A} (r : World * result A) : r = (r.1, r.2).
Proof. by destruct r. Qed.

Lemma run_raises {A} (r : World * result A) msg :
  raises_library r.2 msg = true → r = (r.1, Raise (LibraryError msg)).
Proof.
  destruct r as [w [a|[]]]; simpl; try done. by intros ->%bool_decide_eq_true.
Qed.

Lemma toy_datos_wf w w' d :
  Combinados.paso3 w = (w', Ok d) →
  dl_wf (Combinados.train_loader d) ∧ dl_wf (Combinados.val_loader d).
Proof.
  intros (ds1 & ds2 & -> & _)%paso3_Ok. split; apply toy_dl_wf.
Qed.

End ToyFacts.

Section Witnesses.
Import Toy.

Lemma training_loop_order_witness :
  ∃ w' x,
    Combinados.entrenar_modelo m18 loader loader o18 nn_CrossEntropyLoss 2 "ResNet18" s18
      = (w', Ok x) ∧
    calls (new_log s18 w') = Combinados.entrenar_modelo_calls 2 2 2.
Proof.
  assert (is_Ok (Combinados.entrenar_modelo m18 loader loader o18 nn_CrossEntropyLoss 2
                   "ResNet18" s18).2 = true) as Hok by (vm_compute; reflexivity).
  pose proof (run_Ok _ x0 Hok) as H.
  destruct (training_loop_order (TH := toy_torch)) as (_ & _ & H3 & _).
  eexists _, _. split; [exact H|].
  exact (H3 _ _ _ _ _ _ _ _ _ _ (toy_dl_wf ds 8%Z true) (toy_dl_wf ds 8%Z true) H).
Defined.

Lemma frozen_parameters_unchanged_witness :
  ∃ w2 r,
    Combinados.entrenar_modelo m18 loader loader o18 nn_CrossEntropyLoss 2 "ResNet18" s18
      = (w2, r) ∧
    ∃ i lw lb,
      get_layer "fc" m18 = ret (Linear i (length cn) lw lb) ∧
      o_params o18 = [lw; lb] ∧
      (∀ l, l ∈ parameters m18 → l ≠ lw → l ≠ lb →
            requires_grad_at (heap s18) l = false) ∧
      (∀ l p, heap s18 !! l = Some p → p_requires_grad p = false →
              heap w2 !! l = Some p).
Proof.
  pose proof (run_parts (Combinados.entrenar_modelo m18 loader loader o18
                           nn_CrossEntropyLoss 2 "ResNet18" s18)) as H.
  assert (Combinados.resnet18_setup cn w0 = (s18, Ok (m18, o18, nn_CrossEntropyLoss)))
    as Hs.
  { unfold s18. refine (run_eq _ _ _ eq_refl _). vm_compute. reflexivity. }
  destruct (frozen_parameters_unchanged (TH := toy_torch)) as (H1 & _).
  eexists _, _. split; [exact H|].
  exact (H1 _ _ _ _ _ _ _ _ _ _ _ _ (toy_zoo_wf ResNet18) Hs H).
Defined.

Lemma notebooks_fine_tune_witness :
  ∃ w' d p,
    Combinados.notebook w0 = (w', Ok (d, p)) ∧
    pretrained_archs (new_log w0 w') = [ResNet18; ResNet34; VGG19] ∧
    iters (new_log w0 w') = alternation 10 ++ alternation 10 ++ alternation 10.
Proof.
  assert (is_Ok (Combinados.notebook w0).2 = true) as Hok by (vm_compute; reflexivity).
  pose proof (run_Ok_pair _ (d0, p0) Hok) as H.
  destruct (notebooks_fine_tune (TH := toy_torch)) as (H1 & _).
  destruct (H1 _ _ _ _ H) as (Ha & _ & _ & _ & _ & _ & Hi & _).
  eexists _, _, _. split; [exact H|]. split; [exact Ha|exact Hi].
Defined.

(** The run of the VGG19 notebook on the small instance reaches its end, and
    it instantiates the pretrained VGG19 and no other model. *)
Lemma vgg_notebook_instantiates_vgg19_only :
  is_Ok (Vgg19.notebook w0).2 = true ∧
  pretrained_archs (new_log w0 (Vgg19.notebook w0).1) = [VGG19] ∧
  ¬ (ResNet18 ∈ pretrained_archs (new_log w0 (Vgg19.notebook w0).1)) ∧
  ¬ (ResNet34 ∈ pretrained_archs (new_log w0 (Vgg19.notebook w0).1)).
Proof.
  assert (pretrained_archs (new_log w0 (Vgg19.notebook w0).1) = [VGG19]) as ->.
  { vm_compute. reflexivity. }
  split_and!; [by vm_compute|done|set_solver|set_solver].
Qed.

Lemma epoch_losses_are_means_witness :
  ∃ w' x,
    Combinados.entrenar_modelo m18 loader loader o18 nn_CrossEntropyLoss 2 "ResNet18" s18
      = (w', Ok x) ∧
    Z.of_nat (length (Combinados.e_train_losses x)) = 2%Z ∧
    Z.of_nat (length (Combinados.e_val_losses x)) = 2%Z.
Proof.
  assert (is_Ok (Combinados.entrenar_modelo m18 loader loader o18 nn_CrossEntropyLoss 2
                   "ResNet18" s18).2 = true) as Hok by (vm_compute; reflexivity).
  pose proof (run_Ok _ x0 Hok) as H.
  destruct (epoch_losses_are_means (TH := toy_torch)) as (H1 & _).
  destruct (H1 _ _ _ _ _ _ _ _ _ _ (toy_dl_wf ds 8%Z true) (toy_dl_wf ds 8%Z true) H)
    as (Ht & Hv & _).
  eexists _, _. split; [exact H|]. split; [exact Ht|exact Hv].
Defined.


Lemma entrenar_modelo_propagates_witness :
  ∃ w3,
    Combinados.entrenar_modelo m18 bad_loader loader o18 nn_CrossEntropyLoss 2
      "ResNet18" s18 = (w3, Raise (LibraryError "bad image")).
Proof.
  assert (is_Ok (foldM (Combinados.train_batch nn_CrossEntropyLoss) [b0]
                   (set_training true (Combinados.v_model (Combinados.locals0 m18 o18)),
                    Combinados.v_optimizer (Combinados.locals0 m18 o18), f_zero)
                   (emit (EvIter "train_loader")
                      (set_backend (dl_iter bad_loader (backend_st w_start)).2
                         (emit EvTrain w_start)))).2 = true) as Hok
    by (vm_compute; reflexivity).
  pose proof (run_Ok _ st0 Hok) as H2.
  match type of H2 with
  | _ = (?w2, Ok ?st) =>
      assert (raises_library (Combinados.train_batch nn_CrossEntropyLoss b99 st w2).2
                "bad image" = true) as Hr by (vm_compute; reflexivity)
  end.
  pose proof (run_raises _ _ Hr) as H3.
  destruct (entrenar_modelo_propagates (TH := toy_torch)) as (H1 & _).
  eexists.
  exact (H1 m18 bad_loader loader o18 nn_CrossEntropyLoss 2%Z "ResNet18" s18
           (backend_st s18) [] 0%Z [1%Z] w_start (Combinados.locals0 m18 o18)
           [b0] b99 [] _ _ _ _ eq_refl eq_refl eq_refl eq_refl H2 H3).
Defined.

Lemma confusion_matrices_plotted_witness :
  ∃ w' d p,
    Combinados.notebook w0 = (w', Ok (d, p)) ∧
    ∃ cm18 cm34 cmvgg,
      confusion_plots (new_log w0 w') =
        [(cm18, Combinados.class_names d, "Normalized Confusion Matrix - ResNet18");
         (cm34, Combinados.class_names d, "Normalized Confusion Matrix - ResNet34");
         (cmvgg, Combinados.class_names d, "Normalized Confusion Matrix - VGG19")].
Proof.
  assert (is_Ok (Combinados.notebook w0).2 = true) as Hok by (vm_compute; reflexivity).
  pose proof (run_Ok_pair _ (d0, p0) Hok) as H.
  pose proof H as (w3 & _ & _ & _ & _ & _ & _ & _ & _ & _ & _ & _ & _ & _ & _ & _ &
                   H3 & _)%notebook_steps.
  apply toy_datos_wf in H3 as [Wt Wv].
  destruct (confusion_matrices_plotted (TH := toy_torch) _ _ _ _ Wt Wv H)
    as [(cm18 & cm34 & cmvgg & _ & _ & _ & _ & Hp) _].
  eexists _, _, _. split; [exact H|]. exists cm18, cm34, cmvgg. exact Hp.
Defined.



Lemma divisions_unguarded_witness :
  ∃ w', Combinados.entrenar_modelo m18 empty_loader loader o18
          nn_CrossEntropyLoss 1 "ResNet18" s18 = (w', Raise ZeroDivisionError) ∧
        iters (new_log s18 w') = ["train_loader"].
Proof.
  destruct (divisions_unguarded (TH := toy_torch)) as (_ & _ & H3 & _).
  apply (H3 m18 empty_loader loader o18 nn_CrossEntropyLoss 1%Z "ResNet18"
           s18 (backend_st s18)).
  - lia.
  - apply toy_dl_wf.
  - reflexivity.
  - reflexivity.
Defined.

(** With no epoch to run and an empty training loader, [entrenar_modelo]
    raises [UnboundLocalError], not [ZeroDivisionError], and the loop of
    Paso 5 of the VGG19 notebook returns. *)
Lemma zero_epochs_empty_loader :
  dl_len empty_loader = 0 ∧
  (Combinados.entrenar_modelo m18 empty_loader loader o18
     nn_CrossEntropyLoss 0 "ResNet18" s18).2 = Raise (UnboundLocalError "y_true") ∧
  is_Ok (Vgg19.paso5 datos_empty mvgg nn_CrossEntropyLoss ovgg 0 w4).2 = true.
Proof. split_and!; reflexivity. Qed.

Lemma returned_labels_of_last_epoch_witness :
  ∃ w' x,
    Combinados.entrenar_modelo m18 loader loader o18 nn_CrossEntropyLoss 2 "ResNet18" s18
      = (w', Ok x) ∧
    ∃ bk, Combinados.e_y_true x = concat (b_labels <$> (dl_iter loader bk).1).
Proof.
  assert (is_Ok (Combinados.entrenar_modelo m18 loader loader o18 nn_CrossEntropyLoss 2
                   "ResNet18" s18).2 = true) as Hok by (vm_compute; reflexivity).
  pose proof (run_Ok _ x0 Hok) as H.
  destruct (returned_labels_of_last_epoch (TH := toy_torch)) as (H1 & _).
  destruct (H1 _ _ _ _ _ _ _ _ _ _ (toy_dl_wf ds 8%Z true) (toy_dl_wf ds 8%Z true) H)
    as (_ & pre & t & v & _ & _ & _ & _ & Hbk & _).
  eexists _, _. split; [exact H|exact Hbk].
Defined.

End Witnesses.

(** * More properties of the training loops *)

Section Modes.
Context `{TH : Torch}.

(** The mode of the model is not changed by the batches of a validation
    pass. *)
Lemma val_loop_training c bs s w w' s' :
  foldM (Combinados.val_batch c) bs s w = (w', Ok s') →
  m_training s'.1.1.1 = m_training s.1.1.1.
Proof.
  revert s w. induction bs as [|b bs IH]; intros s w H.
  - by injection H as <- <-.
  - rewrite foldM_cons in H. apply bind_Ok_inv in H as (w1 & s1 & H1 & H).
    destruct s as [[[m vl] yt] yp].
    apply val_batch_Ok in H1 as (y & l & bufs & _ & _ & _ & ->).
    by rewrite (IH _ _ H).
Qed.

Lemma vgg_val_loop_training c bs s w w' s' :
  foldM (Vgg19.val_batch c) bs s w = (w', Ok s') →
  m_training s'.1.1.1 = m_training s.1.1.1.
Proof.
  revert s w. induction bs as [|b bs IH]; intros s w H.
  - by injection H as <- <-.
  - rewrite foldM_cons in H. apply bind_Ok_inv in H as (w1 & s1 & H1 & H).
    destruct s as [[[m vl] yt] yp].
    apply vgg_val_batch_Ok in H1 as (y & l & bufs & _ & _ & _ & ->).
    by rewrite (IH _ _ H).
Qed.

Lemma val_pass_training vl c m w w' s' :
  Combinados.val_pass vl c m w = (w', Ok s') → m_training s'.1.1.1 = m_training m.
Proof.
  unfold Combinados.val_pass, no_grad. intros H.
  rewrite (bind_run _ _ _
    (emit (EvIter "val_loader")
       (set_backend (dl_iter vl (backend_st w)).2 (set_grad_enabled false w)))
    (dl_iter vl (backend_st w)).1) in H by done.
  match type of H with (_ (?x).1, _) = _ => destruct x as [w1 r1] eqn:Hx end.
  simpl in H. injection H as <- ->. by apply val_loop_training in Hx.
Qed.

Lemma vgg_val_pass_training vl c m w w' s' :
  Vgg19.val_pass vl c m w = (w', Ok s') → m_training s'.1.1.1 = m_training m.
Proof.
  unfold Vgg19.val_pass, no_grad. intros H.
  rewrite (bind_run _ _ _
    (emit (EvIter "val_loader")
       (set_backend (dl_iter vl (backend_st w)).2 (set_grad_enabled false w)))
    (dl_iter vl (backend_st w)).1) in H by done.
  match type of H with (_ (?x).1, _) = _ => destruct x as [w1 r1] eqn:Hx end.
  simpl in H. injection H as <- ->. by apply vgg_val_loop_training in Hx.
Qed.

(** An epoch that goes through leaves the model in evaluation mode. *)
Lemma epoch_eval_mode tl vl c E ep s w w' s' :
  Combinados.epoch_body tl vl c E ep s w = (w', Ok s') →
  m_training (Combinados.v_model s') = false.
Proof.
  intros H%epoch_body_outcome.
  inversion H as [| | | | |w2 tr w4 va a Ht Hz Hv Hz' Ha]; subst. simpl.
  by apply val_pass_training in Hv.
Qed.

Lemma vgg_epoch_eval_mode tl vl c E ep s w w' s' :
  Vgg19.epoch_body tl vl c E ep s w = (w', Ok s') →
  m_training (Vgg19.g_model s') = false.
Proof.
  intros H%vgg_epoch_body_outcome.
  inversion H as [| | | | |w2 tr w4 va Ht Hz Hv Hz' Ha]; subst. simpl.
  by apply vgg_val_pass_training in Hv.
Qed.

(** What every pass through the body establishes holds after a loop that
    ran the body at least once. *)
Lemma foldM_last {A S} (I : S → Prop) (body : A → S → M S) :
  (∀ x s w w' s', body x s w = (w', Ok s') → I s') →
  ∀ xs s w w' s', foldM body xs s w = (w', Ok s') → xs ≠ [] ∨ I s → I s'.
Proof.
  intros Hb xs. induction xs as [|x xs IH]; intros s w w' s' H Hs.
  - injection H as <- <-. by destruct Hs.
  - rewrite foldM_cons in H. apply bind_Ok_inv in H as (w1 & s1 & H1 & H).
    eapply IH; [done|]. right. by eapply Hb.
Qed.

(** X1: the model [entrenar_modelo] returns is in evaluation mode, the last
    call on it being [model.eval()], and it has the layers it was given; the
    same holds after the loop of Paso 5 of the VGG19 notebook when it ran an
    epoch. *)
Theorem trained_model_in_eval_mode :
  (∀ m tl vl o c E nombre w w' x,
     Combinados.entrenar_modelo m tl vl o c E nombre w = (w', Ok x) →
     m_training (Combinados.e_model x) = false ∧
     skeleton (Combinados.e_model x) = skeleton m) ∧
  (∀ d m c o E w w' g,
     (1 ≤ E)%Z →
     Vgg19.paso5 d m c o E w = (w', Ok g) →
     m_training (Vgg19.g_model g) = false ∧ skeleton (Vgg19.g_model g) = skeleton m).
Proof.
  split.
  - intros m tl vl o c E nombre w w' x H.
    pose proof H as [_ Hsk]%entrenar_modelo_all. split; [|by apply Hsk].
    destruct (decide (E ≤ 0)%Z) as [HE|HE].
    + pose proof H as [(le & _ & _ & ?)|(bk & r1 & Hto & _ & _)]%entrenar_modelo_inv; [done|].
      by rewrite (entrenar_modelo_no_epochs m tl vl o c E nombre w bk HE Hto) in H.
    + apply entrenar_modelo_inv in H as [(le & _ & _ & ?)|(bk & r1 & _ & H & Hr)]; [done|].
      destruct r1 as [s|e]; [|done].
      unfold Combinados.retorno in Hr.
      destruct (Combinados.v_y_true s), (Combinados.v_y_pred s); simplify_eq/=.
      apply (foldM_last (λ s, m_training (Combinados.v_model s) = false)) in H; [done| |].
      * intros. by eapply epoch_eval_mode.
      * left. destruct (range_pos E) as [es ->]; [lia|done].
  - intros d m c o E w w' g HE H.
    pose proof H as [_ Hsk]%paso5_all. split; [|by apply Hsk].
    unfold Vgg19.paso5 in H.
    apply (foldM_last (λ s, m_training (Vgg19.g_model s) = false)) in H; [done| |].
    + intros. by eapply vgg_epoch_eval_mode.
    + left. destruct (range_pos E) as [es ->]; [lia|done].
Qed.

(** X2: a validation pass, in both notebooks, changes no parameter (neither
    a value nor a gradient), writes no file and leaves the grad mode as it
    found it, whether it goes through or a batch raises. *)
Theorem validation_changes_nothing :
  (∀ vl c m w w' r,
     Combinados.val_pass vl c m w = (w', r) →
     heap w' = heap w ∧ files w' = files w ∧ grad_enabled w' = grad_enabled w) ∧
  (∀ vl c m w w' r,
     Vgg19.val_pass vl c m w = (w', r) →
     heap w' = heap w ∧ files w' = files w ∧ grad_enabled w' = grad_enabled w).
Proof.
  split.
  - by intros vl c m w w' r (? & ? & ? & _)%val_pass_all.
  - by intros vl c m w w' r (? & ? & ? & _)%vgg_val_pass_all.
Qed.

(** X3: training creates no parameter, deletes none, and neither freezes
    nor unfreezes any: whatever the outcome of [entrenar_modelo] or of the
    loop of Paso 5, the store has the same parameters afterwards, each with
    the [requires_grad] it had. *)
Theorem training_keeps_requires_grad :
  (∀ m tl vl o c E nombre w w' r,
     Combinados.entrenar_modelo m tl vl o c E nombre w = (w', r) →
     ∀ l, (is_Some (heap w' !! l) ↔ is_Some (heap w !! l)) ∧
          requires_grad_at (heap w') l = requires_grad_at (heap w) l) ∧
  (∀ d m c o E w w' r,
     Vgg19.paso5 d m c o E w = (w', r) →
     ∀ l, (is_Some (heap w' !! l) ↔ is_Some (heap w !! l)) ∧
          requires_grad_at (heap w') l = requires_grad_at (heap w) l).
Proof.
  assert (∀ ps mp w w', touches ps mp w w' →
    ∀ l, (is_Some (heap w' !! l) ↔ is_Some (heap w !! l)) ∧
         requires_grad_at (heap w') l = requires_grad_at (heap w) l) as Ht.
  { intros ps mp w w' Ht l. unfold requires_grad_at.
    destruct (Ht l) as [->|(p & p' & -> & -> & Hrg & _)]; [done|].
    split; [|done]. split; eauto. }
  split.
  - intros m tl vl o c E nombre w w' r [(_ & _ & H) _]%entrenar_modelo_all. by eapply Ht.
  - intros d m c o E w w' r [(_ & _ & H) _]%paso5_all. by eapply Ht.
Qed.

End Modes.

(** * The exceptions of the training loops *)

Section Exceptions.
Context `{TH : Torch}.

Lemma range_app_pos E (es1 es2 : list Z) ep : range E = es1 ++ ep :: es2 → (1 ≤ E)%Z.
Proof.
  intros H. apply (f_equal length) in H.
  rewrite range_length, length_app in H. simpl in H. lia.
Qed.

(** The exceptions of one epoch. *)
Lemma epoch_raises tl vl c E ep s w w' e :
  Combinados.epoch_body tl vl c E ep s w = (w', Raise e) →
  (∃ le, e = LibraryError le) ∨
  (e = ZeroDivisionError ∧ (dl_len tl = 0 ∨ dl_len vl = 0)).
Proof.
  intros H%epoch_body_outcome.
  inversion H as [? ? Ht|? ? Ht Hz|? ? ? ? Ht Hz Hv|? ? ? ? Ht Hz Hv Hz'
                 |? ? ? ? ? Ht Hz Hv Hz' Ha|]; subst.
  - left. by eapply train_pass_raises.
  - right. eauto.
  - left. by eapply val_pass_raises.
  - right. eauto.
  - left. eauto.
Qed.

Lemma vgg_epoch_raises tl vl c E ep s w w' e :
  Vgg19.epoch_body tl vl c E ep s w = (w', Raise e) →
  (∃ le, e = LibraryError le) ∨
  (e = ZeroDivisionError ∧
   (dl_len tl = 0 ∨ dl_len vl = 0 ∨ ∃ bk, concat (b_labels <$> (dl_iter vl bk).1) = [])).
Proof.
  intros H%vgg_epoch_body_outcome.
  inversion H as [? ? Ht|? ? Ht Hz|? ? ? ? Ht Hz Hv|? ? ? ? Ht Hz Hv Hz'
                 |? ? ? ? Ht Hz Hv Hz' Ha|]; subst.
  - left. rewrite vgg_train_pass_eq in Ht. by eapply train_pass_raises.
  - right. eauto.
  - left. by eapply vgg_val_pass_raises.
  - right. eauto.
  - right. split; [done|]. right. right.
    apply vgg_val_pass_Ok in Hv as (new & _ & _ & _ & _ & Htot).
    eexists. apply nil_length_inv. rewrite Ha in Htot. apply Nat2Z.inj. by rewrite <-Htot.
Qed.

(** X4: [entrenar_modelo] raises nothing but: an exception of a library
    call; [ZeroDivisionError], and then an epoch was run over an empty
    loader; or, with no epoch to run, [UnboundLocalError] for [y_true] (never
    for [y_pred]) at the [return].  The loop of Paso 5 of the VGG19 notebook
    raises nothing but an exception of a library call or
    [ZeroDivisionError], the latter with an empty loader or a validation pass
    with no sample. *)
Theorem training_exceptions :
  (∀ m tl vl o c E nombre w w' e,
     Combinados.entrenar_modelo m tl vl o c E nombre w = (w', Raise e) →
     (∃ le, e = LibraryError le) ∨
     (e = ZeroDivisionError ∧ (1 ≤ E)%Z ∧ (dl_len tl = 0 ∨ dl_len vl = 0)) ∨
     (e = UnboundLocalError "y_true" ∧ (E ≤ 0)%Z)) ∧
  (∀ d m c o E w w' e,
     Vgg19.paso5 d m c o E w = (w', Raise e) →
     (∃ le, e = LibraryError le) ∨
     (e = ZeroDivisionError ∧ (1 ≤ E)%Z ∧
      (dl_len (Vgg19.train_loader d) = 0 ∨ dl_len (Vgg19.val_loader d) = 0 ∨
       ∃ bk, concat (b_labels <$> (dl_iter (Vgg19.val_loader d) bk).1) = []))).
Proof.
  split.
  - intros m tl vl o c E nombre w w' e H.
    pose proof H as [(le & _ & _ & [= ->])|(bk & r1 & Hto & Hloop & Hr)]%entrenar_modelo_inv;
      [by left; eauto|].
    destruct r1 as [s|e1].
    + destruct (decide (E ≤ 0)%Z) as [HE|HE].
      * rewrite (entrenar_modelo_no_epochs m tl vl o c E nombre w bk HE Hto) in H.
        injection H as _ <-. right. right. done.
      * exfalso. unfold Combinados.retorno in Hr.
        destruct (Combinados.v_y_true s) eqn:Eyt; [destruct (Combinados.v_y_pred s) eqn:Eyp|];
          [done| |]; injection Hr as ->;
          by eapply (entrenar_modelo_not_unbound m tl vl o c E nombre w w'); [lia|].
    + injection Hr as ->.
      apply foldM_raise_inv in Hloop as (es1 & ep & es2 & w1 & s1 & Hes & _ & Hb).
      apply range_app_pos in Hes.
      apply epoch_raises in Hb as [?|[-> ?]]; [by left|]. right. left. done.
  - intros d m c o E w w' e H. unfold Vgg19.paso5 in H.
    apply foldM_raise_inv in H as (es1 & ep & es2 & w1 & s1 & Hes & _ & Hb).
    apply range_app_pos in Hes.
    apply vgg_epoch_raises in Hb as [?|[-> ?]]; [by left|]. right. done.
Qed.

End Exceptions.

(** * What each epoch records and prints *)

Section Rows.
Context `{TH : Torch}.

Lemma prints_app l1 l2 : prints (l1 ++ l2) = prints l1 ++ prints l2.
Proof. apply omap_app. Qed.

Lemma accuracy_calls_app l1 l2 :
  accuracy_calls (l1 ++ l2) = accuracy_calls l1 ++ accuracy_calls l2.
Proof. apply omap_app. Qed.

Lemma batch_event_quiet new :
  Forall batch_event new → prints new = [] ∧ accuracy_calls new = [].
Proof. induction 1 as [|ev new Hev _ IH]; [done|]. by destruct ev. Qed.

(** One epoch of [entrenar_modelo] that goes through. *)
Lemma epoch_row tl vl c E ep s w w' s' :
  Combinados.epoch_body tl vl c E ep s w = (w', Ok s') →
  ∃ (r : Combinados.EpochRow) new,
    log w' = log w ++ new ∧
    Combinados.v_train_losses s' =
      Combinados.v_train_losses s ++ [Combinados.row_train_loss r] ∧
    Combinados.v_val_losses s' =
      Combinados.v_val_losses s ++ [Combinados.row_val_loss r] ∧
    Combinados.v_val_accuracies s' =
      Combinados.v_val_accuracies s ++ [Combinados.row_accuracy r] ∧
    Combinados.v_y_true s' = Some (Combinados.row_y_true r) ∧
    Combinados.v_y_pred s' = Some (Combinados.row_y_pred r) ∧
    sk_accuracy_score (Combinados.row_y_true r) (Combinados.row_y_pred r)
      = inr (Combinados.row_accuracy r) ∧
    (∃ bk, Combinados.row_y_true r = concat (b_labels <$> (dl_iter vl bk).1)) ∧
    prints new = [Combinados.row_line E ep r] ∧
    accuracy_calls new =
      [(Combinados.row_y_true r, Combinados.row_y_pred r, Combinados.row_accuracy r)].
Proof.
  intros H%epoch_body_outcome.
  inversion H as [| | | | |w2 tr w4 va a Ht Hz Hv Hz' Ha]; subst; clear H.
  repeat match goal with x := _ |- _ => subst x end.
  pose proof Ht as (_ & _ & (n1 & Hl1 & HF1) & _)%train_pass_all.
  pose proof Hv as (_ & _ & _ & (n2 & Hl2 & HF2) & _)%val_pass_all.
  apply val_pass_Ok in Hv as (n2' & Hl2' & _ & _ & _ & Hyt & _ & Hlab & _).
  assert (n2' = n2) as ->.
  { rewrite Hl2 in Hl2'. by apply app_inv_head in Hl2' as [= ->]. }
  apply batch_event_quiet in HF1 as [P1 A1]. apply batch_event_quiet in HF2 as [P2 A2].
  exists {| Combinados.row_train_loss := f_div tr.2 (f_of_int (Z.of_nat (dl_len tl)));
            Combinados.row_val_loss := f_div va.1.1.2 (f_of_int (Z.of_nat (dl_len vl)));
            Combinados.row_accuracy := a;
            Combinados.row_y_true := va.1.2; Combinados.row_y_pred := va.2 |}.
  eexists. simpl. split_and!; try done.
  - rewrite Hl2. simpl. rewrite Hl1. simpl. rewrite <-!app_assoc. reflexivity.
  - eexists. rewrite Hyt. exact Hlab.
  - simpl. rewrite !prints_app. simpl. rewrite !prints_app, P1, P2. done.
  - simpl. rewrite !accuracy_calls_app. simpl. rewrite !accuracy_calls_app, A1, A2. done.
Qed.

(** The epochs of a loop that goes through. *)
Lemma epochs_rows tl vl c E es s w w' s' :
  foldM (Combinados.epoch_body tl vl c E) es s w = (w', Ok s') →
  ∃ (rows : list Combinados.EpochRow) new,
    log w' = log w ++ new ∧ length rows = length es ∧
    Combinados.v_train_losses s' =
      Combinados.v_train_losses s ++ (Combinados.row_train_loss <$> rows) ∧
    Combinados.v_val_losses s' =
      Combinados.v_val_losses s ++ (Combinados.row_val_loss <$> rows) ∧
    Combinados.v_val_accuracies s' =
      Combinados.v_val_accuracies s ++ (Combinados.row_accuracy <$> rows) ∧
    Forall (λ r, sk_accuracy_score (Combinados.row_y_true r) (Combinados.row_y_pred r)
                   = inr (Combinados.row_accuracy r) ∧
                 ∃ bk, Combinados.row_y_true r = concat (b_labels <$> (dl_iter vl bk).1))
           rows ∧
    prints new = zip_with (Combinados.row_line E) es rows ∧
    accuracy_calls new =
      (λ r, (Combinados.row_y_true r, Combinados.row_y_pred r, Combinados.row_accuracy r))
        <$> rows ∧
    match list.last rows with
    | Some r => Combinados.v_y_true s' = Some (Combinados.row_y_true r) ∧
                Combinados.v_y_pred s' = Some (Combinados.row_y_pred r)
    | None => Combinados.v_y_true s' = Combinados.v_y_true s ∧
              Combinados.v_y_pred s' = Combinados.v_y_pred s
    end.
Proof.
  revert s w. induction es as [|ep es IH]; intros s w H.
  - injection H as <- <-. exists [], []. simpl. rewrite !app_nil_r. done.
  - rewrite foldM_cons in H. apply bind_Ok_inv in H as (w1 & s1 & H1 & H).
    apply epoch_row in H1
      as (r & n1 & Hl1 & Ht1 & Hv1 & Ha1 & Hyt1 & Hyp1 & Hacc & Hlab & Hp1 & Hc1).
    apply IH in H as (rows & n2 & Hl2 & Hn & Ht2 & Hv2 & Ha2 & HF & Hp2 & Hc2 & Hlast).
    exists (r :: rows), (n1 ++ n2). split_and!.
    + by rewrite Hl2, Hl1, app_assoc.
    + simpl. by rewrite Hn.
    + rewrite Ht2, Ht1, <-app_assoc. done.
    + rewrite Hv2, Hv1, <-app_assoc. done.
    + rewrite Ha2, Ha1, <-app_assoc. done.
    + by constructor.
    + rewrite prints_app, Hp1, Hp2. done.
    + rewrite accuracy_calls_app, Hc1, Hc2. done.
    + destruct rows as [|r' rows].
      * simpl in *. destruct Hlast as [-> ->]. done.
      * rewrite last_cons_cons. destruct (list.last (r' :: rows)) eqn:El; [done|].
        by apply last_None in El.
Qed.

(** A run of [entrenar_modelo] that returns. *)
Lemma entrenar_modelo_rows m tl vl o c E nombre w w' x :
  Combinados.entrenar_modelo m tl vl o c E nombre w = (w', Ok x) →
  ∃ rows : list Combinados.EpochRow,
    length rows = Z.to_nat E ∧
    Combinados.e_train_losses x = Combinados.row_train_loss <$> rows ∧
    Combinados.e_val_losses x = Combinados.row_val_loss <$> rows ∧
    Combinados.e_val_accuracies x = Combinados.row_accuracy <$> rows ∧
    Forall (λ r, sk_accuracy_score (Combinados.row_y_true r) (Combinados.row_y_pred r)
                   = inr (Combinados.row_accuracy r) ∧
                 ∃ bk, Combinados.row_y_true r = concat (b_labels <$> (dl_iter vl bk).1))
           rows ∧
    prints (new_log w w') = zip_with (Combinados.row_line E) (range E) rows ∧
    accuracy_calls (new_log w w') =
      (λ r, (Combinados.row_y_true r, Combinados.row_y_pred r, Combinados.row_accuracy r))
        <$> rows ∧
    ∃ r, list.last rows = Some r ∧
      Combinados.e_y_true x = Combinados.row_y_true r ∧
      Combinados.e_y_pred x = Combinados.row_y_pred r.
Proof.
  intros [(le & _ & _ & ?)|(bk & r1 & _ & H & Hr)]%entrenar_modelo_inv; [done|].
  destruct r1 as [s|e]; [|done].
  apply epochs_rows in H as (rows & new & Hl & Hn & Ht & Hv & Ha & HF & Hp & Hc & Hlast).
  rewrite range_length in Hn. simpl in *. exists rows.
  unfold Combinados.retorno in Hr.
  destruct (Combinados.v_y_true s) as [yt|] eqn:Eyt; [|done].
  destruct (Combinados.v_y_pred s) as [yp|] eqn:Eyp; [|done].
  injection Hr as ->. simpl.
  rewrite (logs_new_log w w' (EvTo :: new)) by (by rewrite Hl, <-app_assoc).
  split_and!; try done.
  destruct (list.last rows) as [r|]; [|by destruct Hlast].
  exists r. destruct Hlast as [[= ->] [= ->]]. done.
Qed.

(** One epoch that goes through, by the two parts of its log. *)
Lemma epoch_acc tl vl c E ep s w w' s' :
  dl_wf tl → dl_wf vl →
  Combinados.epoch_body tl vl c E ep s w = (w', Ok s') →
  ∃ t v a, log w' = log w ++ t ++ v ∧ Combinados.epoch_ok tl vl (t, v) ∧
    Combinados.v_val_accuracies s' = Combinados.v_val_accuracies s ++ [a] ∧
    sk_accuracy_score (seen_labels v) (seen_preds v) = inr a ∧
    accuracy_calls (t ++ v) = [(seen_labels v, seen_preds v, a)] ∧
    Combinados.v_y_true s' = Some (seen_labels v) ∧
    Combinados.v_y_pred s' = Some (seen_preds v).
Proof.
  intros Wt Wv H.
  destruct (epoch_Ok _ _ _ _ _ _ _ _ _ Wt Wv H) as (t & v & Hl & Hok & _ & _ & _ & Hyt & Hyp).
  apply epoch_row in H as (r & new & Hl' & _ & _ & Ha & Hyt' & Hyp' & Hacc & _ & _ & Hc).
  assert (new = t ++ v) as ->.
  { rewrite Hl in Hl'. by apply app_inv_head in Hl'. }
  rewrite Hyt in Hyt'. rewrite Hyp in Hyp'.
  injection Hyt' as Hyt'. injection Hyp' as Hyp'.
  rewrite <-Hyt', <-Hyp' in Hacc, Hc.
  exists t, v, (Combinados.row_accuracy r). split_and!; done.
Qed.

Lemma epochs_acc tl vl c E es s w w' s' :
  dl_wf tl → dl_wf vl →
  foldM (Combinados.epoch_body tl vl c E) es s w = (w', Ok s') →
  ∃ (els : list (list event * list event)) (accs : list float),
    length els = length es ∧
    log w' = log w ++ concat ((λ tv, tv.1 ++ tv.2) <$> els) ∧
    Forall (Combinados.epoch_ok tl vl) els ∧
    Combinados.v_val_accuracies s' = Combinados.v_val_accuracies s ++ accs ∧
    Forall2 (λ tv a, sk_accuracy_score (seen_labels tv.2) (seen_preds tv.2) = inr a)
      els accs ∧
    accuracy_calls (concat ((λ tv, tv.1 ++ tv.2) <$> els)) =
      zip_with (λ tv a, (seen_labels tv.2, seen_preds tv.2, a)) els accs ∧
    match list.last els with
    | Some tv => Combinados.v_y_true s' = Some (seen_labels tv.2) ∧
                 Combinados.v_y_pred s' = Some (seen_preds tv.2)
    | None => Combinados.v_y_true s' = Combinados.v_y_true s ∧
              Combinados.v_y_pred s' = Combinados.v_y_pred s
    end.
Proof.
  intros Wt Wv. revert s w. induction es as [|ep es IH]; intros s w H.
  - injection H as <- <-. exists [], []. simpl. rewrite !app_nil_r.
    split_and!; try done.
  - rewrite foldM_cons in H. apply bind_Ok_inv in H as (w1 & s1 & H1 & H).
    apply epoch_acc in H1 as (t & v & a & Hl1 & Hok & Ha1 & Hacc & Hc1 & Hyt & Hyp); [|done..].
    apply IH in H as (els & accs & Hn & Hl & HF & Ha & HF2 & Hc & Hlast).
    exists ((t, v) :: els), (a :: accs). split_and!.
    + simpl. by rewrite Hn.
    + simpl. rewrite Hl, Hl1, <-!app_assoc. done.
    + by constructor.
    + rewrite Ha, Ha1, <-app_assoc. done.
    + by constructor.
    + change (accuracy_calls ((t ++ v) ++ concat ((λ tv, tv.1 ++ tv.2) <$> els)) =
              (seen_labels v, seen_preds v, a) ::
                zip_with (λ tv a, (seen_labels tv.2, seen_preds tv.2, a)) els accs).
      rewrite accuracy_calls_app, Hc1, Hc. done.
    + destruct els as [|tv els].
      * simpl in *. destruct Hlast as [-> ->]. done.
      * rewrite last_cons_cons. destruct (list.last (tv :: els)) eqn:El; [done|].
        by apply last_None in El.
Qed.

(** X5: [val_accuracies] has one entry per epoch, and [accuracy_score] is
    called once per epoch and no more.  Entry [i] is what it returned for
    the [y_true] and the [y_pred] of epoch [i], and these are the labels the
    criterion was given and the predictions [torch.max] gave in the
    validation pass of epoch [i] alone: both lists start empty in every
    epoch.  Those of the last epoch are the [y_true] and [y_pred]
    returned. *)
Theorem val_accuracies_per_epoch m tl vl o c E nombre w w' x :
  dl_wf tl → dl_wf vl →
  Combinados.entrenar_modelo m tl vl o c E nombre w = (w', Ok x) →
  ∃ els : list (list event * list event),
    length els = Z.to_nat E ∧
    length (Combinados.e_val_accuracies x) = Z.to_nat E ∧
    new_log w w' = EvTo :: concat ((λ tv, tv.1 ++ tv.2) <$> els) ∧
    Forall (Combinados.epoch_ok tl vl) els ∧
    accuracy_calls (new_log w w') =
      zip_with (λ tv a, (seen_labels tv.2, seen_preds tv.2, a))
        els (Combinados.e_val_accuracies x) ∧
    (∀ i tv a, els !! i = Some tv → Combinados.e_val_accuracies x !! i = Some a →
       sk_accuracy_score (seen_labels tv.2) (seen_preds tv.2) = inr a) ∧
    ∃ tv, list.last els = Some tv ∧
      Combinados.e_y_true x = seen_labels tv.2 ∧ Combinados.e_y_pred x = seen_preds tv.2.
Proof.
  intros Wt Wv [(le & _ & _ & ?)|(bk & r1 & _ & H & Hr)]%entrenar_modelo_inv; [done|].
  destruct r1 as [s|e]; [|done].
  apply epochs_acc in H as (els & accs & Hn & Hl & HF & Ha & HF2 & Hc & Hlast); [|done..].
  rewrite range_length in Hn. simpl in *.
  unfold Combinados.retorno in Hr.
  destruct (Combinados.v_y_true s) as [yt|] eqn:Eyt; [|done].
  destruct (Combinados.v_y_pred s) as [yp|] eqn:Eyp; [|done].
  injection Hr as ->. simpl. rewrite Ha.
  rewrite (logs_new_log w w' (EvTo :: concat ((λ tv, tv.1 ++ tv.2) <$> els)))
    by (by rewrite Hl, <-app_assoc).
  exists els. split_and!; try done.
  - apply Forall2_length in HF2. congruence.
  - intros i tv a Hi Hai. exact (Forall2_lookup_lr _ _ _ _ _ _ HF2 Hi Hai).
  - destruct (list.last els) as [tv|]; [|by destruct Hlast].
    exists tv. destruct Hlast as [[= ->] [= ->]]. done.
Qed.

(** X6: a run of [entrenar_modelo] that returns printed one progress line
    per epoch and nothing else: line [i] shows epoch [i + 1] of [epochs] with
    entry [i] of the [train_losses], of the [val_losses] and of the
    [val_accuracies] it returns. *)
Theorem progress_lines m tl vl o c E nombre w w' x :
  Combinados.entrenar_modelo m tl vl o c E nombre w = (w', Ok x) →
  length (prints (new_log w w')) = Z.to_nat E ∧
  ∀ i line, prints (new_log w w') !! i = Some line →
    ∃ train_loss val_loss accuracy,
      Combinados.e_train_losses x !! i = Some train_loss ∧
      Combinados.e_val_losses x !! i = Some val_loss ∧
      Combinados.e_val_accuracies x !! i = Some accuracy ∧
      line = EpochLine (Z.of_nat i + 1) E train_loss val_loss accuracy.
Proof.
  intros (rows & Hn & Ht & Hv & Ha & _ & Hp & _)%entrenar_modelo_rows.
  rewrite Hp. split.
  - rewrite length_zip_with, range_length. lia.
  - intros i line Hi. apply lookup_zip_with_Some in Hi as (ep & r & -> & Hep & Hr).
    exists (Combinados.row_train_loss r), (Combinados.row_val_loss r),
      (Combinados.row_accuracy r).
    rewrite Ht, Hv, Ha, !list_lookup_fmap, Hr. split_and!; try done.
    unfold range in Hep. rewrite list_lookup_fmap in Hep.
    destruct (seq 0 (Z.to_nat E) !! i) as [k|] eqn:Hk; [|done].
    apply lookup_seq in Hk as [-> _]. simpl in Hep. by injection Hep as <-.
Qed.

End Rows.

(** * The accuracy of the VGG19 notebook *)

Section Accuracy.
Context `{TH : Torch}.

Lemma count_eq_bounds (predicted labels : list nat) :
  (0 ≤ count_eq predicted labels ≤ Z.of_nat (length labels))%Z.
Proof.
  unfold count_eq. split; [lia|]. apply inj_le.
  etrans; [apply length_filter|]. rewrite length_zip_with. lia.
Qed.

(** [correct] grows by at most what [total] grows by. *)
Lemma vgg_val_loop_correct c bs m vl correct total w w' s' :
  foldM (Vgg19.val_batch c) bs (m, vl, correct, total) w = (w', Ok s') →
  (correct ≤ s'.1.2 ≤ correct + (s'.2 - total))%Z.
Proof.
  revert m vl correct total w. induction bs as [|b bs IH]; intros m vl correct total w H.
  - injection H as <- <-. simpl. lia.
  - rewrite foldM_cons in H.
    apply bind_Ok_inv in H as (w1 & [[[m1 vl1] c1] t1] & H1 & H).
    apply vgg_val_batch_Ok in H1 as (y & l & bufs & _ & _ & _ & [= -> -> -> ->]).
    apply IH in H. pose proof (count_eq_bounds (t_max1 y) (b_labels b)). lia.
Qed.

Lemma vgg_val_pass_counts vl c m w w' s' :
  Vgg19.val_pass vl c m w = (w', Ok s') →
  (0 ≤ s'.1.2 ≤ s'.2)%Z ∧
  s'.2 = Z.of_nat (length (concat (b_labels <$> (dl_iter vl (backend_st w)).1))).
Proof.
  intros H. pose proof H as (new & _ & _ & _ & _ & Htot)%vgg_val_pass_Ok.
  split; [|done]. unfold Vgg19.val_pass, no_grad in H.
  rewrite (bind_run _ _ _
    (emit (EvIter "val_loader")
       (set_backend (dl_iter vl (backend_st w)).2 (set_grad_enabled false w)))
    (dl_iter vl (backend_st w)).1) in H by done.
  match type of H with (_ (?x).1, _) = _ => destruct x as [w1 r1] eqn:Hx end.
  simpl in H. injection H as <- ->. apply vgg_val_loop_correct in Hx. lia.
Qed.

(** One epoch of the loop of Paso 5 that goes through. *)
Lemma vgg_epoch_row tl vl c E ep s w w' s' :
  Vgg19.epoch_body tl vl c E ep s w = (w', Ok s') →
  ∃ (r : Vgg19.EpochRow) new,
    log w' = log w ++ new ∧
    Vgg19.g_train_losses s' = Vgg19.g_train_losses s ++ [Vgg19.row_train_loss r] ∧
    Vgg19.g_val_losses s' = Vgg19.g_val_losses s ++ [Vgg19.row_val_loss r] ∧
    (0 ≤ Vgg19.row_correct r ≤ Vgg19.row_total r)%Z ∧ (0 < Vgg19.row_total r)%Z ∧
    (∃ bk, Vgg19.row_total r =
             Z.of_nat (length (concat (b_labels <$> (dl_iter vl bk).1)))) ∧
    prints new = [Vgg19.row_line E ep r].
Proof.
  intros H%vgg_epoch_body_outcome.
  inversion H as [| | | | |w2 tr w4 va Ht Hz Hv Hz' Ha]; subst; clear H.
  repeat match goal with x := _ |- _ => subst x end.
  pose proof Ht as Ht'. rewrite vgg_train_pass_eq in Ht'.
  apply train_pass_all in Ht' as (_ & _ & (n1 & Hl1 & HF1) & _).
  pose proof Hv as (_ & _ & _ & (n2 & Hl2 & HF2) & _)%vgg_val_pass_all.
  apply vgg_val_pass_counts in Hv as [Hc Htot].
  apply batch_event_quiet in HF1 as [P1 _]. apply batch_event_quiet in HF2 as [P2 _].
  exists {| Vgg19.row_train_loss := f_div tr.2 (f_of_int (Z.of_nat (dl_len tl)));
            Vgg19.row_val_loss := f_div va.1.1.2 (f_of_int (Z.of_nat (dl_len vl)));
            Vgg19.row_correct := va.1.2; Vgg19.row_total := va.2 |}.
  eexists. simpl. split_and!; try done; try lia.
  - rewrite Hl2. simpl. rewrite Hl1. simpl. rewrite <-!app_assoc. reflexivity.
  - by eexists.
  - simpl. rewrite !prints_app. simpl. rewrite !prints_app, P1, P2. done.
Qed.

Lemma vgg_epochs_rows tl vl c E es s w w' s' :
  foldM (Vgg19.epoch_body tl vl c E) es s w = (w', Ok s') →
  ∃ (rows : list Vgg19.EpochRow) new,
    log w' = log w ++ new ∧ length rows = length es ∧
    Vgg19.g_train_losses s' = Vgg19.g_train_losses s ++ (Vgg19.row_train_loss <$> rows) ∧
    Vgg19.g_val_losses s' = Vgg19.g_val_losses s ++ (Vgg19.row_val_loss <$> rows) ∧
    Forall (λ r, (0 ≤ Vgg19.row_correct r ≤ Vgg19.row_total r)%Z ∧
                 (0 < Vgg19.row_total r)%Z ∧
                 ∃ bk, Vgg19.row_total r =
                         Z.of_nat (length (concat (b_labels <$> (dl_iter vl bk).1))))
           rows ∧
    prints new = zip_with (Vgg19.row_line E) es rows.
Proof.
  revert s w. induction es as [|ep es IH]; intros s w H.
  - injection H as <- <-. exists [], []. simpl. rewrite !app_nil_r. done.
  - rewrite foldM_cons in H. apply bind_Ok_inv in H as (w1 & s1 & H1 & H).
    apply vgg_epoch_row in H1 as (r & n1 & Hl1 & Ht1 & Hv1 & Hc & Hpos & Htot & Hp1).
    apply IH in H as (rows & n2 & Hl2 & Hn & Ht2 & Hv2 & HF & Hp2).
    exists (r :: rows), (n1 ++ n2). split_and!.
    + by rewrite Hl2, Hl1, app_assoc.
    + simpl. by rewrite Hn.
    + rewrite Ht2, Ht1, <-app_assoc. done.
    + rewrite Hv2, Hv1, <-app_assoc. done.
    + by constructor.
    + rewrite prints_app, Hp1, Hp2. done.
Qed.

(** X7: in the VGG19 notebook, a loop of Paso 5 that goes through printed
    one progress line per epoch and nothing else; line [i] shows epoch
    [i + 1] of [epochs], entry [i] of [train_losses] and of [val_losses], and
    the accuracy [100 * correct / total], where [total] is the number of
    samples of a pass over [val_loader], which is not zero, and
    [0 <= correct <= total]. *)
Theorem vgg_progress_lines d m c o E w w' g :
  Vgg19.paso5 d m c o E w = (w', Ok g) →
  length (prints (new_log w w')) = Z.to_nat E ∧
  ∀ i line, prints (new_log w w') !! i = Some line →
    ∃ epoch_loss val_loss correct total bk,
      Vgg19.g_train_losses g !! i = Some epoch_loss ∧
      Vgg19.g_val_losses g !! i = Some val_loss ∧
      total = Z.of_nat (length (concat (b_labels <$>
                                          (dl_iter (Vgg19.val_loader d) bk).1))) ∧
      (0 ≤ correct ≤ total)%Z ∧ (0 < total)%Z ∧
      line = EpochLine (Z.of_nat i + 1) E epoch_loss val_loss
               (f_int_div (100 * correct) total).
Proof.
  unfold Vgg19.paso5.
  intros (rows & new & Hl & Hn & Ht & Hv & HF & Hp)%vgg_epochs_rows.
  rewrite (logs_new_log w w' new Hl), Hp. rewrite range_length in Hn. simpl in *. split.
  - rewrite length_zip_with, range_length. lia.
  - intros i line Hi. apply lookup_zip_with_Some in Hi as (ep & r & -> & Hep & Hr).
    destruct (proj1 (list.Forall_forall _ _) HF r (list_elem_of_lookup_2 _ _ _ Hr))
      as (Hc & Hpos & bk & Htot).
    exists (Vgg19.row_train_loss r), (Vgg19.row_val_loss r), (Vgg19.row_correct r),
      (Vgg19.row_total r), bk.
    rewrite Ht, Hv, !list_lookup_fmap, Hr. split_and!; try done; try lia.
    unfold range in Hep. rewrite list_lookup_fmap in Hep.
    destruct (seq 0 (Z.to_nat E) !! i) as [k|] eqn:Hk; [|done].
    apply lookup_seq in Hk as [-> _]. simpl in Hep. by injection Hep as <-.
Qed.

End Accuracy.

(** * The cells around the training *)

Section DataCells.
Context `{TH : Torch}.

Lemma lib_call_inv {A} (f : backend → lib_exn + (A * backend)) (ev : A → event) w w' r :
  lib_call f ev w = (w', r) →
  (∃ le, f (backend_st w) = inl le ∧ w' = w ∧ r = Raise (LibraryError le)) ∨
  (∃ a b, f (backend_st w) = inr (a, b) ∧ w' = emit (ev a) (set_backend b w) ∧ r = Ok a).
Proof.
  unfold lib_call. destruct (f (backend_st w)) as [le|[a b]]; intros [= <- <-]; eauto 10.
Qed.

Lemma lib_pure_inv {A} (x : lib_exn + A) (ev : A → event) w w' r :
  lib_pure x ev w = (w', r) →
  (∃ le, x = inl le ∧ w' = w ∧ r = Raise (LibraryError le)) ∨
  (∃ a, x = inr a ∧ w' = emit (ev a) w ∧ r = Ok a).
Proof. unfold lib_pure. destruct x as [le|a]; intros [= <- <-]; eauto 10. Qed.

Lemma new_log_refl w : new_log w w = [].
Proof. unfold new_log. apply drop_all. Qed.

(** X8: Paso 3 of the comparison notebook loads the training folder, then
    the test folder; the class names are those of the training folder, the
    training loader shuffles and the validation loader, over the test folder,
    does not.  When a folder cannot be loaded the cell raises the exception
    of [ImageFolder] and prints nothing; for the training folder, the test
    folder is not even tried.  The cell touches no parameter and no file. *)
Theorem paso3_outcomes w w' r :
  Combinados.paso3 w = (w', r) →
  heap w' = heap w ∧ files w' = files w ∧
  match r with
  | Ok d =>
      ∃ train_dataset b1 test_dataset b2,
        tv_ImageFolder Combinados.train_dir (backend_st w) = inr (train_dataset, b1) ∧
        tv_ImageFolder Combinados.test_dir b1 = inr (test_dataset, b2) ∧
        d = {| Combinados.train_loader :=
                 tu_DataLoader train_dataset Combinados.batch_size true;
               Combinados.val_loader :=
                 tu_DataLoader test_dataset Combinados.batch_size false;
               Combinados.class_names := ds_classes train_dataset |} ∧
        new_log w w' = [EvImageFolder Combinados.train_dir;
                        EvImageFolder Combinados.test_dir;
                        EvPrint (ClassesLine (ds_classes train_dataset))]
  | Raise e =>
      ∃ le, e = LibraryError le ∧
        ((tv_ImageFolder Combinados.train_dir (backend_st w) = inl le ∧
          new_log w w' = []) ∨
         (∃ train_dataset b1,
            tv_ImageFolder Combinados.train_dir (backend_st w) = inr (train_dataset, b1) ∧
            tv_ImageFolder Combinados.test_dir b1 = inl le ∧
            new_log w w' = [EvImageFolder Combinados.train_dir]))
  end.
Proof.
  unfold Combinados.paso3, datasets_ImageFolder. intros H.
  apply bind_inv in H as [(e & H & ->)|(w1 & trn & H1 & H)].
  { apply lib_call_inv in H as [(le & Hf & -> & [= ->])|(? & ? & _ & _ & ?)]; [|done].
    split_and!; [done..|]. exists le. split; [done|]. left. by rewrite new_log_refl. }
  apply lib_call_inv in H1 as [(? & _ & _ & ?)|(? & b1 & Hf1 & -> & [= <-])]; [done|].
  apply bind_inv in H as [(e & H & ->)|(w2 & tst & H2 & H)].
  { apply lib_call_inv in H as [(le & Hf & -> & [= ->])|(? & ? & _ & _ & ?)]; [|done].
    split_and!; [done..|]. exists le. split; [done|]. right. exists trn, b1.
    split_and!; [done|done|]. by apply logs_new_log. }
  apply lib_call_inv in H2 as [(? & _ & _ & ?)|(? & b2 & Hf2 & -> & [= <-])]; [done|].
  apply bind_inv in H as [(e & H & ->)|(w3 & [] & H3 & H)]; [done|].
  unfold print in H3. injection H3 as <-. injection H as <- <-.
  split_and!; [done..|]. exists trn, b1, tst, b2. split_and!; try done.
  apply logs_new_log. simpl. by rewrite <-!app_assoc.
Qed.

(** X9: Paso 2 of the VGG19 notebook loads one folder and splits it, after
    seeding the generator with 42, in two parts whose sizes it computes:
    [val_size = int(len * 0.2)] and [train_size = len - val_size], which add
    up to the size of the data set whatever the rounding.  The class names
    are those of the whole folder; the training loader shuffles, the
    validation loader does not.  When the folder cannot be loaded, or the
    split fails, the cell raises that exception.  It touches no parameter
    and no file. *)
Theorem vgg_paso2_outcomes w w' r :
  Vgg19.paso2 w = (w', r) →
  heap w' = heap w ∧ files w' = files w ∧
  match r with
  | Ok d =>
      ∃ full_dataset b1 train_dataset val_dataset b2 train_size val_size,
        tv_ImageFolder Vgg19.data_dir (backend_st w) = inr (full_dataset, b1) ∧
        val_size = f_trunc (f_mul_int (ds_len full_dataset) (f_lit 2 (-1))) ∧
        (train_size + val_size = ds_len full_dataset)%Z ∧
        tu_random_split full_dataset [train_size; val_size] (t_manual_seed 42 b1)
          = inr (train_dataset, val_dataset, b2) ∧
        d = {| Vgg19.train_loader := tu_DataLoader train_dataset Vgg19.batch_size true;
               Vgg19.val_loader := tu_DataLoader val_dataset Vgg19.batch_size false;
               Vgg19.class_names := ds_classes full_dataset |} ∧
        new_log w w' = [EvImageFolder Vgg19.data_dir;
                        EvRandomSplit [train_size; val_size]]
  | Raise e =>
      ∃ le, e = LibraryError le ∧
        ((tv_ImageFolder Vgg19.data_dir (backend_st w) = inl le ∧ new_log w w' = []) ∨
         (∃ full_dataset b1 sizes,
            tv_ImageFolder Vgg19.data_dir (backend_st w) = inr (full_dataset, b1) ∧
            tu_random_split full_dataset sizes (t_manual_seed 42 b1) = inl le ∧
            new_log w w' = [EvImageFolder Vgg19.data_dir]))
  end.
Proof.
  unfold Vgg19.paso2, datasets_ImageFolder, random_split. intros H.
  apply bind_inv in H as [(e & H & ->)|(w1 & full & H1 & H)].
  { apply lib_call_inv in H as [(le & Hf & -> & [= ->])|(? & ? & _ & _ & ?)]; [|done].
    split_and!; [done..|]. exists le. split; [done|]. left. by rewrite new_log_refl. }
  apply lib_call_inv in H1 as [(? & _ & _ & ?)|(? & b1 & Hf1 & -> & [= <-])]; [done|].
  apply bind_inv in H as [(e & H & ->)|(w2 & [] & H2 & H)]; [done|].
  unfold manual_seed in H2. injection H2 as <-.
  apply bind_inv in H as [(e & H & ->)|(w3 & [trn val] & H3 & H)].
  { apply lib_call_inv in H as [(le & Hf & -> & [= ->])|(? & ? & _ & _ & ?)]; [|done].
    split_and!; [done..|]. exists le. split; [done|]. right. eexists full, b1, _.
    split_and!; [done|exact Hf|]. by apply logs_new_log. }
  apply lib_call_inv in H3 as [(? & _ & _ & ?)|(? & b2 & Hf2 & -> & [= <-])]; [done|].
  injection H as <- <-.
  split_and!; [done..|]. eexists full, b1, trn, val, b2, _, _.
  split_and!; [done|reflexivity| |exact Hf2|done|].
  - lia.
  - apply logs_new_log. simpl. by rewrite <-!app_assoc.
Qed.

End DataCells.

(** * The metrics of Paso 6 *)

Section Metrics.
Context `{TH : Torch}.

Lemma line_plots_app l1 l2 : line_plots (l1 ++ l2) = line_plots l1 ++ line_plots l2.
Proof. apply omap_app. Qed.

Lemma precision_score_inv yt yp avg w w' r :
  precision_score yt yp avg w = (w', r) →
  (∃ le, sk_precision_score yt yp avg = inl le ∧ w' = w ∧ r = Raise (LibraryError le)) ∨
  (∃ a, sk_precision_score yt yp avg = inr a ∧ w' = emit (EvPrecisionScore yt yp a) w ∧
        r = Ok a).
Proof. apply lib_pure_inv. Qed.

(** X10: Paso 6 computes the three macro-averaged precisions, from the
    [y_true] and [y_pred] that [entrenar_modelo] returned, before it shows
    anything: when one of them raises, nothing is plotted or printed.  Then it
    shows two plots, of the validation losses and of the validation
    accuracies, each with the series of ResNet18, ResNet34 and VGG19 in this
    order, and then it prints a header and the three precisions; when a plot
    raises, what was shown before stays and nothing is printed.  The cell
    touches no parameter and saves nothing. *)
Theorem paso6_outcomes p w w' r :
  let loss_val_dict :=
    [("ResNet18", Combinados.e_val_losses (Combinados.r18 p));
     ("ResNet34", Combinados.e_val_losses (Combinados.r34 p));
     ("VGG19", Combinados.e_val_losses (Combinados.vgg p))] in
  let acc_val_dict :=
    [("ResNet18", Combinados.e_val_accuracies (Combinados.r18 p));
     ("ResNet34", Combinados.e_val_accuracies (Combinados.r34 p));
     ("VGG19", Combinados.e_val_accuracies (Combinados.vgg p))] in
  let precision (x : Combinados.Entrenado) :=
    sk_precision_score (Combinados.e_y_true x) (Combinados.e_y_pred x) "macro" in
  Combinados.paso6 p w = (w', r) →
  heap w' = heap w ∧ files w' = files w ∧
  match r with
  | Ok _ =>
      ∃ p18 p34 pvgg,
        precision (Combinados.r18 p) = inr p18 ∧
        precision (Combinados.r34 p) = inr p34 ∧
        precision (Combinados.vgg p) = inr pvgg ∧
        line_plots (new_log w w') =
          [("Validation Loss", loss_val_dict); ("Validation Accuracy", acc_val_dict)] ∧
        prints (new_log w w') =
          [TextLine "📌 Precision por modelo (macro avg):";
           PrecisionLine "ResNet18" p18; PrecisionLine "ResNet34" p34;
           PrecisionLine "VGG19" pvgg]
  | Raise e =>
      ∃ le, e = LibraryError le ∧ prints (new_log w w') = [] ∧
        (((precision (Combinados.r18 p) = inl le ∨ precision (Combinados.r34 p) = inl le ∨
           precision (Combinados.vgg p) = inl le) ∧
          line_plots (new_log w w') = []) ∨
         (plt_show (EvPlotLines "Validation Loss" loss_val_dict) = inl le ∧
          line_plots (new_log w w') = []) ∨
         (plt_show (EvPlotLines "Validation Accuracy" acc_val_dict) = inl le ∧
          line_plots (new_log w w') = [("Validation Loss", loss_val_dict)]))
  end.
Proof.
  intros loss_val_dict acc_val_dict precision H.
  unfold Combinados.paso6, Combinados.calcular_precision_final,
    Combinados.plot_metric_comparison in H.
  apply bind_inv in H as [(e & H & ->)|(w1 & p18 & H1 & H)].
  { apply precision_score_inv in H as [(le & Hs & -> & [= ->])|(? & _ & _ & ?)]; [|done].
    rewrite new_log_refl. split_and!; [done..|]. exists le. split_and!; [done..|].
    left. split; [|done]. by left. }
  apply precision_score_inv in H1 as [(? & _ & _ & ?)|(? & Hp18 & -> & [= <-])]; [done|].
  apply bind_inv in H as [(e & H & ->)|(w2 & p34 & H2 & H)].
  { apply precision_score_inv in H as [(le & Hs & -> & [= ->])|(? & _ & _ & ?)]; [|done].
    rewrite (logs_new_log w _ [EvPrecisionScore _ _ p18]) by done.
    split_and!; [done..|]. exists le. split_and!; [done..|].
    left. split; [|done]. right. by left. }
  apply precision_score_inv in H2 as [(? & _ & _ & ?)|(? & Hp34 & -> & [= <-])]; [done|].
  apply bind_inv in H as [(e & H & ->)|(w3 & pvgg & H3 & H)].
  { apply precision_score_inv in H as [(le & Hs & -> & [= ->])|(? & _ & _ & ?)]; [|done].
    rewrite (logs_new_log w _ [EvPrecisionScore _ _ p18; EvPrecisionScore _ _ p34])
      by (simpl; by rewrite <-!app_assoc).
    split_and!; [done..|]. exists le. split_and!; [done..|].
    left. split; [|done]. right. by right. }
  apply precision_score_inv in H3 as [(? & _ & _ & ?)|(? & Hpvgg & -> & [= <-])]; [done|].
  unfold plot in H.
  apply bind_inv in H as [(e & H & ->)|(w4 & [] & H4 & H)].
  { apply lib_pure_inv in H as [(le & Hs & -> & [= ->])|(? & _ & _ & ?)]; [|done].
    erewrite logs_new_log; [|simpl; rewrite <-!app_assoc; reflexivity].
    split_and!; [done..|]. exists le. split_and!; [done..|]. right. left. done. }
  apply lib_pure_inv in H4 as [(? & _ & _ & ?)|(? & _ & -> & _)]; [done|].
  apply bind_inv in H as [(e & H & ->)|(w5 & [] & H5 & H)].
  { apply lib_pure_inv in H as [(le & Hs & -> & [= ->])|(? & _ & _ & ?)]; [|done].
    erewrite logs_new_log; [|simpl; rewrite <-!app_assoc; reflexivity].
    split_and!; [done..|]. exists le. split_and!; [done..|]. right. right. done. }
  apply lib_pure_inv in H5 as [(? & _ & _ & ?)|(? & _ & -> & _)]; [done|].
  unfold print in H. monad. simpl in H. injection H as <- <-.
  split_and!; [done..|]. exists p18, p34, pvgg. split_and!; [done..| |].
  - erewrite logs_new_log; [|simpl; rewrite <-!app_assoc; reflexivity]. done.
  - erewrite logs_new_log; [|simpl; rewrite <-!app_assoc; reflexivity]. done.
Qed.

(** X11: in a run of the comparison notebook that reaches its end, the two
    plots of Paso 6 are the only line plots, and each of their three series
    has ten points, one per epoch. *)
Theorem comparison_plots w w' d p :
  Combinados.notebook w = (w', Ok (d, p)) →
  ∃ l18 l34 lvgg a18 a34 avgg,
    line_plots (new_log w w') =
      [("Validation Loss", [("ResNet18", l18); ("ResNet34", l34); ("VGG19", lvgg)]);
       ("Validation Accuracy", [("ResNet18", a18); ("ResNet34", a34); ("VGG19", avgg)])] ∧
    Forall (λ series : list float, length series = 10) [l18; l34; lvgg; a18; a34; avgg] ∧
    l18 = Combinados.e_val_losses (Combinados.r18 p) ∧
    l34 = Combinados.e_val_losses (Combinados.r34 p) ∧
    lvgg = Combinados.e_val_losses (Combinados.vgg p) ∧
    a18 = Combinados.e_val_accuracies (Combinados.r18 p) ∧
    a34 = Combinados.e_val_accuracies (Combinados.r34 p) ∧
    avgg = Combinados.e_val_accuracies (Combinados.vgg p).
Proof.
  intros H.
  assert (∀ nombre x s t, Combinados.trained d nombre x s t →
    length (Combinados.e_val_losses x) = 10 ∧
    length (Combinados.e_val_accuracies x) = 10) as Hlen.
  { intros nombre x s t (m & o & c & Ht).
    apply entrenar_modelo_rows in Ht as (rows & Hn & _ & -> & -> & _).
    by rewrite !length_fmap. }
  apply notebook_log in H
    as (s18 & t18 & s34 & t34 & svgg & tvgg & i18 & lw18 & lb18 & i34 & lw34 & lb34 &
        ivgg & lwv & lbv & ps18 & ps34 & psvgg & p18 & p34 & pvgg & cm18 & cm34 & cmvgg &
        T18 & T34 & Tv & _ & _ & _ & _ & _ & _ & F18 & F34 & Fv & _ & _ & _ &
        _ & _ & _ & Hl).
  assert (∀ new, Forall training_event new → line_plots new = []) as Hno.
  { induction 1 as [|ev new Hev _ IH]; [done|]. by destruct ev. }
  destruct (Hlen _ _ _ _ T18) as [? ?]. destruct (Hlen _ _ _ _ T34) as [? ?].
  destruct (Hlen _ _ _ _ Tv) as [? ?].
  exists (Combinados.e_val_losses (Combinados.r18 p)),
    (Combinados.e_val_losses (Combinados.r34 p)),
    (Combinados.e_val_losses (Combinados.vgg p)),
    (Combinados.e_val_accuracies (Combinados.r18 p)),
    (Combinados.e_val_accuracies (Combinados.r34 p)),
    (Combinados.e_val_accuracies (Combinados.vgg p)).
  split_and!; [|by repeat constructor|reflexivity..].
  rewrite Hl, !line_plots_app, (Hno _ F18), (Hno _ F34), (Hno _ Fv). done.
Qed.

End Metrics.

(** * The new last layer *)

Section Heads.
Context `{TH : Torch}.

Lemma models_pretrained_raises a w w' e :
  models_pretrained a w = (w', Raise e) → ∃ le, e = LibraryError le.
Proof.
  unfold models_pretrained. intros H.
  apply bind_inv in H as [(e' & H & [= <-])|(w1 & sb & _ & H)].
  { apply lib_call_inv in H as [(le & _ & _ & [= ->])|(? & ? & _ & _ & ?)]; [eauto|done]. }
  apply bind_inv in H as [(e' & H & _)|(w2 & layers & _ & H)]; [|done].
  by apply alloc_layers_allocates in H as (? & ? & _).
Qed.

(** The steps the set-ups share, up to the new layer, for any outcome. *)
Lemma head_steps {R} a (fz : Module → list loc) path (n : nat) (k : Module → M R)
    w1 w' r :
  (m ← models_pretrained a;
   freeze (fz m);;
   ly ← get_layer path m;
   i ← in_features_of ly;
   ly ← nn_Linear i n;
   k (set_layer path ly m)) w1 = (w', r) →
  (∃ le, r = Raise (LibraryError le)) ∨
  ∃ w2 m, models_pretrained a w1 = (w2, Ok m) ∧
    ((∃ e, r = Raise e ∧ no_head path m e) ∨
     ∃ m' w4, new_head a path n m m' ∧ k m' w4 = (w', r)).
Proof.
  intros H.
  apply bind_inv in H as [(e & H & ->)|(w2 & m & H2 & H)].
  { left. apply models_pretrained_raises in H as [le ->]. eauto. }
  right. exists w2, m. split; [done|].
  apply bind_inv in H as [(e & H & _)|(w3 & [] & H3 & H)].
  { by apply freeze_spec in H as [? _]. }
  unfold get_layer in H at 1.
  destruct (list_find (λ pl, pl.1 = path) (m_layers m)) as [[i0 [p old]]|] eqn:Hfind.
  2:{ left. exists (AttributeError path). injection H as <- <-. split; [done|]. left.
      split; [done|]. intros (pl & Hp & Hin)%list_elem_of_fmap.
      apply list_find_None in Hfind.
      by apply (proj1 (list.Forall_forall _ _) Hfind pl Hin). }
  apply list_find_path in Hfind as Hi0. destruct Hi0 as [Hi0 Hp]. simpl in Hp. subst p.
  rewrite (bind_run _ _ _ w3 old) in H by done.
  destruct old as [i o_old lw0 lb0|ps].
  2:{ left. exists (AttributeError "in_features"). injection H as <- <-.
      split; [done|]. right. eauto. }
  rewrite (bind_run _ _ _ w3 i) in H by done.
  apply bind_inv in H as [(e & H & _)|(w4 & ly & H4 & H)].
  { by apply nn_Linear_Ok in H as (? & ? & ? & _). }
  apply nn_Linear_Ok in H4 as (lw & lb & [= ->] & (_ & _ & _ & _ & Hnd & Hn4 & _)).
  right. exists (set_layer path (Linear i n lw lb) m), w4. split; [|done].
  pose proof H2 as (specs & bufs & bk & _ & (_ & _ & _ & _ & _ & _ & _ & Hp2) & Harch & _)
    %models_pretrained_Ok.
  apply freeze_spec in H3 as (_ & _ & _ & _ & _ & Ho3 & Hi3).
  assert (∀ l, l ∈ [lw; lb] → l ∉ parameters m) as Hnew.
  { intros l Hin Hl. destruct (Hp2 l Hl) as [t Ht]. simpl in Hn4.
    pose proof (Hn4 l Hin) as Hnone.
    destruct (decide (l ∈ fz m)) as [Hf|Hf].
    - rewrite (Hi3 l Hf), Ht in Hnone. done.
    - rewrite (Ho3 l Hf), Ht in Hnone. done. }
  exists i0, i, o_old, lw0, lb0, lw, lb. split_and!; try done.
  - unfold set_layer. simpl. by rewrite Hfind.
  - apply Hnew, list_elem_of_here.
  - apply Hnew, list_elem_of_further, list_elem_of_here.
  - apply list.NoDup_cons in Hnd as [Hnd _]. intros ->. apply Hnd, list_elem_of_here.
Qed.

(** The same, for the set-ups that end with the optimizer. *)
Lemma setup_head {R} (f : Module → Optimizer → R) a (fz : Module → list loc)
    path name (n : nat) lr w1 w' r :
  (m ← models_pretrained a;
   freeze (fz m);;
   ly ← get_layer path m;
   i ← in_features_of ly;
   ly ← nn_Linear i n;
   let m := set_layer path ly m in
   o ← optim_Adam (parameters (child name m)) lr;
   mret (f m o)) w1 = (w', r) →
  match r with
  | Ok x => ∃ w2 m m' o, models_pretrained a w1 = (w2, Ok m) ∧ x = f m' o ∧
                          new_head a path n m m'
  | Raise e => (∃ le, e = LibraryError le) ∨
               ∃ w2 m, models_pretrained a w1 = (w2, Ok m) ∧ no_head path m e
  end.
Proof.
  intros H.
  apply (head_steps a fz path n
           (λ m, o ← optim_Adam (parameters (child name m)) lr; mret (f m o))) in H
    as [(le & ->)|(w2 & m & H2 & [(e & -> & He)|(m' & w4 & Hh & H)])]; [by eauto|by eauto 10|].
  apply bind_inv in H as [(e & H & ->)|(w5 & o & H5 & H)].
  - apply optim_Adam_spec in H as [_ ?]. by left.
  - injection H as <- <-. by exists w2, m, m', o.
Qed.

(** X12: each set-up replaces one layer of the pretrained module and leaves
    the others as they are.  The model it makes has the layers and the
    buffers of the module the zoo gave, but for [fc] (ResNet18, ResNet34) or
    [classifier.6] (VGG19): there the old layer was linear, and the new one
    is linear with the same [in_features], as many outputs as there are
    classes, and two parameters of its own, which the pretrained module does
    not have. *)
Theorem setup_replaces_head :
  (∀ cn w w' m' o c,
     Combinados.resnet18_setup cn w = (w', Ok (m', o, c)) →
     ∃ wa wb m, models_pretrained ResNet18 wa = (wb, Ok m) ∧
                new_head ResNet18 "fc" (length cn) m m') ∧
  (∀ cn w w' m' o,
     Combinados.resnet34_setup cn w = (w', Ok (m', o)) →
     ∃ wa wb m, models_pretrained ResNet34 wa = (wb, Ok m) ∧
                new_head ResNet34 "fc" (length cn) m m') ∧
  (∀ cn w w' m' o,
     Combinados.vgg19_setup cn w = (w', Ok (m', o)) →
     ∃ wa wb m, models_pretrained VGG19 wa = (wb, Ok m) ∧
                new_head VGG19 "classifier.6" (length cn) m m') ∧
  (∀ cn w w' m',
     Vgg19.paso3 cn w = (w', Ok m') →
     ∃ wb m, models_pretrained VGG19 w = (wb, Ok m) ∧
             new_head VGG19 "classifier.6" (length cn) m m').
Proof.
  split_and!.
  - intros cn w w' m' o c H. unfold Combinados.resnet18_setup in H.
    apply bind_Ok_inv in H as (w1 & [] & _ & H).
    apply (setup_head (λ m o, (m, o, nn_CrossEntropyLoss)) ResNet18 parameters "fc" "fc")
      in H as (w2 & m & m1 & o1 & H2 & [= -> -> _] & Hh). eauto.
  - intros cn w w' m' o H. unfold Combinados.resnet34_setup in H.
    apply bind_Ok_inv in H as (w1 & [] & _ & H).
    apply (setup_head (λ m o, (m, o)) ResNet34 parameters "fc" "fc")
      in H as (w2 & m & m1 & o1 & H2 & [= -> ->] & Hh). eauto.
  - intros cn w w' m' o H. unfold Combinados.vgg19_setup in H.
    apply bind_Ok_inv in H as (w1 & [] & _ & H).
    apply (setup_head (λ m o, (m, o)) VGG19 (λ m, parameters (child "features" m))
             "classifier.6" "classifier")
      in H as (w2 & m & m1 & o1 & H2 & [= -> ->] & Hh). eauto.
  - intros cn w w' m' H. unfold Vgg19.paso3 in H.
    apply (head_steps VGG19 (λ m, parameters (child "features" m)) "classifier.6"
             (length cn) to_device) in H
      as [(le & ?)|(w2 & m & H2 & [(e & ? & _)|(m1 & w4 & Hh & H)])]; [done|done|].
    apply to_device_inv in H as [(? & _ & ?)|(bk & _ & [= ->])]; [done|]. eauto.
Qed.

Lemma no_head_linear path m e :
  no_head path m e → (∃ msg, e = AttributeError msg) ∧ no_linear_head path m.
Proof. intros [[-> ?]|[-> ?]]; (split; [eauto|]); [by left|by right]. Qed.

(** X13: the set-up of ResNet18 or of ResNet34 stops with an exception in
    two cases only: a library call raised (the zoo or the optimizer); or the
    module of the zoo has no linear layer [fc] (none of this name, or one
    that is not linear), and then the exception is an [AttributeError]. *)
Theorem setup_exceptions :
  (∀ cn w w' e,
     Combinados.resnet18_setup cn w = (w', Raise e) →
     (∃ le, e = LibraryError le) ∨
     ((∃ msg, e = AttributeError msg) ∧
      ∃ wa wb m, models_pretrained ResNet18 wa = (wb, Ok m) ∧ no_linear_head "fc" m)) ∧
  (∀ cn w w' e,
     Combinados.resnet34_setup cn w = (w', Raise e) →
     (∃ le, e = LibraryError le) ∨
     ((∃ msg, e = AttributeError msg) ∧
      ∃ wa wb m, models_pretrained ResNet34 wa = (wb, Ok m) ∧ no_linear_head "fc" m)).
Proof.
  split.
  - intros cn w w' e H. unfold Combinados.resnet18_setup in H.
    apply bind_inv in H as [(? & ? & _)|(w1 & [] & _ & H)]; [done|].
    apply (setup_head (λ m o, (m, o, nn_CrossEntropyLoss)) ResNet18 parameters "fc" "fc")
      in H as [?|(w2 & m & H2 & [Hmsg Hno]%no_head_linear)]; [by left|].
    right. split; [done|]. eauto.
  - intros cn w w' e H. unfold Combinados.resnet34_setup in H.
    apply bind_inv in H as [(? & ? & _)|(w1 & [] & _ & H)]; [done|].
    apply (setup_head (λ m o, (m, o)) ResNet34 parameters "fc" "fc")
      in H as [?|(w2 & m & H2 & [Hmsg Hno]%no_head_linear)]; [by left|].
    right. split; [done|]. eauto.
Qed.

End Heads.

(** * What is saved, and when *)

Section Files.
Context `{TH : Torch}.

#[global] Instance unsaved_po : PreOrder unsaved.
Proof.
  split.
  - intros w. split; reflexivity.
  - intros w1 w2 w3 [? ?] [? ?]. split; etrans; done.
Qed.

Lemma unsaved_same w w' : files w' = files w → log w' = log w → unsaved w w'.
Proof. intros Hf Hl. split; [done|]. exists []. by rewrite app_nil_r. Qed.

Lemma unsaved_event w w' ev :
  files w' = files w → log w' = log w ++ [ev] → not_saving ev → unsaved w w'.
Proof. intros Hf Hl Hev. split; [done|]. exists [ev]. split; [done|]. by constructor. Qed.

Lemma unsaved_inv w w' :
  unsaved w w' → files w' = files w ∧ saved_paths (new_log w w') = [].
Proof.
  intros [Hf [_ HF]%logs_inv]. split; [done|].
  induction HF as [|ev new Hev _ IH]; [done|]. by destruct ev.
Qed.

Lemma training_event_not_saving ev : training_event ev → not_saving ev.
Proof. by destruct ev. Qed.

(** The calls that save nothing, whatever their outcome. *)
Lemma lib_call_unsaved {A} (f : backend → lib_exn + (A * backend)) (ev : A → event) :
  (∀ a, not_saving (ev a)) → preserves unsaved (lib_call f ev).
Proof.
  intros Hev w w' r [(? & _ & -> & _)|(a & ? & _ & -> & _)]%lib_call_inv; [reflexivity|].
  by apply (unsaved_event _ _ (ev a)).
Qed.

Lemma lib_pure_unsaved {A} (x : lib_exn + A) (ev : A → event) :
  (∀ a, not_saving (ev a)) → preserves unsaved (lib_pure x ev).
Proof.
  intros Hev w w' r [(? & _ & -> & _)|(a & _ & -> & _)]%lib_pure_inv; [reflexivity|].
  by apply (unsaved_event _ _ (ev a)).
Qed.

Lemma print_unsaved l : preserves unsaved (print l).
Proof. intros w w' r [= <- _]. by apply (unsaved_event _ _ (EvPrint l)). Qed.

Lemma plot_unsaved ev : not_saving ev → preserves unsaved (plot ev).
Proof. intros Hev. by apply lib_pure_unsaved. Qed.

Lemma models_pretrained_unsaved a : preserves unsaved (models_pretrained a).
Proof.
  apply preserves_bind; [apply _|by apply lib_call_unsaved|intros sb].
  apply preserves_bind; [apply _| |intros layers; apply preserves_mret, _].
  intros w w' r H. apply alloc_layers_allocates in H as (? & _ & (? & ? & _) & _).
  by apply unsaved_same.
Qed.

Lemma freeze_unsaved ps : preserves unsaved (freeze ps).
Proof.
  intros w w' r H. apply freeze_spec in H as (_ & ? & ? & _). by apply unsaved_same.
Qed.

Lemma get_layer_unsaved path m : preserves unsaved (get_layer path m).
Proof. intros w w' r H. apply get_layer_spec in H as [-> _]. reflexivity. Qed.

Lemma in_features_of_unsaved ly : preserves unsaved (in_features_of ly).
Proof. intros w w' r H. apply in_features_of_spec in H as [-> _]. reflexivity. Qed.

Lemma nn_Linear_unsaved i o : preserves unsaved (nn_Linear i o).
Proof.
  intros w w' r H. apply nn_Linear_Ok in H as (? & ? & _ & (Hf & Hl & _)).
  by apply (unsaved_event _ _ (EvLinear i o)).
Qed.

Lemma optim_Adam_unsaved ps lr : preserves unsaved (optim_Adam ps lr).
Proof.
  apply preserves_bind; [apply _|by apply lib_pure_unsaved|].
  intros st. apply preserves_mret, _.
Qed.

Lemma to_device_unsaved {A} (x : A) : preserves unsaved (to_device x).
Proof.
  intros w w' r [(? & -> & _)|(? & -> & _)]%to_device_inv; [reflexivity|].
  by apply (unsaved_event _ _ EvTo).
Qed.

(** The steps the set-ups share. *)
Lemma head_unsaved {R} a (fz : Module → list loc) path (n : nat) (k : Module → M R) :
  (∀ m, preserves unsaved (k m)) →
  preserves unsaved
    (m ← models_pretrained a;
     freeze (fz m);;
     ly ← get_layer path m;
     i ← in_features_of ly;
     ly ← nn_Linear i n;
     k (set_layer path ly m)).
Proof.
  intros Hk.
  apply preserves_bind; [apply _|apply models_pretrained_unsaved|intros m].
  apply preserves_bind; [apply _|apply freeze_unsaved|intros _].
  apply preserves_bind; [apply _|apply get_layer_unsaved|intros ly].
  apply preserves_bind; [apply _|apply in_features_of_unsaved|intros i].
  apply preserves_bind; [apply _|apply nn_Linear_unsaved|intros ly'].
  apply Hk.
Qed.

Lemma setup_unsaved {R} (f : Module → Optimizer → R) a (fz : Module → list loc)
    path name (n : nat) lr :
  preserves unsaved
    (m ← models_pretrained a;
     freeze (fz m);;
     ly ← get_layer path m;
     i ← in_features_of ly;
     ly ← nn_Linear i n;
     let m := set_layer path ly m in
     o ← optim_Adam (parameters (child name m)) lr;
     mret (f m o)).
Proof.
  apply (head_unsaved a fz path n
           (λ m, o ← optim_Adam (parameters (child name m)) lr; mret (f m o))).
  intros m.
  apply preserves_bind; [apply _|apply optim_Adam_unsaved|].
  intros o. apply preserves_mret, _.
Qed.

Lemma resnet18_setup_unsaved cn : preserves unsaved (Combinados.resnet18_setup cn).
Proof.
  apply preserves_bind; [apply _|apply print_unsaved|intros _].
  apply (setup_unsaved (λ m o, (m, o, nn_CrossEntropyLoss))).
Qed.

Lemma resnet34_setup_unsaved cn : preserves unsaved (Combinados.resnet34_setup cn).
Proof.
  apply preserves_bind; [apply _|apply print_unsaved|intros _].
  apply (setup_unsaved (λ m o, (m, o))).
Qed.

Lemma vgg19_setup_unsaved cn : preserves unsaved (Combinados.vgg19_setup cn).
Proof.
  apply preserves_bind; [apply _|apply print_unsaved|intros _].
  apply (setup_unsaved (λ m o, (m, o))).
Qed.

Lemma entrenar_modelo_unsaved m tl vl o c E nombre :
  preserves unsaved (Combinados.entrenar_modelo m tl vl o c E nombre).
Proof.
  intros w w' r H. apply entrenar_modelo_all in H as [(Hf & Hl & _) _].
  split; [done|]. eapply logs_weaken; [apply training_event_not_saving|done].
Qed.

(** The cells of the comparison notebook before Paso 8. *)
Lemma paso3_unsaved : preserves unsaved Combinados.paso3.
Proof.
  apply preserves_bind; [apply _|by apply lib_call_unsaved|intros trn].
  apply preserves_bind; [apply _|by apply lib_call_unsaved|intros tst].
  apply preserves_bind; [apply _|apply print_unsaved|intros _]. apply preserves_mret, _.
Qed.

Lemma paso5_unsaved d : preserves unsaved (Combinados.paso5 d).
Proof.
  apply preserves_bind; [apply _|apply resnet18_setup_unsaved|intros [[m18 o18] c]].
  apply preserves_bind; [apply _|apply entrenar_modelo_unsaved|intros x18].
  apply preserves_bind; [apply _|apply resnet34_setup_unsaved|intros [m34 o34]].
  apply preserves_bind; [apply _|apply entrenar_modelo_unsaved|intros x34].
  apply preserves_bind; [apply _|apply vgg19_setup_unsaved|intros [mv ov]].
  apply preserves_bind; [apply _|apply entrenar_modelo_unsaved|intros xv].
  apply preserves_mret, _.
Qed.

Lemma paso6_unsaved p : preserves unsaved (Combinados.paso6 p).
Proof.
  apply preserves_bind; [apply _|by apply lib_pure_unsaved|intros p18].
  apply preserves_bind; [apply _|by apply lib_pure_unsaved|intros p34].
  apply preserves_bind; [apply _|by apply lib_pure_unsaved|intros pv].
  apply preserves_bind; [apply _|by apply plot_unsaved|intros _].
  apply preserves_bind; [apply _|by apply plot_unsaved|intros _].
  apply preserves_bind; [apply _|apply print_unsaved|intros _].
  apply preserves_bind; [apply _|apply print_unsaved|intros _].
  apply preserves_bind; [apply _|apply print_unsaved|intros _].
  apply print_unsaved.
Qed.

Lemma mostrar_confusion_unsaved cn yt yp modelo :
  preserves unsaved (Combinados.mostrar_confusion cn yt yp modelo).
Proof.
  apply preserves_bind; [apply _|by apply lib_pure_unsaved|intros cm].
  by apply plot_unsaved.
Qed.

Lemma paso7_unsaved d p : preserves unsaved (Combinados.paso7 d p).
Proof.
  apply preserves_bind; [apply _|apply mostrar_confusion_unsaved|intros _].
  apply preserves_bind; [apply _|apply mostrar_confusion_unsaved|intros _].
  apply mostrar_confusion_unsaved.
Qed.

(** The cells of the VGG19 notebook before Paso 7. *)
Lemma vgg_paso2_unsaved : preserves unsaved Vgg19.paso2.
Proof.
  apply preserves_bind; [apply _|by apply lib_call_unsaved|intros full].
  apply preserves_bind; [apply _| |intros _].
  { intros w w' r [= <- _]. by apply unsaved_same. }
  apply preserves_bind; [apply _|by apply lib_call_unsaved|intros [trn val]].
  apply preserves_mret, _.
Qed.

Lemma vgg_paso3_unsaved cn : preserves unsaved (Vgg19.paso3 cn).
Proof. apply head_unsaved. intros m. apply to_device_unsaved. Qed.

Lemma vgg_paso4_unsaved m : preserves unsaved (Vgg19.paso4 m).
Proof.
  apply preserves_bind; [apply _|apply optim_Adam_unsaved|].
  intros o. apply preserves_mret, _.
Qed.

Lemma vgg_paso5_unsaved d m c o E : preserves unsaved (Vgg19.paso5 d m c o E).
Proof.
  intros w w' r H. apply paso5_all in H as [(Hf & Hl & _) _].
  split; [done|]. eapply logs_weaken; [apply training_event_not_saving|done].
Qed.

Lemma vgg_paso6_unsaved g : preserves unsaved (Vgg19.paso6 g).
Proof. by apply plot_unsaved. Qed.

(** X14: [torch.save] is not called before the cell that saves the models.
    Whatever the outcome of the cells from Paso 3 to Paso 8 of the comparison
    notebook, either no state dict was saved, or the data were loaded, the
    three models trained, the curves and the confusion matrices shown, all
    without an exception and without saving, and Paso 8 was started; the same
    for the cells from Paso 2 to Paso 7 of the VGG19 notebook.  So no
    checkpoint is saved during the training, and a run in which an earlier
    cell raises saves no model. *)
Theorem no_save_before_the_saving_cell :
  (∀ w w' r,
     Combinados.notebook w = (w', r) →
     (saved_paths (new_log w w') = [] ∧ files w' = files w) ∨
     ∃ d p w3 w5 w6 w7 r8,
       Combinados.paso3 w = (w3, Ok d) ∧ Combinados.paso5 d w3 = (w5, Ok p) ∧
       Combinados.paso6 p w5 = (w6, Ok tt) ∧ Combinados.paso7 d p w6 = (w7, Ok tt) ∧
       saved_paths (new_log w w7) = [] ∧ files w7 = files w ∧
       Combinados.paso8 p w7 = (w', r8)) ∧
  (∀ w w' r,
     Vgg19.notebook w = (w', r) →
     (saved_paths (new_log w w') = [] ∧ files w' = files w) ∨
     ∃ d m c o g w2 w3 w4 w5 w6 r7,
       Vgg19.paso2 w = (w2, Ok d) ∧ Vgg19.paso3 (Vgg19.class_names d) w2 = (w3, Ok m) ∧
       Vgg19.paso4 m w3 = (w4, Ok (c, o)) ∧
       Vgg19.paso5 d m c o Vgg19.epochs w4 = (w5, Ok g) ∧
       Vgg19.paso6 g w5 = (w6, Ok tt) ∧
       saved_paths (new_log w w6) = [] ∧ files w6 = files w ∧
       Vgg19.paso7 g w6 = (w', r7)).
Proof.
  assert (∀ w w', unsaved w w' → saved_paths (new_log w w') = [] ∧ files w' = files w)
    as Hinv.
  { intros w w' [? ?]%unsaved_inv. done. }
  split.
  - intros w w' r H. unfold Combinados.notebook in H.
    apply bind_inv in H as [(e & H & _)|(w3 & d & H3 & H)].
    { left. by apply Hinv, (paso3_unsaved _ _ _ H). }
    pose proof (paso3_unsaved _ _ _ H3) as F3.
    apply bind_inv in H as [(e & H & _)|(w5 & p & H5 & H)].
    { left. apply Hinv. etrans; [done|]. by apply (paso5_unsaved _ _ _ _ H). }
    assert (unsaved w w5) as F5 by (etrans; [done|]; by apply (paso5_unsaved _ _ _ _ H5)).
    apply bind_inv in H as [(e & H & _)|(w6 & [] & H6 & H)].
    { left. apply Hinv. etrans; [done|]. by apply (paso6_unsaved _ _ _ _ H). }
    assert (unsaved w w6) as F6 by (etrans; [done|]; by apply (paso6_unsaved _ _ _ _ H6)).
    apply bind_inv in H as [(e & H & _)|(w7 & [] & H7 & H)].
    { left. apply Hinv. etrans; [done|]. by apply (paso7_unsaved _ _ _ _ _ H). }
    assert (unsaved w w7) as F7 by (etrans; [done|]; by apply (paso7_unsaved _ _ _ _ _ H7)).
    right. destruct (Hinv _ _ F7) as [S7 E7].
    apply bind_inv in H as [(e & H & _)|(w8 & [] & H8 & H)].
    + by exists d, p, w3, w5, w6, w7, (Raise e).
    + injection H as <- _. by exists d, p, w3, w5, w6, w7, (Ok tt).
  - intros w w' r H. unfold Vgg19.notebook in H.
    apply bind_inv in H as [(e & H & _)|(w2 & d & H2 & H)].
    { left. by apply Hinv, (vgg_paso2_unsaved _ _ _ H). }
    pose proof (vgg_paso2_unsaved _ _ _ H2) as F2.
    apply bind_inv in H as [(e & H & _)|(w3 & m & H3 & H)].
    { left. apply Hinv. etrans; [done|]. by apply (vgg_paso3_unsaved _ _ _ _ H). }
    assert (unsaved w w3) as F3 by (etrans; [done|]; by apply (vgg_paso3_unsaved _ _ _ _ H3)).
    apply bind_inv in H as [(e & H & _)|(w4 & [c o] & H4 & H)].
    { left. apply Hinv. etrans; [done|]. by apply (vgg_paso4_unsaved _ _ _ _ H). }
    assert (unsaved w w4) as F4 by (etrans; [done|]; by apply (vgg_paso4_unsaved _ _ _ _ H4)).
    apply bind_inv in H as [(e & H & _)|(w5 & g & H5 & H)].
    { left. apply Hinv. etrans; [done|]. by apply (vgg_paso5_unsaved _ _ _ _ _ _ _ _ H). }
    assert (unsaved w w5) as F5
      by (etrans; [done|]; by apply (vgg_paso5_unsaved _ _ _ _ _ _ _ _ H5)).
    apply bind_inv in H as [(e & H & _)|(w6 & [] & H6 & H)].
    { left. apply Hinv. etrans; [done|]. by apply (vgg_paso6_unsaved _ _ _ _ H). }
    assert (unsaved w w6) as F6 by (etrans; [done|]; by apply (vgg_paso6_unsaved _ _ _ _ H6)).
    right. destruct (Hinv _ _ F6) as [S6 E6].
    apply bind_inv in H as [(e & H & _)|(w7 & [] & H7 & H)].
    + by exists d, m, c, o, g, w2, w3, w4, w5, w6, (Raise e).
    + injection H as <- _. by exists d, m, c, o, g, w2, w3, w4, w5, w6, (Ok tt).
Qed.

(** X15: in a run of the VGG19 notebook that reaches its end, the plot of
    Paso 6 is the only line plot; it has two series, the training losses and
    the validation losses, in this order, each with ten points, one per
    epoch. *)
Theorem vgg_loss_curves w w' d g :
  Vgg19.notebook w = (w', Ok (d, g)) →
  line_plots (new_log w w') =
    [("Curva de Pérdida",
      [("Entrenamiento", Vgg19.g_train_losses g); ("Validación", Vgg19.g_val_losses g)])] ∧
  length (Vgg19.g_train_losses g) = 10 ∧ length (Vgg19.g_val_losses g) = 10.
Proof.
  intros H.
  apply vgg_notebook_log in H
    as (w2 & w3 & s & t & m & c & o & i & lw & lb & sizes & _ & _ & _ & H5 & _ & _ & _ &
        F & _ & Hl).
  assert (∀ new, Forall training_event new → line_plots new = []) as Hno.
  { induction 1 as [|ev new Hev _ IH]; [done|]. by destruct ev. }
  unfold Vgg19.paso5 in H5.
  apply vgg_epochs_rows in H5 as (rows & new & _ & Hn & Ht & Hv & _).
  rewrite range_length in Hn. simpl in Ht, Hv. split_and!.
  - rewrite Hl, !line_plots_app, (Hno _ F). done.
  - by rewrite Ht, length_fmap, Hn.
  - by rewrite Hv, length_fmap, Hn.
Qed.

End Files.

(** * The other properties on the small instance *)

Section MoreWitnesses.
Import Toy.

Lemma run_returns {A} (r : World * result A) : is_Ok r.2 = true → ∃ a, r = (r.1, Ok a).
Proof. destruct r as [w [a|e]]; [by exists a|done]. Qed.

Lemma trained_model_in_eval_mode_witness :
  ∃ w' x,
    Combinados.entrenar_modelo m18 loader loader o18 nn_CrossEntropyLoss 2 "ResNet18" s18
      = (w', Ok x) ∧
    m_training (Combinados.e_model x) = false.
Proof.
  assert (is_Ok (Combinados.entrenar_modelo m18 loader loader o18 nn_CrossEntropyLoss 2
                   "ResNet18" s18).2 = true) as Hok by (vm_compute; reflexivity).
  pose proof (run_Ok _ x0 Hok) as H.
  destruct (trained_model_in_eval_mode (TH := toy_torch)) as (H1 & _).
  eexists _, _. split; [exact H|]. exact (proj1 (H1 _ _ _ _ _ _ _ _ _ _ H)).
Defined.

Lemma validation_changes_nothing_witness :
  ∃ w' r,
    Combinados.val_pass loader nn_CrossEntropyLoss m18 s18 = (w', r) ∧
    heap w' = heap s18 ∧ files w' = files s18 ∧ grad_enabled w' = grad_enabled s18.
Proof.
  pose proof (run_parts (Combinados.val_pass loader nn_CrossEntropyLoss m18 s18)) as H.
  destruct (validation_changes_nothing (TH := toy_torch)) as (H1 & _).
  eexists _, _. split; [exact H|]. exact (H1 _ _ _ _ _ _ H).
Defined.

Lemma training_keeps_requires_grad_witness :
  ∃ w' r,
    Combinados.entrenar_modelo m18 loader loader o18 nn_CrossEntropyLoss 2 "ResNet18" s18
      = (w', r) ∧
    ∀ l, requires_grad_at (heap w') l = requires_grad_at (heap s18) l.
Proof.
  pose proof (run_parts (Combinados.entrenar_modelo m18 loader loader o18
                           nn_CrossEntropyLoss 2 "ResNet18" s18)) as H.
  destruct (training_keeps_requires_grad (TH := toy_torch)) as (H1 & _).
  eexists _, _. split; [exact H|]. intros l. exact (proj2 (H1 _ _ _ _ _ _ _ _ _ _ H l)).
Defined.

Lemma training_exceptions_witness :
  ∃ w' e,
    Combinados.entrenar_modelo m18 empty_loader loader o18 nn_CrossEntropyLoss 0
      "ResNet18" s18 = (w', Raise e) ∧
    e = UnboundLocalError "y_true" ∧
    ((∃ le, e = LibraryError le) ∨
     (e = ZeroDivisionError ∧ (1 ≤ 0)%Z ∧ (dl_len empty_loader = 0 ∨ dl_len loader = 0)) ∨
     (e = UnboundLocalError "y_true" ∧ (0 ≤ 0)%Z)).
Proof.
  pose proof (run_eq (Combinados.entrenar_modelo m18 empty_loader loader o18
                        nn_CrossEntropyLoss 0 "ResNet18" s18) _
                (Raise (UnboundLocalError "y_true")) eq_refl eq_refl) as H.
  destruct (training_exceptions (TH := toy_torch)) as (H1 & _).
  eexists _, _. split; [exact H|]. split; [reflexivity|].
  exact (H1 _ _ _ _ _ _ _ _ _ _ H).
Defined.

Lemma val_accuracies_per_epoch_witness :
  ∃ w' x,
    Combinados.entrenar_modelo m18 loader loader o18 nn_CrossEntropyLoss 2 "ResNet18" s18
      = (w', Ok x) ∧
    ∃ els : list (list event * list event),
      length els = Z.to_nat 2 ∧
      accuracy_calls (new_log s18 w') =
        zip_with (λ tv a, (seen_labels tv.2, seen_preds tv.2, a))
          els (Combinados.e_val_accuracies x).
Proof.
  assert (is_Ok (Combinados.entrenar_modelo m18 loader loader o18 nn_CrossEntropyLoss 2
                   "ResNet18" s18).2 = true) as Hok by (vm_compute; reflexivity).
  pose proof (run_Ok _ x0 Hok) as H.
  destruct (val_accuracies_per_epoch (TH := toy_torch) _ _ _ _ _ _ _ _ _ _
              (toy_dl_wf ds 8%Z true) (toy_dl_wf ds 8%Z true) H)
    as (els & Hn & _ & _ & _ & Hc & _).
  eexists _, _. split; [exact H|]. exists els. split; [exact Hn|exact Hc].
Defined.

Lemma progress_lines_witness :
  ∃ w' x,
    Combinados.entrenar_modelo m18 loader loader o18 nn_CrossEntropyLoss 2 "ResNet18" s18
      = (w', Ok x) ∧
    length (prints (new_log s18 w')) = Z.to_nat 2.
Proof.
  assert (is_Ok (Combinados.entrenar_modelo m18 loader loader o18 nn_CrossEntropyLoss 2
                   "ResNet18" s18).2 = true) as Hok by (vm_compute; reflexivity).
  pose proof (run_Ok _ x0 Hok) as H.
  eexists _, _. split; [exact H|].
  exact (proj1 (progress_lines (TH := toy_torch) _ _ _ _ _ _ _ _ _ _ H)).
Defined.

Lemma vgg_progress_lines_witness :
  ∃ w' g,
    Vgg19.paso5 datos mvgg nn_CrossEntropyLoss ovgg 2 w4 = (w', Ok g) ∧
    length (prints (new_log w4 w')) = Z.to_nat 2.
Proof.
  assert (is_Ok (Vgg19.paso5 datos mvgg nn_CrossEntropyLoss ovgg 2 w4).2 = true) as Hok
    by (vm_compute; reflexivity).
  destruct (run_returns _ Hok) as [g H].
  eexists _, g. split; [exact H|].
  exact (proj1 (vgg_progress_lines (TH := toy_torch) _ _ _ _ _ _ _ _ H)).
Defined.

Lemma paso3_outcomes_witness :
  ∃ w' r, Combinados.paso3 w0 = (w', r) ∧ heap w' = heap w0 ∧ files w' = files w0.
Proof.
  pose proof (run_parts (Combinados.paso3 w0)) as H.
  destruct (paso3_outcomes (TH := toy_torch) _ _ _ H) as (Hh & Hf & _).
  eexists _, _. split; [exact H|]. split; [exact Hh|exact Hf].
Defined.

Lemma vgg_paso2_outcomes_witness :
  ∃ w' r, Vgg19.paso2 w0 = (w', r) ∧ heap w' = heap w0 ∧ files w' = files w0.
Proof.
  pose proof (run_parts (Vgg19.paso2 w0)) as H.
  destruct (vgg_paso2_outcomes (TH := toy_torch) _ _ _ H) as (Hh & Hf & _).
  eexists _, _. split; [exact H|]. split; [exact Hh|exact Hf].
Defined.

Lemma paso6_outcomes_witness :
  ∃ w5 p w',
    Combinados.paso5 d0 w0 = (w5, Ok p) ∧
    length (Combinados.e_y_true (Combinados.r18 p)) = 3 ∧
    Combinados.paso6 p w5 = (w', Ok tt) ∧
    heap w' = heap w5 ∧
    ∃ p18 p34 pvgg,
      line_plots (new_log w5 w') =
        [("Validation Loss",
          [("ResNet18", Combinados.e_val_losses (Combinados.r18 p));
           ("ResNet34", Combinados.e_val_losses (Combinados.r34 p));
           ("VGG19", Combinados.e_val_losses (Combinados.vgg p))]);
         ("Validation Accuracy",
          [("ResNet18", Combinados.e_val_accuracies (Combinados.r18 p));
           ("ResNet34", Combinados.e_val_accuracies (Combinados.r34 p));
           ("VGG19", Combinados.e_val_accuracies (Combinados.vgg p))])] ∧
      prints (new_log w5 w') =
        [TextLine "📌 Precision por modelo (macro avg):";
         PrecisionLine "ResNet18" p18; PrecisionLine "ResNet34" p34;
         PrecisionLine "VGG19" pvgg].
Proof.
  assert (is_Ok (Combinados.paso5 d0 w0).2 = true) as Hok5 by (vm_compute; reflexivity).
  pose proof (run_Ok _ p0 Hok5) as H5.
  assert (length (Combinados.e_y_true
                    (Combinados.r18 (value p0 (Combinados.paso5 d0 w0).2))) = 3) as Hlen
    by (vm_compute; reflexivity).
  assert (is_Ok (Combinados.paso6 (value p0 (Combinados.paso5 d0 w0).2)
                   (Combinados.paso5 d0 w0).1).2 = true) as Hok6
    by (vm_compute; reflexivity).
  destruct (run_returns _ Hok6) as [[] H6].
  pose proof (paso6_outcomes (TH := toy_torch) _ _ _ _ H6) as Hm.
  cbv beta iota zeta in Hm.
  destruct Hm as (Hh & _ & p18 & p34 & pvgg & _ & _ & _ & Hp & Hl).
  eexists _, _, _. split; [exact H5|]. split; [exact Hlen|]. split; [exact H6|].
  split; [exact Hh|]. exists p18, p34, pvgg. split; [exact Hp|exact Hl].
Defined.

Lemma comparison_plots_witness :
  ∃ w' d p,
    Combinados.notebook w0 = (w', Ok (d, p)) ∧
    ∃ l18 l34 lvgg a18 a34 avgg,
      line_plots (new_log w0 w') =
        [("Validation Loss", [("ResNet18", l18); ("ResNet34", l34); ("VGG19", lvgg)]);
         ("Validation Accuracy",
          [("ResNet18", a18); ("ResNet34", a34); ("VGG19", avgg)])] ∧
      Forall (λ series : list float, length series = 10)
        [l18; l34; lvgg; a18; a34; avgg].
Proof.
  assert (is_Ok (Combinados.notebook w0).2 = true) as Hok by (vm_compute; reflexivity).
  pose proof (run_Ok_pair _ (d0, p0) Hok) as H.
  destruct (comparison_plots (TH := toy_torch) _ _ _ _ H)
    as (l18 & l34 & lvgg & a18 & a34 & avgg & Hp & HF & _).
  eexists _, _, _. split; [exact H|].
  exists l18, l34, lvgg, a18, a34, avgg. split; [exact Hp|exact HF].
Defined.

Lemma setup_replaces_head_witness :
  Combinados.resnet18_setup cn w0 = (s18, Ok (m18, o18, nn_CrossEntropyLoss)) ∧
  ∃ wa wb m, models_pretrained ResNet18 wa = (wb, Ok m) ∧
             new_head ResNet18 "fc" (length cn) m m18.
Proof.
  assert (Combinados.resnet18_setup cn w0 = (s18, Ok (m18, o18, nn_CrossEntropyLoss)))
    as Hs.
  { unfold s18. refine (run_eq _ _ _ eq_refl _). vm_compute. reflexivity. }
  destruct (setup_replaces_head (TH := toy_torch)) as (H1 & _).
  split; [exact Hs|]. exact (H1 _ _ _ _ _ _ Hs).
Defined.

Lemma setup_exceptions_witness :
  ∃ w' e,
    Combinados.resnet18_setup (TH := bare_torch) cn w0 = (w', Raise e) ∧
    e = AttributeError "fc" ∧
    ((∃ le, e = LibraryError le) ∨
     ((∃ msg, e = AttributeError msg) ∧
      ∃ wa wb m, models_pretrained (TH := bare_torch) ResNet18 wa = (wb, Ok m) ∧
                 no_linear_head "fc" m)).
Proof.
  pose proof (run_eq (Combinados.resnet18_setup (TH := bare_torch) cn w0) _
                (Raise (AttributeError "fc")) eq_refl eq_refl) as H.
  destruct (setup_exceptions (TH := bare_torch)) as (H1 & _).
  eexists _, _. split; [exact H|]. split; [reflexivity|]. exact (H1 _ _ _ _ H).
Defined.

Lemma no_save_before_the_saving_cell_witness :
  ∃ w' r,
    Combinados.notebook w0 = (w', r) ∧
    ((saved_paths (new_log w0 w') = [] ∧ files w' = files w0) ∨
     ∃ d p w3 w5 w6 w7 r8,
       Combinados.paso3 w0 = (w3, Ok d) ∧ Combinados.paso5 d w3 = (w5, Ok p) ∧
       Combinados.paso6 p w5 = (w6, Ok tt) ∧ Combinados.paso7 d p w6 = (w7, Ok tt) ∧
       saved_paths (new_log w0 w7) = [] ∧ files w7 = files w0 ∧
       Combinados.paso8 p w7 = (w', r8)).
Proof.
  pose proof (run_parts (Combinados.notebook w0)) as H.
  destruct (no_save_before_the_saving_cell (TH := toy_torch)) as (H1 & _).
  eexists _, _. split; [exact H|]. exact (H1 _ _ _ H).
Defined.

Lemma vgg_loss_curves_witness :
  ∃ w' d g,
    Vgg19.notebook w0 = (w', Ok (d, g)) ∧
    length (Vgg19.g_train_losses g) = 10 ∧ length (Vgg19.g_val_losses g) = 10.
Proof.
  assert (is_Ok (Vgg19.notebook w0).2 = true) as Hok by (vm_compute; reflexivity).
  destruct (run_returns _ Hok) as [[d g] H].
  destruct (vgg_loss_curves (TH := toy_torch) _ _ _ _ H) as (_ & Ht & Hv).
  eexists _, d, g. split; [exact H|]. split; [exact Ht|exact Hv].
Defined.

End MoreWitnesses.

